(* ===== verification/_CoqProject ===== *)
-Q . S2P
Prelude.v
Memory.v
CString.v
Wire.v
EspUart.v
EspDump.v
EspFraming.v
EspReceive.v
EspUart2wifi.v
EspQueue.v
EspWifi2uart.v
EspMain.v
EspApp.v
HostState.v
HostDump.v
HostReceive.v
HostRecover.v
HostNetifInfo.v
HostNetdev.v
HostWork.v
HostAttr.v
HostShape.v
HostSystem.v
HostLifecycle.v
HostRaces.v
HostModule.v
Link.v
LinkStart.v
