(* ===== verification/Prelude.v ===== *)
(** * esp8266_hosted_linux

    A Wi-Fi adapter for Linux: an ESP8266 on a serial line with flow control.  The
    host's driver (src/uart_wifi_driver) is a network device whose packets go
    over a tty; the module's firmware (src/uart_wifi_passthrough/main) passes
    them between its UART and lwIP's Wi-Fi interface.  This library models both
    halves as executable functions and proves what each does, alone and
    together.

    ** The program

    Everything on the line is a frame: a 16-bit little-endian length, the payload,
    one terminator byte ([SPLIT_DATA] for IP packets, [SPLIT_CMD] for commands).
    - Start-up.  [uart_wifi_open] schedules the work item of netdev.c, which resets
      the module and writes ssid and password as command frames; they were put in
      that form by sysfs or the device tree (driver main.c).  The firmware
      ([wifi_init_sta]) reads them with [recv_ssid] and [recv_passwd] and connects.
    - Handshake.  With an address, [start_hock] sends address, netmask and gateway in
      one command frame and waits with [recv_netif_info] for the driver to echo it;
      the driver's [ttyio_netif_info] echoes and publishes it.  Pin 5 then tells the
      host that the link is up (the interrupt runs the work item again).
    - Traffic.  Uplink: [uart_wifi_xmit] -> line -> [uart2wifi] -> Wi-Fi.  Downlink:
      lwIP's hook [uart_wifi_recv] -> queue -> [wifi2uart] -> line ->
      [ttyio_receive_data] -> network stack.
    - A receiver that finds a bad length or terminator searches for the next
      terminator (STATUS_SPLIT) and goes on behind it.

    ** The files

    Prelude     outcomes of C code ([Ret], [Undef] for undefined behaviour, [NoFuel]),
                the loop combinator [run] for code that jumps back to a label, with
                its measure rule; machine integers; list search; hint
                databases and tactics.
    Memory      arrays with bounds-checked [load], [store], memcpy, memmove.
    CString     strlen, strncpy, snprintf of the formats that occur.
    Wire        the frame format and its reference parser: [next_frame] and [deframe]
                say which frames a byte sequence denotes, resynchronisation included,
                for any [FrameFormat] (a class with laws).
    EspUart     FIFO access (uart2wifi.c, wifi2uart.c): [uart0_recv_data],
                [uart0_fill_txfifo], [send_to_uart0_sync].
    EspDump     the firmware's hex dumps.
    EspFraming  the loop the firmware's four receivers share, proved once against
                [next_frame]: in bounds, terminating, lossless.
    EspReceive  [recv_ssid], [recv_passwd], [recv_netif_info] (uart2wifi.c), translated one
                by one and shown to be instances of that loop.
    EspUart2wifi  [uart2wifi], likewise, with the pbuf it keeps for a retry.
    EspQueue    [ThreadSafeQueue] (wifi2uart.c) as linked cells on an explicit heap.
    EspWifi2uart  [uart_wifi_recv] and [wifi2uart] and their interleavings.
    EspMain     firmware main.c: credentials, handshake, events, main loop.
    EspApp      the firmware from power-on: [app_main], the event task and the main
                loop as one machine ([app_step]).
    HostState   [uart_wifi_struct], sk_buff, constants (driver common.h); the class
                [Kernel] of what the receive path takes from Linux.
    HostDump    the driver's hex dumps (dump.c).
    HostReceive [ttyio_receive_data] (uart.c).
    HostRecover how it finds the frames again after it has lost them, and how the
                search for them can crash it.
    HostNetifInfo  [ttyio_netif_info], [transform_netif_info], [ttyio_receive_buf2].
    HostNetdev  netdev.c and [ttyio_init]: xmit, wakeup, statistics, work item, open, stop;
                the class [Tty] of what a tty promises, with a circular buffer as
                instance.  A turn of the work item is put together from the pieces
                [work_top], [work_release], [work_send] and [work_wait].
    HostWork    the same pieces cut at the sleeps ([work_micro]), and [uart_wifi_stop] at
                its wait; thirteen steps are a turn of HostNetdev's [work_round].
    HostAttr    driver main.c: sysfs attributes, probe, remove.
    HostShape   the types and bounds of the driver's state, kept by every operation.
    HostSystem  the driver as a transition system: [sys_exec] is what an event does -
                open, stop, work item, interrupt, xmit, wakeup, statistics, reception,
                sysfs reads and writes, removal; [reachable] the states after a probe
                that reported success; its invariant.
    HostLifecycle  what holds over many events: carrier, closing, link-up, failed opens.
    HostRaces   how correct parts disturb each other: what a reset leaves behind in the
                receiver, and what runs on while the interface is closed or reset.
    HostModule  loading and unloading; the unused [uart_wifi_receive].
    Link        the two halves joined: what one side is proved to write is fed to what
                the other side is proved to read.
    LinkStart   the driver's transition system and the firmware's application side by
                side, from a cold start to the main loop.

    ** How the code is modelled

    Globals and structs are records that functions take and return; arrays are
    lists of bytes accessed through Memory.v, so that every access outside an
    object is [Undef] and a theorem [total f Q] excludes it.  Integers have their C
    widths (u8, u16, s16, u32, s32 of Prelude.v) wherever they can wrap.  A
    label with [goto] is one step function under [run]; the two gotos of a
    function (to the label, to the exit) are [goto] and [leave].
    - The UART is what the code sees of it: [rx_line] is the list of FIFO contents its
      successive polls find, [tx_line] the list of values [txfifo_cnt] has.  A receiver
      that spins for more input ends in [Polling] (or [Spinning], [Blocked]) when that
      list ends; theorems quantify over all lists.
    - The tty layer hands over chunks; [receive_chunks] and [tty_calls] offer the bytes a
      call did not take again with the next chunk, as flush_to_ldisc does.
    - Answers of Linux, the SDK and the RTOS (allocation, registration, output, mutex)
      are arguments or class operations; where a theorem needs them to behave, a
      hypothesis or a law says how.
    - Calls whose order matters outside (tty writes, gpio, sleeps) are recorded in
      [actions].
    - Tasks of the firmware interleave as whole operations ([tx_event], [main_event],
      [app_event]); the operations that share data hold a mutex, or one side only sets
      a flag.
    - The driver's entry points interleave as the events of [sys_exec]; the work item,
      which sleeps, is an event per piece between two sleeps, and [uart_wifi_stop] two
      events around its wait.  An event's guard is what the kernel promises about when
      it makes the call ([ndo_open] and [ndo_stop] alternate, nothing is transmitted
      without carrier, [tty_kopen] refuses an open tty, ...).  Which ttys are open is
      computed from the recorded calls ([tty_acts]): a tty stays open until the code
      makes a [tty_kclose], also when the driver has forgotten it.  What the code does
      with freed or unregistered objects is [Undef].
      The one place where an interleaving inside an event matters is modelled as such
      ([uart_wifi_xmit_interrupted]).
    - [char] is unsigned, as on both targets (xtensa, ARM).  16-bit loads through cast
      pointers are little-endian.

    ** What is proved

    - End to end (Link): packets offered to the driver reach the Wi-Fi interface, and
      packets accepted by the firmware's queue reach the host's stack, exactly, in order,
      each once, for all schedules and all ways of cutting the line into pieces;
      credentials written to sysfs are what the firmware configures; the handshake
      completes; and from any successful open of the driver the first turn of the work
      item resets and configures the module, and a firmware powered on with what it
      writes enters its loop ([cold_start]).  On the driver's side such statements are
      about chunks of at most [DUMP_MAX] = 819 bytes where a log dump is in the way.
    - The driver as a whole (HostSystem, HostLifecycle): in every reachable state the
      data is well-formed and every call other than reception is defined, but for the
      uses of freed or unregistered objects that [too_late] lists; the carrier means a
      module that was reset and configured since the open, whatever happened in between;
      closing waits for at most four steps; from every state with the interface up the
      link can come up.
    - The firmware as a whole (EspApp): from power-on through credentials, handshake
      and loop, exactly the packets the line denotes, and the frames of those accepted,
      up to what the transmitter holds, which further turns send.
    - Receivers: refinement of the reference parser for arbitrary input (firmware),
      delivery, losslessness under memory pressure, and safety for arbitrary bytes
      (driver); resynchronisation.  Cutting a line into polls does not matter: [uart2wifi]
      hands over what the reference parser finds in the whole.
    - Queue: refinement of a bounded FIFO under all failure patterns, no leak, no
      double free, no wrap-around.
    - Transmitters: the line carries exactly the frames of the accepted packets, fits
      the room promised, drains, and resumes after back-pressure.
    - Control: work item, open, probe, sysfs, main loop, loss of the link.
    - Defects, as theorems about the same definitions: the driver's resynchronisation
      can crash it or swallow packets, [ttyio_netif_info] can loop forever, the echo is too
      long, a wakeup can be lost, a password bound is too large, a dump overruns its
      buffer, a failed probe reports success, a failed open loses its tty, a reset leaves
      the carrier on and half a frame in the skb (which crashes the next session), an
      announcement in two chunks leaves the receive state in the middle of a frame,
      closing can leave the module running, credentials stored meanwhile are sent
      torn, and others listed beside their theorems.

    ** Fuel

    Every looping function computes enough fuel for itself from a measure:
    [framing_fuel] (bytes received and still to come, polls, state rank), [rx_fuel] (bytes of
    the chunk and of the frame), the number of polls for [send_to_uart0_sync], the heap's
    size for [queue_clear].  [total] theorems exclude [NoFuel], so these are enough.  Only
    [ttyio_netif_info] takes its fuel as an argument, because it may diverge
    ([ttyio_netif_info_livelock], [ttyio_netif_info_noise_livelock]); [ni_fuel] is enough for sessions of announced form.

    ** What is not modelled

    Log output (the driver's hex dumps are, because they can write out of bounds);
    SDK and kernel calls that only configure hardware or register callbacks
    (gpio_config, uart_param_config, nvs, Wi-Fi configuration); lwip.patch, which edits
    third-party code; preemption inside an event of [sys_exec] (except the one named
    above) and inside a handler of the SDK's events.

    ** Left for extensions

    Driver and firmware as one transition system with the line between them, for
    traffic in both directions during resets; re-announcement after a link loss seen
    by both sides; the driver's receive path under the line errors the firmware's is
    proved to survive, beyond the chunk-aligned case of HostRecover. *)
From stdpp Require Import prelude list.
From Stdlib Require Import ZArith Lia.

#[global] Open Scope Z_scope.

(** ** Notations *)

Declare Scope c_scope.
Delimit Scope c_scope with c.
#[global] Open Scope c_scope.

(** Lengths and positions are C integers (Z); lists use nat positions. *)
Abbreviation zlen l := (Z.of_nat (length l)) (only parsing).
Abbreviation ztake n l := (take (Z.to_nat n) l) (only parsing).
Abbreviation zdrop n l := (drop (Z.to_nat n) l) (only parsing).

(** ** Outcomes of C code *)

(** [Ret a]: the code finished with [a].  [Undef]: it did something C leaves
    undefined (an access outside an object, a negative copy length, a null
    dereference).  [NoFuel]: the step budget of a loop ran out. *)
Inductive outcome (A : Type) : Type :=
  | Ret (a : A)
  | Undef
  | NoFuel.
Arguments Ret {A} a.
Arguments Undef {A}.
Arguments NoFuel {A}.

#[export] Instance outcome_ret : MRet outcome := fun A a => Ret a.
#[export] Instance outcome_bind : MBind outcome := fun A B f o =>
  match o with Ret a => f a | Undef => Undef | NoFuel => NoFuel end.

(** A memory access is [None] when it is out of bounds: undefined behaviour. *)
Definition access {A} (o : option A) : outcome A :=
  match o with Some a => Ret a | None => Undef end.

Notation "'let!' x ':=' m 'in' k" := (mbind (M := outcome) (fun x => k) m)
  (at level 10, x name, m at level 100, k at level 200) : c_scope.
Notation "'let!' ' x ':=' m 'in' k" := (mbind (M := outcome) (fun x => k) m)
  (at level 10, x strict pattern, m at level 100, k at level 200) : c_scope.
Notation "'let?' x ':=' m 'in' k" := (mbind (M := outcome) (fun x => k) (access m))
  (at level 10, x name, m at level 100, k at level 200) : c_scope.

(** ** Loops written with [goto restart]

    One pass from the label to the next [goto] or [return] is a step; [inl]
    is a jump back to the label, [inr] leaves the loop. *)
Definition goto {S R} (s : S) : outcome (S + R) := Ret (inl s).
Definition leave {S R} (r : R) : outcome (S + R) := Ret (inr r).

Fixpoint run {S R} (step : S -> outcome (S + R)) (fuel : nat) (s : S) : outcome R :=
  match fuel with
  | O => NoFuel
  | Datatypes.S n =>
      let! r := step s in
      match r with
      | inl s' => run step n s'
      | inr v => Ret v
      end
  end.

(** ** Postconditions

    [post o U Q]: [o] does not run out of fuel, satisfies [Q] when it returns,
    and may be undefined only if [U]. *)
Definition post {A} (o : outcome A) (U : Prop) (Q : A -> Prop) : Prop :=
  match o with Ret a => Q a | Undef => U | NoFuel => False end.

(** Total correctness: the code returns, and what it returns satisfies [Q]. *)
Abbreviation total o Q := (post o False Q) (only parsing).

Section Post.
Context {A B : Type}.
Implicit Types (o : outcome A) (U : Prop).

Lemma post_bind o (f : A -> outcome B) U Q :
  post o U (fun a => post (f a) U Q) -> post (o ≫= f) U Q.
Proof. destruct o; simpl; auto. Qed.

Lemma post_mono o U (Q Q' : A -> Prop) :
  post o U Q -> (forall a, Q a -> Q' a) -> post o U Q'.
Proof. destruct o; simpl; auto. Qed.

Lemma post_and o U (Q Q' : A -> Prop) :
  post o U Q -> post o U Q' -> post o U (fun a => Q a /\ Q' a).
Proof. destruct o; simpl; auto. Qed.

Lemma total_inv o (Q : A -> Prop) : total o Q -> exists a, o = Ret a /\ Q a.
Proof. destruct o; simpl; [eauto | done..]. Qed.

Lemma post_total o U (Q : A -> Prop) : total o Q -> post o U Q.
Proof. by destruct o. Qed.

Lemma post_access (m : option A) U (Q : A -> Prop) a :
  m = Some a -> Q a -> post (access m) U Q.
Proof. by intros ->. Qed.

Lemma post_fuel o U (Q : A -> Prop) : post o U Q -> o <> NoFuel.
Proof. by destruct o. Qed.
End Post.

(** Partial correctness: if the code returns, what it returns satisfies [Q]. *)
Definition partial {A} (o : outcome A) (Q : A -> Prop) : Prop :=
  match o with Ret a => Q a | _ => True end.

Section Partial.
Context {A B : Type}.
Implicit Types (o : outcome A).

Lemma partial_bind o (f : A -> outcome B) (Q : B -> Prop) :
  partial o (fun a => partial (f a) Q) -> partial (o ≫= f) Q.
Proof. by destruct o. Qed.

Lemma partial_mono o (Q Q' : A -> Prop) : partial o Q -> (forall a, Q a -> Q' a) -> partial o Q'.
Proof. destruct o; simpl; auto. Qed.

Lemma partial_access (m : option A) (Q : A -> Prop) :
  (forall a, m = Some a -> Q a) -> partial (access m) Q.
Proof. destruct m; simpl; auto. Qed.

Lemma partial_ret o (Q : A -> Prop) a : partial o Q -> o = Ret a -> Q a.
Proof. by intros H ->. Qed.

Lemma partial_any o : partial o (fun _ => True).
Proof. by destruct o. Qed.

Lemma post_partial o U (Q : A -> Prop) : post o U Q -> partial o Q.
Proof. by destruct o. Qed.
End Partial.

Section Loops.
Context {S R : Type} (step : S -> outcome (S + R)).

(** The loop rule: an invariant and a decreasing measure. *)
Lemma run_post (I : S -> Prop) (m : S -> nat) (U : Prop) (Q : R -> Prop) :
  (forall s, I s ->
     post (step s) U (fun r =>
       match r with inl s' => I s' /\ (m s' < m s)%nat | inr v => Q v end)) ->
  forall fuel s, I s -> (m s < fuel)%nat -> post (run step fuel s) U Q.
Proof.
  intros Hstep. induction fuel as [|fuel IH]; intros s HI Hm; [lia|]. simpl.
  apply post_bind. eapply post_mono; [by apply Hstep|].
  intros [s'|v]; [intros [HI' Hlt]; apply IH; [done|lia] | done].
Qed.

(** The loop rule for partial correctness: an invariant is enough. *)
Lemma run_partial (I : S -> Prop) (Q : R -> Prop) :
  (forall s, I s -> partial (step s) (fun r => match r with inl s' => I s' | inr v => Q v end)) ->
  forall fuel s, I s -> partial (run step fuel s) Q.
Proof.
  intros Hstep fuel. induction fuel as [|n IH]; intros s Hs; [done|]. simpl.
  specialize (Hstep s Hs). destruct (step s) as [[s'|v]| |]; simpl in *; auto.
Qed.

(** A set of states closed under jumps is never left: the loop diverges. *)
Lemma run_diverges (X : S -> Prop) :
  (forall s, X s -> exists s', step s = goto s' /\ X s') ->
  forall fuel s, X s -> run step fuel s = NoFuel.
Proof.
  intros HX. induction fuel as [|fuel IH]; intros s Hs; [done|]. simpl.
  destruct (HX s Hs) as (s' & -> & Hs'). simpl. by apply IH.
Qed.

(** Once a loop has stopped, more fuel changes nothing. *)
Lemma run_fuel_mono fuel fuel' s :
  (fuel <= fuel')%nat -> run step fuel s <> NoFuel -> run step fuel' s = run step fuel s.
Proof.
  revert fuel' s. induction fuel as [|fuel IH]; intros [|fuel'] s Hle Hr; try done; [lia|].
  simpl in *. destruct (step s) as [[s'|v]| |]; simpl in *; try done. apply IH; [lia|done].
Qed.

(** A loop whose exits run a continuation is the loop followed by it. *)
Lemma run_bind {T} (k : R -> outcome T) (step' : S -> outcome (S + T)) :
  (forall s, step' s = (let! r := step s in
     match r with inl s' => goto s' | inr v => (let! t := k v in leave t) end)) ->
  forall fuel s, run step' fuel s = (let! v := run step fuel s in k v).
Proof.
  intros Heq. induction fuel as [|fuel IH]; intros s; [done|]. simpl. rewrite Heq.
  destruct (step s) as [[s'|v]| |]; simpl; try done. by destruct (k v).
Qed.
End Loops.

(** ** Fixed-width integers *)

Definition u8 (z : Z) : Z := z mod 2 ^ 8.
Definition u16 (z : Z) : Z := z mod 2 ^ 16.
Definition u32 (z : Z) : Z := z mod 2 ^ 32.
Definition s16 (z : Z) : Z := (z + 2 ^ 15) mod 2 ^ 16 - 2 ^ 15.
Definition s32 (z : Z) : Z := (z + 2 ^ 31) mod 2 ^ 32 - 2 ^ 31.

Definition is_byte (b : Z) : Prop := 0 <= b < 256.

Lemma u8_small z : 0 <= z < 256 -> u8 z = z.
Proof. intros. apply Z.mod_small. lia. Qed.
Lemma u16_small z : 0 <= z < 65536 -> u16 z = z.
Proof. intros. apply Z.mod_small. lia. Qed.
Lemma u32_small z : 0 <= z < 4294967296 -> u32 z = z.
Proof. intros. apply Z.mod_small. lia. Qed.
Lemma s16_small z : -32768 <= z < 32768 -> s16 z = z.
Proof. intros. unfold s16. rewrite Z.mod_small; lia. Qed.
Lemma s32_small z : -2147483648 <= z < 2147483648 -> s32 z = z.
Proof. intros. unfold s32. rewrite Z.mod_small; lia. Qed.
Lemma u8_range z : 0 <= u8 z < 256.
Proof. unfold u8. apply Z.mod_pos_bound. lia. Qed.
Lemma u16_range z : 0 <= u16 z < 65536.
Proof. unfold u16. apply Z.mod_pos_bound. lia. Qed.
Lemma s16_range z : -32768 <= s16 z < 32768.
Proof. unfold s16. pose proof (Z.mod_pos_bound (z + 2 ^ 15) (2 ^ 16)). lia. Qed.

(** ** Little-endian 16-bit words, as both machines store them *)

Definition put_u16 (n : Z) : list Z := [n mod 256; (n / 256) mod 256].
Definition get_u16 (lo hi : Z) : Z := lo + 256 * hi.
Definition get_s16 (lo hi : Z) : Z := s16 (get_u16 lo hi).

Lemma get_put_u16 n : 0 <= n < 65536 -> get_u16 (n mod 256) ((n / 256) mod 256) = n.
Proof. intros. unfold get_u16. Z.div_mod_to_equations. lia. Qed.

Lemma get_put_s16 n : 0 <= n < 32768 -> get_s16 (n mod 256) ((n / 256) mod 256) = n.
Proof. intros. unfold get_s16. rewrite get_put_u16 by lia. apply s16_small. lia. Qed.

(** ** Searching a byte: [for (i = 0; i < len;) if (buf[i++] == c) ...] *)

(** The number of bytes up to and including the first [c]. *)
Fixpoint split_index (c : Z) (l : list Z) : option Z :=
  match l with
  | [] => None
  | b :: l' => if b =? c then Some 1 else (fun i => i + 1) <$> split_index c l'
  end.

(** What follows the first [c]. *)
Fixpoint after_split (c : Z) (l : list Z) : option (list Z) :=
  match l with
  | [] => None
  | b :: l' => if b =? c then Some l' else after_split c l'
  end.

Section Search.
Context (c : Z).

Lemma split_index_after l :
  after_split c l = (fun i => zdrop i l) <$> split_index c l.
Proof.
  induction l as [|b l IH]; [done|]. simpl. destruct (b =? c); [done|].
  rewrite IH. destruct (split_index c l) as [i|] eqn:Hi; [|done]. simpl. f_equal.
  assert (0 < i) as Hpos.
  { clear -Hi. revert i Hi. induction l as [|b l IH]; intros i Hi; [done|]. simpl in Hi.
    destruct (b =? c); [by simplify_eq|].
    destruct (split_index c l) as [j|]; [|done]. simplify_eq/=.
    pose proof (IH j eq_refl). lia. }
  replace (Z.to_nat (i + 1)) with (S (Z.to_nat i)) by lia. done.
Qed.

Lemma split_index_bounds l i : split_index c l = Some i -> 1 <= i <= zlen l.
Proof.
  revert i. induction l as [|b l IH]; intros i Hi; [done|]. simpl in *.
  destruct (b =? c); simplify_eq; [lia|].
  destruct (split_index c l) as [j|]; [|done]. simplify_eq/=.
  pose proof (IH j eq_refl). lia.
Qed.

Lemma after_split_length l l' : after_split c l = Some l' -> (length l' < length l)%nat.
Proof.
  revert l'. induction l as [|b l IH]; intros l' Hl; [done|]. simpl in *.
  destruct (b =? c); simplify_eq; [lia|]. pose proof (IH _ Hl). lia.
Qed.

Lemma after_split_app l t :
  after_split c (l ++ t) =
    match after_split c l with Some l' => Some (l' ++ t) | None => after_split c t end.
Proof. induction l as [|b l IH]; [done|]. simpl. by destruct (b =? c). Qed.

Lemma after_split_none l : c ∉ l -> after_split c l = None.
Proof.
  induction l as [|b l IH]; [done|]. intros Hc. apply not_elem_of_cons in Hc as [Hb Hc].
  simpl. destruct (Z.eqb_spec b c); [congruence|]. by apply IH.
Qed.

Lemma split_index_absent l : c ∉ l -> split_index c l = None.
Proof.
  induction l as [|b l IH]; [done|]. intros [Hb Hl]%not_elem_of_cons. simpl.
  destruct (Z.eqb_spec b c); [congruence|]. by rewrite IH.
Qed.

Lemma split_index_found g t : c ∉ g -> split_index c (g ++ c :: t) = Some (zlen g + 1).
Proof.
  induction g as [|b g IH]; intros H; [simpl; by rewrite Z.eqb_refl|].
  apply not_elem_of_cons in H as [Hb Hg]. simpl app. cbn [split_index].
  destruct (Z.eqb_spec b c); [congruence|]. rewrite IH by done. simpl. f_equal. lia.
Qed.

Lemma split_index_None l : split_index c l = None -> after_split c l = None.
Proof. intros H. by rewrite split_index_after, H. Qed.
End Search.

(** ** Shared proof steps *)

Create HintDb c_arith.
#[export] Hint Resolve u8_small u16_small u32_small s16_small s32_small get_put_u16 get_put_s16 : c_arith.

(** Decide the boolean tests of the C conditions. *)
Ltac bool_cases :=
  repeat match goal with
  | H : (_ <? _) = true |- _ => apply Z.ltb_lt in H
  | H : (_ <? _) = false |- _ => apply Z.ltb_ge in H
  | H : (_ <=? _) = true |- _ => apply Z.leb_le in H
  | H : (_ <=? _) = false |- _ => apply Z.leb_gt in H
  | H : (_ =? _) = true |- _ => apply Z.eqb_eq in H
  | H : (_ =? _) = false |- _ => apply Z.eqb_neq in H
  | H : (_ || _)%bool = false |- _ => apply orb_false_iff in H as [? ?]
  | H : (_ && _)%bool = true |- _ => apply andb_true_iff in H as [? ?]
  | H : negb _ = true |- _ => apply negb_true_iff in H
  | H : negb _ = false |- _ => apply negb_false_iff in H
  end.

Tactic Notation "case_if" "as" ident(H) :=
  match goal with |- context [if ?b then _ else _] => destruct b eqn:H end; bool_cases.

(** Lists of bytes after their length has been normalised. *)
Ltac len := repeat rewrite ?length_app, ?length_take, ?length_drop, ?length_replicate,
  ?length_cons, ?length_nil in *; simpl length in *.
