(* ===== verification/Memory.v ===== *)
(** * C byte arrays

    A fixed-size [char]/[uint8_t] array is a list of bytes whose length never
    changes.  Every access is bounds checked: outside the array it is [None],
    which [access] turns into undefined behaviour.  The lemmas relate array
    updates to the prefix of the array that is in use. *)
From stdpp Require Import prelude list.
From Stdlib Require Import ZArith Lia.
From S2P Require Import Prelude.

(** [n] bytes at [a + off]. *)
Definition load (a : list Z) (off n : Z) : option (list Z) :=
  if (0 <=? off) && (0 <=? n) && (off + n <=? zlen a)
  then Some (ztake n (zdrop off a)) else None.

(** Write [bs] at [a + off]. *)
Definition store (a : list Z) (off : Z) (bs : list Z) : option (list Z) :=
  if (0 <=? off) && (off + zlen bs <=? zlen a)
  then Some (ztake off a ++ bs ++ zdrop (off + zlen bs) a) else None.

Definition load1 (a : list Z) (i : Z) : option Z :=
  if 0 <=? i then a !! Z.to_nat i else None.
Definition store1 (a : list Z) (i b : Z) : option (list Z) := store a i [b].

(** [*((int16_t * )(a + off))] and [*((uint16_t * )(a + off)) = v]. *)
Definition load_s16 (a : list Z) (off : Z) : option Z :=
  lo ← load1 a off; hi ← load1 a (off + 1); Some (get_s16 lo hi).
Definition load_u16 (a : list Z) (off : Z) : option Z :=
  lo ← load1 a off; hi ← load1 a (off + 1); Some (get_u16 lo hi).
Definition store_u16 (a : list Z) (off v : Z) : option (list Z) := store a off (put_u16 v).

(** [memcpy(d + doff, s + soff, n)], [memmove(a + dst, a + src, n)]. *)
Definition memcpy (d : list Z) (doff : Z) (s : list Z) (soff n : Z) : option (list Z) :=
  load s soff n ≫= store d doff.
Definition memmove (a : list Z) (dst src n : Z) : option (list Z) := memcpy a dst a src n.

Section Arrays.
Implicit Types a bs : list Z.

Lemma load_Some a off n :
  0 <= off -> 0 <= n -> off + n <= zlen a -> load a off n = Some (ztake n (zdrop off a)).
Proof.
  intros. unfold load. case_if as H3; [done|].
  apply andb_false_iff in H3 as [H3|H3]; [apply andb_false_iff in H3 as [H3|H3]|];
    bool_cases; lia.
Qed.

Lemma store_Some a off bs :
  0 <= off -> off + zlen bs <= zlen a ->
  store a off bs = Some (ztake off a ++ bs ++ zdrop (off + zlen bs) a).
Proof.
  intros. unfold store. case_if as H3; [done|].
  apply andb_false_iff in H3 as [H3|H3]; bool_cases; lia.
Qed.

Lemma load_inv a off n bs :
  load a off n = Some bs ->
  0 <= off /\ 0 <= n /\ off + n <= zlen a /\ bs = ztake n (zdrop off a).
Proof. unfold load. case_if as H3; [|done]. intros [= <-]. done. Qed.

Lemma store_inv a off bs a' :
  store a off bs = Some a' ->
  0 <= off /\ off + zlen bs <= zlen a /\ a' = ztake off a ++ bs ++ zdrop (off + zlen bs) a.
Proof. unfold store. case_if as H3; [|done]. intros [= <-]. done. Qed.

Lemma load1_Some a i b : 0 <= i -> a !! Z.to_nat i = Some b -> load1 a i = Some b.
Proof. intros. unfold load1. case_if as H3; [done|lia]. Qed.

Lemma load1_lookup a i : 0 <= i -> load1 a i = a !! Z.to_nat i.
Proof. intros. unfold load1. case_if as H3; [done|lia]. Qed.

Lemma load1_is_Some a i : 0 <= i < zlen a -> exists b, load1 a i = Some b.
Proof.
  intros. rewrite load1_lookup by lia. apply lookup_lt_is_Some. lia.
Qed.

Lemma store_length a off bs a' : store a off bs = Some a' -> length a' = length a.
Proof. intros (?&?&->)%store_inv. len. lia. Qed.

Lemma store_total a off bs :
  0 <= off -> off + zlen bs <= zlen a -> exists a', store a off bs = Some a' /\ length a' = length a.
Proof.
  intros Ho Hf. pose proof (store_Some a off bs Ho Hf) as H. eexists. split; [done|].
  by apply store_length in H.
Qed.

Lemma store_elem a off bs a' b : store a off bs = Some a' -> b ∈ bs -> b ∈ a'.
Proof. intros (_ & _ & ->)%store_inv Hb. rewrite !elem_of_app. by right; left. Qed.

Lemma memcpy_length d doff s soff n d' :
  memcpy d doff s soff n = Some d' -> length d' = length d.
Proof.
  unfold memcpy. destruct (load s soff n); [|done]. apply store_length.
Qed.

(** The bytes before the written ones are kept and the written ones follow. *)
Lemma store_prefix a off bs a' :
  store a off bs = Some a' -> ztake (off + zlen bs) a' = ztake off a ++ bs.
Proof.
  intros (?&?&->)%store_inv. rewrite app_assoc. apply take_app_length'. len. lia.
Qed.

Lemma store_before a off bs a' n :
  store a off bs = Some a' -> n <= off -> ztake n a' = ztake n a.
Proof.
  intros (?&?&->)%store_inv ?. rewrite take_app_le by (len; lia).
  rewrite take_take. f_equal. lia.
Qed.

Lemma store_after a off bs a' n :
  store a off bs = Some a' -> off + zlen bs <= n -> zdrop n a' = zdrop n a.
Proof.
  intros (?&?&->)%store_inv ?. rewrite app_assoc, drop_app_ge by (len; lia).
  rewrite drop_drop. f_equal. len. lia.
Qed.

Lemma load_store_same a off bs a' :
  store a off bs = Some a' -> load a' off (zlen bs) = Some bs.
Proof.
  intros H. pose proof (store_length _ _ _ _ H) as Hl. apply store_inv in H as (?&?&->).
  rewrite load_Some by lia. f_equal. rewrite drop_app_length' by (len; lia).
  apply take_app_length'. lia.
Qed.

Lemma take_split_off a m n :
  0 <= m -> 0 <= n -> ztake (m + n) a = ztake m a ++ ztake n (zdrop m a).
Proof.
  intros. rewrite <- (take_drop (Z.to_nat m) (ztake (m + n) a)).
  rewrite take_take, skipn_firstn_comm. f_equal; f_equal; lia.
Qed.

(** A load from the used prefix is a load from the array. *)
Lemma load_take a off n m :
  0 <= off -> 0 <= n -> off + n <= m -> m <= zlen a ->
  load a off n = Some (ztake n (zdrop off (ztake m a))).
Proof.
  intros. rewrite load_Some by lia. f_equal. rewrite skipn_firstn_comm, take_take.
  f_equal. lia.
Qed.

Lemma load1_take a i m :
  0 <= i -> i < m -> load1 a i = ztake m a !! Z.to_nat i.
Proof. intros. rewrite load1_lookup by lia. symmetry. apply lookup_take_lt. lia. Qed.

Lemma load1_app_r a b bs i :
  i = zlen a -> load1 (a ++ b :: bs) i = Some b.
Proof. intros ->. apply load1_Some; [lia|]. rewrite Nat2Z.id. apply list_lookup_middle. done. Qed.

Lemma load_s16_cons lo hi a : load_s16 (lo :: hi :: a) 0 = Some (get_s16 lo hi).
Proof. done. Qed.

Lemma load_s16_take a off m :
  0 <= off -> off + 2 <= m -> load_s16 a off = load_s16 (ztake m a) off.
Proof.
  intros. unfold load_s16. rewrite !(load1_lookup (ztake m a)) by lia.
  by rewrite !(load1_take a _ m) by lia.
Qed.

(** Moving the tail of the used prefix to the front drops its head. *)
Lemma memmove_front a k n :
  0 <= k <= n -> n <= zlen a ->
  exists a', memmove a 0 k (n - k) = Some a' /\ length a' = length a
             /\ ztake (n - k) a' = zdrop k (ztake n a).
Proof.
  intros Hk Hn. unfold memmove, memcpy.
  rewrite (load_take a k (n - k) n) by lia. simpl.
  rewrite (take_ge (zdrop k _)) by (len; lia).
  destruct (store a 0 (zdrop k (ztake n a))) as [a'|] eqn:Hs.
  - exists a'. split; [done|]. split; [by eapply store_length|].
    replace (n - k) with (0 + zlen (zdrop k (ztake n a))) by (len; lia).
    by rewrite (store_prefix _ _ _ _ Hs).
  - rewrite store_Some in Hs; [done|lia|len; lia].
Qed.
End Arrays.
