(* ===== verification/CString.v ===== *)
(** * C strings and formatted output

    What the two programs use of the C library's strings: [snprintf] into a
    bounded buffer, the two conversions they print bytes with, and [strncpy].
    A string is the list of its bytes. *)
From stdpp Require Import prelude list.
From Stdlib Require Import ZArith Lia.
From S2P Require Import Prelude Memory.

Definition INT_MAX : Z := 2 ^ 31 - 1.

(** ** Conversions *)

Definition hex_digit (d : Z) : Z := if d <? 10 then 48 + d else 55 + d.

(** ["0x%02X,"] of a byte. *)
Definition hex_text (b : Z) : list Z := [48; 120; hex_digit (b / 16); hex_digit (b mod 16); 44].

(** ["%hhu"]: the value as an unsigned char, in decimal. *)
Definition dec_text (v : Z) : list Z :=
  let b := u8 v in
  if b <? 10 then [48 + b]
  else if b <? 100 then [48 + b / 10; 48 + b mod 10]
  else [48 + b / 100; 48 + (b / 10) mod 10; 48 + b mod 10].

(** The value a decimal text denotes. *)
Definition dec_value (s : list Z) : Z := foldl (fun n c => 10 * n + (c - 48)) 0 s.

Lemma hex_text_length b : zlen (hex_text b) = 5.
Proof. done. Qed.

Lemma dec_text_length v : 1 <= zlen (dec_text v) <= 3.
Proof. unfold dec_text. repeat case_match; simpl; lia. Qed.

Lemma dec_text_digits v : Forall (fun c => 48 <= c <= 57) (dec_text v).
Proof.
  pose proof (u8_range v). unfold dec_text.
  case_if as H1; [|case_if as H2]; rewrite !Forall_cons, Forall_nil;
    split_and!; try done; Z.div_mod_to_equations; lia.
Qed.

Lemma dec_value_text v : dec_value (dec_text v) = u8 v.
Proof.
  pose proof (u8_range v). unfold dec_text.
  case_if as H1; [|case_if as H2]; unfold dec_value; simpl; Z.div_mod_to_equations; lia.
Qed.

(** ** snprintf *)

(** [snprintf(a + off, size, ..)] producing [text]: at most [size - 1] bytes and a
    NUL are written and the length of the whole text is returned.  A size above
    INT_MAX is refused with [over] (0 in Linux, negative in newlib). *)
Definition snprintf (over : Z) (a : list Z) (off size : Z) (text : list Z) : outcome (Z * list Z) :=
  if INT_MAX <? size then Ret (over, a)
  else if size =? 0 then Ret (zlen text, a)
  else let? a := store a off (ztake (size - 1) text ++ [0]) in Ret (zlen text, a).

(** There is room for the text and its NUL. *)
Lemma snprintf_fits over a off size text :
  0 <= off -> zlen text < size <= INT_MAX -> off + zlen text < zlen a ->
  exists a', snprintf over a off size text = Ret (zlen text, a') /\ length a' = length a
    /\ ztake (off + zlen text) a' = ztake off a ++ text.
Proof.
  intros Ho Hs Ha. unfold snprintf. case_if as H1; [lia|]. case_if as H2; [lia|].
  rewrite take_ge by lia.
  destruct (store a off (text ++ [0])) as [a'|] eqn:Hst; [|rewrite store_Some in Hst; [done|lia|len; lia]].
  exists a'. split; [done|]. pose proof (store_length _ _ _ _ Hst). split; [done|].
  apply store_inv in Hst as (_ & _ & ->). rewrite <- app_assoc, app_assoc. apply take_app_length'.
  len. lia.
Qed.

(** The text is cut off: the buffer is full up to its NUL. *)
Lemma snprintf_truncates over a off size text :
  0 <= off -> 0 < size <= zlen text -> size <= INT_MAX -> off + size <= zlen a ->
  exists a', snprintf over a off size text = Ret (zlen text, a') /\ length a' = length a
    /\ ztake (off + size) a' = ztake off a ++ ztake (size - 1) text ++ [0].
Proof.
  intros Ho Hs Hm Ha. unfold snprintf. case_if as H1; [lia|]. case_if as H2; [lia|].
  destruct (store a off (ztake (size - 1) text ++ [0])) as [a'|] eqn:Hst;
    [|rewrite store_Some in Hst; [done|lia|len; lia]].
  exists a'. split; [done|]. pose proof (store_length _ _ _ _ Hst). split; [done|].
  apply store_prefix in Hst. rewrite <- Hst. f_equal. len. lia.
Qed.

(** ** Reading and copying strings *)

(** The string that starts at the head of [s]; [None] when no NUL ends it. *)
Fixpoint cstr (s : list Z) : option (list Z) :=
  match s with
  | [] => None
  | b :: s => if b =? 0 then Some [] else (b ::.) <$> cstr s
  end.

(** The [n] bytes [strncpy(_, s, n)] writes: the string, padded with zeros. *)
Fixpoint strncpy_bytes (s : list Z) (n : nat) {struct n} : option (list Z) :=
  match n, s with
  | O, _ => Some []
  | S _, [] => None
  | S n', b :: s => if b =? 0 then Some (replicate n 0) else (b ::.) <$> strncpy_bytes s n'
  end.

Definition strncpy (d : list Z) (doff : Z) (s : list Z) (n : Z) : option (list Z) :=
  strncpy_bytes s (Z.to_nat n) ≫= store d doff.

Lemma cstr_app s t : 0 ∉ s -> cstr (s ++ 0 :: t) = Some s.
Proof.
  induction s as [|b s IH]; [done|]. intros [Hb Hs]%not_elem_of_cons. simpl.
  destruct (Z.eqb_spec b 0); [congruence|]. by rewrite IH.
Qed.

(** A source without NUL among its first [n] bytes is copied as it is. *)
Lemma strncpy_bytes_plain s t : 0 ∉ s -> strncpy_bytes (s ++ t) (length s) = Some s.
Proof.
  induction s as [|b s IH]; [done|]. intros [Hb Hs]%not_elem_of_cons. simpl.
  destruct (Z.eqb_spec b 0); [congruence|]. by rewrite IH.
Qed.

Lemma strncpy_bytes_length s n bs : strncpy_bytes s n = Some bs -> length bs = n.
Proof.
  revert s bs. induction n as [|n IH]; intros [|b s] bs H; simplify_eq/=; try done.
  case_match; simplify_eq/=; [by rewrite length_replicate|].
  destruct (strncpy_bytes s n) eqn:E; simplify_eq/=. f_equal. by eapply IH.
Qed.

(** Read back as a string: the text, cut to the size. *)
Lemma snprintf_cstr over a off size text :
  0 <= off -> 0 < size <= INT_MAX -> off + size <= zlen a -> (0 ∉ text) ->
  exists a', snprintf over a off size text = Ret (zlen text, a') /\ length a' = length a
    /\ ztake off a' = ztake off a /\ cstr (zdrop off a') = Some (ztake (size - 1) text).
Proof.
  intros Ho Hs Ha H0. unfold snprintf. case_if as H1; [lia|]. case_if as H2; [lia|].
  destruct (store a off (ztake (size - 1) text ++ [0])) as [a'|] eqn:Hst;
    [|rewrite store_Some in Hst; [done|lia|len; lia]].
  exists a'. split; [done|]. pose proof (store_length _ _ _ _ Hst). split; [done|].
  split; [by eapply store_before|].
  apply store_inv in Hst as (_ & _ & ->). rewrite drop_app_length' by (len; lia).
  rewrite <- app_assoc. apply cstr_app. intros (i & Hi & _)%elem_of_take. apply H0.
  by eapply list_elem_of_lookup_2.
Qed.
