(* ===== verification/Wire.v ===== *)
(** * The serial protocol, as a specification

    Both directions of the link carry frames [length (2 bytes, little endian);
    payload; terminator].  This file says, independently of the buffers and the
    polling of either machine, which payloads a byte stream denotes: a receiver
    reads a length, and when the length or the finished frame is not acceptable
    it drops everything up to and including the next terminator byte and starts
    again.  [FrameFormat] is the interface a receiver supplies; the receivers of
    the firmware are proved to implement [next_frame] for theirs. *)
From stdpp Require Import prelude list.
From Stdlib Require Import ZArith Lia.
From S2P Require Import Prelude.

(** The receiver states of both programs ([STATUS_LEN], [STATUS_DATA],
    [STATUS_SPLIT] of either common.h). *)
Inductive recv_status := STATUS_LEN | STATUS_DATA | STATUS_SPLIT.
#[export] Instance recv_status_eq_dec : EqDecision recv_status.
Proof. solve_decision. Defined.

(** What a sender puts on the line for payload [p]. *)
Definition put_frame (c : Z) (p : list Z) : list Z := put_u16 (zlen p) ++ p ++ [c].
Definition put_frames (c : Z) (ps : list (list Z)) : list Z := concat (put_frame c <$> ps).

(** What a receiver accepts: which length words, which complete frames (the
    buffer from the length word on), and the byte that ends a frame. *)
Class FrameFormat := {
  len_ok : Z -> bool;
  frame_ok : Z -> list Z -> bool;
  terminator : Z;
}.

Class FrameFormatLaws (F : FrameFormat) := {
  len_ok_nonneg dl : len_ok dl = true -> 0 <= dl;
  frame_ok_prefix dl s t : dl + 3 <= zlen s -> frame_ok dl (s ++ t) = frame_ok dl s;
}.

Section Parser.
Context {F : FrameFormat}.

(** One attempt at the head of [s]; [rec] parses what follows a terminator. *)
Definition next_frame_body (rec : list Z -> option (list Z * list Z)) (s : list Z) :
    option (list Z * list Z) :=
  match s with
  | lo :: hi :: _ =>
      let dl := get_s16 lo hi in
      if len_ok dl then
        if zlen s <? dl + 3 then None
        else if frame_ok dl s then Some (ztake dl (drop 2 s), zdrop (dl + 3) s)
        else after_split terminator s ≫= rec
      else after_split terminator s ≫= rec
  | _ => None
  end.

Fixpoint next_frame_fuel (n : nat) (s : list Z) : option (list Z * list Z) :=
  match n with
  | O => None
  | S n => next_frame_body (next_frame_fuel n) s
  end.

(** The first payload of the stream and the bytes after its frame; every
    resynchronisation shortens the stream, so its length is fuel enough
    ([next_frame_unfold]). *)
Definition next_frame (s : list Z) := next_frame_fuel (S (length s)) s.

(** ... when the receiver is in state [st] at the head of [s]. *)
Definition next_frame_from (st : recv_status) (s : list Z) :=
  match st with
  | STATUS_SPLIT => after_split terminator s ≫= next_frame
  | _ => next_frame s
  end.

Fixpoint deframe_fuel (n : nat) (s : list Z) : list (list Z) :=
  match n with
  | O => []
  | S n => match next_frame s with
           | Some (p, r) => p :: deframe_fuel n r
           | None => []
           end
  end.

(** All payloads of a stream. *)
Definition deframe (s : list Z) := deframe_fuel (S (length s)) s.
Definition deframe_from (st : recv_status) (s : list Z) :=
  match next_frame_from st s with Some (p, r) => p :: deframe r | None => [] end.

Lemma next_frame_body_ext rec rec' s :
  (forall s', (length s' < length s)%nat -> rec s' = rec' s') ->
  next_frame_body rec s = next_frame_body rec' s.
Proof.
  intros Hrec. destruct s as [|lo [|hi s]]; try done. unfold next_frame_body.
  assert (after_split terminator (lo :: hi :: s) ≫= rec
          = after_split terminator (lo :: hi :: s) ≫= rec') as ->; [|done].
  destruct (after_split _ _) as [s'|] eqn:Hs; [|done]. simpl.
  apply Hrec. by eapply after_split_length.
Qed.

Lemma next_frame_fuel_enough n m s :
  (length s < n)%nat -> (length s < m)%nat -> next_frame_fuel n s = next_frame_fuel m s.
Proof.
  revert m s. induction n as [|n IH]; intros [|m] s Hn Hm; try lia. simpl.
  apply next_frame_body_ext. intros s' Hs'. apply IH; lia.
Qed.

Lemma next_frame_unfold s : next_frame s = next_frame_body next_frame s.
Proof.
  unfold next_frame at 1. simpl. apply next_frame_body_ext. intros s' Hs'.
  apply next_frame_fuel_enough; lia.
Qed.

(** The cases of [next_frame], one lemma each. *)
Lemma next_frame_short s : zlen s < 2 -> next_frame s = None.
Proof. intros. rewrite next_frame_unfold. destruct s as [|lo [|hi s]]; try done. simpl in *. lia. Qed.

Lemma next_frame_bad_len lo hi s :
  len_ok (get_s16 lo hi) = false ->
  next_frame (lo :: hi :: s) = next_frame_from STATUS_SPLIT (lo :: hi :: s).
Proof. intros H. rewrite next_frame_unfold. unfold next_frame_body. by rewrite H. Qed.

Lemma next_frame_bad_frame lo hi s :
  len_ok (get_s16 lo hi) = true -> get_s16 lo hi + 3 <= zlen (lo :: hi :: s) ->
  frame_ok (get_s16 lo hi) (lo :: hi :: s) = false ->
  next_frame (lo :: hi :: s) = next_frame_from STATUS_SPLIT (lo :: hi :: s).
Proof.
  intros H1 H2 H3. rewrite next_frame_unfold. unfold next_frame_body.
  rewrite H1, H3. case_if as H4; [lia|done].
Qed.

Lemma next_frame_good lo hi s :
  len_ok (get_s16 lo hi) = true -> get_s16 lo hi + 3 <= zlen (lo :: hi :: s) ->
  frame_ok (get_s16 lo hi) (lo :: hi :: s) = true ->
  next_frame (lo :: hi :: s)
    = Some (ztake (get_s16 lo hi) s, zdrop (get_s16 lo hi + 3) (lo :: hi :: s)).
Proof.
  intros H1 H2 H3. rewrite next_frame_unfold. unfold next_frame_body.
  rewrite H1, H3. case_if as H4; [lia|done].
Qed.

Context `{!FrameFormatLaws F}.

Lemma next_frame_length s p r : next_frame s = Some (p, r) -> (length r < length s)%nat.
Proof.
  revert p r. remember (length s) as n eqn:Hn. revert s Hn.
  induction n as [n IH] using lt_wf_ind. intros s -> p r.
  rewrite next_frame_unfold. destruct s as [|lo [|hi s]]; try done. unfold next_frame_body.
  assert (forall p r, after_split terminator (lo :: hi :: s) ≫= next_frame = Some (p, r) ->
    (length r < length (lo :: hi :: s))%nat) as Hsplit.
  { intros p' r'. destruct (after_split _ _) as [s'|] eqn:Hs; [|done]. simpl. intros Hr.
    apply after_split_length in Hs. pose proof (IH _ Hs s' eq_refl p' r' Hr).
    simpl in *. lia. }
  case_if as H1; [|apply Hsplit]. case_if as H2; [done|]. case_if as H3; [|apply Hsplit].
  intros [= <- <-]. pose proof (len_ok_nonneg _ H1). len. lia.
Qed.

Lemma deframe_fuel_enough n m s :
  (length s < n)%nat -> (length s < m)%nat -> deframe_fuel n s = deframe_fuel m s.
Proof.
  revert m s. induction n as [|n IH]; intros [|m] s Hn Hm; try lia. simpl.
  destruct (next_frame s) as [[p r]|] eqn:Hs; [|done]. apply next_frame_length in Hs.
  f_equal. apply IH; lia.
Qed.

Lemma deframe_unfold s :
  deframe s = match next_frame s with Some (p, r) => p :: deframe r | None => [] end.
Proof.
  unfold deframe at 1. simpl. destruct (next_frame s) as [[p r]|] eqn:Hs; [|done].
  apply next_frame_length in Hs. f_equal. apply deframe_fuel_enough; lia.
Qed.

Lemma deframe_from_sync st s : st <> STATUS_SPLIT -> deframe_from st s = deframe s.
Proof. intros. rewrite deframe_unfold. by destruct st. Qed.

(** More input never changes a frame that is already complete. *)
Lemma next_frame_app s t p r :
  next_frame s = Some (p, r) -> next_frame (s ++ t) = Some (p, r ++ t).
Proof.
  revert p r. remember (length s) as n eqn:Hn. revert s Hn.
  induction n as [n IH] using lt_wf_ind. intros s -> p r.
  rewrite !next_frame_unfold. destruct s as [|lo [|hi s]]; try done.
  cbn [app]. unfold next_frame_body.
  assert (after_split terminator (lo :: hi :: s) ≫= next_frame = Some (p, r) ->
    after_split terminator (lo :: hi :: s ++ t) ≫= next_frame = Some (p, r ++ t)) as Hsplit.
  { change (lo :: hi :: s ++ t) with ((lo :: hi :: s) ++ t). rewrite after_split_app.
    destruct (after_split _ _) as [s'|] eqn:Hs; [|done]. simpl.
    apply after_split_length in Hs. by apply IH with (length s'). }
  case_if as H1; [|done]. pose proof (len_ok_nonneg _ H1).
  case_if as H2; [done|]. intros Hr. case_if as H3; [revert H2 H3; len; lia|].
  change (lo :: hi :: s ++ t) with ((lo :: hi :: s) ++ t).
  rewrite frame_ok_prefix by lia. revert Hr. case_if as H4; [|done].
  intros [= <- <-]. simpl in *. f_equal. f_equal.
  - rewrite !drop_0, take_app_le by lia. done.
  - rewrite app_comm_cons, app_comm_cons. rewrite drop_app_le by (simpl; lia). done.
Qed.

(** Receiving is causal: the payloads of a stream are a prefix of those of
    any longer one. *)
Lemma deframe_app s t : deframe s `prefix_of` deframe (s ++ t).
Proof.
  remember (length s) as n eqn:Hn. revert s Hn.
  induction n as [n IH] using lt_wf_ind. intros s ->. rewrite (deframe_unfold s).
  destruct (next_frame s) as [[p r]|] eqn:Hs; [|apply prefix_nil].
  rewrite (deframe_unfold (s ++ t)), (next_frame_app _ t _ _ Hs). apply prefix_cons.
  eapply IH; [|done]. by eapply next_frame_length.
Qed.
End Parser.

(** ** Frames a sender of the other side writes *)

Section Frames.
Context {F : FrameFormat} `{!FrameFormatLaws F} (c : Z).

(** Payload [p], framed with terminator [c], is accepted by the receiver. *)
Definition sendable (p : list Z) : Prop :=
  zlen p < 32768 /\ len_ok (zlen p) = true /\ frame_ok (zlen p) (put_frame c p) = true.

Lemma put_frame_length p : zlen (put_frame c p) = zlen p + 3.
Proof. unfold put_frame, put_u16. len. lia. Qed.

Lemma next_frame_put p s : sendable p -> next_frame (put_frame c p ++ s) = Some (p, s).
Proof.
  intros (Hlt & Hok & Hacc). apply (next_frame_app _ s _ []).
  unfold put_frame, put_u16 in *. cbn [app] in *.
  pose proof (len_ok_nonneg _ Hok).
  rewrite next_frame_good; rewrite get_put_s16 by lia; [|done|len; lia|done].
  f_equal. f_equal; [apply take_app_length'; lia|].
  apply drop_ge. len. lia.
Qed.

Lemma deframe_put_frames ps s :
  Forall sendable ps -> deframe (put_frames c ps ++ s) = ps ++ deframe s.
Proof.
  intros Hps. induction Hps as [|p ps Hp Hps IH]; [done|].
  change (put_frames c (p :: ps)) with (put_frame c p ++ put_frames c ps).
  rewrite <- app_assoc, deframe_unfold, next_frame_put by done. simpl. by rewrite IH.
Qed.

(** Resynchronisation: after garbage without a terminator byte, one terminator
    realigns the receiver and every following frame is delivered. *)
Lemma deframe_resync g ps s :
  terminator ∉ g -> Forall sendable ps ->
  deframe_from STATUS_SPLIT (g ++ terminator :: put_frames c ps ++ s) = ps ++ deframe s.
Proof.
  intros Hg Hps. unfold deframe_from, next_frame_from.
  rewrite after_split_app, after_split_none by done. simpl. rewrite Z.eqb_refl. simpl.
  rewrite <- deframe_unfold. by apply deframe_put_frames.
Qed.
End Frames.
