(* ===== verification/EspUart.v ===== *)
(** * ESP8266: UART0 access (main/common.h, uart2wifi.c, wifi2uart.c)

    The UART is observed through its status register.  The bytes that sit in the
    receive FIFO when [rxfifo_cnt] is read are a list; a receiver's future is the
    list of what each of its polls finds.  The transmit side is the list of
    values [txfifo_cnt] has when it is read, and the bytes written to the FIFO
    come out on the line in order. *)
From stdpp Require Import prelude list.
From Stdlib Require Import ZArith Lia.
From S2P Require Import Prelude Memory Wire.

Definition SPLIT_DATA : Z := 0x55.
Definition SPLIT_CMD : Z := 0xaa.
Definition MTU_LEN : Z := 1500.
Definition MAX_FRAME_LEN : Z := 2 + MTU_LEN + 1.
(** Depth of the hardware FIFOs; main/common.h keeps the SDK's value in a comment. *)
Definition UART_FIFO_LEN : Z := 128.

(** What successive polls of the receive FIFO find. *)
Definition rx_line := list (list Z).
(** [txfifo_cnt] at successive reads. *)
Definition tx_line := list Z.

Definition chunk_ok (c : list Z) : Prop := zlen c <= UART_FIFO_LEN.
Definition rx_ok (rx : rx_line) : Prop := Forall chunk_ok rx.
Definition cnt_ok (n : Z) : Prop := 0 <= n <= UART_FIFO_LEN.

(** The globals of uart2wifi.c: receive state machine and buffer. *)
Record esp_uart := mk_esp_uart {
  status : recv_status;
  uartRecvLen : Z;
  uartDataLen : Z;
  uartRecvBuffer : list Z;
}.

Definition esp_uart_init : esp_uart :=
  mk_esp_uart STATUS_LEN 0 0 (replicate (Z.to_nat (MAX_FRAME_LEN + UART_FIFO_LEN)) 0).

Definition set_status (s : recv_status) (g : esp_uart) : esp_uart :=
  mk_esp_uart s (uartRecvLen g) (uartDataLen g) (uartRecvBuffer g).
Definition set_uartRecvLen (n : Z) (g : esp_uart) : esp_uart :=
  mk_esp_uart (status g) n (uartDataLen g) (uartRecvBuffer g).
Definition set_uartDataLen (n : Z) (g : esp_uart) : esp_uart :=
  mk_esp_uart (status g) (uartRecvLen g) n (uartRecvBuffer g).
Definition set_uartRecvBuffer (a : list Z) (g : esp_uart) : esp_uart :=
  mk_esp_uart (status g) (uartRecvLen g) (uartDataLen g) a.

(** ** Receiving *)

(** [while (fifo_read_cnt < fifo_data_cnt) buf[fifo_read_cnt++] = rw_byte;] *)
Fixpoint fifo_read (a : list Z) (buf : Z) (fifo : list Z) : outcome (list Z) :=
  match fifo with
  | [] => Ret a
  | b :: fifo' => let? a' := store1 a buf b in fifo_read a' (buf + 1) fifo'
  end.

(** Read what the FIFO holds to [a + buf]; the number of bytes and the array. *)
Definition uart0_recv_data (a : list Z) (buf : Z) (fifo : list Z) : outcome (Z * list Z) :=
  let fifo_data_cnt := s16 (zlen fifo) in
  let! a' := fifo_read a buf fifo in
  Ret (fifo_data_cnt, a').

(** The dummy read that empties the FIFO into the start of the buffer. *)
Definition read_uart0 (g : esp_uart) (fifo : list Z) : outcome esp_uart :=
  let! ' (_, a) := uart0_recv_data (uartRecvBuffer g) 0 fifo in
  Ret (set_uartRecvBuffer a g).

Lemma fifo_read_store a buf fifo a' :
  store a buf fifo = Some a' -> fifo_read a buf fifo = Ret a'.
Proof.
  revert a buf a'. induction fifo as [|b fifo IH]; intros a buf a' H; simpl.
  - apply store_inv in H as (?&?&->). simpl. rewrite Z.add_0_r.
    by rewrite take_drop.
  - pose proof H as (?&Hle&->)%store_inv. cbn [length] in Hle. unfold store1.
    rewrite (store_Some a buf [b]) by (cbn [length]; lia). simpl. apply IH.
    rewrite (cons_middle b), (app_assoc (ztake buf a)).
    rewrite store_Some by (len; lia). f_equal.
    rewrite take_app_length', drop_app_ge by (len; lia).
    rewrite <- app_assoc, drop_drop. do 4 f_equal. len. lia.
Qed.

Lemma uart0_recv_data_spec a buf fifo a' :
  chunk_ok fifo -> store a buf fifo = Some a' ->
  uart0_recv_data a buf fifo = Ret (zlen fifo, a').
Proof.
  unfold chunk_ok, UART_FIFO_LEN. intros Hc Hs. unfold uart0_recv_data.
  rewrite (fifo_read_store _ _ _ _ Hs). simpl. rewrite s16_small by lia. done.
Qed.

(** ** Transmitting *)

(** [for (i = 0; i < copy_cnt; i++) rw_byte = buffer[i];] *)
Fixpoint fifo_write (a : list Z) (buffer : Z) (n : nat) : outcome (list Z) :=
  match n with
  | O => Ret []
  | S n => let? b := load1 a buffer in
           let! out := fifo_write a (buffer + 1) n in
           Ret (b :: out)
  end.

(** Fill the FIFO from [a + buffer]; the bytes taken and what goes on the line. *)
Definition uart0_fill_txfifo (txfifo_cnt : Z) (a : list Z) (buffer len : Z) :
    outcome (Z * list Z) :=
  let tx_fifo_cnt := u8 txfifo_cnt in
  let tx_remain_fifo_cnt := u8 (UART_FIFO_LEN - tx_fifo_cnt) in
  let copy_cnt := u8 (if tx_remain_fifo_cnt <=? len then tx_remain_fifo_cnt else len) in
  let! out := fifo_write a buffer (Z.to_nat copy_cnt) in
  Ret (copy_cnt, out).

(** [send_to_uart0_sync]: [Sent] when everything is on the line, [Spinning] when
    the polls the environment grants end first. *)
Inductive sync_exit :=
  | Sent (tx : tx_line) (out : list Z)
  | Spinning (out : list Z).

Definition send_sync_step (a : list Z) (l : Z * Z * tx_line * list Z) :
    outcome (Z * Z * tx_line * list Z + sync_exit) :=
  let '(uartSendPtr, uartSendLen, tx, out) := l in
  if uartSendLen =? 0 then leave (Sent tx out)
  else match tx with
       | [] => leave (Spinning out)
       | cnt :: tx' =>
           let! ' (ret, bs) := uart0_fill_txfifo cnt a uartSendPtr uartSendLen in
           goto (uartSendPtr + ret, u16 (uartSendLen - ret), tx', out ++ bs)
       end.

Definition send_to_uart0_sync (a : list Z) (uartSendPtr uartSendLen : Z) (tx : tx_line) :
    outcome sync_exit :=
  run (send_sync_step a) (S (S (length tx))) (uartSendPtr, uartSendLen, tx, []).

Lemma fifo_write_load a buffer n bs :
  load a buffer (Z.of_nat n) = Some bs -> fifo_write a buffer n = Ret bs.
Proof.
  revert buffer bs. induction n as [|n IH]; intros buffer bs H; apply load_inv in H as (?&?&?&->);
    [done|].
  cbn [fifo_write]. destruct (load1_is_Some a buffer) as [b Hb]; [lia|]. rewrite Hb. simpl.
  rewrite (IH (buffer + 1) (take n (zdrop (buffer + 1) a))).
  2: { rewrite load_Some by lia. do 2 f_equal. lia. }
  simpl. do 2 f_equal. rewrite Nat2Z.id. rewrite load1_lookup in Hb by lia.
  replace (Z.to_nat (buffer + 1)) with (S (Z.to_nat buffer)) by lia.
  by rewrite (drop_S a b (Z.to_nat buffer) Hb).
Qed.

(** The FIFO takes as much as has room and leaves the rest. *)
Lemma uart0_fill_txfifo_spec cnt a buffer len bs :
  cnt_ok cnt -> 0 <= len < 65536 -> load a buffer len = Some bs ->
  uart0_fill_txfifo cnt a buffer len
    = Ret (Z.min len (UART_FIFO_LEN - cnt), ztake (Z.min len (UART_FIFO_LEN - cnt)) bs).
Proof.
  unfold cnt_ok, UART_FIFO_LEN. intros Hc Hl (?&?&?&->)%load_inv.
  unfold uart0_fill_txfifo, UART_FIFO_LEN. rewrite (u8_small cnt), (u8_small (128 - cnt)) by lia.
  assert (u8 (if 128 - cnt <=? len then 128 - cnt else len) = Z.min len (128 - cnt)) as ->.
  { case_if as Hif; rewrite u8_small; lia. }
  rewrite (fifo_write_load _ _ _ (ztake (Z.min len (128 - cnt)) (zdrop buffer a))).
  2: { rewrite load_Some by lia. do 2 f_equal. lia. }
  simpl. rewrite take_take. do 3 f_equal. lia.
Qed.

(** The bytes a sequence of polls has room for. *)
Fixpoint tx_room (tx : tx_line) : Z :=
  match tx with [] => 0 | cnt :: tx' => (UART_FIFO_LEN - cnt) + tx_room tx' end.

Lemma tx_room_nonneg tx : Forall cnt_ok tx -> 0 <= tx_room tx.
Proof. induction 1 as [|c tx Hc _ IH]; unfold cnt_ok in *; simpl; lia. Qed.

(** [send_to_uart0_sync] puts the message on the line, whole and in order, as
    soon as the line has drained enough; until then what is out is a prefix. *)
Lemma send_to_uart0_sync_total a ptr len tx bs :
  Forall cnt_ok tx -> 0 <= len < 65536 -> load a ptr len = Some bs ->
  total (send_to_uart0_sync a ptr len tx) (fun e =>
    if len <=? tx_room tx then exists tx', e = Sent tx' bs
    else e = Spinning (ztake (tx_room tx) bs)).
Proof.
  intros Htx Hlen Hbs. unfold send_to_uart0_sync.
  pose proof (tx_room_nonneg _ Htx) as Hnn0.
  eapply run_post with
    (I := fun '(p, n, tx', out) => exists d,
       Forall cnt_ok tx' /\ d = Z.min len (tx_room tx - tx_room tx') /\ 0 <= d
       /\ p = ptr + d /\ n = len - d /\ out = ztake d bs)
    (m := fun '(p, n, tx', out) => S (length tx')).
  2: { exists 0. repeat split; try done; lia. }
  2: { simpl. lia. }
  pose proof Hbs as (?&?&?&Hbs')%load_inv.
  intros [[[p n] tx'] out] (d & Htx' & Hd & Hd0 & -> & -> & ->). unfold send_sync_step.
  pose proof (tx_room_nonneg _ Htx') as Hnn. assert (zlen bs = len) as Hlbs by (subst bs; len; lia).
  case_if as Hz.
  { simpl. case_if as Hle; [|lia]. exists tx'. f_equal. rewrite take_ge; [done|lia]. }
  destruct tx' as [|cnt tx'].
  { simpl in *. case_if as Hle; [lia|]. do 2 f_equal. lia. }
  apply Forall_cons in Htx' as [Hcnt Htx']. pose proof (tx_room_nonneg _ Htx') as Hnn'.
  rewrite (uart0_fill_txfifo_spec cnt a (ptr + d) (len - d) (zdrop d bs)); [|done|lia|].
  2: { rewrite load_Some by lia. f_equal. subst bs.
       rewrite skipn_firstn_comm, drop_drop. f_equal; [lia|]. f_equal. lia. }
  unfold cnt_ok in *. cbn [tx_room] in *. simpl. split; [|lia].
  set (k := Z.min (len - d) (UART_FIFO_LEN - cnt)).
  exists (d + k). rewrite u16_small by lia. rewrite take_split_off by lia.
  repeat split; try done; lia.
Qed.

(** ** Properties *)

(** [uart0_fill_txfifo] writes exactly the bytes there is room for, in order,
    returns their number, never fills the FIFO beyond its depth and takes all
    that fits. *)
Theorem uart0_fill_txfifo_fits cnt a buffer len bs :
  cnt_ok cnt -> 0 <= len < 65536 -> load a buffer len = Some bs ->
  total (uart0_fill_txfifo cnt a buffer len) (fun '(ret, out) =>
    out = ztake ret bs /\ zlen out = ret /\ 0 <= ret <= len /\ cnt + ret <= UART_FIFO_LEN
    /\ (ret = len \/ cnt + ret = UART_FIFO_LEN)).
Proof.
  intros Hc Hl Hb. rewrite (uart0_fill_txfifo_spec _ _ _ _ _ Hc Hl Hb). unfold cnt_ok in Hc.
  apply load_inv in Hb as (? & ? & ? & ->). simpl. split_and!; try lia; [done|len; lia].
Qed.

(** [send_to_uart0_sync] puts the whole message on the line, in order, as soon
    as the line has drained enough for it, and nothing else; until then it spins,
    with a prefix of the message sent. *)
Theorem send_to_uart0_sync_sends a ptr len tx bs :
  Forall cnt_ok tx -> 0 <= len < 65536 -> load a ptr len = Some bs ->
  total (send_to_uart0_sync a ptr len tx) (fun e =>
    if len <=? tx_room tx then exists tx', e = Sent tx' bs
    else e = Spinning (ztake (tx_room tx) bs)).
Proof. apply send_to_uart0_sync_total. Qed.

Lemma uart0_fill_txfifo_fits_witness :
  total (uart0_fill_txfifo 126 [7; 1; 2; 3; 9] 1 3) (fun '(ret, out) =>
    out = ztake ret [1; 2; 3] /\ zlen out = ret /\ 0 <= ret <= 3 /\ 126 + ret <= UART_FIFO_LEN
    /\ (ret = 3 \/ 126 + ret = UART_FIFO_LEN)).
Proof. apply uart0_fill_txfifo_fits; [unfold cnt_ok, UART_FIFO_LEN; lia|lia|reflexivity]. Defined.

Lemma send_to_uart0_sync_sends_witness :
  total (send_to_uart0_sync [1; 2; 3] 0 3 [128; 127; 128; 0; 5]) (fun e =>
    if 3 <=? tx_room [128; 127; 128; 0; 5] then exists tx', e = Sent tx' [1; 2; 3]
    else e = Spinning (ztake (tx_room [128; 127; 128; 0; 5]) [1; 2; 3])).
Proof.
  apply send_to_uart0_sync_sends; [|lia|reflexivity].
  repeat constructor; unfold UART_FIFO_LEN; lia.
Defined.
