(* ===== verification/EspDump.v ===== *)
(** * ESP8266: the hex dumps (uart2wifi.c, wifi2uart.c)

    [wifi_send_dump] and [wifi_recv_dump] format into a static buffer of five bytes
    per frame byte.  They stop in time: the receivers may dump any number of
    bytes, so the models of the receivers leave the calls out. *)
From stdpp Require Import prelude list.
From Stdlib Require Import ZArith Lia.
From S2P Require Import Prelude Memory CString EspUart.

Definition DUMP_SIZE : Z := MAX_FRAME_LEN * 5 + 1.

(** newlib's [snprintf] refuses a size above INT_MAX with -1. *)
Definition dump_over : Z := -1.

(** The loop from [output + offset] on, with its bound check. *)
Fixpoint esp_dump_loop (output : list Z) (offset : Z) (buf : list Z) : outcome (Z * list Z) :=
  match buf with
  | [] => Ret (offset, output)
  | b :: buf =>
      if DUMP_SIZE - 5 <=? offset then Ret (offset, output)
      else
        let! ' (n, output) := snprintf dump_over output offset (DUMP_SIZE - offset) (hex_text b) in
        esp_dump_loop output (offset + n) buf
  end.

(** The text that is logged. *)
Definition wifi_send_dump (output buf : list Z) : outcome (list Z) :=
  let! ' (offset, output) := esp_dump_loop output 0 buf in
  let? output := store1 output offset 0 in Ret output.

Definition wifi_recv_dump (output buf : list Z) : outcome (list Z) :=
  let! ' (offset, output) := esp_dump_loop output 0 buf in
  let? output := store1 output offset 0 in Ret output.

Definition esp_hex_line (buf : list Z) : list Z := concat (hex_text <$> buf).

Lemma esp_hex_line_length buf : zlen (esp_hex_line buf) = 5 * zlen buf.
Proof. unfold esp_hex_line. induction buf as [|b buf IH]; [done|]. csimpl. lia. Qed.

(** From a whole number of texts on: the bytes that fit are appended. *)
Lemma esp_dump_loop_ok output k buf :
  zlen output = DUMP_SIZE -> 0 <= k <= MAX_FRAME_LEN ->
  let n := Z.min (zlen buf) (MAX_FRAME_LEN - k) in
  exists out, esp_dump_loop output (5 * k) buf = Ret (5 * (k + n), out) /\ zlen out = DUMP_SIZE
    /\ ztake (5 * (k + n)) out = ztake (5 * k) output ++ esp_hex_line (ztake n buf).
Proof.
  unfold DUMP_SIZE, MAX_FRAME_LEN, MTU_LEN. revert output k.
  induction buf as [|b buf IH]; intros output k Hs Hk.
  - cbn [length esp_dump_loop]. replace (Z.min _ _) with 0 by lia. rewrite Z.add_0_r.
    exists output. by rewrite take_nil, app_nil_r.
  - cbn [length esp_dump_loop]. unfold DUMP_SIZE, MAX_FRAME_LEN, MTU_LEN. case_if as Hfull.
    + assert (k = 1503) as -> by lia. replace (Z.min _ _) with 0 by lia.
      exists output. cbn [Z.to_nat take]. by rewrite app_nil_r.
    + destruct (snprintf_fits dump_over output (5 * k) ((2 + 1500 + 1) * 5 + 1 - 5 * k) (hex_text b))
        as (a & -> & Ha & Ht); rewrite ?hex_text_length; unfold INT_MAX; [lia..|].
      cbn [mbind outcome_bind]. rewrite hex_text_length in *.
      destruct (IH a (k + 1)) as (out & Hout & Hl & Hpre); [lia..|].
      replace (5 * (k + 1)) with (5 * k + 5) in * by lia. rewrite Hout.
      assert (k + 1 + Z.min (zlen buf) (2 + 1500 + 1 - (k + 1))
              = k + Z.min (Z.of_nat (S (length buf))) (2 + 1500 + 1 - k)) as E by lia.
      rewrite E in *. exists out. split; [done|]. split; [done|]. rewrite Hpre, Ht, <- app_assoc.
      f_equal. replace (Z.to_nat (Z.min (Z.of_nat (S (length buf))) (2 + 1500 + 1 - k)))
        with (S (Z.to_nat (Z.min (zlen buf) (2 + 1500 + 1 - (k + 1))))) by lia. done.
Qed.

(** The firmware's hex dump is in bounds whatever it is given: it prints the first
    1503 bytes and ends its text inside the buffer. *)
Theorem wifi_send_dump_bounds output buf :
  zlen output = DUMP_SIZE ->
  total (wifi_send_dump output buf) (fun out =>
    zlen out = DUMP_SIZE
    /\ ztake (5 * Z.min (zlen buf) MAX_FRAME_LEN + 1) out
       = esp_hex_line (ztake MAX_FRAME_LEN buf) ++ [0]).
Proof.
  intros Hs. unfold wifi_send_dump.
  destruct (esp_dump_loop_ok output 0 buf Hs) as (out & Hout & Hl & Hpre);
    [unfold MAX_FRAME_LEN, MTU_LEN; lia|].
  change (5 * 0) with 0 in *. rewrite Hout. cbn [mbind outcome_bind].
  unfold DUMP_SIZE, MAX_FRAME_LEN, MTU_LEN in *. rewrite Z.add_0_l, Z.sub_0_r in *. unfold store1.
  destruct (store out _ [0]) as [out'|] eqn:Hst; [|rewrite store_Some in Hst; [done|lia|simpl; lia]].
  cbn [access mbind outcome_bind post]. pose proof (store_length _ _ _ _ Hst). split; [lia|].
  apply store_prefix in Hst. rewrite Hpre in Hst. simpl (ztake 0 output) in Hst.
  rewrite app_nil_l in Hst. change (zlen [0]) with 1 in Hst. rewrite Hst. do 2 f_equal.
  destruct (decide (zlen buf <= 2 + 1500 + 1)).
  - rewrite !take_ge by lia. done.
  - f_equal. lia.
Qed.

Definition empty_dump : list Z := replicate (Z.to_nat DUMP_SIZE) 0.
Lemma wifi_send_dump_bounds_witness :
  total (wifi_send_dump empty_dump (replicate 1600 0x55)) (fun out =>
    zlen out = DUMP_SIZE
    /\ ztake (5 * Z.min (zlen (replicate 1600 0x55)) MAX_FRAME_LEN + 1) out
       = esp_hex_line (ztake MAX_FRAME_LEN (replicate 1600 0x55)) ++ [0]).
Proof. apply wifi_send_dump_bounds. unfold empty_dump. len. unfold DUMP_SIZE, MAX_FRAME_LEN, MTU_LEN. lia. Defined.
