(* ===== verification/EspFraming.v ===== *)
(** * ESP8266: the framing loop the receivers of uart2wifi.c share

    [recv_ssid], [recv_passwd], [recv_netif_info] and [uart2wifi] are four copies
    of one loop: wait for a length word, wait for the frame, check it, and on any
    error search the buffer for a terminator.  This file states that loop once,
    with the checks as parameters, and proves that it implements [next_frame] of
    Wire.v: for every way the bytes arrive in polls it stays inside the receive
    buffer, ends, loses nothing and finds exactly the next acceptable frame.
    EspReceive.v and EspUart2wifi.v show that the four functions are instances. *)
From stdpp Require Import prelude list.
From Stdlib Require Import ZArith Lia.
From S2P Require Import Prelude Memory Wire EspUart.

(** [ret = uart0_recv_data(uartRecvBuffer + off)] at the next poll; [None] when
    the environment grants no further poll. *)
Definition poll_uart0 (g : esp_uart) (rx : rx_line) (off : Z) :
    outcome (option (Z * esp_uart * rx_line)) :=
  match rx with
  | [] => Ret None
  | fifo :: rx' =>
      let! ' (ret, a) := uart0_recv_data (uartRecvBuffer g) off fifo in
      Ret (Some (ret, set_uartRecvBuffer a g, rx'))
  end.

(** The part of the buffer that holds received bytes. *)
Definition buffered (g : esp_uart) : list Z := ztake (uartRecvLen g) (uartRecvBuffer g).

(** How a run of the loop ends: no frame yet, or a complete accepted frame at
    the head of the buffer. *)
Inductive framing_exit :=
  | Idle (g : esp_uart) (rx : rx_line)
  | FrameReady (g : esp_uart) (rx : rx_line).

(** Bytes received and still to come, polls left and the state's rank: the
    measure that decreases at every jump to [restart]. *)
Definition status_rank (s : recv_status) : nat :=
  match s with STATUS_LEN => 2 | STATUS_DATA => 1 | STATUS_SPLIT => 0 end.
Definition framing_measure (l : esp_uart * rx_line) : nat :=
  (3 * (Z.to_nat (uartRecvLen l.1) + length (concat l.2)) + length l.2
   + status_rank (status l.1))%nat.
Definition framing_fuel (g : esp_uart) (rx : rx_line) : nat := S (framing_measure (g, rx)).

(** A step of the loop whose exits run a continuation. *)
Definition then_exit {T} (k : framing_exit -> outcome T)
    (r : outcome (esp_uart * rx_line + framing_exit)) : outcome (esp_uart * rx_line + T) :=
  let! x := r in
  match x with inl s => goto s | inr e => (let! t := k e in leave t) end.

Section Loop.
Context {F : FrameFormat}.
(** Wait for more bytes in place (recv_ssid, recv_passwd, recv_netif_info) or
    return to the caller when the FIFO is empty (uart2wifi). *)
Context (blocking : bool).
(** The length and frame checks as the code writes them. *)
Context (bad_len : Z -> bool) (bad_frame : esp_uart -> outcome bool).

Definition framing_wait (g : esp_uart) (rx : rx_line) :
    outcome (esp_uart * rx_line + framing_exit) :=
  if blocking then goto (g, rx) else leave (Idle g rx).

(** Append one poll to the buffer. *)
Definition framing_fill (g : esp_uart) (rx : rx_line) :=
  let! r := poll_uart0 g rx (uartRecvLen g) in
  match r with
  | None => leave (Idle g rx)
  | Some (ret, g, rx) =>
      if ret <=? 0 then framing_wait g rx
      else goto (set_uartRecvLen (s16 (uartRecvLen g + ret)) g, rx)
  end.

(** Relocate to the byte after the first terminator. *)
Definition framing_scan (g : esp_uart) (rx : rx_line) :=
  let? seen := load (uartRecvBuffer g) 0 (uartRecvLen g) in
  match split_index terminator seen with
  | Some i =>
      let? a := memmove (uartRecvBuffer g) 0 i (uartRecvLen g - i) in
      goto (set_status STATUS_LEN
              (set_uartRecvLen (s16 (uartRecvLen g - i)) (set_uartRecvBuffer a g)), rx)
  | None => framing_wait (set_uartRecvLen 0 g) rx
  end.

Definition framing_split (g : esp_uart) (rx : rx_line) :=
  if uartRecvLen g =? 0 then
    let! r := poll_uart0 g rx 0 in
    match r with
    | None => leave (Idle g rx)
    | Some (ret, g, rx) =>
        if ret <=? 0 then framing_wait g rx
        else framing_scan (set_uartRecvLen (s16 (uartRecvLen g + ret)) g) rx
    end
  else framing_scan g rx.

Definition framing_data (g : esp_uart) (rx : rx_line) :=
  if uartRecvLen g <? uartDataLen g + 3 then framing_fill g rx
  else let! bad := bad_frame g in
       if (bad : bool) then goto (set_status STATUS_SPLIT g, rx)
       else leave (FrameReady g rx).

Definition framing_step (l : esp_uart * rx_line) :
    outcome (esp_uart * rx_line + framing_exit) :=
  let '(g, rx) := l in
  match status g with
  | STATUS_LEN =>
      if uartRecvLen g <? 2 then framing_fill g rx
      else
        let? dl := load_s16 (uartRecvBuffer g) 0 in
        let g := set_uartDataLen dl g in
        if bad_len dl then goto (set_status STATUS_SPLIT g, rx)
        else framing_data (set_status STATUS_DATA g) rx
  | STATUS_DATA => framing_data g rx
  | STATUS_SPLIT => framing_split g rx
  end.

Definition framing_run (g : esp_uart) (rx : rx_line) : outcome framing_exit :=
  run framing_step (framing_fuel g rx) (g, rx).

(** ** Correctness *)

(** The frame the receiver will find, given its state and all input to come. *)
Definition expected (g : esp_uart) (rx : rx_line) : option (list Z * list Z) :=
  next_frame_from (status g) (buffered g ++ concat rx).

(** State invariant: the buffer keeps its size, its used length fits, and in
    STATUS_DATA the length word at its head has been read and accepted. *)
Record framing_inv (g : esp_uart) : Prop := {
  inv_size : zlen (uartRecvBuffer g) = MAX_FRAME_LEN + UART_FIFO_LEN;
  inv_len : 0 <= uartRecvLen g <= MAX_FRAME_LEN + UART_FIFO_LEN;
  inv_data : status g = STATUS_DATA ->
    len_ok (uartDataLen g) = true /\ 2 <= uartRecvLen g
    /\ load_s16 (buffered g) 0 = Some (uartDataLen g);
}.

Context (Hbad_len : forall dl, bad_len dl = negb (len_ok dl)).
Context (Hlen_ok : forall dl, len_ok dl = true -> 0 <= dl <= MTU_LEN).
Context (Hbad_frame : forall g,
  framing_inv g -> status g = STATUS_DATA -> uartDataLen g + 3 <= uartRecvLen g ->
  bad_frame g = Ret (negb (frame_ok (uartDataLen g) (buffered g)))).
Context `{!FrameFormatLaws F}.

(** What a run from a state expecting [D], of measure [m], may end in. *)
Definition exit_ok (D : option (list Z * list Z)) (m : nat) (e : framing_exit) : Prop :=
  match e with
  | Idle g rx =>
      framing_inv g /\ rx_ok rx /\ expected g rx = D
      /\ next_frame_from (status g) (buffered g) = None
      /\ (blocking = true -> rx = [])
      /\ (rx = [] \/ (framing_measure (g, rx) < m)%nat)
  | FrameReady g rx =>
      framing_inv g /\ rx_ok rx /\ status g = STATUS_DATA
      /\ uartDataLen g + 3 <= uartRecvLen g
      /\ frame_ok (uartDataLen g) (buffered g) = true
      /\ (framing_measure (g, rx) <= m)%nat
      /\ D = Some (ztake (uartDataLen g) (drop 2 (buffered g)),
                   zdrop (uartDataLen g + 3) (buffered g) ++ concat rx)
  end.

Definition step_ok (D : option (list Z * list Z)) (m : nat)
    (r : esp_uart * rx_line + framing_exit) : Prop :=
  match r with
  | inl (g, rx) => (framing_inv g /\ rx_ok rx /\ expected g rx = D)
                   /\ (framing_measure (g, rx) < m)%nat
  | inr e => exit_ok D m e
  end.

Lemma buffered_length g : framing_inv g -> zlen (buffered g) = uartRecvLen g.
Proof. intros [Hs Hl _]. unfold buffered. len. lia. Qed.

(** The first two buffered bytes are the length word. *)
Lemma buffered_head g :
  framing_inv g -> 2 <= uartRecvLen g ->
  exists lo hi bs, buffered g = lo :: hi :: bs
                   /\ load_s16 (uartRecvBuffer g) 0 = Some (get_s16 lo hi).
Proof.
  intros Hg H2. pose proof (buffered_length g Hg) as Hl.
  destruct (buffered g) as [|lo [|hi bs]] eqn:Hb; simpl in Hl; [lia..|].
  exists lo, hi, bs. split; [done|].
  rewrite (load_s16_take _ 0 (uartRecvLen g)) by lia. fold (buffered g). by rewrite Hb.
Qed.

Lemma poll_append g c :
  framing_inv g -> chunk_ok c -> uartRecvLen g + UART_FIFO_LEN <= MAX_FRAME_LEN + UART_FIFO_LEN ->
  exists a, uart0_recv_data (uartRecvBuffer g) (uartRecvLen g) c = Ret (zlen c, a)
    /\ length a = length (uartRecvBuffer g)
    /\ ztake (uartRecvLen g + zlen c) a = buffered g ++ c.
Proof.
  intros [Hs Hl _] Hc Hroom. unfold chunk_ok in Hc.
  destruct (store (uartRecvBuffer g) (uartRecvLen g) c) as [a|] eqn:Ha.
  - exists a. split; [by apply uart0_recv_data_spec|]. split; [by eapply store_length|].
    by eapply store_prefix.
  - rewrite store_Some in Ha; [done|lia..].
Qed.

(** The state after appending [c]. *)
Definition appended (g : esp_uart) (a c : list Z) : esp_uart :=
  set_uartRecvLen (s16 (uartRecvLen g + zlen c)) (set_uartRecvBuffer a g).

Lemma appended_ok g a c :
  framing_inv g -> chunk_ok c -> length a = length (uartRecvBuffer g) ->
  uartRecvLen g <= MAX_FRAME_LEN -> ztake (uartRecvLen g + zlen c) a = buffered g ++ c ->
  framing_inv (appended g a c) /\ buffered (appended g a c) = buffered g ++ c
  /\ status (appended g a c) = status g.
Proof.
  intros Hg Hc Ha Hl Htake. pose proof Hg as [Hs Hl' Hd]. unfold chunk_ok in Hc.
  unfold MAX_FRAME_LEN, MTU_LEN, UART_FIFO_LEN in *.
  assert (s16 (uartRecvLen g + zlen c) = uartRecvLen g + zlen c) as E by (apply s16_small; lia).
  assert (buffered (appended g a c) = buffered g ++ c) as Hb.
  { unfold buffered at 1, appended. simpl. by rewrite E. }
  split; [|done]. constructor.
  - simpl. unfold MAX_FRAME_LEN, MTU_LEN, UART_FIFO_LEN. lia.
  - simpl. unfold MAX_FRAME_LEN, MTU_LEN, UART_FIFO_LEN. rewrite E. lia.
  - simpl. intros Hst. destruct (Hd Hst) as (? & ? & Hw).
    split; [done|]. split; [rewrite E; lia|]. rewrite Hb.
    destruct (buffered_head g Hg) as (lo & hi & bs & Hbs & _); [lia|].
    rewrite Hbs in *. done.
Qed.

Lemma expected_cons g a c rx :
  framing_inv g -> chunk_ok c -> length a = length (uartRecvBuffer g) ->
  uartRecvLen g <= MAX_FRAME_LEN -> ztake (uartRecvLen g + zlen c) a = buffered g ++ c ->
  expected (appended g a c) rx = expected g (c :: rx).
Proof.
  intros Hg Hc Ha Hl Htake. destruct (appended_ok g a c) as (_ & Hb & _); try done.
  unfold expected. rewrite Hb. simpl. by rewrite <- app_assoc.
Qed.

(** An empty poll changes nothing but the array's unused bytes. *)
Lemma appended_nil g a :
  framing_inv g -> uartRecvLen g <= MAX_FRAME_LEN ->
  appended g a [] = set_uartRecvBuffer a g.
Proof.
  intros [_ Hl _] Hm. unfold appended, MAX_FRAME_LEN, MTU_LEN in *. simpl.
  rewrite Z.add_0_r, s16_small by lia. by destruct g.
Qed.

Lemma framing_fill_ok g rx D m :
  framing_inv g -> rx_ok rx -> expected g rx = D -> uartRecvLen g <= MAX_FRAME_LEN ->
  next_frame_from (status g) (buffered g) = None -> (framing_measure (g, rx) <= m)%nat ->
  total (framing_fill g rx) (step_ok D m).
Proof.
  intros Hg Hrx HD Hl Hnone Hm. unfold framing_fill. destruct rx as [|c rx]; simpl.
  { split_and!; try done. by left. }
  apply Forall_cons in Hrx as [Hc Hrx].
  destruct (poll_append g c) as (a & -> & Ha & Htake); [done|done|lia|]. simpl.
  pose proof (expected_cons g a c rx Hg Hc Ha Hl Htake) as Hexp.
  destruct (appended_ok g a c) as (Hg' & Hb' & Hst'); try done.
  case_if as Hz.
  - assert (c = []) as -> by (destruct c; [done|simpl in Hz; lia]).
    rewrite (appended_nil g a) in * by done. rewrite app_nil_r in Hb'.
    unfold framing_wait. destruct blocking eqn:Hblk; simpl.
    + split; [split; [done|split; [done|]]|].
      * rewrite Hexp. done.
      * unfold framing_measure in *. simpl in *. lia.
    + split_and!; try done; [by rewrite Hexp|by rewrite Hb'|by rewrite Hblk|right].
      unfold framing_measure in *. simpl in *. lia.
  - change (step_ok D m (inl (appended g a c, rx))). simpl.
    split; [split; [done|split; [done|]]|].
    + rewrite Hexp. done.
    + pose proof (buffered_length _ Hg') as HL. rewrite Hb' in HL.
      pose proof (buffered_length _ Hg) as HL0.
      unfold framing_measure in *. simpl in *. rewrite <- HL. revert HL Hm. len. lia.
Qed.

(** Searching the terminator: [g] holds at least one byte and is in
    STATUS_SPLIT. *)
Lemma framing_scan_ok g rx D m :
  framing_inv g -> rx_ok rx -> status g = STATUS_SPLIT -> expected g rx = D ->
  0 < uartRecvLen g -> (framing_measure (g, rx) <= m)%nat ->
  total (framing_scan g rx) (step_ok D m).
Proof.
  intros Hg Hrx Hst HD Hpos Hm. pose proof Hg as [Hs Hl _]. unfold framing_scan.
  rewrite (load_take _ 0 _ (uartRecvLen g)) by lia. rewrite drop_0, take_take, Nat.min_id.
  fold (buffered g). cbn [access mbind outcome_bind].
  unfold expected in HD. rewrite Hst in HD. cbn [next_frame_from] in HD.
  rewrite after_split_app in HD.
  destruct (split_index terminator (buffered g)) as [i|] eqn:Hi.
  - pose proof (split_index_bounds _ _ _ Hi) as Hib. rewrite buffered_length in Hib by done.
    destruct (memmove_front (uartRecvBuffer g) i (uartRecvLen g)) as (a & -> & Ha & Htake);
      [lia..|]. fold (buffered g) in Htake. simpl.
    assert (s16 (uartRecvLen g - i) = uartRecvLen g - i) as ->.
    { unfold MAX_FRAME_LEN, MTU_LEN, UART_FIFO_LEN in *. apply s16_small. lia. }
    rewrite split_index_after, Hi in HD. simpl in HD.
    assert (framing_inv (set_status STATUS_LEN
      (set_uartRecvLen (uartRecvLen g - i) (set_uartRecvBuffer a g)))) as Hg'.
    { constructor; simpl; [lia|lia|done]. }
    split; [split; [done|split; [done|]]|].
    + unfold expected, buffered. simpl. by rewrite Htake.
    + unfold framing_measure in *. simpl in *. rewrite Hst in Hm. simpl in *. lia.
  - rewrite split_index_None in HD by done.
    assert (framing_inv (set_uartRecvLen 0 g)) as Hg'.
    { constructor; simpl; [done|unfold MAX_FRAME_LEN, MTU_LEN, UART_FIFO_LEN; lia|].
      by rewrite Hst. }
    unfold framing_wait. destruct blocking eqn:Hblk; simpl.
    + split; [split; [done|split; [done|]]|].
      * unfold expected. simpl. by rewrite Hst.
      * unfold framing_measure in *. simpl in *. lia.
    + split_and!; try done.
      * unfold expected. simpl. by rewrite Hst.
      * by rewrite Hst.
      * by rewrite Hblk.
      * right. unfold framing_measure in *. simpl in *. lia.
Qed.

Lemma framing_split_ok g rx D m :
  framing_inv g -> rx_ok rx -> status g = STATUS_SPLIT -> expected g rx = D ->
  (framing_measure (g, rx) <= m)%nat -> total (framing_split g rx) (step_ok D m).
Proof.
  intros Hg Hrx Hst HD Hm. pose proof Hg as [Hs Hl _]. unfold framing_split.
  case_if as Hz; [|apply framing_scan_ok; try done; lia].
  destruct rx as [|c rx]; simpl.
  { split_and!; try done; [|by left]. unfold buffered. rewrite Hz, Hst. done. }
  apply Forall_cons in Hrx as [Hc Hrx].
  destruct (poll_append g c) as (a & Hrd & Ha & Htake);
    [done|done|unfold MAX_FRAME_LEN, MTU_LEN in *; lia|].
  rewrite Hz in Hrd. rewrite Hrd. simpl.
  assert (uartRecvLen g <= MAX_FRAME_LEN) as Hle by (unfold MAX_FRAME_LEN, MTU_LEN; lia).
  pose proof (expected_cons g a c rx Hg Hc Ha Hle Htake) as Hexp.
  destruct (appended_ok g a c) as (Hg' & Hb' & Hst'); try done.
  case_if as Hne.
  - assert (c = []) as -> by (destruct c; [done|simpl in Hne; lia]).
    rewrite (appended_nil g a) in * by done. rewrite app_nil_r in Hb'.
    unfold framing_wait. destruct blocking eqn:Hblk; simpl.
    + split; [split; [done|split; [done|]]|].
      * rewrite Hexp. done.
      * unfold framing_measure in *. simpl in *. lia.
    + split_and!; try done; [by rewrite Hexp| |by rewrite Hblk|].
      * rewrite Hb', Hst. unfold buffered. rewrite Hz. done.
      * right. unfold framing_measure in *. simpl in *. lia.
  - apply (framing_scan_ok (appended g a c) rx D m); try done.
    + by rewrite Hexp.
    + pose proof (buffered_length _ Hg') as HL. rewrite Hb' in HL. revert HL. len. lia.
    + pose proof (buffered_length _ Hg') as HL. rewrite Hb' in HL.
      pose proof (buffered_length _ Hg) as HL0.
      unfold framing_measure in *. simpl in *. rewrite Hst in *. rewrite <- HL.
      revert HL Hm. len. lia.
Qed.

(** STATUS_DATA: wait for the whole frame, then accept or search. *)
Lemma framing_data_ok g rx D m :
  framing_inv g -> rx_ok rx -> status g = STATUS_DATA -> expected g rx = D ->
  (framing_measure (g, rx) <= m)%nat -> total (framing_data g rx) (step_ok D m).
Proof.
  intros Hg Hrx Hst HD Hm. pose proof (buffered_length _ Hg) as HL.
  destruct (inv_data g Hg Hst) as (Hok & H2 & Hw). pose proof (Hlen_ok _ Hok) as Hdl.
  destruct (buffered_head g Hg H2) as (lo & hi & bs & Hb & _).
  rewrite Hb, load_s16_cons in Hw. simplify_eq. unfold framing_data.
  case_if as Hshort.
  - apply framing_fill_ok; try done; [unfold MAX_FRAME_LEN; lia|].
    rewrite Hst, Hb. simpl. rewrite next_frame_unfold. unfold next_frame_body.
    rewrite Hw, Hok. case_if as Hlt; [done|]. rewrite Hb in HL. lia.
  - rewrite Hbad_frame by done. simpl. unfold expected. rewrite Hst. simpl.
    rewrite Hb in *. simpl app.
    assert (uartDataLen g + 3 <= zlen (lo :: hi :: bs ++ concat rx)) as Hfull.
    { change (lo :: hi :: bs ++ concat rx) with ((lo :: hi :: bs) ++ concat rx). len. lia. }
    pose proof (frame_ok_prefix (uartDataLen g) (lo :: hi :: bs) (concat rx)) as Hpre.
    simpl app in Hpre. rewrite <- Hpre by lia.
    destruct (frame_ok _ _) eqn:Hacc; simpl.
    + split_and!; try done; [rewrite Hb, <- Hpre by lia; done|]. rewrite next_frame_good; rewrite ?Hw; try done.
      rewrite Hb. f_equal. f_equal.
      * cbn [drop]. rewrite take_app_le by (cbn [length] in *; lia). done.
      * rewrite app_comm_cons, app_comm_cons, drop_app_le by lia. done.
    + assert (framing_inv (set_status STATUS_SPLIT g)) as Hg'
        by (destruct Hg; by constructor).
      split; [split; [done|split; [done|]]|].
      * unfold expected. change (buffered (set_status STATUS_SPLIT g)) with (buffered g).
        rewrite Hb. simpl. by rewrite next_frame_bad_frame; rewrite ?Hw.
      * unfold framing_measure in *. simpl in *. rewrite Hst in *. simpl in *. lia.
Qed.

Lemma framing_step_ok g rx D :
  framing_inv g -> rx_ok rx -> expected g rx = D ->
  total (framing_step (g, rx)) (step_ok D (framing_measure (g, rx))).
Proof.
  intros Hg Hrx HD. unfold framing_step. destruct (status g) eqn:Hst.
  - case_if as H2.
    + apply framing_fill_ok; try done; [unfold MAX_FRAME_LEN, MTU_LEN; lia|].
      rewrite Hst. simpl. apply next_frame_short. by rewrite buffered_length.
    + destruct (buffered_head g Hg) as (lo & hi & bs & Hb & ->); [lia|]. simpl.
      rewrite Hbad_len. unfold expected in *. rewrite Hst, Hb in HD. simpl in HD.
      destruct (len_ok (get_s16 lo hi)) eqn:Hok; simpl.
      * apply framing_data_ok; try done.
        -- destruct Hg. constructor; try done. intros _. simpl.
           split_and!; [done|lia|]. unfold buffered in *. simpl. by rewrite Hb.
        -- unfold expected, buffered in *. simpl. by rewrite Hb.
        -- unfold framing_measure. simpl. rewrite Hst. simpl. lia.
      * split; [split; [|split; [done|]]|].
        -- destruct Hg. by constructor.
        -- unfold expected, buffered in *. simpl. rewrite Hb. simpl.
           by rewrite <- HD, next_frame_bad_len.
        -- unfold framing_measure. simpl. rewrite Hst. simpl. lia.
  - by apply framing_data_ok.
  - by apply framing_split_ok.
Qed.

(** The loop implements [next_frame] over whatever arrives. *)
Lemma exit_ok_mono D m m' e : (m <= m')%nat -> exit_ok D m e -> exit_ok D m' e.
Proof.
  intros Hm. destruct e; simpl.
  - intros (?&?&?&?&?&Hor). split_and!; try done. destruct Hor; [by left|right; lia].
  - intros (?&?&?&?&?&?&?). split_and!; try done. lia.
Qed.

Lemma framing_run_ok g rx :
  framing_inv g -> rx_ok rx ->
  total (framing_run g rx) (exit_ok (expected g rx) (framing_measure (g, rx))).
Proof.
  intros Hg Hrx. unfold framing_run, framing_fuel.
  eapply run_post with
    (I := fun '(g', rx') => (framing_inv g' /\ rx_ok rx' /\ expected g' rx' = expected g rx)
                            /\ (framing_measure (g', rx') <= framing_measure (g, rx))%nat)
    (m := framing_measure); [|done|lia].
  intros [g' rx'] [(Hg' & Hrx' & HD) Hm]. eapply post_mono; [by apply framing_step_ok|].
  intros [[g'' rx'']|e]; simpl.
  - intros [? ?]. split; [split; [done|lia]|done].
  - by apply exit_ok_mono.
Qed.
End Loop.

Arguments framing_inv {F} g.
Arguments expected {F} g rx.
