(* ===== verification/EspReceive.v ===== *)
(** * ESP8266: the handshake receivers (uart2wifi.c)

    [recv_ssid], [recv_passwd] and [recv_netif_info] as written, each shown to be
    the framing loop of EspFraming.v for its own format, and what they deliver. *)
From stdpp Require Import prelude list.
From Stdlib Require Import ZArith Lia.
From S2P Require Import Prelude Memory Wire EspUart EspFraming.

Definition WPA_MAX_SSID_LEN : Z := 32.
Definition WPA_MIN_SSID_LEN : Z := 1.
Definition WPA_MAX_PASSWD_LEN : Z := 64.
Definition WPA_MIN_PASSWD_LEN : Z := 8.

(** A receiver returns with its output, or is still busy-waiting when the polls
    the environment grants are used up. *)
Inductive recv_exit (O : Type) :=
  | Received (g : esp_uart) (rx : rx_line) (output : O)
  | Polling (g : esp_uart).
Arguments Received {O} g rx output.
Arguments Polling {O} g.

Section Shared.
Context {O : Type}.

(** [ret = uart0_recv_data(uartRecvBuffer+uartRecvLen); if (ret<=0) goto restart;
    uartRecvLen += ret; goto restart;] *)
Definition recv_fill (g : esp_uart) (rx : rx_line) :
    outcome (esp_uart * rx_line + recv_exit O) :=
  let! r := poll_uart0 g rx (uartRecvLen g) in
  match r with
  | None => leave (Polling g)
  | Some (ret, g, rx) =>
      if ret <=? 0 then goto (g, rx)
      else goto (set_uartRecvLen (s16 (uartRecvLen g + ret)) g, rx)
  end.

(** [case STATUS_SPLIT]: the search for SPLIT_CMD. *)
Definition recv_scan (g : esp_uart) (rx : rx_line) :
    outcome (esp_uart * rx_line + recv_exit O) :=
  let? seen := load (uartRecvBuffer g) 0 (uartRecvLen g) in
  match split_index SPLIT_CMD seen with
  | Some i =>
      let? a := memmove (uartRecvBuffer g) 0 i (uartRecvLen g - i) in
      goto (set_status STATUS_LEN
              (set_uartRecvLen (s16 (uartRecvLen g - i)) (set_uartRecvBuffer a g)), rx)
  | None => goto (set_uartRecvLen 0 g, rx)
  end.

Definition recv_split (g : esp_uart) (rx : rx_line) :
    outcome (esp_uart * rx_line + recv_exit O) :=
  if uartRecvLen g =? 0 then
    let! r := poll_uart0 g rx 0 in
    match r with
    | None => leave (Polling g)
    | Some (ret, g, rx) =>
        if ret <=? 0 then goto (g, rx)
        else recv_scan (set_uartRecvLen (s16 (uartRecvLen g + ret)) g) rx
    end
  else recv_scan g rx.
End Shared.

(** Drop the finished frame: [nextFrameByte], the memmove, the new length. *)
Definition consume_frame (g : esp_uart) : outcome esp_uart :=
  let nextFrameByte := s16 (uartRecvLen g - (uartDataLen g + 3)) in
  if 0 <? nextFrameByte then
    let? a := memmove (uartRecvBuffer g) 0 (uartDataLen g + 3) nextFrameByte in
    Ret (set_uartRecvLen nextFrameByte (set_uartRecvBuffer a g))
  else Ret (set_uartRecvLen nextFrameByte g).

(** ** recv_ssid *)

(** [uartRecvBuffer[uartDataLen+1]!='\0' && uartRecvBuffer[uartDataLen+2] != SPLIT_CMD] *)
Definition cmd_frame_bad (g : esp_uart) : outcome bool :=
  let? nul := load1 (uartRecvBuffer g) (uartDataLen g + 1) in
  if nul =? 0 then Ret false
  else let? sp := load1 (uartRecvBuffer g) (uartDataLen g + 2) in
       Ret (negb (sp =? SPLIT_CMD)).

Definition recv_ssid_data (output : list Z) (g : esp_uart) (rx : rx_line) :
    outcome (esp_uart * rx_line + recv_exit (list Z)) :=
  if uartRecvLen g <? uartDataLen g + 3 then recv_fill g rx
  else
    let! bad := cmd_frame_bad g in
    if (bad : bool) then goto (set_status STATUS_SPLIT g, rx)
    else
      let? output := memcpy output 0 (uartRecvBuffer g) 2 (uartDataLen g) in
      let! g := consume_frame g in
      leave (Received (set_status STATUS_LEN g) rx output).

Definition recv_ssid_step (output : list Z) (l : esp_uart * rx_line) :
    outcome (esp_uart * rx_line + recv_exit (list Z)) :=
  let '(g, rx) := l in
  match status g with
  | STATUS_LEN =>
      if uartRecvLen g <? 2 then recv_fill g rx
      else
        let? dl := load_s16 (uartRecvBuffer g) 0 in
        let g := set_uartDataLen dl g in
        if (WPA_MAX_SSID_LEN <? dl) || (dl <? WPA_MIN_SSID_LEN)
        then goto (set_status STATUS_SPLIT g, rx)
        else recv_ssid_data output (set_status STATUS_DATA g) rx
  | STATUS_DATA => recv_ssid_data output g rx
  | STATUS_SPLIT => recv_split g rx
  end.

Definition recv_ssid (output : list Z) (g : esp_uart) (rx : rx_line) :
    outcome (recv_exit (list Z)) :=
  run (recv_ssid_step output) (framing_fuel g rx) (g, rx).

(** ** recv_passwd *)

Definition recv_passwd_data (output : list Z) (g : esp_uart) (rx : rx_line) :
    outcome (esp_uart * rx_line + recv_exit (list Z)) :=
  if uartRecvLen g <? uartDataLen g + 3 then recv_fill g rx
  else
    let! bad := cmd_frame_bad g in
    if (bad : bool) then goto (set_status STATUS_SPLIT g, rx)
    else
      let? output := memcpy output 0 (uartRecvBuffer g) 2 (uartDataLen g) in
      let! g := consume_frame g in
      leave (Received (set_status STATUS_LEN g) rx output).

Definition recv_passwd_step (output : list Z) (l : esp_uart * rx_line) :
    outcome (esp_uart * rx_line + recv_exit (list Z)) :=
  let '(g, rx) := l in
  match status g with
  | STATUS_LEN =>
      if uartRecvLen g <? 2 then recv_fill g rx
      else
        let? dl := load_s16 (uartRecvBuffer g) 0 in
        let g := set_uartDataLen dl g in
        if (WPA_MAX_PASSWD_LEN <? dl) || (dl <? WPA_MIN_PASSWD_LEN)
        then goto (set_status STATUS_SPLIT g, rx)
        else recv_passwd_data output (set_status STATUS_DATA g) rx
  | STATUS_DATA => recv_passwd_data output g rx
  | STATUS_SPLIT => recv_split g rx
  end.

Definition recv_passwd (output : list Z) (g : esp_uart) (rx : rx_line) :
    outcome (recv_exit (list Z)) :=
  run (recv_passwd_step output) (framing_fuel g rx) (g, rx).

(** ** recv_netif_info *)

(** [memcmp(a, b, n) != 0] *)
Definition memcmp_ne (a b : list Z) (n : Z) : outcome bool :=
  let? x := load a 0 n in
  let? y := load b 0 n in
  Ret (bool_decide (x <> y)).

Definition recv_netif_info_data (netif_info : list Z) (total_len : Z) (g : esp_uart)
    (rx : rx_line) : outcome (esp_uart * rx_line + recv_exit unit) :=
  if uartRecvLen g <? uartDataLen g + 3 then recv_fill g rx
  else
    let? sp := load1 (uartRecvBuffer g) (uartDataLen g + 2) in
    if negb (sp =? SPLIT_CMD) then goto (set_status STATUS_SPLIT g, rx)
    else
      let! ne := memcmp_ne (uartRecvBuffer g) netif_info total_len in
      if (ne : bool) then goto (set_status STATUS_SPLIT g, rx)
      else
        let! g := consume_frame g in
        leave (Received (set_status STATUS_LEN g) rx tt).

Definition recv_netif_info_step (netif_info : list Z) (total_len : Z)
    (l : esp_uart * rx_line) : outcome (esp_uart * rx_line + recv_exit unit) :=
  let '(g, rx) := l in
  match status g with
  | STATUS_LEN =>
      if uartRecvLen g <? 2 then recv_fill g rx
      else
        let? dl := load_s16 (uartRecvBuffer g) 0 in
        let g := set_uartDataLen dl g in
        let? want := load_s16 netif_info 0 in
        if negb (dl =? want) then goto (set_status STATUS_SPLIT g, rx)
        else recv_netif_info_data netif_info total_len (set_status STATUS_DATA g) rx
  | STATUS_DATA => recv_netif_info_data netif_info total_len g rx
  | STATUS_SPLIT => recv_split g rx
  end.

Definition recv_netif_info (netif_info : list Z) (total_len : Z) (g : esp_uart)
    (rx : rx_line) : outcome (recv_exit unit) :=
  run (recv_netif_info_step netif_info total_len) (framing_fuel g rx) (g, rx).

(** ** The formats *)

(** A command frame: a length between [lo] and [hi]; accepted when its payload
    ends in NUL or the terminator follows. *)
Definition cmd_format (lo hi : Z) : FrameFormat := {|
  len_ok dl := (lo <=? dl) && (dl <=? hi);
  frame_ok dl s :=
    match load1 s (dl + 1), load1 s (dl + 2) with
    | Some nul, Some sp => (nul =? 0) || (sp =? SPLIT_CMD)
    | _, _ => false
    end;
  terminator := SPLIT_CMD;
|}.

Definition ssid_format : FrameFormat := cmd_format WPA_MIN_SSID_LEN WPA_MAX_SSID_LEN.
Definition passwd_format : FrameFormat := cmd_format WPA_MIN_PASSWD_LEN WPA_MAX_PASSWD_LEN.

(** The echo of [netif_info]: exactly its own [n + 3] bytes. *)
Definition netif_format (netif_info : list Z) (n : Z) : FrameFormat := {|
  len_ok dl := dl =? n;
  frame_ok dl s :=
    match load1 s (dl + 2), load s 0 (dl + 3) with
    | Some sp, Some x => (sp =? SPLIT_CMD) && bool_decide (x = ztake (dl + 3) netif_info)
    | _, _ => false
    end;
  terminator := SPLIT_CMD;
|}.

Lemma load1_app_l s t i : i < zlen s -> load1 (s ++ t) i = load1 s i.
Proof.
  intros. unfold load1. case_if as Hi; [|done]. apply lookup_app_l. lia.
Qed.

Lemma load_app_l s t n : n <= zlen s -> load (s ++ t) 0 n = load s 0 n.
Proof.
  intros. destruct (decide (0 <= n)).
  - rewrite !load_Some by (len; lia). rewrite !drop_0, take_app_le by lia. done.
  - unfold load. replace (0 <=? n) with false by (symmetry; apply Z.leb_gt; lia). done.
Qed.

#[export] Instance cmd_format_laws lo hi : 0 <= lo -> FrameFormatLaws (cmd_format lo hi).
Proof.
  intros Hlo. split; simpl.
  - intros dl H. bool_cases. lia.
  - intros dl s t H. by rewrite !load1_app_l by lia.
Qed.

#[export] Instance netif_format_laws info n : 0 <= n -> FrameFormatLaws (netif_format info n).
Proof.
  intros Hn. split; simpl.
  - intros dl H. bool_cases. lia.
  - intros dl s t H. by rewrite load1_app_l, load_app_l by lia.
Qed.

#[export] Instance ssid_format_laws : FrameFormatLaws ssid_format.
Proof. apply cmd_format_laws. unfold WPA_MIN_SSID_LEN. lia. Qed.
#[export] Instance passwd_format_laws : FrameFormatLaws passwd_format.
Proof. apply cmd_format_laws. unfold WPA_MIN_PASSWD_LEN. lia. Qed.

(** ** The receivers are the framing loop *)

(** Between two receivers: the buffer is in order and no length word is pending. *)
Definition uart_ready (g : esp_uart) : Prop :=
  zlen (uartRecvBuffer g) = MAX_FRAME_LEN + UART_FIFO_LEN
  /\ 0 <= uartRecvLen g <= MAX_FRAME_LEN + UART_FIFO_LEN
  /\ status g <> STATUS_DATA.

Lemma uart_ready_inv {F : FrameFormat} g : uart_ready g -> framing_inv g.
Proof. intros (?&?&?). by constructor. Qed.

Lemma uart_ready_init : uart_ready esp_uart_init.
Proof. split_and!; [reflexivity|unfold MAX_FRAME_LEN, MTU_LEN, UART_FIFO_LEN; simpl; lia..|done]. Qed.

(** What follows the loop: deliver, drop the frame, return. *)
Definition finish {O} (emit : esp_uart -> outcome O) (e : framing_exit) :
    outcome (recv_exit O) :=
  match e with
  | Idle g _ => Ret (Polling g)
  | FrameReady g rx =>
      let! o := emit g in
      let! g := consume_frame g in
      Ret (Received (set_status STATUS_LEN g) rx o)
  end.

Definition emit_payload (output : list Z) (g : esp_uart) : outcome (list Z) :=
  access (memcpy output 0 (uartRecvBuffer g) 2 (uartDataLen g)).

Section Instances.
Context {O : Type} (emit : esp_uart -> outcome O).

Lemma recv_fill_framing g rx : recv_fill g rx = then_exit (finish emit) (framing_fill true g rx).
Proof.
  unfold recv_fill, framing_fill, then_exit. destruct (poll_uart0 _ _ _) as [[[[ret g'] rx']|]| |];
    simpl; try done. by destruct (ret <=? 0).
Qed.

Lemma recv_scan_framing {F : FrameFormat} g rx :
  terminator = SPLIT_CMD -> recv_scan g rx = then_exit (finish emit) (framing_scan true g rx).
Proof.
  intros Ht. unfold recv_scan, framing_scan, then_exit. rewrite Ht.
  destruct (load _ _ _) as [seen|]; simpl; [|done].
  destruct (split_index _ _) as [i|]; simpl; [|done]. by destruct (memmove _ _ _ _).
Qed.

Lemma recv_split_framing {F : FrameFormat} g rx :
  terminator = SPLIT_CMD -> recv_split g rx = then_exit (finish emit) (framing_split true g rx).
Proof.
  intros Ht. unfold recv_split, framing_split.
  destruct (uartRecvLen g =? 0); [|by apply recv_scan_framing].
  unfold then_exit at 1.
  destruct (poll_uart0 _ _ _) as [[[[ret g'] rx']|]| |]; simpl; try done.
  destruct (ret <=? 0); [done|]. by apply recv_scan_framing.
Qed.
End Instances.


(** A receiver written as the three of uart2wifi.c are is the framing loop with
    its checks, followed by its delivery. *)
Lemma receiver_framing {O} {F : FrameFormat} (emit : esp_uart -> outcome O)
    (bad_len : Z -> bool) (bad_frame : esp_uart -> outcome bool)
    (data : esp_uart -> rx_line -> outcome (esp_uart * rx_line + recv_exit O))
    (step : esp_uart * rx_line -> outcome (esp_uart * rx_line + recv_exit O)) :
  terminator = SPLIT_CMD ->
  (forall g rx, data g rx =
     if uartRecvLen g <? uartDataLen g + 3 then recv_fill g rx
     else
       let! bad := bad_frame g in
       if (bad : bool) then goto (set_status STATUS_SPLIT g, rx)
       else
         let! o := emit g in
         let! g := consume_frame g in
         leave (Received (set_status STATUS_LEN g) rx o)) ->
  (forall g rx, step (g, rx) =
     match status g with
     | STATUS_LEN =>
         if uartRecvLen g <? 2 then recv_fill g rx
         else
           let? dl := load_s16 (uartRecvBuffer g) 0 in
           let g := set_uartDataLen dl g in
           if bad_len dl then goto (set_status STATUS_SPLIT g, rx)
           else data (set_status STATUS_DATA g) rx
     | STATUS_DATA => data g rx
     | STATUS_SPLIT => recv_split g rx
     end) ->
  forall g rx, run step (framing_fuel g rx) (g, rx)
    = (let! e := framing_run true bad_len bad_frame g rx in finish emit e).
Proof.
  intros Ht Hdata Hstep g0 rx0. apply run_bind. intros [g rx].
  assert (forall g rx, data g rx = then_exit (finish emit) (framing_data true bad_frame g rx)) as Hd.
  { clear g rx. intros g rx. rewrite Hdata. unfold framing_data.
    destruct (uartRecvLen g <? uartDataLen g + 3); [apply recv_fill_framing|].
    unfold then_exit. destruct (bad_frame g) as [[|]| |]; simpl; try done.
    destruct (emit g); simpl; try done. by destruct (consume_frame g). }
  rewrite Hstep. unfold framing_step. destruct (status g).
  - destruct (uartRecvLen g <? 2); [apply recv_fill_framing|].
    destruct (load_s16 (uartRecvBuffer g) 0) as [dl|]; simpl; [|done].
    destruct (bad_len dl); [done|]. apply Hd.
  - apply Hd.
  - by apply recv_split_framing.
Qed.

Lemma recv_ssid_framing output g rx :
  recv_ssid output g rx =
    (let! e := framing_run (F := ssid_format) true
                 (fun dl => (WPA_MAX_SSID_LEN <? dl) || (dl <? WPA_MIN_SSID_LEN))
                 cmd_frame_bad g rx in
     finish (emit_payload output) e).
Proof. by apply receiver_framing with (data := recv_ssid_data output). Qed.

Lemma recv_passwd_framing output g rx :
  recv_passwd output g rx =
    (let! e := framing_run (F := passwd_format) true
                 (fun dl => (WPA_MAX_PASSWD_LEN <? dl) || (dl <? WPA_MIN_PASSWD_LEN))
                 cmd_frame_bad g rx in
     finish (emit_payload output) e).
Proof. by apply receiver_framing with (data := recv_passwd_data output). Qed.

(** The two checks of [recv_netif_info] on a complete frame. *)
Definition netif_frame_bad (netif_info : list Z) (total_len : Z) (g : esp_uart) : outcome bool :=
  let? sp := load1 (uartRecvBuffer g) (uartDataLen g + 2) in
  if negb (sp =? SPLIT_CMD) then Ret true
  else memcmp_ne (uartRecvBuffer g) netif_info total_len.

Lemma recv_netif_info_framing netif_info n g rx :
  load_s16 netif_info 0 = Some n ->
  recv_netif_info netif_info (n + 3) g rx =
    (let! e := framing_run (F := netif_format netif_info n) true
                 (fun dl => negb (dl =? n)) (netif_frame_bad netif_info (n + 3)) g rx in
     finish (fun _ => Ret tt) e).
Proof.
  intros Hn. apply receiver_framing with (data := recv_netif_info_data netif_info (n + 3)); [done| |].
  - clear g rx. intros g rx. unfold recv_netif_info_data, netif_frame_bad.
    destruct (uartRecvLen g <? uartDataLen g + 3); [done|].
    destruct (load1 _ _) as [sp|]; simpl; [|done]. destruct (negb (sp =? SPLIT_CMD)); simpl; [done|].
    by destruct (memcmp_ne _ _ _) as [[|]| |].
  - clear g rx. intros g rx. unfold recv_netif_info_step. destruct (status g); try done.
    by rewrite Hn.
Qed.

(** ** What they deliver *)

Lemma consume_frame_ok g :
  zlen (uartRecvBuffer g) = MAX_FRAME_LEN + UART_FIFO_LEN ->
  0 <= uartRecvLen g <= MAX_FRAME_LEN + UART_FIFO_LEN ->
  0 <= uartDataLen g -> uartDataLen g + 3 <= uartRecvLen g ->
  exists g', consume_frame g = Ret g' /\ uart_ready (set_status STATUS_LEN g')
    /\ buffered g' = zdrop (uartDataLen g + 3) (buffered g).
Proof.
  unfold MAX_FRAME_LEN, MTU_LEN, UART_FIFO_LEN. intros Hs Hl Hd Hf. unfold consume_frame.
  rewrite s16_small by lia. case_if as Hpos.
  - destruct (memmove_front (uartRecvBuffer g) (uartDataLen g + 3) (uartRecvLen g))
      as (a & -> & Ha & Htake); [lia..|]. simpl. eexists. split; [done|].
    split; [split_and!; simpl; unfold MAX_FRAME_LEN, MTU_LEN, UART_FIFO_LEN; try done; lia|].
    apply Htake.
  - eexists. split; [done|].
    split; [split_and!; simpl; unfold MAX_FRAME_LEN, MTU_LEN, UART_FIFO_LEN; try done; lia|].
    unfold buffered. simpl. rewrite drop_ge by (len; lia).
    replace (Z.to_nat _) with 0%nat by lia. done.
Qed.

(** The outcome of a receiver, given the frame its input denotes: it returns the
    payload and leaves exactly the rest of the input, or it is still polling. *)
Definition delivers {O} (D : option (list Z * list Z)) (out : list Z -> O)
    (e : recv_exit O) : Prop :=
  match D with
  | Some (payload, rest) =>
      exists g rx, e = Received g rx (out payload) /\ uart_ready g /\ status g = STATUS_LEN
                   /\ rx_ok rx /\ buffered g ++ concat rx = rest
  | None => exists g, e = Polling g
  end.

Lemma finish_delivers {O} {F : FrameFormat} (emit : esp_uart -> outcome O) (out : list Z -> O)
    g rx m e :
  (forall g, framing_inv g -> status g = STATUS_DATA -> uartDataLen g + 3 <= uartRecvLen g ->
     len_ok (uartDataLen g) = true ->
     emit g = Ret (out (ztake (uartDataLen g) (drop 2 (buffered g))))) ->
  (forall dl, len_ok dl = true -> 0 <= dl) ->
  exit_ok true (expected g rx) m e ->
  total (finish emit e) (delivers (expected g rx) out).
Proof.
  intros Hemit Hpos He. destruct e as [g' rx'|g' rx']; simpl in *.
  - destruct He as (Hg & Hrx & <- & Hnone & Hdone & _). rewrite Hdone by done. unfold expected.
    simpl. rewrite app_nil_r, Hnone. by exists g'.
  - destruct He as (Hg & Hrx & Hst & Hfull & _ & _ & ->). pose proof Hg as [Hs Hl Hd].
    destruct (Hd Hst) as (Hok & _). rewrite Hemit by done. simpl.
    destruct (consume_frame_ok g') as (g'' & -> & Hready & Hb); try done; [by apply Hpos|].
    simpl. exists (set_status STATUS_LEN g''), rx'. split_and!; try done.
    change (buffered (set_status STATUS_LEN g'')) with (buffered g''). by rewrite Hb.
Qed.

Lemma cmd_frame_bad_ok lo hi g :
  0 <= lo -> framing_inv (F := cmd_format lo hi) g -> status g = STATUS_DATA ->
  uartDataLen g + 3 <= uartRecvLen g ->
  cmd_frame_bad g = Ret (negb (frame_ok (FrameFormat := cmd_format lo hi) (uartDataLen g) (buffered g))).
Proof.
  intros Hlo Hg Hst Hfull. pose proof (buffered_length _ Hg) as HL.
  destruct (inv_data _ Hg Hst) as (Hok & _). simpl in Hok. bool_cases.
  unfold cmd_frame_bad. cbn [frame_ok cmd_format].
  rewrite !(load1_take (uartRecvBuffer g) _ (uartRecvLen g)) by lia. fold (buffered g).
  rewrite <- !load1_lookup by lia.
  destruct (load1_is_Some (buffered g) (uartDataLen g + 1)) as [nul ->]; [lia|].
  destruct (load1_is_Some (buffered g) (uartDataLen g + 2)) as [sp ->]; [lia|].
  simpl. by destruct (nul =? 0), (sp =? SPLIT_CMD).
Qed.

Lemma emit_payload_ok {F : FrameFormat} output g :
  framing_inv g -> status g = STATUS_DATA -> uartDataLen g + 3 <= uartRecvLen g ->
  0 <= uartDataLen g <= zlen output ->
  emit_payload output g
    = Ret (let p := ztake (uartDataLen g) (drop 2 (buffered g)) in p ++ drop (length p) output).
Proof.
  intros [Hs Hl _] Hst Hfull Hd. unfold emit_payload, memcpy.
  rewrite (load_take _ 2 (uartDataLen g) (uartRecvLen g)) by lia. fold (buffered g).
  change (Z.to_nat 2) with 2%nat. cbn [mbind option_bind].
  assert (zlen (buffered g) = uartRecvLen g) as HL by (unfold buffered; len; lia).
  rewrite store_Some by (len; lia). simpl. do 3 f_equal. lia.
Qed.

(** Overwrite the head of [output] with [p]. *)
Definition overwrite (output p : list Z) : list Z := p ++ drop (length p) output.

Lemma recv_ssid_delivers output g rx :
  framing_inv (F := ssid_format) g -> rx_ok rx -> WPA_MAX_SSID_LEN <= zlen output ->
  total (recv_ssid output g rx)
    (delivers (expected (F := ssid_format) g rx) (overwrite output)).
Proof.
  unfold WPA_MAX_SSID_LEN. intros Hg Hrx Hout. rewrite recv_ssid_framing. apply post_bind.
  eapply post_mono; [apply framing_run_ok|]; try done.
  - intros dl. simpl. unfold WPA_MAX_SSID_LEN, WPA_MIN_SSID_LEN.
    destruct (Z.ltb_spec 32 dl), (Z.ltb_spec dl 1), (Z.leb_spec 1 dl), (Z.leb_spec dl 32); lia.
  - simpl. unfold WPA_MAX_SSID_LEN, WPA_MIN_SSID_LEN, MTU_LEN. intros dl Hdl. bool_cases. lia.
  - intros g' **. by apply cmd_frame_bad_ok.
  - apply _.
  - intros e He. eapply finish_delivers; [| |exact He].
    + intros g' Hg' Hst Hfull Hok. simpl in Hok. unfold WPA_MAX_SSID_LEN, WPA_MIN_SSID_LEN in Hok.
      bool_cases. rewrite (emit_payload_ok (F := ssid_format)) by (done || lia). done.
    + simpl. unfold WPA_MIN_SSID_LEN. intros dl Hdl. bool_cases. lia.
Qed.

Lemma recv_passwd_delivers output g rx :
  framing_inv (F := passwd_format) g -> rx_ok rx -> WPA_MAX_PASSWD_LEN <= zlen output ->
  total (recv_passwd output g rx)
    (delivers (expected (F := passwd_format) g rx) (overwrite output)).
Proof.
  unfold WPA_MAX_PASSWD_LEN. intros Hg Hrx Hout. rewrite recv_passwd_framing. apply post_bind.
  eapply post_mono; [apply framing_run_ok|]; try done.
  - intros dl. simpl. unfold WPA_MAX_PASSWD_LEN, WPA_MIN_PASSWD_LEN.
    destruct (Z.ltb_spec 64 dl), (Z.ltb_spec dl 8), (Z.leb_spec 8 dl), (Z.leb_spec dl 64); lia.
  - simpl. unfold WPA_MAX_PASSWD_LEN, WPA_MIN_PASSWD_LEN, MTU_LEN. intros dl Hdl. bool_cases. lia.
  - intros g' **. by apply cmd_frame_bad_ok.
  - apply _.
  - intros e He. eapply finish_delivers; [| |exact He].
    + intros g' Hg' Hst Hfull Hok. simpl in Hok.
      unfold WPA_MAX_PASSWD_LEN, WPA_MIN_PASSWD_LEN in Hok.
      bool_cases. rewrite (emit_payload_ok (F := passwd_format)) by (done || lia). done.
    + simpl. unfold WPA_MIN_PASSWD_LEN. intros dl Hdl. bool_cases. lia.
Qed.

Lemma netif_frame_bad_ok info n g :
  0 <= n -> n + 3 <= zlen info -> framing_inv (F := netif_format info n) g ->
  status g = STATUS_DATA -> uartDataLen g + 3 <= uartRecvLen g ->
  netif_frame_bad info (n + 3) g
    = Ret (negb (frame_ok (FrameFormat := netif_format info n) (uartDataLen g) (buffered g))).
Proof.
  intros Hn Hinfo Hg Hst Hfull. pose proof (buffered_length _ Hg) as HL.
  destruct (inv_data _ Hg Hst) as (Hok & _). simpl in Hok. bool_cases.
  pose proof Hg as [Hs Hl _]. unfold netif_frame_bad, memcmp_ne. cbn [frame_ok netif_format].
  rewrite Hok in *.
  rewrite (load1_take (uartRecvBuffer g) _ (uartRecvLen g)) by lia. fold (buffered g).
  rewrite <- load1_lookup by lia.
  destruct (load1_is_Some (buffered g) (n + 2)) as [sp ->]; [lia|].
  rewrite (load_take (uartRecvBuffer g) 0 (n + 3) (uartRecvLen g)) by lia. fold (buffered g).
  rewrite !load_Some by lia. rewrite !drop_0. cbn [access mbind outcome_bind].
  destruct (sp =? SPLIT_CMD); cbn [negb andb]; [|done].
  f_equal. do 2 case_bool_decide; done.
Qed.

Lemma recv_netif_info_delivers info n g rx :
  load_s16 info 0 = Some n -> 0 <= n <= MTU_LEN -> n + 3 <= zlen info ->
  framing_inv (F := netif_format info n) g -> rx_ok rx ->
  total (recv_netif_info info (n + 3) g rx)
    (delivers (expected (F := netif_format info n) g rx) (fun _ => tt)).
Proof.
  intros Hw Hn Hinfo Hg Hrx. rewrite recv_netif_info_framing by done. apply post_bind.
  eapply post_mono; [apply framing_run_ok|]; try done.
  - simpl. intros dl Hdl. bool_cases. lia.
  - intros g' **. apply netif_frame_bad_ok; try done; lia.
  - apply netif_format_laws. lia.
  - intros e He. eapply finish_delivers; [done| |exact He]. simpl. intros dl Hdl. bool_cases. lia.
Qed.

(** ** Properties *)

(** C23. [recv_ssid], from any state another receiver leaves and for every way the
    bytes arrive in polls: it accesses nothing outside its buffers, and either it
    is still waiting because the input denotes no ssid frame yet, or it returns
    the payload of the next ssid frame and keeps exactly the rest of the input. *)
Theorem recv_ssid_next_frame output g rx :
  uart_ready g -> rx_ok rx -> WPA_MAX_SSID_LEN <= zlen output ->
  total (recv_ssid output g rx)
    (delivers (expected (F := ssid_format) g rx) (overwrite output)).
Proof. intros ? **. apply recv_ssid_delivers; try done. by apply uart_ready_inv. Qed.

(** [recv_passwd] does the same for password frames. *)
Theorem recv_passwd_next_frame output g rx :
  uart_ready g -> rx_ok rx -> WPA_MAX_PASSWD_LEN <= zlen output ->
  total (recv_passwd output g rx)
    (delivers (expected (F := passwd_format) g rx) (overwrite output)).
Proof. intros ? **. apply recv_passwd_delivers; try done. by apply uart_ready_inv. Qed.

(** C24. [recv_netif_info(info, n + 3)] returns exactly when the input denotes an
    echo of the [n + 3] bytes of [info], length word and terminator included. *)
Theorem recv_netif_info_next_frame info n g rx :
  load_s16 info 0 = Some n -> 0 <= n <= MTU_LEN -> n + 3 <= zlen info ->
  uart_ready g -> rx_ok rx ->
  total (recv_netif_info info (n + 3) g rx)
    (delivers (expected (F := netif_format info n) g rx) (fun _ => tt)).
Proof. intros ? ? ? ? **. apply recv_netif_info_delivers; try done. by apply uart_ready_inv. Qed.

(** A receiver that has consumed everything. *)
Definition uart_empty (g : esp_uart) : Prop :=
  uart_ready g /\ status g = STATUS_LEN /\ uartRecvLen g = 0.

Lemma uart_empty_init : uart_empty esp_uart_init.
Proof. split; [apply uart_ready_init|done]. Qed.

Lemma expected_empty {F : FrameFormat} g rx :
  uart_empty g -> expected g rx = next_frame (concat rx).
Proof. intros (_ & Hst & Hl). unfold expected, buffered. by rewrite Hst, Hl. Qed.

Lemma cmd_sendable lo hi c q :
  0 <= lo -> lo <= zlen q + 1 <= hi -> hi <= MTU_LEN ->
  sendable (F := cmd_format lo hi) c (q ++ [0]).
Proof.
  unfold MTU_LEN. intros Hlo Hlen Hhi. unfold sendable. rewrite length_app. cbn [length].
  split; [lia|]. split; [simpl; apply andb_true_iff; rewrite !Z.leb_le; lia|].
  unfold frame_ok, cmd_format.
  assert (put_frame c (q ++ [0]) = (put_u16 (zlen (q ++ [0])) ++ q) ++ 0 :: [c]) as ->.
  { unfold put_frame. by rewrite <- !app_assoc. }
  rewrite load1_app_r by (unfold put_u16; len; lia).
  replace (Z.of_nat (length q + 1) + 2) with (zlen ((put_u16 (zlen (q ++ [0])) ++ q) ++ [0]))
    by (unfold put_u16; len; lia).
  rewrite cons_middle, app_assoc. by rewrite load1_app_r.
Qed.

(** The terminator of a NUL-terminated ssid is not checked: whatever byte ends
    the frame, [recv_ssid] accepts it (its condition joins the two checks with
    [&&], so one of them is enough). *)
Theorem recv_ssid_any_terminator output g rx q c rest :
  uart_empty g -> rx_ok rx -> WPA_MAX_SSID_LEN <= zlen output ->
  zlen q + 1 <= WPA_MAX_SSID_LEN -> concat rx = put_frame c (q ++ [0]) ++ rest ->
  total (recv_ssid output g rx) (delivers (Some (q ++ [0], rest)) (overwrite output)).
Proof.
  unfold WPA_MAX_SSID_LEN. intros Hg Hrx Hout Hq Hline.
  rewrite <- (next_frame_put (F := ssid_format) c), <- Hline, <- (expected_empty g rx Hg).
  2: { apply cmd_sendable; unfold WPA_MIN_SSID_LEN, WPA_MAX_SSID_LEN, MTU_LEN; lia. }
  apply recv_ssid_delivers; try done. destruct Hg as [Hg _]. by apply uart_ready_inv.
Qed.

(** ** Witnesses *)

Ltac rx_line_ok :=
  repeat constructor; unfold chunk_ok, UART_FIFO_LEN; vm_compute; discriminate.

Definition witness_line : rx_line := [[3; 0; 97]; []; [98; 0; SPLIT_CMD; 7]].
Lemma witness_line_ok : rx_ok witness_line.
Proof. rx_line_ok. Qed.

Lemma recv_ssid_next_frame_witness :
  total (recv_ssid (replicate 32 0) esp_uart_init witness_line)
    (delivers (expected (F := ssid_format) esp_uart_init witness_line) (overwrite (replicate 32 0)))
  /\ expected (F := ssid_format) esp_uart_init witness_line = Some ([97; 98; 0], [7]).
Proof.
  split; [|vm_compute; reflexivity].
  apply recv_ssid_next_frame; [apply uart_ready_init|apply witness_line_ok|vm_compute; discriminate].
Defined.

Definition witness_passwd : rx_line := [[9; 9; SPLIT_CMD; 8]; [0; 97; 98; 99; 100; 101; 102; 103; 0; SPLIT_CMD]].
Lemma recv_passwd_next_frame_witness :
  total (recv_passwd (replicate 64 0) esp_uart_init witness_passwd)
    (delivers (expected (F := passwd_format) esp_uart_init witness_passwd)
       (overwrite (replicate 64 0)))
  /\ expected (F := passwd_format) esp_uart_init witness_passwd
     = Some ([97; 98; 99; 100; 101; 102; 103; 0], []).
Proof.
  split; [|vm_compute; reflexivity].
  apply recv_passwd_next_frame; [apply uart_ready_init|rx_line_ok|vm_compute; discriminate].
Defined.

Definition witness_info : list Z := [12; 0; 192; 168; 0; 2; 255; 255; 255; 0; 192; 168; 0; 1; SPLIT_CMD].
Lemma recv_netif_info_next_frame_witness :
  total (recv_netif_info witness_info (12 + 3) esp_uart_init [witness_info; [1]])
    (delivers (expected (F := netif_format witness_info 12) esp_uart_init [witness_info; [1]])
       (fun _ => tt))
  /\ expected (F := netif_format witness_info 12) esp_uart_init [witness_info; [1]]
     = Some (ztake 12 (drop 2 witness_info), [1]).
Proof.
  split; [|vm_compute; reflexivity].
  apply recv_netif_info_next_frame; [reflexivity|unfold MTU_LEN; lia|simpl; lia|apply uart_ready_init|].
  rx_line_ok.
Defined.

Lemma recv_ssid_any_terminator_witness :
  total (recv_ssid (replicate 32 0) esp_uart_init [[3; 0; 97; 98; 0; 13; 7]])
    (delivers (Some ([97; 98; 0], [7])) (overwrite (replicate 32 0))).
Proof.
  apply (recv_ssid_any_terminator _ _ _ [97; 98] 13 [7]);
    [apply uart_empty_init|rx_line_ok|vm_compute; discriminate|vm_compute; discriminate|reflexivity].
Defined.
