(* ===== verification/EspUart2wifi.v ===== *)
(** * ESP8266: from the UART to the air (uart2wifi.c, [uart2wifi])

    One call moves at most one IP packet from the UART to the Wi-Fi interface.
    pbuf allocation and the interface's output function belong to the SDK: a call
    is given the answer of each.  The theorems say that no sequence of calls
    loses, duplicates or reorders a packet, whatever the polls and the failures,
    and that calls which do not fail deliver everything that has arrived. *)
From stdpp Require Import prelude list.
From Stdlib Require Import ZArith Lia.
From S2P Require Import Prelude Memory Wire EspUart EspFraming EspReceive.

(** The globals: the receive machine, the pbuf of a packet whose output has not
    succeeded yet, and [dest], which points into that pbuf's payload. *)
Record esp_wifi := mk_esp_wifi {
  uart : esp_uart;
  send_pbuf : option (list Z);
  dest : option Z;
}.

Definition esp_wifi_init : esp_wifi := mk_esp_wifi esp_uart_init None None.

(** The SDK's answers during one call: does [pbuf_alloc] succeed, and what does
    [target_wifi_netif->output] return for a packet and its destination. *)
Record wifi_env := mk_wifi_env {
  pbuf_alloc_ok : bool;
  netif_output : list Z -> list Z -> Z;
}.

(** [struct ip_hdr]: the destination address is at offset 16, 4 bytes. *)
Definition IP_HDR_DEST : Z := 16.

(** The call has returned; the packet handed over, with its destination. *)
Inductive uart2wifi_exit :=
  | Returned (w : esp_wifi) (rx : rx_line) (sent : option (list Z * list Z)).

Section Uart2wifi.
Context (env : wifi_env) (sp : option (list Z)) (dst : option Z).

Definition uart2wifi_fill (g : esp_uart) (rx : rx_line) :
    outcome (esp_uart * rx_line + uart2wifi_exit) :=
  let! r := poll_uart0 g rx (uartRecvLen g) in
  match r with
  | None => leave (Returned (mk_esp_wifi g sp dst) rx None)
  | Some (ret, g, rx) =>
      if ret <=? 0 then leave (Returned (mk_esp_wifi g sp dst) rx None)
      else goto (set_uartRecvLen (s16 (uartRecvLen g + ret)) g, rx)
  end.

(** [if (!send_pbuf) { send_pbuf = pbuf_alloc(..); memcpy; dest = ..; }] *)
Definition prepare_pbuf (g : esp_uart) : outcome (option (list Z * Z)) :=
  match sp, dst with
  | Some p, Some d => Ret (Some (p, d))
  | Some _, None => Undef
  | None, _ =>
      if pbuf_alloc_ok env then
        let? payload := load (uartRecvBuffer g) 2 (uartDataLen g) in
        Ret (Some (payload, IP_HDR_DEST))
      else Ret None
  end.

(** From the accepted frame to [return]. *)
Definition uart2wifi_send (g : esp_uart) (rx : rx_line) : outcome uart2wifi_exit :=
  let! pb := prepare_pbuf g in
  match pb with
  | None => Ret (Returned (mk_esp_wifi g None dst) rx None)
  | Some (p, d) =>
      let? ip_dest := load p d 4 in
      if negb (netif_output env p ip_dest =? 0)
      then Ret (Returned (mk_esp_wifi g (Some p) (Some d)) rx None)
      else
        let! g := consume_frame g in
        Ret (Returned (mk_esp_wifi (set_status STATUS_LEN g) None (Some d)) rx
               (Some (p, ip_dest)))
  end.

Definition uart2wifi_data (g : esp_uart) (rx : rx_line) :
    outcome (esp_uart * rx_line + uart2wifi_exit) :=
  if uartRecvLen g <? uartDataLen g + 3 then uart2wifi_fill g rx
  else
    let? b := load1 (uartRecvBuffer g) (uartDataLen g + 2) in
    if negb (b =? SPLIT_DATA) then goto (set_status STATUS_SPLIT g, rx)
    else let! e := uart2wifi_send g rx in leave e.

Definition uart2wifi_scan (g : esp_uart) (rx : rx_line) :
    outcome (esp_uart * rx_line + uart2wifi_exit) :=
  let? seen := load (uartRecvBuffer g) 0 (uartRecvLen g) in
  match split_index SPLIT_DATA seen with
  | Some skip =>
      let? a := memmove (uartRecvBuffer g) 0 skip (uartRecvLen g - skip) in
      goto (set_status STATUS_LEN
              (set_uartRecvLen (s16 (uartRecvLen g - skip)) (set_uartRecvBuffer a g)), rx)
  | None => leave (Returned (mk_esp_wifi (set_uartRecvLen 0 g) sp dst) rx None)
  end.

Definition uart2wifi_split (g : esp_uart) (rx : rx_line) :
    outcome (esp_uart * rx_line + uart2wifi_exit) :=
  if uartRecvLen g =? 0 then
    let! r := poll_uart0 g rx 0 in
    match r with
    | None => leave (Returned (mk_esp_wifi g sp dst) rx None)
    | Some (ret, g, rx) =>
        if ret <=? 0 then leave (Returned (mk_esp_wifi g sp dst) rx None)
        else uart2wifi_scan (set_uartRecvLen (s16 (uartRecvLen g + ret)) g) rx
    end
  else uart2wifi_scan g rx.

Definition uart2wifi_step (l : esp_uart * rx_line) :
    outcome (esp_uart * rx_line + uart2wifi_exit) :=
  let '(g, rx) := l in
  match status g with
  | STATUS_LEN =>
      if uartRecvLen g <? 2 then uart2wifi_fill g rx
      else
        let? dl := load_s16 (uartRecvBuffer g) 0 in
        let g := set_uartDataLen dl g in
        if (MTU_LEN <? dl) || (dl <? 20) then goto (set_status STATUS_SPLIT g, rx)
        else uart2wifi_data (set_status STATUS_DATA g) rx
  | STATUS_DATA => uart2wifi_data g rx
  | STATUS_SPLIT => uart2wifi_split g rx
  end.
End Uart2wifi.

(** One call.  The loop leaves [send_pbuf] and [dest] alone until it returns. *)
Definition uart2wifi (env : wifi_env) (w : esp_wifi) (rx : rx_line) : outcome uart2wifi_exit :=
  run (uart2wifi_step env (send_pbuf w) (dest w)) (framing_fuel (uart w) rx) (uart w, rx).

(** The calls the main loop makes, each with its own environment. *)
Fixpoint uart2wifi_calls (envs : list wifi_env) (w : esp_wifi) (rx : rx_line) :
    outcome (esp_wifi * rx_line * list (list Z * list Z)) :=
  match envs with
  | [] => Ret (w, rx, [])
  | env :: envs =>
      let! ' (Returned w rx sent) := uart2wifi env w rx in
      let! ' (w, rx, out) := uart2wifi_calls envs w rx in
      Ret (w, rx, option_list sent ++ out)
  end.

(** ** Format and framing *)

Definition data_format : FrameFormat := {|
  len_ok dl := (20 <=? dl) && (dl <=? MTU_LEN);
  frame_ok dl s := match load1 s (dl + 2) with Some b => b =? SPLIT_DATA | None => false end;
  terminator := SPLIT_DATA;
|}.

#[export] Instance data_format_laws : FrameFormatLaws data_format.
Proof.
  split; simpl.
  - intros dl H. bool_cases. lia.
  - intros dl s t H. by rewrite load1_app_l by lia.
Qed.

Definition data_frame_bad (g : esp_uart) : outcome bool :=
  let? b := load1 (uartRecvBuffer g) (uartDataLen g + 2) in Ret (negb (b =? SPLIT_DATA)).

Definition uart2wifi_finish (env : wifi_env) (sp : option (list Z)) (dst : option Z)
    (e : framing_exit) : outcome uart2wifi_exit :=
  match e with
  | Idle g rx => Ret (Returned (mk_esp_wifi g sp dst) rx None)
  | FrameReady g rx => uart2wifi_send env sp dst g rx
  end.

Section Framing.
Context (env : wifi_env) (sp : option (list Z)) (dst : option Z).
Let k := uart2wifi_finish env sp dst.

Lemma uart2wifi_fill_framing g rx :
  uart2wifi_fill sp dst g rx = then_exit k (framing_fill false g rx).
Proof.
  unfold uart2wifi_fill, framing_fill, then_exit.
  destruct (poll_uart0 _ _ _) as [[[[ret ?] ?]|]| |]; simpl; try done. by destruct (ret <=? 0).
Qed.

Lemma uart2wifi_scan_framing g rx :
  uart2wifi_scan sp dst g rx = then_exit k (framing_scan (F := data_format) false g rx).
Proof.
  unfold uart2wifi_scan, framing_scan, then_exit.
  destruct (load _ _ _) as [seen|]; simpl; [|done].
  destruct (split_index _ _) as [i|]; simpl; [|done]. by destruct (memmove _ _ _ _).
Qed.

Lemma uart2wifi_split_framing g rx :
  uart2wifi_split sp dst g rx = then_exit k (framing_split (F := data_format) false g rx).
Proof.
  unfold uart2wifi_split, framing_split.
  destruct (uartRecvLen g =? 0); [|apply uart2wifi_scan_framing].
  unfold then_exit at 1.
  destruct (poll_uart0 _ _ _) as [[[[ret g'] rx'']|]| |]; simpl; try done.
  destruct (ret <=? 0); [done|]. apply uart2wifi_scan_framing.
Qed.

Lemma uart2wifi_data_framing g rx :
  uart2wifi_data env sp dst g rx = then_exit k (framing_data false data_frame_bad g rx).
Proof.
  unfold uart2wifi_data, framing_data.
  destruct (uartRecvLen g <? uartDataLen g + 3); [apply uart2wifi_fill_framing|].
  unfold then_exit, data_frame_bad. destruct (load1 _ _) as [b|]; simpl; [|done].
  by destruct (negb (b =? SPLIT_DATA)).
Qed.
End Framing.

Definition data_bad_len (dl : Z) : bool := (MTU_LEN <? dl) || (dl <? 20).

Lemma uart2wifi_framing env w rx :
  uart2wifi env w rx =
    (let! e := framing_run (F := data_format) false data_bad_len data_frame_bad (uart w) rx in
     uart2wifi_finish env (send_pbuf w) (dest w) e).
Proof.
  unfold uart2wifi, framing_run. apply run_bind. intros [g rx'].
  change (uart2wifi_step env (send_pbuf w) (dest w) (g, rx')
    = then_exit (uart2wifi_finish env (send_pbuf w) (dest w))
        (framing_step (F := data_format) false data_bad_len data_frame_bad (g, rx'))).
  unfold uart2wifi_step, framing_step. destruct (status g).
  - destruct (uartRecvLen g <? 2); [apply uart2wifi_fill_framing|].
    destruct (load_s16 (uartRecvBuffer g) 0) as [dl|]; simpl; [|done].
    unfold data_bad_len. destruct ((MTU_LEN <? dl) || (dl <? 20)); [done|].
    apply uart2wifi_data_framing.
  - apply uart2wifi_data_framing.
  - apply uart2wifi_split_framing.
Qed.

(** ** Correctness *)

(** A complete, accepted frame with payload [p] heads the buffer. *)
Definition frame_pending (g : esp_uart) (p : list Z) : Prop :=
  status g = STATUS_DATA /\ uartDataLen g + 3 <= uartRecvLen g
  /\ frame_ok (FrameFormat := data_format) (uartDataLen g) (buffered g) = true
  /\ p = ztake (uartDataLen g) (drop 2 (buffered g)).

(** The receive machine is in order, and a pbuf kept for a retry holds the
    packet that still heads the buffer. *)
Definition wifi_inv (w : esp_wifi) : Prop :=
  framing_inv (F := data_format) (uart w)
  /\ match send_pbuf w with
     | None => True
     | Some p => dest w = Some IP_HDR_DEST /\ frame_pending (uart w) p
     end.

(** All packets buffered or still to arrive. *)
Definition pending_packets (w : esp_wifi) (rx : rx_line) : list (list Z) :=
  deframe_from (F := data_format) (status (uart w)) (buffered (uart w) ++ concat rx).

Definition wifi_measure (w : esp_wifi) (rx : rx_line) : nat := framing_measure (uart w, rx).

Definition ip_dest (p : list Z) : list Z := ztake 4 (zdrop IP_HDR_DEST p).

(** The SDK refuses nothing. *)
Definition env_ok (env : wifi_env) : Prop :=
  pbuf_alloc_ok env = true /\ forall p d, netif_output env p d = 0.

Lemma data_len_range dl :
  len_ok (FrameFormat := data_format) dl = true -> 20 <= dl <= MTU_LEN.
Proof. simpl. intros. bool_cases. lia. Qed.

Lemma data_bad_len_ok dl : data_bad_len dl = negb (len_ok (FrameFormat := data_format) dl).
Proof.
  unfold data_bad_len. simpl. unfold MTU_LEN.
  destruct (Z.ltb_spec 1500 dl), (Z.ltb_spec dl 20), (Z.leb_spec 20 dl), (Z.leb_spec dl 1500); lia.
Qed.

Lemma data_frame_bad_ok g :
  framing_inv (F := data_format) g -> status g = STATUS_DATA ->
  uartDataLen g + 3 <= uartRecvLen g ->
  data_frame_bad g = Ret (negb (frame_ok (FrameFormat := data_format) (uartDataLen g) (buffered g))).
Proof.
  intros Hg Hst Hfull. pose proof (buffered_length _ Hg) as HL.
  destruct (inv_data _ Hg Hst) as (Hok & _). apply data_len_range in Hok.
  unfold data_frame_bad. cbn [frame_ok data_format].
  rewrite !(load1_take (uartRecvBuffer g) _ (uartRecvLen g)) by lia. fold (buffered g).
  rewrite <- !load1_lookup by lia.
  by destruct (load1_is_Some (buffered g) (uartDataLen g + 2)) as [b ->]; [lia|].
Qed.

Lemma data_framing_ok g rx :
  framing_inv (F := data_format) g -> rx_ok rx ->
  total (framing_run (F := data_format) false data_bad_len data_frame_bad g rx)
    (exit_ok (F := data_format) false (expected (F := data_format) g rx) (framing_measure (g, rx))).
Proof.
  intros. apply framing_run_ok; try done; [apply data_bad_len_ok| |apply data_frame_bad_ok|apply _].
  intros dl Hdl%data_len_range. lia.
Qed.

(** With a frame pending the loop stops at once, at that frame. *)
Lemma data_framing_pending g p rx :
  framing_inv (F := data_format) g -> frame_pending g p ->
  framing_run (F := data_format) false data_bad_len data_frame_bad g rx = Ret (FrameReady g rx).
Proof.
  intros Hg (Hst & Hfull & Hok & _). unfold framing_run, framing_fuel. simpl. rewrite Hst.
  unfold framing_data. replace (uartRecvLen g <? uartDataLen g + 3) with false
    by (symmetry; apply Z.ltb_ge; lia).
  rewrite data_frame_bad_ok, Hok by done. done.
Qed.

(** What one call guarantees. *)
Record call_ok (env : wifi_env) (w : esp_wifi) (rx : rx_line) (w' : esp_wifi) (rx' : rx_line)
    (sent : option (list Z * list Z)) : Prop := {
  call_inv : wifi_inv w' /\ rx_ok rx';
  call_lossless : pending_packets w rx = (option_list sent).*1 ++ pending_packets w' rx';
  call_sent : forall p d, sent = Some (p, d) -> d = ip_dest p /\ 20 <= zlen p <= MTU_LEN;
  call_progress : env_ok env ->
    (wifi_measure w' rx' < wifi_measure w rx)%nat
    \/ (sent = None /\ pending_packets w' rx' = []);
}.

Section Send.
Context (env : wifi_env) (sp : option (list Z)) (dst : option Z) (g : esp_uart) (rx : rx_line)
  (p : list Z) (m : nat).
Context (Hg : framing_inv (F := data_format) g) (Hrx : rx_ok rx) (Hp : frame_pending g p)
  (Hsp : match sp with None => True | Some q => dst = Some IP_HDR_DEST /\ q = p end).

Lemma pending_packets_ready w :
  uart w = g -> pending_packets w rx
    = p :: deframe (F := data_format) (zdrop (uartDataLen g + 3) (buffered g) ++ concat rx).
Proof using Hg Hp.
  clear Hsp. intros Hw. unfold pending_packets. rewrite Hw. destruct Hp as (Hst & Hfull & Hok & ->).
  rewrite Hst, deframe_from_sync, deframe_unfold by done.
  pose proof (buffered_length _ Hg) as HL. destruct (inv_data _ Hg Hst) as (Hlen & H2 & Hw0).
  destruct (buffered_head g Hg H2) as (lo & hi & bs & Hb & _). rewrite Hb, load_s16_cons in *.
  injection Hw0 as Hw0. rewrite (next_frame_app _ (concat rx) (ztake (uartDataLen g) bs)
    (zdrop (uartDataLen g + 3) (lo :: hi :: bs))); [done|].
  rewrite next_frame_good; rewrite ?Hw0; try done. lia.
Qed.

Lemma pending_length : zlen p = uartDataLen g /\ 20 <= zlen p <= MTU_LEN.
Proof using Hg Hp.
  clear Hsp. destruct Hp as (Hst & Hfull & _ & ->). pose proof (buffered_length _ Hg) as HL.
  destruct (inv_data _ Hg Hst) as (Hlen%data_len_range & _). len. lia.
Qed.

Lemma prepare_pbuf_ok :
  prepare_pbuf env sp dst g = Ret (Some (p, IP_HDR_DEST))
  \/ (prepare_pbuf env sp dst g = Ret None /\ pbuf_alloc_ok env = false /\ sp = None).
Proof.
  unfold prepare_pbuf. destruct sp as [q|].
  - destruct Hsp as [-> ->]. by left.
  - destruct (pbuf_alloc_ok env); [left|by right]. destruct Hp as (Hst & Hfull & _ & ->).
    destruct (inv_data _ Hg Hst) as (Hlen%data_len_range & _). destruct Hg as [Hs Hl _].
    rewrite (load_take _ 2 (uartDataLen g) (uartRecvLen g)) by lia. by destruct dst.
Qed.

Lemma uart2wifi_send_ok w :
  uart w = g -> (framing_measure (g, rx) <= m)%nat ->
  total (uart2wifi_send env sp dst g rx) (fun '(Returned w' rx' sent) =>
    wifi_inv w' /\ rx_ok rx' /\ pending_packets w rx = (option_list sent).*1 ++ pending_packets w' rx'
    /\ (forall q d, sent = Some (q, d) -> d = ip_dest q /\ 20 <= zlen q <= MTU_LEN)
    /\ (env_ok env -> (wifi_measure w' rx' < m)%nat)).
Proof.
  intros Hw Hm. pose proof pending_length as [Hlen Hrange]. unfold uart2wifi_send.
  destruct prepare_pbuf_ok as [->|(-> & Halloc & ->)]; simpl.
  2: { split_and!; try done; [by rewrite !(pending_packets_ready _) by done|].
       intros [? _]. congruence. }
  unfold MTU_LEN in *. rewrite load_Some by (unfold IP_HDR_DEST; lia). cbn [access mbind outcome_bind].
  fold (ip_dest p). destruct (Z.eqb_spec (netif_output env p (ip_dest p)) 0) as [H0|Hne]; simpl.
  - destruct Hp as (Hst & Hfull & _). destruct (inv_data _ Hg Hst) as (Hok%data_len_range & _).
    pose proof Hg as [Hs Hl _].
    destruct (consume_frame_ok g) as (g' & -> & Hready & Hb); try done; [lia|]. simpl.
    pose proof (uart_ready_inv (F := data_format) _ Hready) as Hinv.
    split_and!; try done.
    + rewrite (pending_packets_ready w) by done. simpl. unfold pending_packets. simpl.
      rewrite deframe_from_sync by done.
      change (buffered (set_status STATUS_LEN g')) with (buffered g'). by rewrite Hb.
    + intros q d [= <- <-]. done.
    + intros _. unfold wifi_measure. simpl. pose proof (buffered_length _ Hinv) as HL'.
      change (buffered (set_status STATUS_LEN g')) with (buffered g') in HL'.
      pose proof (buffered_length _ Hg) as HL. rewrite Hb in HL'. simpl in HL'.
      revert HL' Hm. unfold framing_measure. simpl. rewrite Hst. len. simpl. lia.
  - split_and!; try done; [by rewrite !(pending_packets_ready _) by done|].
    intros [_ Hok]. by rewrite Hok in Hne.
Qed.
End Send.

Lemma pending_packets_eq w rx w' rx' :
  expected (F := data_format) (uart w) rx = expected (F := data_format) (uart w') rx' ->
  pending_packets w rx = pending_packets w' rx'.
Proof. unfold expected, pending_packets, deframe_from. by intros ->. Qed.

Lemma uart2wifi_ok env w rx :
  wifi_inv w -> rx_ok rx ->
  total (uart2wifi env w rx) (fun '(Returned w' rx' sent) => call_ok env w rx w' rx' sent).
Proof.
  intros [Hg Hsp] Hrx. rewrite uart2wifi_framing. destruct w as [g sp dst]. simpl in *.
  destruct sp as [p|].
  - destruct Hsp as [-> Hp]. rewrite (data_framing_pending _ _ _ Hg Hp). simpl.
    eapply post_mono;
      [by apply (uart2wifi_send_ok env (Some p) (Some IP_HDR_DEST) g rx p (framing_measure (g, rx)) Hg Hrx Hp
                   (conj eq_refl eq_refl) (mk_esp_wifi g (Some p) (Some IP_HDR_DEST)))|].
    intros [w' rx' sent] (?&?&?&?&?). constructor; try done. intros. by left; auto.
  - apply post_bind. eapply post_mono; [by apply data_framing_ok|].
    intros [g' rx'|g' rx'] He; simpl in He |- *.
    + destruct He as (Hg' & Hrx' & Hexp & Hnone & _ & Hm). constructor; try done.
      * by apply pending_packets_eq.
      * intros _. destruct Hm as [->|Hm]; [right|by left]. split; [done|].
        unfold pending_packets, deframe_from. simpl. by rewrite app_nil_r, Hnone.
    + destruct He as (Hg' & Hrx' & Hst & Hfull & Hok & Hm & Hexp).
      set (p := ztake (uartDataLen g') (drop 2 (buffered g'))) in *.
      assert (frame_pending g' p) as Hp by done.
      eapply post_mono;
        [by apply (uart2wifi_send_ok env None dst g' rx' p (framing_measure (g, rx)) Hg' Hrx' Hp
                     I (mk_esp_wifi g' None dst))|].
      intros [w' rx'' sent] (?&?&Hl&?&?). constructor; try done; [|by left; auto].
      rewrite <- Hl, (pending_packets_ready g' rx' p) by done.
      unfold pending_packets, deframe_from. unfold expected in Hexp. simpl. by rewrite Hexp.
Qed.

Lemma uart2wifi_calls_ok envs w rx :
  wifi_inv w -> rx_ok rx ->
  total (uart2wifi_calls envs w rx) (fun '(w', rx', out) =>
    (wifi_inv w' /\ rx_ok rx') /\ pending_packets w rx = out.*1 ++ pending_packets w' rx'
    /\ Forall (fun '(p, d) => d = ip_dest p /\ 20 <= zlen p <= MTU_LEN) out
    /\ (Forall env_ok envs -> (wifi_measure w rx < length envs)%nat ->
        pending_packets w' rx' = [])).
Proof.
  revert w rx. induction envs as [|env envs IH]; intros w rx Hw Hrx; simpl.
  { split_and!; try done. lia. }
  apply post_bind. eapply post_mono; [by apply uart2wifi_ok|].
  intros [w1 rx1 sent] [[Hw1 Hrx1] Hl1 Hs1 Hp1]. apply post_bind.
  eapply post_mono; [by apply (IH w1 rx1)|]. intros [[w' rx'] out] ([Hinv Hrx''] & Hl & Hs & Hp). simpl.
  split_and!; try done.
  - rewrite fmap_app, <- app_assoc, <- Hl. done.
  - apply Forall_app. split; [|done]. destruct sent as [[p d]|]; [|done].
    apply Forall_singleton. by apply Hs1.
  - intros [Henv Henvs]%Forall_cons Hm. destruct (Hp1 Henv) as [Hlt|[_ Hnil]]; [apply Hp; [done|lia]|].
    rewrite Hl in Hnil. by apply app_eq_nil in Hnil as [_ ?].
Qed.

(** ** Properties *)

(** C11. No sequence of calls loses, duplicates, reorders or corrupts a packet,
    whatever the polls deliver and however often pbuf allocation or the output
    function fails: what was pending is what was sent, in order, followed by what
    is still pending.  Each packet goes to the destination in its own IP header. *)
Theorem uart2wifi_lossless envs w rx :
  wifi_inv w -> rx_ok rx ->
  total (uart2wifi_calls envs w rx) (fun '(w', rx', out) =>
    wifi_inv w' /\ pending_packets w rx = out.*1 ++ pending_packets w' rx'
    /\ Forall (fun '(p, d) => d = ip_dest p /\ 20 <= zlen p <= MTU_LEN) out).
Proof.
  intros. eapply post_mono; [by apply uart2wifi_calls_ok|].
  intros [[w' rx'] out] ((?&?)&?&?&_). by split_and!.
Qed.

Lemma wifi_inv_init : wifi_inv esp_wifi_init.
Proof. split; [apply uart_ready_inv, uart_ready_init|done]. Qed.

(** Packets the host sends. *)
Definition ip_packet (p : list Z) : Prop := 20 <= zlen p <= MTU_LEN.

Lemma ip_packet_sendable p : ip_packet p -> sendable (F := data_format) SPLIT_DATA p.
Proof.
  unfold ip_packet, MTU_LEN, sendable. intros Hp. split; [lia|]. split.
  - simpl. apply andb_true_iff. unfold MTU_LEN. rewrite !Z.leb_le. lia.
  - unfold frame_ok, data_format, put_frame. rewrite app_assoc, load1_app_r; [done|].
    unfold put_u16. len. lia.
Qed.

Lemma pending_packets_init rx ps s :
  Forall ip_packet ps -> concat rx = put_frames SPLIT_DATA ps ++ s ->
  pending_packets esp_wifi_init rx = ps ++ deframe (F := data_format) s.
Proof.
  intros Hps Hrx. unfold pending_packets. rewrite deframe_from_sync by done.
  change (buffered (uart esp_wifi_init)) with (@nil Z). rewrite app_nil_l, Hrx.
  apply deframe_put_frames. eapply Forall_impl; [done|]. apply ip_packet_sendable.
Qed.

Lemma uart2wifi_calls_deframe envs rx :
  rx_ok rx -> Forall env_ok envs -> (wifi_measure esp_wifi_init rx < length envs)%nat ->
  total (uart2wifi_calls envs esp_wifi_init rx) (fun '(_, _, out) =>
    out = (fun p => (p, ip_dest p)) <$> deframe (F := data_format) (concat rx)).
Proof.
  intros Hrx Henvs Hm. eapply post_mono; [apply uart2wifi_calls_ok; [apply wifi_inv_init|done]|].
  intros [[w' rx'] out] (_ & Hl & Hd & Hdone). rewrite Hdone, app_nil_r in Hl by done.
  unfold pending_packets in Hl. rewrite deframe_from_sync in Hl by done.
  change (buffered (uart esp_wifi_init)) with (@nil Z) in Hl. rewrite app_nil_l in Hl. rewrite Hl. clear -Hd.
  induction Hd as [|[p d] out [-> _] _ IH]; [done|]. csimpl. by f_equal.
Qed.

Lemma uart2wifi_calls_deliver envs rx ps :
  Forall ip_packet ps -> rx_ok rx -> concat rx = put_frames SPLIT_DATA ps ->
  Forall env_ok envs -> (wifi_measure esp_wifi_init rx < length envs)%nat ->
  total (uart2wifi_calls envs esp_wifi_init rx) (fun '(_, _, out) =>
    out = (fun p => (p, ip_dest p)) <$> ps).
Proof.
  intros Hps Hrx Hline Henvs Hm. eapply post_mono; [by apply uart2wifi_calls_deframe|].
  intros [[w' rx'] out] ->. f_equal. rewrite <- (app_nil_r ps), Hline at 1.
  rewrite <- (app_nil_r (put_frames SPLIT_DATA ps)), deframe_put_frames; [done|].
  eapply Forall_impl; [done|]. apply ip_packet_sendable.
Qed.

(** C12. The receiver is equivalent to the reference parser: for arbitrary bytes, noise
    included, enough calls of [uart2wifi] hand over exactly the packets [deframe] finds
    in them, each to its own destination - so that how the bytes are cut into polls, and
    where the FIFO was empty, makes no difference. *)
Theorem uart2wifi_is_deframe envs rx :
  rx_ok rx -> Forall env_ok envs -> (wifi_measure esp_wifi_init rx < length envs)%nat ->
  total (uart2wifi_calls envs esp_wifi_init rx) (fun '(_, _, out) =>
    out = (fun p => (p, ip_dest p)) <$> deframe (F := data_format) (concat rx)).
Proof. apply uart2wifi_calls_deframe. Qed.

(** Round trip: when the line carries the frames of [ps], cut into polls in any
    way, and the SDK refuses nothing, enough calls of [uart2wifi] hand exactly
    [ps] to the Wi-Fi interface, in order and each once. *)
Theorem uart2wifi_delivers envs rx ps :
  Forall ip_packet ps -> rx_ok rx -> concat rx = put_frames SPLIT_DATA ps ->
  Forall env_ok envs -> (wifi_measure esp_wifi_init rx < length envs)%nat ->
  total (uart2wifi_calls envs esp_wifi_init rx) (fun '(_, _, out) =>
    out = (fun p => (p, ip_dest p)) <$> ps).
Proof. apply uart2wifi_calls_deliver. Qed.

(** The machine is looking for a terminator. *)
Definition out_of_sync (w : esp_wifi) : Prop :=
  status (uart w) = STATUS_SPLIT /\ uartRecvLen (uart w) = 0.

(** Resynchronisation: in STATUS_SPLIT, after any garbage without a SPLIT_DATA
    byte, one SPLIT_DATA realigns the receiver and every following packet is
    delivered. *)
Theorem uart2wifi_resyncs envs w rx g ps :
  wifi_inv w -> out_of_sync w -> rx_ok rx -> (SPLIT_DATA ∉ g) -> Forall ip_packet ps ->
  concat rx = g ++ SPLIT_DATA :: put_frames SPLIT_DATA ps ->
  Forall env_ok envs -> (wifi_measure w rx < length envs)%nat ->
  total (uart2wifi_calls envs w rx) (fun '(_, _, out) => out.*1 = ps).
Proof.
  intros Hw [Hst Hl0] Hrx Hg Hps Hline Henvs Hm.
  eapply post_mono; [by apply uart2wifi_calls_ok|].
  intros [[w' rx'] out] (_ & Hl & _ & Hdone). rewrite Hdone, app_nil_r in Hl by done.
  rewrite <- Hl. unfold pending_packets, buffered. rewrite Hst, Hl0, Hline.
  change (ztake 0 (uartRecvBuffer (uart w))) with (@nil Z). rewrite app_nil_l.
  pose proof (deframe_resync (F := data_format) SPLIT_DATA g ps []) as H.
  rewrite !app_nil_r in H. apply H; [done|].
  eapply Forall_impl; [done|]. apply ip_packet_sendable.
Qed.

(** ** Witnesses *)

Definition witness_packet (x : Z) : list Z :=
  [0x45; 0; 0; 20; 0; 0; 0; 0; 64; 17; 0; 0; 192; 168; 0; 2; 192; 168; 0; x].
Definition witness_env : wifi_env := mk_wifi_env true (fun _ _ => 0).
Definition failing_env : wifi_env := mk_wifi_env true (fun _ _ => -1).
Definition witness_polls : rx_line :=
  [[20]; []; 0 :: witness_packet 5 ++ [SPLIT_DATA; 20; 0]; witness_packet 6 ++ [SPLIT_DATA]].

Lemma uart2wifi_lossless_witness :
  total (uart2wifi_calls [failing_env; witness_env] esp_wifi_init witness_polls) (fun '(w', rx', out) =>
    wifi_inv w' /\ pending_packets esp_wifi_init witness_polls = out.*1 ++ pending_packets w' rx'
    /\ Forall (fun '(p, d) => d = ip_dest p /\ 20 <= zlen p <= MTU_LEN) out).
Proof. apply uart2wifi_lossless; [apply wifi_inv_init|rx_line_ok]. Defined.

Lemma uart2wifi_is_deframe_witness :
  total (uart2wifi_calls (replicate 250 witness_env) esp_wifi_init ([9; 9; 9] :: [SPLIT_DATA] :: witness_polls))
    (fun '(_, _, out) => out = (fun p => (p, ip_dest p))
       <$> deframe (F := data_format) (concat ([9; 9; 9] :: [SPLIT_DATA] :: witness_polls))).
Proof.
  apply uart2wifi_is_deframe; [rx_line_ok|apply Forall_replicate; split; done|vm_compute; lia].
Defined.

Lemma uart2wifi_delivers_witness :
  total (uart2wifi_calls (replicate 200 witness_env) esp_wifi_init witness_polls) (fun '(_, _, out) =>
    out = (fun p => (p, ip_dest p)) <$> [witness_packet 5; witness_packet 6]).
Proof.
  apply uart2wifi_delivers.
  - repeat constructor; vm_compute; discriminate.
  - rx_line_ok.
  - reflexivity.
  - apply Forall_replicate. split; done.
  - vm_compute. lia.
Defined.

Definition witness_lost : esp_wifi := mk_esp_wifi (set_status STATUS_SPLIT esp_uart_init) None None.
Lemma uart2wifi_resyncs_witness :
  total (uart2wifi_calls (replicate 150 witness_env) witness_lost
           [[1; 2; 3]; [SPLIT_DATA]; put_frame SPLIT_DATA (witness_packet 5)])
    (fun '(_, _, out) => out.*1 = [witness_packet 5]).
Proof.
  apply (uart2wifi_resyncs _ _ _ [1; 2; 3]).
  - split; [|done]. apply uart_ready_inv. destruct uart_ready_init as (?&?&_). by split_and!.
  - done.
  - rx_line_ok.
  - rewrite !not_elem_of_cons. split_and!; try done. apply not_elem_of_nil.
  - repeat constructor; vm_compute; discriminate.
  - reflexivity.
  - apply Forall_replicate. split; done.
  - vm_compute. lia.
Defined.
