(* ===== verification/EspQueue.v ===== *)
(** * ESP8266: the packet queue (wifi2uart.c)

    [ThreadSafeQueue] is a singly linked list of heap cells under a mutex.  The
    heap is explicit: cells and data blocks live at locations, [pvPortMalloc]
    takes a location that is not in use and may fail, [vPortFree] of a location
    that is not allocated is undefined behaviour.  The queue is proved to
    implement a bounded FIFO of packets, to release its mutex on every path and
    to leak nothing: the heap holds exactly the cells and blocks of the queued
    packets. *)
From stdpp Require Import prelude list gmap.
From Stdlib Require Import ZArith Lia.
From S2P Require Import Prelude Memory.

Definition loc := positive.

(** [typedef struct QueueElement]. *)
Record QueueElement := mk_elem {
  data : loc;
  elem_length : Z;
  next : option loc;
}.

(** [typedef struct ThreadSafeQueue]; the mutex is a flag, taken or not. *)
Record ThreadSafeQueue := mk_queue {
  head : option loc;
  tail : option loc;
  max_total_length : Z;
  current_total_length : Z;
  mutex_taken : bool;
}.

Definition MAX_QUEUE_LENGTH : Z := 1024 * 32.
Definition QUEUE_OK : Z := 0.
Definition QUEUE_FULL : Z := 1.
Definition QUEUE_ERROR : Z := 2.

(** The heap as far as the queue uses it. *)
Record heap := mk_heap {
  elems : gmap loc QueueElement;
  blocks : gmap loc (list Z);
}.

Definition heap_dom (h : heap) : gset loc := dom (elems h) ∪ dom (blocks h).
Definition empty_heap : heap := mk_heap ∅ ∅.

(** [pvPortMalloc] of a cell or of a block of [n] bytes; the contents, which the
    code overwrites before it reads them, are zero here. *)
Definition malloc_elem (ok : bool) (h : heap) : option (loc * heap) :=
  if ok then
    let l := fresh (heap_dom h) in
    Some (l, mk_heap (<[l := mk_elem 1%positive 0 None]> (elems h)) (blocks h))
  else None.
Definition malloc_block (ok : bool) (n : Z) (h : heap) : option (loc * heap) :=
  if ok then
    let l := fresh (heap_dom h) in
    Some (l, mk_heap (elems h) (<[l := replicate (Z.to_nat n) 0]> (blocks h)))
  else None.
Definition free_elem (l : loc) (h : heap) : outcome heap :=
  match elems h !! l with
  | Some _ => Ret (mk_heap (delete l (elems h)) (blocks h))
  | None => Undef
  end.
Definition free_block (l : loc) (h : heap) : outcome heap :=
  match blocks h !! l with
  | Some _ => Ret (mk_heap (elems h) (delete l (blocks h)))
  | None => Undef
  end.

Definition set_elem (l : loc) (e : QueueElement) (h : heap) : heap :=
  mk_heap (<[l := e]> (elems h)) (blocks h).
Definition set_block (l : loc) (bs : list Z) (h : heap) : heap :=
  mk_heap (elems h) (<[l := bs]> (blocks h)).
Definition set_mutex (b : bool) (q : ThreadSafeQueue) : ThreadSafeQueue :=
  mk_queue (head q) (tail q) (max_total_length q) (current_total_length q) b.

(** [xSemaphoreTake(mutex, portMAX_DELAY)] on a free mutex; taking it twice
    blocks forever, which no operation here may do. *)
Definition take_mutex (q : ThreadSafeQueue) : outcome ThreadSafeQueue :=
  if mutex_taken q then Undef else Ret (set_mutex true q).
Definition give_mutex (q : ThreadSafeQueue) : ThreadSafeQueue := set_mutex false q.

(** [queue_init] after its allocations succeeded. *)
Definition queue_init (alloc_ok mutex_ok : bool) : Z * option ThreadSafeQueue :=
  if alloc_ok then
    if mutex_ok then (0, Some (mk_queue None None (u16 MAX_QUEUE_LENGTH) 0 false))
    else (-1, None)
  else (-1, None).

(** The answers of the RTOS during one operation: does taking the mutex succeed,
    do the first and the second [pvPortMalloc]. *)
Record queue_env := mk_queue_env { take_ok : bool; malloc1_ok : bool; malloc2_ok : bool }.

(** Append the new cell: behind the tail, or as the only one. *)
Definition link_element (new_element : loc) (h : heap) (q : ThreadSafeQueue) :
    outcome (heap * ThreadSafeQueue) :=
  match tail q with
  | None =>
      Ret (h, mk_queue (Some new_element) (Some new_element) (max_total_length q)
                (current_total_length q) (mutex_taken q))
  | Some t =>
      let? e := elems h !! t in
      Ret (set_elem t (mk_elem (data e) (elem_length e) (Some new_element)) h,
           mk_queue (head q) (Some new_element) (max_total_length q)
             (current_total_length q) (mutex_taken q))
  end.

(** [queue_enqueue(queue, data, length)], [packet] being the [length] bytes at
    [data]; [None] is a null pointer. *)
Definition queue_enqueue (env : queue_env) (h : heap) (queue : option ThreadSafeQueue)
    (packet : option (list Z)) (length : Z) : outcome (Z * heap * option ThreadSafeQueue) :=
  match queue, packet with
  | Some q, Some bytes =>
    if length =? 0 then Ret (QUEUE_ERROR, h, queue)
    else if negb (take_ok env) then Ret (QUEUE_ERROR, h, queue)
    else
      let! q := take_mutex q in
      if max_total_length q <? current_total_length q + length
      then Ret (QUEUE_FULL, h, Some (give_mutex q))
      else
        match malloc_elem (malloc1_ok env) h with
        | None => Ret (QUEUE_ERROR, h, Some (give_mutex q))
        | Some (new_element, h) =>
            match malloc_block (malloc2_ok env) length h with
            | None =>
                let! h := free_elem new_element h in
                Ret (QUEUE_ERROR, h, Some (give_mutex q))
            | Some (new_data, h) =>
                let? block := blocks h !! new_data in
                let? block := memcpy block 0 bytes 0 length in
                let h := set_block new_data block h in
                let h := set_elem new_element (mk_elem new_data length None) h in
                let! ' (h, q) := link_element new_element h q in
                let q := mk_queue (head q) (tail q) (max_total_length q)
                           (u16 (current_total_length q + length)) (mutex_taken q) in
                Ret (QUEUE_OK, h, Some (give_mutex q))
            end
        end
  | _, _ => Ret (QUEUE_ERROR, h, queue)
  end.

(** [queue_dequeue(queue, &data, &length)]: the block and length it stores. *)
Definition queue_dequeue (env : queue_env) (h : heap) (queue : option ThreadSafeQueue) :
    outcome (Z * heap * option ThreadSafeQueue * option (loc * Z)) :=
  match queue with
  | None => Ret (QUEUE_ERROR, h, queue, None)
  | Some q =>
    if negb (take_ok env) then Ret (QUEUE_ERROR, h, queue, None)
    else
      let! q := take_mutex q in
      match head q with
      | None => Ret (QUEUE_ERROR, h, Some (give_mutex q), None)
      | Some first_element =>
          let? e := elems h !! first_element in
          let head' := next e in
          let tail' := match head' with None => None | Some _ => tail q end in
          let q := mk_queue head' tail' (max_total_length q)
                     (u16 (current_total_length q - elem_length e)) (mutex_taken q) in
          let! h := free_elem first_element h in
          Ret (QUEUE_OK, h, Some (give_mutex q), Some (data e, elem_length e))
      end
  end.

(** The loop of [queue_clear]: free every cell from [current] on, with its block. *)
Fixpoint clear_loop (fuel : nat) (current : option loc) (h : heap) : outcome heap :=
  match current with
  | None => Ret h
  | Some temp =>
      match fuel with
      | O => NoFuel
      | S fuel =>
          let? e := elems h !! temp in
          let! h := free_block (data e) h in
          let! h := free_elem temp h in
          clear_loop fuel (next e) h
      end
  end.

Definition queue_clear (env : queue_env) (h : heap) (queue : option ThreadSafeQueue) :
    outcome (heap * option ThreadSafeQueue) :=
  match queue with
  | None => Ret (h, queue)
  | Some q =>
    if negb (take_ok env) then Ret (h, queue)
    else
      let! q := take_mutex q in
      let! h := clear_loop (S (size (elems h))) (head q) h in
      Ret (h, Some (give_mutex (mk_queue None None (max_total_length q) 0 (mutex_taken q))))
  end.

(** [queue_destroy]: the queue is cleared and freed (no queue is left). *)
Definition queue_destroy (env : queue_env) (h : heap) (queue : option ThreadSafeQueue) :
    outcome (heap * option ThreadSafeQueue) :=
  match queue with
  | None => Ret (h, queue)
  | Some q => let! ' (h, _) := queue_clear env h queue in Ret (h, None)
  end.

(** ** Representation

    A queue is a list of cells; the heap it owns is determined by them.  [others]
    are the blocks other code owns (packets dequeued and not freed yet). *)
Record cell := mk_cell { c_loc : loc; c_data : loc; c_bytes : list Z }.

Definition first_loc (cs : list cell) : option loc :=
  match cs with [] => None | c :: _ => Some (c_loc c) end.

Fixpoint elems_of (cs : list cell) : gmap loc QueueElement :=
  match cs with
  | [] => ∅
  | c :: cs => <[c_loc c := mk_elem (c_data c) (zlen (c_bytes c)) (first_loc cs)]> (elems_of cs)
  end.

Fixpoint blocks_of (others : gmap loc (list Z)) (cs : list cell) : gmap loc (list Z) :=
  match cs with
  | [] => others
  | c :: cs => <[c_data c := c_bytes c]> (blocks_of others cs)
  end.

Fixpoint total_length (ps : list (list Z)) : Z :=
  match ps with [] => 0 | p :: ps => zlen p + total_length ps end.

(** [queue_rep others h q ps]: in heap [h], queue [q] holds the packets [ps]. *)
Record queue_rep (others : gmap loc (list Z)) (h : heap) (q : ThreadSafeQueue)
    (ps : list (list Z)) : Prop := {
  rep_cells : exists cs, ps = (c_bytes <$> cs)
    /\ elems h = elems_of cs /\ blocks h = blocks_of others cs
    /\ NoDup (c_loc <$> cs) /\ NoDup (c_data <$> cs)
    /\ Forall (fun c => others !! c_data c = None) cs
    /\ head q = first_loc cs /\ tail q = (c_loc <$> last cs);
  rep_max : max_total_length q = MAX_QUEUE_LENGTH;
  rep_total : current_total_length q = total_length ps;
  rep_bound : total_length ps <= MAX_QUEUE_LENGTH;
  rep_mutex : mutex_taken q = false;
}.

Lemma total_length_app ps ps' : total_length (ps ++ ps') = total_length ps + total_length ps'.
Proof. induction ps as [|p ps IH]; [done|]. simpl. rewrite IH. lia. Qed.
Lemma total_length_nonneg ps : 0 <= total_length ps.
Proof. induction ps as [|p ps IH]; simpl; lia. Qed.

Section Cells.
Context (others : gmap loc (list Z)).
Implicit Types cs : list cell.

Lemma elems_of_None cs l : l ∉ c_loc <$> cs -> elems_of cs !! l = None.
Proof.
  induction cs as [|c cs IH]; [done|]. simpl. rewrite not_elem_of_cons. intros [Hne Hni].
  rewrite lookup_insert_ne by done. by apply IH.
Qed.

Lemma elems_of_fresh cs l : elems_of cs !! l = None -> l ∉ c_loc <$> cs.
Proof.
  induction cs as [|c cs IH]; [set_solver|]. simpl. intros H. rewrite not_elem_of_cons.
  destruct (decide (l = c_loc c)) as [->|Hne]; [by rewrite lookup_insert_eq in H|].
  split; [done|]. apply IH. by rewrite lookup_insert_ne in H.
Qed.

Lemma blocks_of_None cs l :
  l ∉ c_data <$> cs -> blocks_of others cs !! l = others !! l.
Proof.
  induction cs as [|c cs IH]; [done|]. simpl. rewrite not_elem_of_cons. intros [Hne Hni].
  rewrite lookup_insert_ne by done. by apply IH.
Qed.

Lemma blocks_of_fresh cs l :
  blocks_of others cs !! l = None -> (l ∉ c_data <$> cs) /\ others !! l = None.
Proof.
  induction cs as [|c cs IH]; [set_solver|]. simpl. intros H. rewrite not_elem_of_cons.
  destruct (decide (l = c_data c)) as [->|Hne]; [by rewrite lookup_insert_eq in H|].
  rewrite lookup_insert_ne in H by done. destruct (IH H). done.
Qed.

Lemma blocks_of_snoc cs c :
  c_data c ∉ c_data <$> cs ->
  blocks_of others (cs ++ [c]) = <[c_data c := c_bytes c]> (blocks_of others cs).
Proof.
  induction cs as [|c' cs IH]; [done|]. simpl. rewrite not_elem_of_cons. intros [Hne Hni].
  rewrite IH by done. by rewrite insert_insert_ne by done.
Qed.

(** Linking a new cell behind the last one. *)
Lemma elems_of_snoc cs t c :
  last cs = Some t -> c_loc c ∉ c_loc <$> cs -> NoDup (c_loc <$> cs) ->
  exists nxt, elems_of cs !! c_loc t = Some (mk_elem (c_data t) (zlen (c_bytes t)) nxt)
    /\ elems_of (cs ++ [c])
       = <[c_loc t := mk_elem (c_data t) (zlen (c_bytes t)) (Some (c_loc c))]>
           (<[c_loc c := mk_elem (c_data c) (zlen (c_bytes c)) None]> (elems_of cs)).
Proof.
  induction cs as [|c' cs IH]; [done|]. intros Hlast Hni Hnd.
  simpl in Hni, Hnd. apply not_elem_of_cons in Hni as [Hne Hni]. apply NoDup_cons in Hnd as [Hc' Hnd].
  destruct cs as [|c'' cs].
  - simplify_eq/=. exists None. rewrite lookup_insert_eq. split; [done|].
    rewrite (insert_insert_ne _ (c_loc c)) by done. by rewrite insert_insert_eq.
  - destruct (IH Hlast Hni Hnd) as (nxt & Hlk & Heq). exists nxt.
    assert (c_loc t ≠ c_loc c') as Htne.
    { intros E. apply Hc'. rewrite <- E. apply list_elem_of_fmap_2.
      apply last_Some_elem_of. done. }
    split; [cbn [elems_of]; by rewrite lookup_insert_ne by done|].
    change ((c' :: c'' :: cs) ++ [c]) with (c' :: ((c'' :: cs) ++ [c])).
    cbn [elems_of]. cbn [elems_of] in Heq. rewrite Heq. simpl first_loc.
    rewrite (insert_insert_ne _ (c_loc c')) by done.
    by rewrite (insert_insert_ne _ (c_loc c')) by done.
Qed.
End Cells.

Lemma fresh_heap h : elems h !! fresh (heap_dom h) = None /\ blocks h !! fresh (heap_dom h) = None.
Proof.
  assert (fresh (heap_dom h) ∉ dom (elems h) ∪ dom (blocks h)) as Hf by apply is_fresh.
  rewrite not_elem_of_union in Hf. destruct Hf as [H1 H2].
  split; by apply not_elem_of_dom.
Qed.

Lemma malloc_elem_fresh h l h' :
  malloc_elem true h = Some (l, h') ->
  elems h !! l = None /\ blocks h' = blocks h
  /\ elems h' = <[l := mk_elem 1%positive 0 None]> (elems h).
Proof. intros [= <- <-]. destruct (fresh_heap h). by split_and!. Qed.

Lemma malloc_block_fresh n h l h' :
  malloc_block true n h = Some (l, h') ->
  blocks h !! l = None /\ elems h' = elems h
  /\ blocks h' = <[l := replicate (Z.to_nat n) 0]> (blocks h).
Proof. intros [= <- <-]. destruct (fresh_heap h). by split_and!. Qed.

Section Operations.
Context (others : gmap loc (list Z)).
Implicit Types (h : heap) (q : ThreadSafeQueue) (ps : list (list Z)).

(** The result of [queue_enqueue] on a valid packet, as a bounded FIFO. *)
Definition enqueue_code (env : queue_env) (ps : list (list Z)) (p : list Z) : Z :=
  if negb (take_ok env) then QUEUE_ERROR
  else if MAX_QUEUE_LENGTH <? total_length ps + zlen p then QUEUE_FULL
  else if malloc1_ok env && malloc2_ok env then QUEUE_OK else QUEUE_ERROR.

(** Linking a filled new cell into the list of cells. *)
Lemma link_element_ok cs c h q :
  elems h = <[c_loc c := mk_elem (c_data c) (zlen (c_bytes c)) None]> (elems_of cs) ->
  NoDup (c_loc <$> cs) -> (c_loc c ∉ c_loc <$> cs) ->
  head q = first_loc cs -> tail q = (c_loc <$> last cs) ->
  exists h' q', link_element (c_loc c) h q = Ret (h', q')
    /\ elems h' = elems_of (cs ++ [c]) /\ blocks h' = blocks h
    /\ head q' = first_loc (cs ++ [c]) /\ tail q' = Some (c_loc c)
    /\ max_total_length q' = max_total_length q
    /\ current_total_length q' = current_total_length q /\ mutex_taken q' = mutex_taken q.
Proof.
  intros He Hnd Hni Hh Ht. unfold link_element. rewrite Ht.
  destruct (last cs) as [t|] eqn:Hlast.
  - destruct (elems_of_snoc cs t c Hlast Hni Hnd) as (nxt & Hlk & Hsnoc). simpl.
    assert (c_loc t ≠ c_loc c) as Hne.
    { intros E. apply Hni. rewrite <- E. apply list_elem_of_fmap_2. by apply last_Some_elem_of. }
    rewrite He, lookup_insert_ne, Hlk by done. simpl. do 2 eexists. split; [done|]. simpl.
    rewrite He, Hsnoc. destruct cs; [done|]. by split_and!.
  - apply last_None in Hlast as ->. simpl. do 2 eexists. split; [done|]. by split_and!.
Qed.

Lemma queue_enqueue_ok env h q ps p :
  queue_rep others h q ps -> 0 < zlen p < 65536 ->
  total (queue_enqueue env h (Some q) (Some p) (zlen p)) (fun '(r, h', q') =>
    r = enqueue_code env ps p
    /\ exists q1, q' = Some q1
       /\ queue_rep others h' q1 (if r =? QUEUE_OK then ps ++ [p] else ps)).
Proof.
  intros Hrep Hp.
  pose proof Hrep as [(cs & Hps & He & Hb & Hnd & Hndd & Hoth & Hh & Ht) Hmax Htot Hbd Hm].
  unfold queue_enqueue, enqueue_code, take_mutex.
  replace (zlen p =? 0) with false by (symmetry; apply Z.eqb_neq; lia).
  destruct (take_ok env); [|by split; [|eexists]]. cbn [negb]. rewrite Hm. simpl. rewrite Hmax, Htot.
  assert (forall h', elems h' = elems h -> blocks h' = blocks h ->
    queue_rep others h' (give_mutex (set_mutex true q)) ps) as Hsame.
  { intros h' E1 E2. constructor; try done. exists cs. rewrite E1, E2. by split_and!. }
  destruct (_ <? _) eqn:Hfull; [by split; [|eexists; split; [|apply Hsame]]|]. bool_cases.
  destruct (malloc1_ok env); simpl; [|by split; [|eexists; split; [|apply Hsame]]].
  destruct (malloc_elem_fresh h (fresh (heap_dom h)) _ eq_refl) as (Hfe & _ & _).
  set (l := fresh (heap_dom h)) in *. set (h1 := mk_heap (<[l := _]> (elems h)) (blocks h)) in *.
  destruct (malloc2_ok env); simpl.
  2: { unfold free_elem. simpl. rewrite lookup_insert_eq. simpl.
       split; [done|eexists; split; [done|]]. apply Hsame; [|done]. simpl. by apply delete_insert_id. }
  destruct (malloc_block_fresh (zlen p) h1 (fresh (heap_dom h1)) _ eq_refl) as (Hfb & _ & _).
  set (d := fresh (heap_dom h1)) in *. rewrite lookup_insert_eq. unfold memcpy. simpl in Hfb.
  rewrite load_Some by lia. rewrite drop_0, take_ge by lia. simpl.
  rewrite store_Some by (len; lia). simpl.
  rewrite drop_ge, app_nil_r by (len; lia).
  rewrite He in Hfe. rewrite Hb in Hfb. apply elems_of_fresh in Hfe.
  apply blocks_of_fresh in Hfb as [Hfb Hfo].
  set (c := mk_cell l d p).
  edestruct (link_element_ok cs c) as (h' & q' & Hlink & He' & Hb' & Hh' & Ht' & Hx & Hy & Hz);
    [..|rewrite Hlink]; try done.
  { simpl. rewrite He, insert_insert_eq. done. }
  simpl. split; [done|]. eexists. split; [done|].
  rewrite Hy. simpl. rewrite Htot. pose proof (total_length_nonneg ps).
  unfold MAX_QUEUE_LENGTH in *. rewrite u16_small by lia.
  constructor; simpl; try done; rewrite ?total_length_app; simpl; try (unfold MAX_QUEUE_LENGTH; lia);
    [|by rewrite Hx].
  exists (cs ++ [c]). rewrite !fmap_app, Hps. split_and!; try done.
  - rewrite Hb'. simpl. rewrite insert_insert_eq, Hb. symmetry. by apply blocks_of_snoc.
  - apply NoDup_app. split_and!; [done| |apply NoDup_singleton].
    intros x Hx' ->%list_elem_of_singleton. done.
  - apply NoDup_app. split_and!; [done| |apply NoDup_singleton].
    intros x Hx' ->%list_elem_of_singleton. done.
  - apply Forall_app. split; [done|]. by apply Forall_singleton.
  - by rewrite last_snoc.
Qed.

(** Dequeue: the oldest packet, whose block the caller now owns. *)
Lemma queue_dequeue_ok env h q ps :
  queue_rep others h q ps ->
  total (queue_dequeue env h (Some q)) (fun '(r, h', q', res) =>
    exists q1, q' = Some q1 /\
    match (if take_ok env then ps else []) with
    | [] => r = QUEUE_ERROR /\ res = None /\ queue_rep others h' q1 ps
    | p :: ps' => r = QUEUE_OK /\ exists d, res = Some (d, zlen p)
        /\ others !! d = None /\ blocks h' !! d = Some p
        /\ queue_rep (<[d := p]> others) h' q1 ps'
    end).
Proof.
  intros Hrep.
  pose proof Hrep as [(cs & -> & He & Hb & Hnd & Hndd & Hoth & Hh & Ht) Hmax Htot Hbd Hm].
  unfold queue_dequeue, take_mutex. destruct (take_ok env); [|by eexists]. cbn [negb].
  rewrite Hm. simpl. rewrite Hh. destruct cs as [|c cs]; csimpl in *.
  { eexists. split; [done|]. split_and!; try done. constructor; try done.
    exists []. by split_and!. }
  apply NoDup_cons in Hnd as [Hc Hnd]. apply NoDup_cons in Hndd as [Hd Hndd].
  apply Forall_cons in Hoth as [Hoc Hoth].
  rewrite He, lookup_insert_eq. simpl. unfold free_elem. rewrite He, lookup_insert_eq. simpl.
  eexists. split; [done|]. split; [done|]. exists (c_data c). split_and!; try done.
  { by rewrite Hb, lookup_insert_eq. }
  pose proof (total_length_nonneg (c_bytes <$> cs)). unfold MAX_QUEUE_LENGTH in *.
  constructor; csimpl; try done; [|rewrite Htot, u16_small; lia|unfold MAX_QUEUE_LENGTH; lia].
  exists cs. split_and!; try done.
  - apply delete_insert_id. by apply elems_of_None.
  - rewrite Hb. clear -Hd. induction cs as [|c' cs IH]; [done|]. csimpl in *.
    apply not_elem_of_cons in Hd as [Hne Hd]. rewrite <- IH by done.
    by rewrite insert_insert_ne by done.
  - apply Forall_forall. intros c' Hc'. rewrite lookup_insert_ne.
    + by eapply (proj1 (Forall_forall _ _)) in Hoth.
    + intros E. apply Hd. rewrite E. by apply list_elem_of_fmap_2.
  - rewrite Ht. by destruct cs.
Qed.

(** Freeing a block the queue does not own. *)
Lemma queue_rep_free d p h q ps :
  others !! d = None -> queue_rep (<[d := p]> others) h q ps ->
  exists h', free_block d h = Ret h' /\ queue_rep others h' q ps.
Proof.
  intros Hd [(cs & -> & He & Hb & Hnd & Hndd & Hoth & Hh & Ht) Hmax Htot Hbd Hm].
  assert ((d ∉ c_data <$> cs) /\ Forall (fun c => others !! c_data c = None) cs) as [Hni Hoth'].
  { clear -Hoth. induction Hoth as [|c cs Hc _ [IH1 IH2]]; [by split; [apply not_elem_of_nil|]|].
    apply lookup_insert_None in Hc as [Hn Hne]. simpl. rewrite not_elem_of_cons. by repeat split; auto. }
  assert (blocks h = <[d := p]> (blocks_of others cs)) as Hb'.
  { rewrite Hb. clear -Hni. induction cs as [|c cs IH]; [done|]. csimpl in *.
    apply not_elem_of_cons in Hni as [? ?]. rewrite IH by done. by rewrite insert_insert_ne. }
  unfold free_block. rewrite Hb', lookup_insert_eq. eexists. split; [done|].
  constructor; try done. exists cs. split_and!; try done. simpl.
  apply delete_insert_id. by rewrite blocks_of_None.
Qed.

(** The clearing loop frees every cell and block and nothing else. *)
Lemma clear_loop_ok cs fuel h :
  (length cs < fuel)%nat -> elems h = elems_of cs -> blocks h = blocks_of others cs ->
  NoDup (c_loc <$> cs) -> NoDup (c_data <$> cs) ->
  Forall (fun c => others !! c_data c = None) cs ->
  clear_loop fuel (first_loc cs) h = Ret (mk_heap ∅ others).
Proof.
  revert fuel h. induction cs as [|c cs IH]; intros [|fuel] [es bs] Hf He Hb Hnd Hndd Hoth;
    csimpl in *; simplify_eq; try lia; [done|].
  apply NoDup_cons in Hnd as [Hc Hnd]. apply NoDup_cons in Hndd as [Hd Hndd].
  apply Forall_cons in Hoth as [Hoc Hoth].
  rewrite lookup_insert_eq. simpl. unfold free_block. simpl. rewrite lookup_insert_eq. simpl.
  unfold free_elem. simpl. rewrite lookup_insert_eq. simpl.
  rewrite !delete_insert_id by (first [by apply elems_of_None | by rewrite blocks_of_None]).
  apply IH; try done. lia.
Qed.

Lemma elems_of_size cs : NoDup (c_loc <$> cs) -> size (elems_of cs) = length cs.
Proof.
  induction cs as [|c cs IH]; [done|]. simpl. intros [Hc Hnd]%NoDup_cons.
  rewrite map_size_insert_None by (by apply elems_of_None). by rewrite IH.
Qed.

Lemma queue_clear_ok env h q ps :
  queue_rep others h q ps ->
  total (queue_clear env h (Some q)) (fun '(h', q') =>
    exists q1, q' = Some q1 /\
    if take_ok env then h' = mk_heap ∅ others /\ queue_rep others h' q1 []
    else h' = h /\ q1 = q).
Proof.
  intros [(cs & -> & He & Hb & Hnd & Hndd & Hoth & Hh & Ht) Hmax Htot Hbd Hm].
  unfold queue_clear, take_mutex. destruct (take_ok env); [|by eexists]. cbn [negb].
  rewrite Hm. cbn [mbind outcome_bind head set_mutex]. rewrite Hh, (clear_loop_ok cs); try done.
  - simpl. eexists. split; [done|]. split; [done|].
    constructor; simpl; try done. exists []. split_and!; by try constructor.
  - rewrite He, elems_of_size by done. lia.
Qed.
End Operations.

Lemma queue_init_ok others :
  exists q, queue_init true true = (0, Some q) /\ queue_rep others (mk_heap ∅ others) q [].
Proof.
  eexists. split; [done|]. constructor; try done. exists [].
  by split_and!; try constructor.
Qed.

(** ** Refinement: the queue is a bounded FIFO *)

(** What its users do: enqueue a packet; dequeue one, copy it and free its block;
    clear. *)
Inductive queue_op :=
  | OpEnqueue (env : queue_env) (p : list Z)
  | OpDequeue (env : queue_env)
  | OpClear (env : queue_env).

Definition op_ok (op : queue_op) : Prop :=
  match op with OpEnqueue _ p => 0 < zlen p < 65536 | _ => True end.

(** The answer of an operation: its code and the packet it yields. *)
Definition answer : Type := Z * option (list Z).

Definition queue_apply (op : queue_op) (h : heap) (q : option ThreadSafeQueue) :
    outcome (answer * heap * option ThreadSafeQueue) :=
  match op with
  | OpEnqueue env p =>
      let! ' (r, h, q) := queue_enqueue env h q (Some p) (zlen p) in Ret ((r, None), h, q)
  | OpDequeue env =>
      let! ' (r, h, q, res) := queue_dequeue env h q in
      match res with
      | None => Ret ((r, None), h, q)
      | Some (d, n) =>
          let? block := blocks h !! d in
          let? bytes := load block 0 n in
          let! h := free_block d h in
          Ret ((r, Some bytes), h, q)
      end
  | OpClear env => let! ' (h, q) := queue_clear env h q in Ret ((QUEUE_OK, None), h, q)
  end.

Fixpoint queue_ops (ops : list queue_op) (h : heap) (q : option ThreadSafeQueue) :
    outcome (list answer * heap * option ThreadSafeQueue) :=
  match ops with
  | [] => Ret ([], h, q)
  | op :: ops =>
      let! ' (a, h, q) := queue_apply op h q in
      let! ' (l, h, q) := queue_ops ops h q in
      Ret (a :: l, h, q)
  end.

(** The specification: a list of packets of at most MAX_QUEUE_LENGTH bytes. *)
Definition fifo_apply (op : queue_op) (ps : list (list Z)) : answer * list (list Z) :=
  match op with
  | OpEnqueue env p =>
      let r := enqueue_code env ps p in ((r, None), if r =? QUEUE_OK then ps ++ [p] else ps)
  | OpDequeue env =>
      match (if take_ok env then ps else []) with
      | [] => ((QUEUE_ERROR, None), ps)
      | p :: ps' => ((QUEUE_OK, Some p), ps')
      end
  | OpClear env => ((QUEUE_OK, None), if take_ok env then [] else ps)
  end.

Fixpoint fifo_ops (ops : list queue_op) (ps : list (list Z)) : list answer * list (list Z) :=
  match ops with
  | [] => ([], ps)
  | op :: ops =>
      let '(a, ps) := fifo_apply op ps in let '(l, ps) := fifo_ops ops ps in (a :: l, ps)
  end.

Lemma queue_apply_ok op h q ps :
  op_ok op -> queue_rep ∅ h q ps ->
  total (queue_apply op h (Some q)) (fun '(a, h', q') =>
    exists q1, q' = Some q1 /\ a = (fifo_apply op ps).1 /\ queue_rep ∅ h' q1 (fifo_apply op ps).2).
Proof.
  intros Hop Hrep. destruct op as [env p|env|env]; simpl in Hop |- *; apply post_bind.
  - eapply post_mono; [by apply queue_enqueue_ok|].
    intros [[r h'] q'] (-> & q1 & -> & Hrep'). by exists q1.
  - eapply post_mono; [by apply queue_dequeue_ok|].
    intros [[[r h'] q'] res] (q1 & -> & Hres).
    destruct (if take_ok env then ps else []) as [|p ps'].
    + destruct Hres as (-> & -> & Hrep'). by exists q1.
    + destruct Hres as (-> & d & -> & Hd & Hblk & Hrep'). rewrite Hblk. cbn [access mbind outcome_bind].
      rewrite load_Some, drop_0, take_ge by lia. cbn [access mbind outcome_bind].
      destruct (queue_rep_free _ _ _ _ _ _ Hd Hrep') as (h'' & -> & Hrep''). by exists q1.
  - eapply post_mono; [by apply (queue_clear_ok _ _ _ _ _ Hrep)|].
    intros [h' q'] (q1 & -> & Hres). exists q1. split; [done|]. split; [done|]. simpl.
    destruct (take_ok env); [by destruct Hres as [-> ?]|]. by destruct Hres as [-> ->].
Qed.

(** ** Properties *)

(** C14. The linked list under its mutex refines a bounded FIFO: for every sequence
    of operations and every pattern of allocation and mutex failures, the answers
    are those of the specification; no access is outside an object, nothing is
    freed twice, the mutex is free between operations, and the heap holds the
    cells and blocks of the queued packets and nothing else (no leak). *)
Theorem queue_refines_fifo ops h q ps :
  Forall op_ok ops -> queue_rep ∅ h q ps ->
  total (queue_ops ops h (Some q)) (fun '(l, h', q') =>
    exists q1, q' = Some q1 /\ l = (fifo_ops ops ps).1 /\ queue_rep ∅ h' q1 (fifo_ops ops ps).2).
Proof.
  revert h q ps. induction ops as [|op ops IH]; intros h q ps Hops Hrep; [by exists q|].
  apply Forall_cons in Hops as [Hop Hops]. cbn [queue_ops fifo_ops]. apply post_bind.
  eapply post_mono; [by apply (queue_apply_ok _ _ _ ps)|].
  intros [[a h1] q1'] (q1 & -> & -> & Hrep1). apply post_bind.
  eapply post_mono; [by apply (IH _ _ (fifo_apply op ps).2)|]. intros [[l h2] q2'] (q2 & -> & -> & Hrep2). exists q2.
  destruct (fifo_apply op ps) as [a ps1]. simpl in *. by destruct (fifo_ops ops ps1).
Qed.

(** C30. [queue_destroy] of a queue whose mutex can be taken frees every cell and
    block it owns and no other: on a heap of its own, nothing is left. *)
Theorem queue_destroy_frees_all env h q ps :
  queue_rep ∅ h q ps -> take_ok env = true ->
  queue_destroy env h (Some q) = Ret (empty_heap, None).
Proof.
  intros Hrep Ht. pose proof (queue_clear_ok _ env h q ps Hrep) as H. unfold queue_destroy.
  destruct (queue_clear env h (Some q)) as [[h' q']| |]; [|done..]. simpl in H.
  rewrite Ht in H. destruct H as (q1 & -> & -> & _). done.
Qed.

(** The queue never holds more than MAX_QUEUE_LENGTH bytes, and its 16-bit byte
    count is exact: it never wraps around. *)
Theorem queue_bounded ops h q ps :
  Forall op_ok ops -> queue_rep ∅ h q ps ->
  total (queue_ops ops h (Some q)) (fun '(_, _, q') =>
    exists q1, q' = Some q1 /\ current_total_length q1 = total_length (fifo_ops ops ps).2
      /\ 0 <= current_total_length q1 <= MAX_QUEUE_LENGTH).
Proof.
  revert h q ps. induction ops as [|op ops IH]; intros h q ps Hops Hrep.
  { exists q. destruct Hrep as [_ _ -> Hb _]. cbn [fifo_ops snd]. pose proof (total_length_nonneg ps). by split_and!. }
  apply Forall_cons in Hops as [Hop Hops]. cbn [queue_ops fifo_ops]. apply post_bind.
  eapply post_mono; [by apply (queue_apply_ok _ _ _ ps)|].
  intros [[a h1] q1'] (q1 & -> & -> & Hrep1). apply post_bind.
  eapply post_mono; [by apply (IH _ _ (fifo_apply op ps).2)|]. intros [[l h2] q2'] (q2 & -> & H). exists q2.
  destruct (fifo_apply op ps) as [a ps1]. simpl in *. by destruct (fifo_ops ops ps1).
Qed.

Definition good_env : queue_env := mk_queue_env true true true.
Definition empty_queue : ThreadSafeQueue := mk_queue None None MAX_QUEUE_LENGTH 0 false.
Lemma empty_queue_rep : queue_rep ∅ empty_heap empty_queue [].
Proof.
  destruct (queue_init_ok ∅) as (q & [= <-] & Hrep). exact Hrep.
Qed.

Definition witness_ops : list queue_op :=
  [OpEnqueue good_env [1; 2]; OpEnqueue (mk_queue_env true true false) [3]; OpEnqueue good_env [4];
   OpDequeue good_env; OpDequeue (mk_queue_env false true true); OpDequeue good_env; OpDequeue good_env;
   OpEnqueue good_env [5; 6]; OpClear good_env].
Lemma witness_ops_ok : Forall op_ok witness_ops.
Proof. repeat constructor; simpl; lia. Qed.

Lemma queue_refines_fifo_witness :
  total (queue_ops witness_ops empty_heap (Some empty_queue)) (fun '(l, h', q') =>
    exists q1, q' = Some q1 /\ l = (fifo_ops witness_ops []).1
      /\ queue_rep ∅ h' q1 (fifo_ops witness_ops []).2)
  /\ (fifo_ops witness_ops []).1
     = [(QUEUE_OK, None); (QUEUE_ERROR, None); (QUEUE_OK, None); (QUEUE_OK, Some [1; 2]);
        (QUEUE_ERROR, None); (QUEUE_OK, Some [4]); (QUEUE_ERROR, None); (QUEUE_OK, None); (QUEUE_OK, None)].
Proof.
  split; [|reflexivity]. apply queue_refines_fifo; [apply witness_ops_ok|apply empty_queue_rep].
Defined.

Lemma queue_bounded_witness :
  total (queue_ops witness_ops empty_heap (Some empty_queue)) (fun '(_, _, q') =>
    exists q1, q' = Some q1 /\ current_total_length q1 = total_length (fifo_ops witness_ops []).2
      /\ 0 <= current_total_length q1 <= MAX_QUEUE_LENGTH).
Proof. apply queue_bounded; [apply witness_ops_ok|apply empty_queue_rep]. Defined.

Lemma queue_destroy_frees_all_witness :
  queue_destroy good_env empty_heap (Some empty_queue) = Ret (empty_heap, None).
Proof. apply (queue_destroy_frees_all _ _ _ []); [apply empty_queue_rep|reflexivity]. Defined.
