(* ===== verification/EspWifi2uart.v ===== *)
(** * ESP8266: from the air to the UART (wifi2uart.c)

    lwIP's hook [uart_wifi_recv] enqueues received packets; the main loop's
    [wifi2uart] takes one at a time, frames it in [uartSendbuffer] and feeds the
    transmit FIFO piece by piece.  The theorems say that, whatever the
    interleaving of the two, the line carries exactly the frames of the accepted
    packets, whole and in order, and that the transmitter drains. *)
From stdpp Require Import prelude list gmap.
From Stdlib Require Import ZArith Lia.
From S2P Require Import Prelude Memory Wire EspUart EspQueue.

(** The globals of the transmit side; [uartSendPtr] is an offset into
    [uartSendbuffer]. *)
Record wifi_tx := mk_wifi_tx {
  uartSendLen : Z;
  uartSendbuffer : list Z;
  uartSendPtr : Z;
  eth_recv_queue : option ThreadSafeQueue;
  tx_heap : heap;
}.

Definition wifi_tx_init (q : ThreadSafeQueue) : wifi_tx :=
  mk_wifi_tx 0 (replicate (Z.to_nat MAX_FRAME_LEN) 0) 0 (Some q) empty_heap.

(** [uart_wifi_recv]: the hook in lwIP's [ip4_input]; a packet the queue does
    not take is dropped (and logged). *)
Definition uart_wifi_recv (env : queue_env) (payload : list Z) (s : wifi_tx) :
    outcome (wifi_tx * Z) :=
  let! ' (r, h, q) := queue_enqueue env (tx_heap s) (eth_recv_queue s) (Some payload)
                        (u16 (zlen payload)) in
  Ret (mk_wifi_tx (uartSendLen s) (uartSendbuffer s) (uartSendPtr s) q h, r).

(** The first half of [wifi2uart]: frame the next packet. *)
Definition wifi2uart_load (env : queue_env) (s : wifi_tx) : outcome wifi_tx :=
  let! ' (r, h, q, res) := queue_dequeue env (tx_heap s) (eth_recv_queue s) in
  if r =? QUEUE_OK then
    match res with
    | None => Undef
    | Some (data, len) =>
        let? bytes := blocks h !! data in
        let? buf := memcpy (uartSendbuffer s) 2 bytes 0 len in
        let! h := free_block data h in
        let? buf := store_u16 buf 0 len in
        let n := u16 (len + 3) in
        let? buf := store1 buf (n - 1) SPLIT_DATA in
        Ret (mk_wifi_tx n buf 0 q h)
    end
  else Ret (mk_wifi_tx (uartSendLen s) (uartSendbuffer s) (uartSendPtr s) q h).

(** One call of [wifi2uart] with [txfifo_cnt] bytes in the FIFO: the new state
    and what goes on the line. *)
Definition wifi2uart (env : queue_env) (txfifo_cnt : Z) (s : wifi_tx) :
    outcome (wifi_tx * list Z) :=
  let! s := (if uartSendLen s <=? 0 then wifi2uart_load env s else Ret s) in
  if 0 <? uartSendLen s then
    let! ' (ret, out) := uart0_fill_txfifo txfifo_cnt (uartSendbuffer s) (uartSendPtr s)
                           (uartSendLen s) in
    Ret (mk_wifi_tx (u16 (uartSendLen s - ret)) (uartSendbuffer s) (uartSendPtr s + ret)
           (eth_recv_queue s) (tx_heap s), out)
  else Ret (s, []).

(** The two tasks: lwIP delivers a packet, the main loop makes a call.  Each
    holds the mutex while it is in the queue, so they interleave as whole steps. *)
Inductive tx_event :=
  | EvRecv (env : queue_env) (payload : list Z)
  | EvCall (env : queue_env) (txfifo_cnt : Z).

(** A schedule: the final state, the line, and the packets the queue accepted. *)
Fixpoint tx_run (evs : list tx_event) (s : wifi_tx) :
    outcome (wifi_tx * list Z * list (list Z)) :=
  match evs with
  | [] => Ret (s, [], [])
  | EvRecv env p :: evs =>
      let! ' (s, r) := uart_wifi_recv env p s in
      let! ' (s, out, acc) := tx_run evs s in
      Ret (s, out, if r =? QUEUE_OK then p :: acc else acc)
  | EvCall env cnt :: evs =>
      let! ' (s, out1) := wifi2uart env cnt s in
      let! ' (s, out, acc) := tx_run evs s in
      Ret (s, out1 ++ out, acc)
  end.

(** ** Invariant *)

(** Packets as lwIP hands them over: not empty, at most an MTU. *)
Definition packet_ok (p : list Z) : Prop := 0 < zlen p <= MTU_LEN.

(** Bytes of the current frame that are not on the line yet. *)
Definition tx_pending (s : wifi_tx) : list Z :=
  ztake (uartSendLen s) (zdrop (uartSendPtr s) (uartSendbuffer s)).

(** [ps] are the queued packets; nothing but them is on the heap. *)
Record tx_inv (s : wifi_tx) (ps : list (list Z)) : Prop := {
  tx_buffer : zlen (uartSendbuffer s) = MAX_FRAME_LEN;
  tx_window : 0 <= uartSendLen s /\ 0 <= uartSendPtr s
              /\ uartSendPtr s + uartSendLen s <= MAX_FRAME_LEN;
  tx_queue : exists q, eth_recv_queue s = Some q /\ queue_rep ∅ (tx_heap s) q ps;
  tx_packets : Forall packet_ok ps;
}.

(** What is still to go on the line. *)
Definition tx_backlog (s : wifi_tx) (ps : list (list Z)) : list Z :=
  tx_pending s ++ put_frames SPLIT_DATA ps.

Lemma tx_pending_length s ps : tx_inv s ps -> zlen (tx_pending s) = uartSendLen s.
Proof. intros [Hb (?&?&?) _ _]. unfold tx_pending. len. lia. Qed.

(** Assembling the frame in the buffer. *)
Lemma frame_in_buffer buf p :
  zlen buf = MAX_FRAME_LEN -> packet_ok p ->
  exists buf1 buf2 buf3, memcpy buf 2 p 0 (zlen p) = Some buf1
    /\ store_u16 buf1 0 (zlen p) = Some buf2
    /\ store1 buf2 (u16 (zlen p + 3) - 1) SPLIT_DATA = Some buf3
    /\ zlen buf3 = MAX_FRAME_LEN
    /\ ztake (zlen p + 3) buf3 = put_frame SPLIT_DATA p.
Proof.
  unfold packet_ok, MAX_FRAME_LEN, MTU_LEN. intros Hbuf Hp. unfold memcpy.
  rewrite load_Some by lia. rewrite drop_0, take_ge by lia. simpl.
  destruct (store buf 2 p) as [buf1|] eqn:H1; [|rewrite store_Some in H1; [done|lia..]].
  pose proof (store_length _ _ _ _ H1) as L1. pose proof (load_store_same _ _ _ _ H1) as P1.
  destruct (store_u16 buf1 0 (zlen p)) as [buf2|] eqn:H2; unfold store_u16 in H2;
    [|rewrite store_Some in H2; [done|lia|unfold put_u16; len; lia]].
  pose proof (store_length _ _ _ _ H2) as L2. pose proof (store_prefix _ _ _ _ H2) as P2.
  pose proof (store_after _ _ _ _ 2 H2) as A2.
  rewrite u16_small by lia. unfold store1.
  destruct (store buf2 (zlen p + 3 - 1) [SPLIT_DATA]) as [buf3|] eqn:H3;
    [|rewrite store_Some in H3; [done|lia|len; lia]].
  pose proof (store_length _ _ _ _ H3) as L3. pose proof (store_prefix _ _ _ _ H3) as P3.
  exists buf1, buf2, buf3. split_and!; try done; [lia|].
  replace (zlen p + 3) with (zlen p + 3 - 1 + zlen [SPLIT_DATA]) by (len; lia).
  rewrite P3. unfold put_frame. rewrite app_assoc. f_equal.
  replace (zlen p + 3 - 1) with (2 + zlen p) by lia. rewrite take_split_off by lia.
  f_equal; [exact P2|]. rewrite A2 by (unfold put_u16; len; lia).
  apply load_inv in P1 as (_ & _ & _ & P1). done.
Qed.

(** Framing the next packet moves it from the queue to the pending bytes. *)
Lemma wifi2uart_load_ok env s ps :
  tx_inv s ps -> uartSendLen s = 0 ->
  total (wifi2uart_load env s) (fun s' =>
    exists ps', tx_inv s' ps' /\ tx_backlog s' ps' = tx_backlog s ps
      /\ (take_ok env = true -> ps <> [] -> 0 < uartSendLen s')).
Proof.
  intros Hinv Hz. pose proof (tx_pending_length _ _ Hinv) as HL.
  pose proof Hinv as [Hb Hw (q & Hq & Hrep) Hps]. unfold wifi2uart_load. rewrite Hq.
  apply post_bind. eapply post_mono; [by apply queue_dequeue_ok|].
  intros [[[r h] q'] res] (q1 & -> & Hres).
  assert (tx_pending s = []) as Hnil by (destruct (tx_pending s); [done|simpl in HL; lia]).
  destruct (if take_ok env then ps else []) as [|p ps'] eqn:Htake.
  - destruct Hres as (-> & -> & Hrep'). simpl. exists ps. split_and!.
    + constructor; try done. by exists q1.
    + done.
    + intros Ht Hne. rewrite Ht in Htake. done.
  - assert (ps = p :: ps') as -> by (by destruct (take_ok env)).
    apply Forall_cons in Hps as [Hp Hps].
    destruct Hres as (-> & d & -> & Hd & Hblk & Hrep'). simpl. rewrite Hblk. simpl.
    destruct (frame_in_buffer _ _ Hb Hp) as (b1 & b2 & b3 & -> & H2 & H3 & L3 & P3). simpl.
    destruct (queue_rep_free _ _ _ _ _ _ Hd Hrep') as (h' & -> & Hrep''). simpl.
    rewrite H2. simpl. rewrite H3. simpl. unfold packet_ok, MTU_LEN in Hp.
    rewrite u16_small by lia. exists ps'. split_and!.
    + constructor; simpl; try done; [unfold MAX_FRAME_LEN, MTU_LEN; lia|]. by exists q1.
    + unfold tx_backlog. rewrite Hnil. unfold tx_pending. simpl. by rewrite drop_0, P3.
    + simpl. lia.
Qed.

Lemma tx_send_window s ps k :
  tx_inv s ps -> 0 <= k <= uartSendLen s ->
  let s' := mk_wifi_tx (u16 (uartSendLen s - k)) (uartSendbuffer s) (uartSendPtr s + k)
              (eth_recv_queue s) (tx_heap s) in
  tx_inv s' ps /\ tx_pending s = ztake k (tx_pending s) ++ tx_pending s'.
Proof.
  intros [Hb (?&?&?) Hq Hps] Hk. unfold MAX_FRAME_LEN, MTU_LEN in *. simpl.
  rewrite u16_small by lia. split.
  - constructor; simpl; try done. unfold MAX_FRAME_LEN, MTU_LEN. lia.
  - unfold tx_pending. simpl. rewrite take_take, Nat.min_l by lia.
    replace (uartSendLen s) with (k + (uartSendLen s - k)) at 1 by lia.
    rewrite take_split_off by lia. f_equal. rewrite drop_drop. do 2 f_equal. lia.
Qed.

(** One call: bytes move from the backlog to the line, in order; if the FIFO has
    room and something is waiting, at least one byte moves. *)
Lemma wifi2uart_ok env cnt s ps :
  tx_inv s ps -> cnt_ok cnt ->
  total (wifi2uart env cnt s) (fun '(s', out) =>
    exists ps', tx_inv s' ps' /\ tx_backlog s ps = out ++ tx_backlog s' ps'
      /\ (take_ok env = true -> cnt < UART_FIFO_LEN -> tx_backlog s ps <> [] -> out <> [])).
Proof.
  intros Hinv Hcnt. unfold wifi2uart. apply post_bind.
  eapply post_mono with (Q := fun s1 => exists ps1, tx_inv s1 ps1
    /\ tx_backlog s1 ps1 = tx_backlog s ps
    /\ (take_ok env = true -> tx_backlog s ps <> [] -> 0 < uartSendLen s1)).
  { pose proof (tx_window _ _ Hinv) as (?&_&_). case_if as Hz.
    - eapply post_mono; [apply wifi2uart_load_ok; [done|lia]|].
      intros s1 (ps1 & H1 & H2 & H3). exists ps1. split_and!; try done.
      intros Ht Hne. apply H3; [done|]. intros ->. apply Hne. unfold tx_backlog.
      pose proof (tx_pending_length _ _ Hinv) as HL. destruct (tx_pending s); [done|simpl in HL; lia].
    - exists ps. split_and!; try done. }
  intros s1 (ps1 & Hinv1 & Hbl & Hprog). pose proof (tx_pending_length _ _ Hinv1) as HL.
  pose proof Hinv1 as [Hb (?&?&?) _ _]. unfold MAX_FRAME_LEN, MTU_LEN in *.
  case_if as Hpos.
  - rewrite (uart0_fill_txfifo_spec cnt _ _ _ (tx_pending s1)); [|done|lia|].
    2: { unfold tx_pending. apply load_Some; lia. }
    unfold cnt_ok, UART_FIFO_LEN in *. simpl.
    destruct (tx_send_window s1 ps1 (Z.min (uartSendLen s1) (128 - cnt))) as [Hinv' Hsplit];
      [done|lia|].
    exists ps1. split; [exact Hinv'|]. split.
    + rewrite <- Hbl. unfold tx_backlog. rewrite Hsplit at 1. by rewrite <- app_assoc.
    + intros _ Hroom _ Hout. apply (f_equal length) in Hout. revert Hout. len. lia.
  - exists ps1. split_and!; try done. intros Ht _ Hne. specialize (Hprog Ht Hne). lia.
Qed.

Lemma uart_wifi_recv_ok env p s ps :
  tx_inv s ps -> packet_ok p ->
  total (uart_wifi_recv env p s) (fun '(s', r) =>
    r = enqueue_code env ps p
    /\ tx_inv s' (if r =? QUEUE_OK then ps ++ [p] else ps)
    /\ tx_pending s' = tx_pending s).
Proof.
  intros [Hb Hw (q & Hq & Hrep) Hps] Hp. unfold uart_wifi_recv. rewrite Hq.
  unfold packet_ok, MTU_LEN in Hp. rewrite u16_small by lia. apply post_bind.
  eapply post_mono; [apply queue_enqueue_ok; [done|lia]|].
  intros [[r h] q'] (-> & q1 & -> & Hrep'). simpl. split_and!; try done.
  constructor; simpl; try done; [by exists q1|].
  destruct (_ =? _); [|done]. apply Forall_app. split; [done|]. by apply Forall_singleton.
Qed.

Definition event_ok (e : tx_event) : Prop :=
  match e with EvRecv _ p => packet_ok p | EvCall _ cnt => cnt_ok cnt end.

Lemma put_frames_app c ps ps' : put_frames c (ps ++ ps') = put_frames c ps ++ put_frames c ps'.
Proof. unfold put_frames. by rewrite fmap_app, concat_app. Qed.

Lemma tx_run_ok evs s ps :
  tx_inv s ps -> Forall event_ok evs ->
  total (tx_run evs s) (fun '(s', out, acc) =>
    exists ps', tx_inv s' ps'
      /\ tx_backlog s ps ++ put_frames SPLIT_DATA acc = out ++ tx_backlog s' ps').
Proof.
  revert s ps. induction evs as [|e evs IH]; intros s ps Hinv Hevs; simpl.
  { exists ps. by rewrite app_nil_r. }
  apply Forall_cons in Hevs as [He Hevs]. destruct e as [env p|env cnt]; simpl in He.
  - apply post_bind. eapply post_mono; [by apply uart_wifi_recv_ok|].
    intros [s1 r] (_ & Hinv1 & Hpend). apply post_bind.
    eapply post_mono; [by apply (IH s1)|]. intros [[s' out] acc] (ps' & Hinv' & Heq). simpl.
    exists ps'. split; [done|]. rewrite <- Heq. unfold tx_backlog. rewrite Hpend.
    destruct (r =? QUEUE_OK); [|done]. rewrite put_frames_app. rewrite <- !app_assoc.
    do 2 f_equal. unfold put_frames. simpl. by rewrite app_nil_r.
  - apply post_bind. eapply post_mono; [by apply wifi2uart_ok|].
    intros [s1 out1] (ps1 & Hinv1 & Heq1 & _). apply post_bind.
    eapply post_mono; [by apply (IH s1)|]. intros [[s' out] acc] (ps' & Hinv' & Heq). simpl.
    exists ps'. split; [done|]. by rewrite Heq1, <- !app_assoc, Heq.
Qed.

(** A call of the main loop while the FIFO has room. *)
Definition draining (e : tx_event) : Prop :=
  match e with
  | EvCall env cnt => take_ok env = true /\ 0 <= cnt < UART_FIFO_LEN
  | EvRecv _ _ => False
  end.

(** With as many such calls as there are bytes, everything goes out. *)
Lemma tx_run_drains evs s ps :
  tx_inv s ps -> Forall draining evs -> (length (tx_backlog s ps) <= length evs)%nat ->
  total (tx_run evs s) (fun '(s', out, acc) =>
    out = tx_backlog s ps /\ acc = [] /\ exists ps', tx_inv s' ps' /\ tx_backlog s' ps' = []).
Proof.
  revert s ps. induction evs as [|e evs IH]; intros s ps Hinv Hevs Hlen; simpl in *.
  { destruct (tx_backlog s ps) eqn:Hbl; [|simpl in *; lia]. split_and!; try done. by exists ps. }
  apply Forall_cons in Hevs as [He Hevs]. destruct e as [env p|env cnt]; [done|].
  destruct He as [Ht Hcnt]. apply post_bind.
  eapply post_mono; [apply wifi2uart_ok; [done|split; lia]|].
  intros [s1 out1] (ps1 & Hinv1 & Heq & Hprog). apply post_bind.
  assert (length (tx_backlog s ps) = length out1 + length (tx_backlog s1 ps1))%nat as Hl
    by (by rewrite Heq, length_app).
  eapply post_mono; [apply (IH s1 ps1); [done|done|]|].
  - destruct (tx_backlog s ps) as [|b bl] eqn:Hbl; [simpl in Hl; lia|].
    destruct out1 as [|o out1]; [|simpl in *; lia].
    exfalso. by apply Hprog; [done|lia|..].
  - intros [[s' out] acc] (-> & -> & Hfin). by rewrite Heq.
Qed.

(** ** Properties *)

(** C13. For every interleaving of received packets and main-loop calls, with any
    FIFO levels and any failures, the line carries exactly the frames of the
    packets the queue accepted, whole, in order and without a gap: what is on the
    line followed by what is still pending is their framing. *)
Theorem wifi2uart_line_is_frames evs q :
  Forall event_ok evs -> queue_rep ∅ empty_heap q [] ->
  total (tx_run evs (wifi_tx_init q)) (fun '(s', out, acc) =>
    exists ps', tx_inv s' ps' /\ put_frames SPLIT_DATA acc = out ++ tx_backlog s' ps').
Proof.
  intros Hevs Hq. apply (tx_run_ok evs (wifi_tx_init q) []); [|done].
  constructor; simpl; try done. by exists q.
Qed.

(** C28. The transmitter drains: from any reachable state, as many calls with room in
    the FIFO as there are bytes left put all of them on the line, nothing else,
    and leave nothing behind. *)
Theorem wifi2uart_drains evs s ps :
  tx_inv s ps -> Forall draining evs -> (length (tx_backlog s ps) <= length evs)%nat ->
  total (tx_run evs s) (fun '(s', out, acc) =>
    out = tx_backlog s ps /\ acc = [] /\ exists ps', tx_inv s' ps' /\ tx_backlog s' ps' = []).
Proof. apply tx_run_drains. Qed.

(** A packet that finds no room in the queue is dropped without a trace: the hook
    leaves the queue's contents, the frame being sent and the heap's ownership as
    they were. *)
Theorem uart_wifi_recv_drops_cleanly env p s ps :
  tx_inv s ps -> packet_ok p -> MAX_QUEUE_LENGTH < total_length ps + zlen p ->
  total (uart_wifi_recv env p s) (fun '(s', r) =>
    r <> QUEUE_OK /\ tx_inv s' ps /\ tx_backlog s' ps = tx_backlog s ps).
Proof.
  intros Hinv Hp Hfull. eapply post_mono; [by apply uart_wifi_recv_ok|].
  intros [s' r] (-> & Hinv' & Hpend).
  assert (enqueue_code env ps p <> QUEUE_OK) as Hne.
  { unfold enqueue_code. destruct (take_ok env); [|done]. simpl. case_if as H; [done|lia]. }
  destruct (Z.eqb_spec (enqueue_code env ps p) QUEUE_OK); [done|].
  split; [done|]. split; [done|]. unfold tx_backlog. by rewrite Hpend.
Qed.

Lemma tx_inv_init : tx_inv (wifi_tx_init empty_queue) [].
Proof.
  constructor; simpl; try done.
  eexists. split; [done|]. apply empty_queue_rep.
Qed.

Lemma wifi2uart_line_is_frames_witness :
  total (tx_run [EvRecv good_env [1; 2; 3]; EvCall good_env 127; EvRecv good_env [4];
                 EvCall good_env 0; EvCall good_env 128] (wifi_tx_init empty_queue))
    (fun '(s', out, acc) =>
      exists ps', tx_inv s' ps' /\ put_frames SPLIT_DATA acc = out ++ tx_backlog s' ps').
Proof.
  apply wifi2uart_line_is_frames; [|apply empty_queue_rep].
  rewrite !Forall_cons, Forall_nil. unfold event_ok, packet_ok, MTU_LEN, cnt_ok, UART_FIFO_LEN. simpl. lia.
Defined.

(** Every admissible queue content is reachable. *)
Lemma tx_inv_exists ps :
  Forall packet_ok ps -> total_length ps <= MAX_QUEUE_LENGTH -> exists s, tx_inv s ps.
Proof.
  induction ps as [|p ps IH] using rev_ind; [intros; eexists; apply tx_inv_init|].
  intros [Hps Hp]%Forall_app Hlen. apply Forall_cons in Hp as [Hp _]. rewrite total_length_app in Hlen. simpl in Hlen.
  destruct IH as [s Hs]; [done|lia|].
  destruct (total_inv _ _ (uart_wifi_recv_ok good_env p s ps Hs Hp)) as ([s' r] & _ & -> & H & _).
  exists s'. revert H. unfold enqueue_code. simpl.
  by replace (_ <? _) with false by (symmetry; apply Z.ltb_ge; lia).
Qed.

Lemma wifi2uart_drains_witness :
  exists s, tx_inv s [[1; 2; 3]] /\
  total (tx_run (replicate (length (tx_backlog s [[1; 2; 3]])) (EvCall good_env 5)) s)
    (fun '(s', out, acc) =>
      out = tx_backlog s [[1; 2; 3]] /\ acc = []
      /\ exists ps', tx_inv s' ps' /\ tx_backlog s' ps' = []).
Proof.
  destruct (tx_inv_exists [[1; 2; 3]]) as [s Hs].
  { apply Forall_singleton. unfold packet_ok, MTU_LEN. simpl. lia. }
  { vm_compute. discriminate. }
  exists s. split; [exact Hs|].
  apply wifi2uart_drains; [exact Hs| |by rewrite length_replicate].
  apply Forall_replicate. split; [done|]. unfold UART_FIFO_LEN. lia.
Defined.

Definition full_queue : list (list Z) := replicate 21 (replicate 1500 0) ++ [replicate 1000 0].
Lemma uart_wifi_recv_drops_cleanly_witness :
  exists s, tx_inv s full_queue /\
  total (uart_wifi_recv good_env (replicate 300 1) s) (fun '(s', r) =>
    r <> QUEUE_OK /\ tx_inv s' full_queue /\ tx_backlog s' full_queue = tx_backlog s full_queue).
Proof.
  destruct (tx_inv_exists full_queue) as [s Hs].
  { apply Forall_app. split; [apply Forall_replicate|apply Forall_singleton];
      unfold packet_ok, MTU_LEN; rewrite length_replicate; lia. }
  { vm_compute. discriminate. }
  exists s. split; [exact Hs|]. apply uart_wifi_recv_drops_cleanly; [exact Hs| |vm_compute; reflexivity].
  unfold packet_ok, MTU_LEN. rewrite length_replicate. lia.
Defined.
