(* ===== verification/EspMain.v ===== *)
(** * ESP8266: start-up, link events and the main loop (main.c)

    The firmware receives the credentials, connects, announces its network
    parameters to the host and waits for their echo; then its main loop moves
    packets in both directions until the link goes down.  The SDK's calls that only
    configure hardware or the Wi-Fi stack leave no trace here; pin 5, which tells
    the host whether the link is up, does. *)
From stdpp Require Import prelude list gmap.
From Stdlib Require Import ZArith Lia.
From S2P Require Import Prelude Memory Wire EspUart EspFraming EspReceive EspUart2wifi.
From S2P Require Import EspQueue EspWifi2uart.

(** lwIP's interface list as [start_hock] reads it: three 4-byte addresses each. *)
Record netif := mk_netif { ip_addr : list Z; netmask : list Z; gw : list Z }.
Definition netif_ok (n : netif) : Prop := zlen (ip_addr n) = 4 /\ zlen (netmask n) = 4 /\ zlen (gw n) = 4.

(** The globals of main.c, the level of pin 5, and the receive machine. *)
Record esp_state := mk_esp {
  es_uart : esp_uart;
  esp_netif_info : list Z;
  target_wifi_netif : option netif;
  gpio5 : Z;
  runFlag : Z;
  uart_wifi_mutex : bool;
}.

(** ** Credentials *)

(** [wifi_init_sta]: both fields of [wifi_config.sta], which starts zeroed. *)
Definition wifi_init_sta (g : esp_uart) (rx : rx_line) : outcome (recv_exit (list Z * list Z)) :=
  let! e := recv_ssid (replicate 32 0) g rx in
  match e with
  | Polling g => Ret (Polling g)
  | Received g rx ssid =>
      let! e := recv_passwd (replicate 64 0) g rx in
      match e with
      | Polling g => Ret (Polling g)
      | Received g rx passwd => Ret (Received g rx (ssid, passwd))
      end
  end.

(** ** Announcement *)

(** [start_hock]: no interface has the address; or it is still sending or waiting
    for the echo; or the link is handed to the main loop.  [out] is what it put on
    the line. *)
Inductive hock_exit :=
  | NoNetif (st : esp_state)
  | Blocked (out : list Z)
  | Hooked (st : esp_state) (rx : rx_line) (out : list Z).

(** The loop over [netif_list]. *)
Definition find_netif (ip : list Z) (netif_list : list netif) : option netif :=
  match filter (fun n => ip_addr n = ip) netif_list with n :: _ => Some n | [] => None end.

(** [*((uint16_t * )netif_info) = 12; memcpy..; netif_info[14]=SPLIT_CMD;] *)
Definition fill_netif_info (a : list Z) (n : netif) : option (list Z) :=
  a ← store_u16 a 0 12;
  a ← memcpy a 2 (ip_addr n) 0 4;
  a ← memcpy a 6 (netmask n) 0 4;
  a ← memcpy a 10 (gw n) 0 4;
  store1 a 14 SPLIT_CMD.

Definition start_hock (ip : list Z) (netif_list : list netif) (tx : tx_line) (rx : rx_line)
    (st : esp_state) : outcome hock_exit :=
  match find_netif ip netif_list with
  | None => Ret (NoNetif st)
  | Some n =>
      let? info := fill_netif_info (esp_netif_info st) n in
      let! sent := send_to_uart0_sync info 0 15 tx in
      match sent with
      | Spinning out => Ret (Blocked out)
      | Sent _ out =>
          let! e := recv_netif_info info 15 (es_uart st) rx in
          match e with
          | Polling _ => Ret (Blocked out)
          | Received g rx _ => Ret (Hooked (mk_esp g info (Some n) 0 1 true) rx out)
          end
      end
  end.

(** ** Events *)

Inductive wifi_event :=
  | WIFI_EVENT_STA_START
  | WIFI_EVENT_STA_CONNECTED
  | WIFI_EVENT_STA_DISCONNECTED
  | WIFI_EVENT_STA_AUTHMODE_CHANGE
  | OtherWifiEvent (id : Z)
  | IP_EVENT_STA_GOT_IP (ip : list Z) (netif_list : list netif) (tx : tx_line) (rx : rx_line)
  | OtherEvent.

Definition set_runFlag (f : Z) (st : esp_state) : esp_state :=
  mk_esp (es_uart st) (esp_netif_info st) (target_wifi_netif st) (gpio5 st) f (uart_wifi_mutex st).

(** [wifi_event_handler]: the new state, whether it called [esp_wifi_connect], and how
    [start_hock] ended if it ran. *)
Definition wifi_event_handler (e : wifi_event) (st : esp_state) :
    outcome (esp_state * bool * option hock_exit) :=
  match e with
  | WIFI_EVENT_STA_START => Ret (st, true, None)
  | WIFI_EVENT_STA_DISCONNECTED => Ret (set_runFlag 0 st, false, None)
  | IP_EVENT_STA_GOT_IP ip netif_list tx rx =>
      let! h := start_hock ip netif_list tx rx st in
      match h with
      | NoNetif st | Hooked st _ _ => Ret (st, false, Some h)
      | Blocked _ => Ret (st, false, Some h)
      end
  | _ => Ret (st, false, None)
  end.

(** ** Start-up *)

(** [init] up to the wait for the semaphore: a resource is missing (it returns at
    once), or it waits for the credentials, or it has configured the station. *)
Inductive init_exit :=
  | InitFailed
  | InitPolling
  | Configured (g : esp_uart) (rx : rx_line) (ssid passwd : list Z) (q : ThreadSafeQueue) (pin5 : Z).

Definition init (sem_ok alloc_ok mutex_ok : bool) (rx : rx_line) : outcome init_exit :=
  if negb sem_ok then Ret InitFailed
  else
    match queue_init alloc_ok mutex_ok with
    | (_, None) => Ret InitFailed
    | (ret, Some q) =>
        if negb (ret =? 0) then Ret InitFailed
        else
          let! e := wifi_init_sta esp_uart_init rx in
          match e with
          | Polling _ => Ret InitPolling
          | Received g rx (ssid, passwd) => Ret (Configured g rx ssid passwd q 1)
          end
    end.

(** ** The main loop *)

(** [app_main] from [while(runFlag)] on, with the other tasks' effects on it:
    [in_loop] until the flag was seen 0, afterwards the dummy reads. *)
Record main_state := mk_main {
  m_wifi : esp_wifi;
  m_tx : wifi_tx;
  m_rx : rx_line;
  m_flag : Z;
  m_pin5 : Z;
  in_loop : bool;
}.

(** A turn of the loop with the answers of the SDK and the fill level of the
    transmit FIFO; a packet handed over by lwIP; a lost connection.  The handler's other
    event with an effect, IP_EVENT_STA_GOT_IP, belongs to the whole application:
    [app_step] of EspApp.v, before the loop and while it runs. *)
Inductive main_event :=
  | MTurn (wenv : wifi_env) (qenv : queue_env) (txfifo_cnt : Z)
  | MPacket (qenv : queue_env) (payload : list Z)
  | MDisconnected.

(** What a step makes visible: packets to the Wi-Fi interface, bytes on the line,
    packets accepted by the queue. *)
Record main_out := mk_out {
  to_wifi : list (list Z * list Z);
  to_line : list Z;
  accepted : list (list Z);
}.

Definition main_step (e : main_event) (st : main_state) : outcome (main_state * main_out) :=
  match e with
  | MTurn wenv qenv cnt =>
      if in_loop st then
        if m_flag st =? 0 then
          Ret (mk_main (m_wifi st) (m_tx st) (m_rx st) (m_flag st) 1 false, mk_out [] [] [])
        else
          let! ' (Returned w rx sent) := uart2wifi wenv (m_wifi st) (m_rx st) in
          let! ' (s, out) := wifi2uart qenv cnt (m_tx st) in
          Ret (mk_main w s rx (m_flag st) (m_pin5 st) true, mk_out (option_list sent) out [])
      else
        match m_rx st with
        | [] => Ret (st, mk_out [] [] [])
        | fifo :: rx =>
            let! g := read_uart0 (uart (m_wifi st)) fifo in
            Ret (mk_main (mk_esp_wifi g (send_pbuf (m_wifi st)) (dest (m_wifi st))) (m_tx st) rx
                   (m_flag st) (m_pin5 st) false, mk_out [] [] [])
        end
  | MPacket qenv p =>
      let! ' (s, r) := uart_wifi_recv qenv p (m_tx st) in
      Ret (mk_main (m_wifi st) s (m_rx st) (m_flag st) (m_pin5 st) (in_loop st),
           mk_out [] [] (if r =? QUEUE_OK then [p] else []))
  | MDisconnected =>
      Ret (mk_main (m_wifi st) (m_tx st) (m_rx st) 0 (m_pin5 st) (in_loop st), mk_out [] [] [])
  end.

Fixpoint main_run (es : list main_event) (st : main_state) : outcome (main_state * main_out) :=
  match es with
  | [] => Ret (st, mk_out [] [] [])
  | e :: es =>
      let! ' (st, o1) := main_step e st in
      let! ' (st, o2) := main_run es st in
      Ret (st, mk_out (to_wifi o1 ++ to_wifi o2) (to_line o1 ++ to_line o2) (accepted o1 ++ accepted o2))
  end.

(** ** Correctness of the handshake *)

Lemma wifi_init_sta_ok rx name pass rest :
  rx_ok rx -> zlen name + 1 <= WPA_MAX_SSID_LEN ->
  WPA_MIN_PASSWD_LEN <= zlen pass + 1 <= WPA_MAX_PASSWD_LEN ->
  concat rx = put_frame SPLIT_CMD (name ++ [0]) ++ put_frame SPLIT_CMD (pass ++ [0]) ++ rest ->
  total (wifi_init_sta esp_uart_init rx) (fun e =>
    exists g rx', e = Received g rx' (overwrite (replicate 32 0) (name ++ [0]),
                                      overwrite (replicate 64 0) (pass ++ [0]))
      /\ uart_ready g /\ status g = STATUS_LEN /\ rx_ok rx' /\ buffered g ++ concat rx' = rest).
Proof.
  unfold WPA_MAX_SSID_LEN, WPA_MIN_PASSWD_LEN, WPA_MAX_PASSWD_LEN. intros Hrx Hn Hp Hline.
  unfold wifi_init_sta. apply post_bind.
  eapply post_mono; [apply (recv_ssid_delivers (replicate 32 0) esp_uart_init rx); try done;
                     apply uart_ready_inv, uart_ready_init|].
  intros e He. rewrite (expected_empty (F := ssid_format)) in He by apply uart_empty_init.
  rewrite Hline, (next_frame_put (F := ssid_format)) in He
    by (apply cmd_sendable; unfold WPA_MIN_SSID_LEN, WPA_MAX_SSID_LEN, MTU_LEN; lia).
  destruct He as (g & rx' & -> & Hg & Hst & Hrx' & Hrest). apply post_bind.
  eapply post_mono; [apply (recv_passwd_delivers (replicate 64 0) g rx'); try done|].
  { by apply uart_ready_inv. }
  intros e He. unfold expected in He. rewrite Hst, Hrest in He. cbn [next_frame_from] in He.
  rewrite (next_frame_put (F := passwd_format)) in He
    by (apply cmd_sendable; unfold WPA_MIN_PASSWD_LEN, WPA_MAX_PASSWD_LEN, MTU_LEN; lia).
  destruct He as (g2 & rx2 & -> & Hg2 & Hst2 & Hrx2 & Hrest2). exists g2, rx2. by split_and!.
Qed.

(** The 15 bytes of the announcement. *)
Definition netif_params (n : netif) : list Z := ip_addr n ++ netmask n ++ gw n.

Lemma netif_params_length n : netif_ok n -> zlen (netif_params n) = 12.
Proof. intros (?&?&?). unfold netif_params. len. lia. Qed.

Lemma fill_netif_info_ok a n :
  zlen a = 15 -> netif_ok n -> fill_netif_info a n = Some (put_frame SPLIT_CMD (netif_params n)).
Proof.
  intros Ha Hn. pose proof (netif_params_length n Hn) as HL. destruct Hn as (H1 & H2 & H3).
  unfold put_frame. rewrite HL. unfold netif_params. destruct n as [x y z]. simpl in *.
  do 4 (destruct x as [|? x]; [simpl in H1; lia|]). destruct x; [|simpl in H1; lia].
  do 4 (destruct y as [|? y]; [simpl in H2; lia|]). destruct y; [|simpl in H2; lia].
  do 4 (destruct z as [|? z]; [simpl in H3; lia|]). destruct z; [|simpl in H3; lia].
  do 15 (destruct a as [|? a]; [simpl in Ha; lia|]). destruct a; [done|simpl in Ha; lia].
Qed.

(** How an announcement ends, given the input [D] denotes for the echo. *)
Definition hock_ok (n : netif) (D : option (list Z * list Z)) (room : Z) (e : hock_exit) : Prop :=
  let frame := put_frame SPLIT_CMD (netif_params n) in
  if room <? 15 then e = Blocked (ztake room frame)
  else
    match D with
    | None => e = Blocked frame
    | Some (_, rest) =>
        exists st' rx', e = Hooked st' rx' frame /\ uart_ready (es_uart st') /\ status (es_uart st') = STATUS_LEN
          /\ rx_ok rx' /\ buffered (es_uart st') ++ concat rx' = rest
          /\ target_wifi_netif st' = Some n /\ runFlag st' = 1 /\ gpio5 st' = 0 /\ uart_wifi_mutex st' = true
    end.

Lemma start_hock_ok ip l tx rx st n :
  find_netif ip l = Some n -> netif_ok n -> zlen (esp_netif_info st) = 15 ->
  uart_ready (es_uart st) -> rx_ok rx -> Forall cnt_ok tx ->
  total (start_hock ip l tx rx st)
    (hock_ok n (expected (F := netif_format (put_frame SPLIT_CMD (netif_params n)) 12) (es_uart st) rx)
       (tx_room tx)).
Proof.
  intros Hf Hn Hs Hg Hrx Htx. pose proof (netif_params_length n Hn) as HL.
  pose proof (put_frame_length SPLIT_CMD (netif_params n)) as HF.
  unfold start_hock. rewrite Hf, (fill_netif_info_ok _ _ Hs Hn). cbn [access mbind outcome_bind].
  set (frame := put_frame SPLIT_CMD (netif_params n)) in *. apply post_bind.
  eapply post_mono; [apply (send_to_uart0_sync_total frame 0 15 tx frame); [done|lia|]|].
  { rewrite load_Some, drop_0, take_ge by lia. done. }
  intros e He. unfold hock_ok. fold frame. case_if as Hroom.
  - replace (15 <=? tx_room tx) with false in He by (symmetry; apply Z.leb_gt; lia). by rewrite He.
  - replace (15 <=? tx_room tx) with true in He by (symmetry; apply Z.leb_le; lia).
    destruct He as [tx' ->]. apply post_bind. change 15 with (12 + 3).
    eapply post_mono; [apply (recv_netif_info_delivers frame 12 (es_uart st) rx); try done|].
    + unfold frame, put_frame, put_u16. by rewrite HL.
    + rewrite HF, HL. done.
    + by apply uart_ready_inv.
    + intros e He. destruct (expected _ _) as [[p rest]|].
      * destruct He as (g & rx' & -> & Hg' & Hst & Hrx' & Hrest). simpl.
        eexists _, rx'. by split_and!.
      * by destruct He as [g ->].
Qed.

(** An echo of the announcement is what the firmware waits for. *)
Lemma netif_sendable p :
  zlen p = 12 -> sendable (F := netif_format (put_frame SPLIT_CMD p) 12) SPLIT_CMD p.
Proof.
  intros Hp. unfold sendable. rewrite Hp. split; [done|]. split; [done|].
  unfold frame_ok, netif_format. pose proof (put_frame_length SPLIT_CMD p).
  unfold put_frame at 1. rewrite app_assoc, load1_app_r by (unfold put_u16; len; lia).
  rewrite load_Some, drop_0 by lia. apply andb_true_iff. split; [done|]. by apply bool_decide_eq_true.
Qed.

(** ** Correctness of the main loop *)

Definition main_event_ok (e : main_event) : Prop :=
  match e with
  | MTurn _ _ cnt => cnt_ok cnt
  | MPacket _ p => packet_ok p
  | MDisconnected => True
  end.

(** [ps] are the queued packets.  After the loop only the buffer's size matters. *)
Record main_inv (st : main_state) (ps : list (list Z)) : Prop := {
  mi_tx : tx_inv (m_tx st) ps;
  mi_rx : rx_ok (m_rx st);
  mi_wifi : in_loop st = true -> wifi_inv (m_wifi st);
  mi_buffer : zlen (uartRecvBuffer (uart (m_wifi st))) = MAX_FRAME_LEN + UART_FIFO_LEN;
}.

(** From [st] to [st'] with output [o]: no packet is lost, duplicated or reordered
    in either direction. *)
Definition main_conserves (st : main_state) (ps : list (list Z)) (st' : main_state) (ps' : list (list Z))
    (o : main_out) : Prop :=
  tx_backlog (m_tx st) ps ++ put_frames SPLIT_DATA (accepted o) = to_line o ++ tx_backlog (m_tx st') ps'
  /\ (if in_loop st then
        (to_wifi o).*1 `prefix_of` pending_packets (m_wifi st) (m_rx st)
        /\ (in_loop st' = true ->
            pending_packets (m_wifi st) (m_rx st)
            = (to_wifi o).*1 ++ pending_packets (m_wifi st') (m_rx st'))
      else in_loop st' = false /\ to_wifi o = [])
  /\ Forall (fun '(p, d) => d = ip_dest p /\ 20 <= zlen p <= MTU_LEN) (to_wifi o).

Lemma main_idle st ps : main_conserves st ps st ps (mk_out [] [] []).
Proof.
  unfold main_conserves. simpl. rewrite app_nil_r. split; [done|]. split; [|done].
  destruct (in_loop st); [|done]. split; [apply prefix_nil|done].
Qed.

Lemma read_uart0_ok g fifo :
  zlen (uartRecvBuffer g) = MAX_FRAME_LEN + UART_FIFO_LEN -> chunk_ok fifo ->
  exists g', read_uart0 g fifo = Ret g' /\ length (uartRecvBuffer g') = length (uartRecvBuffer g).
Proof.
  unfold chunk_ok, MAX_FRAME_LEN, MTU_LEN, UART_FIFO_LEN. intros Hs Hc. unfold read_uart0.
  destruct (store (uartRecvBuffer g) 0 fifo) as [a|] eqn:Ha; [|rewrite store_Some in Ha; [done|lia..]].
  rewrite (uart0_recv_data_spec _ _ _ a) by done. simpl. eexists. split; [done|].
  by eapply store_length.
Qed.

Lemma main_turn_ok wenv qenv cnt st ps :
  main_inv st ps -> cnt_ok cnt -> in_loop st = true -> m_flag st <> 0 ->
  total (main_step (MTurn wenv qenv cnt) st) (fun '(st', o) =>
    (exists ps', main_inv st' ps' /\ main_conserves st ps st' ps' o)
    /\ in_loop st' = true /\ m_flag st' = m_flag st /\ accepted o = []
    /\ (take_ok qenv = true -> cnt < UART_FIFO_LEN -> tx_backlog (m_tx st) ps <> [] -> to_line o <> [])).
Proof.
  intros [Htx Hrx Hw Hb] Hc Hl Hf. simpl. rewrite Hl. apply Z.eqb_neq in Hf. rewrite Hf.
  apply post_bind. eapply post_mono; [by apply uart2wifi_ok; [apply Hw|]|].
  intros [w rx sent] [[Hw' Hrx'] Hloss Hsent _]. apply post_bind.
  eapply post_mono; [by apply wifi2uart_ok|]. intros [s out] (ps' & Htx' & Hline & Hprog).
  split; [|done]. exists ps'. split.
  - constructor; simpl; try done. by destruct Hw' as [[? _ _] _].
  - unfold main_conserves. simpl. rewrite app_nil_r, Hl. split; [done|]. split.
    + split; [rewrite Hloss; by eexists|done].
    + destruct sent as [[p d]|]; [|done]. apply Forall_singleton. by apply Hsent.
Qed.

Lemma main_step_ok e st ps :
  main_inv st ps -> main_event_ok e ->
  total (main_step e st) (fun '(st', o) =>
    exists ps', main_inv st' ps' /\ main_conserves st ps st' ps' o).
Proof.
  intros Hinv He. destruct e as [wenv qenv cnt|qenv p|].
  - destruct (in_loop st) eqn:Hl; [destruct (Z.eqb_spec (m_flag st) 0) as [Hf|Hf]|].
    + simpl. rewrite Hl, Hf. simpl. exists ps. destruct Hinv as [Htx Hrx Hw Hb]. split; [by constructor|].
      destruct (main_idle st ps) as (H1 & H2 & H3). split; [exact H1|]. split; [|done].
      rewrite Hl in *. simpl. by split; [apply prefix_nil|].
    + eapply post_mono; [by apply main_turn_ok|]. by intros [st' o] [? _].
    + simpl. rewrite Hl. destruct (m_rx st) as [|fifo rx] eqn:Hrx0.
      { exists ps. split; [done|apply main_idle]. }
      destruct Hinv as [Htx Hrx Hw Hb]. rewrite Hrx0 in Hrx. apply Forall_cons in Hrx as [Hc Hrx].
      destruct (read_uart0_ok _ _ Hb Hc) as (g & -> & HL). cbn [mbind outcome_bind post]. exists ps. split.
      * constructor; simpl; try done. lia.
      * unfold main_conserves. simpl. by rewrite app_nil_r, Hl.
  - destruct Hinv as [Htx Hrx Hw Hb]. simpl in He |- *. apply post_bind.
    eapply post_mono; [by apply uart_wifi_recv_ok|]. intros [s r] (_ & Htx' & Hpend).
    eexists. split; [constructor; [exact Htx'|done..]|]. unfold main_conserves. simpl. split.
    + unfold tx_backlog. rewrite Hpend. destruct (r =? QUEUE_OK); [|by rewrite app_nil_r].
      rewrite put_frames_app, <- app_assoc. done.
    + split; [|done]. destruct (in_loop st); [|done]. split; [apply prefix_nil|done].
  - simpl. exists ps. destruct Hinv as [Htx Hrx Hw Hb]. split; [by constructor|].
    destruct (main_idle st ps) as (H1 & H2 & H3). by split_and!.
Qed.

Lemma main_conserves_trans st ps st1 ps1 o1 st2 ps2 o2 :
  main_conserves st ps st1 ps1 o1 -> main_conserves st1 ps1 st2 ps2 o2 ->
  main_conserves st ps st2 ps2
    (mk_out (to_wifi o1 ++ to_wifi o2) (to_line o1 ++ to_line o2) (accepted o1 ++ accepted o2)).
Proof.
  intros (L1 & W1 & F1) (L2 & W2 & F2). unfold main_conserves. simpl. split; [|split].
  - rewrite put_frames_app, app_assoc, L1, <- app_assoc, L2. by rewrite app_assoc.
  - rewrite fmap_app. destruct (in_loop st); [|destruct W1 as [E1 E2]; rewrite E1 in W2].
    + destruct W1 as [P1 Q1]. destruct (in_loop st1).
      * rewrite Q1 by done. destruct W2 as [P2 Q2]. split; [by apply prefix_app|].
        intros H. rewrite Q2 by done. by rewrite app_assoc.
      * destruct W2 as [E W2]. rewrite W2, app_nil_r, E. done.
    + destruct W2 as [-> W2]. by rewrite E2, W2.
  - by apply Forall_app.
Qed.

Lemma main_run_conserves_ok es st ps :
  main_inv st ps -> Forall main_event_ok es ->
  total (main_run es st) (fun '(st', o) =>
    exists ps', main_inv st' ps' /\ main_conserves st ps st' ps' o).
Proof.
  intros Hinv Hes. revert st ps Hinv. induction Hes as [|e es He _ IH]; intros st ps Hinv.
  { exists ps. split; [done|apply main_idle]. }
  cbn [main_run]. apply post_bind. eapply post_mono; [by apply main_step_ok|].
  intros [st1 o1] (ps1 & Hinv1 & H1). apply post_bind. eapply post_mono; [by apply IH|].
  intros [st2 o2] (ps2 & Hinv2 & H2). exists ps2. split; [done|]. by eapply main_conserves_trans.
Qed.

(** ** Properties *)

(** Start-up: when the host sends its two credential frames, [wifi_init_sta] fills
    [wifi_config] with exactly the name and the password, NUL-terminated in their
    zeroed fields, and leaves whatever follows on the line for the next receiver. *)
Theorem wifi_init_sta_credentials rx name pass rest :
  rx_ok rx -> zlen name + 1 <= WPA_MAX_SSID_LEN ->
  WPA_MIN_PASSWD_LEN <= zlen pass + 1 <= WPA_MAX_PASSWD_LEN ->
  concat rx = put_frame SPLIT_CMD (name ++ [0]) ++ put_frame SPLIT_CMD (pass ++ [0]) ++ rest ->
  total (wifi_init_sta esp_uart_init rx) (fun e =>
    exists g rx', e = Received g rx' (overwrite (replicate 32 0) (name ++ [0]),
                                      overwrite (replicate 64 0) (pass ++ [0]))
      /\ uart_ready g /\ status g = STATUS_LEN /\ rx_ok rx' /\ buffered g ++ concat rx' = rest).
Proof. apply wifi_init_sta_ok. Qed.

(** [start_hock] announces the matching interface in one frame and hands the link
    over (pin 5 low, the run flag set, the semaphore given) exactly when the host has
    echoed those 15 bytes; until then it keeps waiting, and the main loop does not
    start. *)
Theorem start_hock_handshake ip l tx rx st n :
  find_netif ip l = Some n -> netif_ok n -> zlen (esp_netif_info st) = 15 ->
  uart_ready (es_uart st) -> rx_ok rx -> Forall cnt_ok tx ->
  total (start_hock ip l tx rx st)
    (hock_ok n (expected (F := netif_format (put_frame SPLIT_CMD (netif_params n)) 12) (es_uart st) rx)
       (tx_room tx)).
Proof. apply start_hock_ok. Qed.

(** C6. The whole firmware in operation: for every interleaving of main-loop turns,
    packets from lwIP and a disconnection, with any failures and any timing, nothing
    undefined happens; the line carries exactly the frames of the accepted packets;
    the Wi-Fi interface receives a prefix of the packets that arrived, each once and
    with its own destination, and none is skipped while the loop runs. *)
Theorem main_run_conserves es st ps :
  main_inv st ps -> Forall main_event_ok es ->
  total (main_run es st) (fun '(st', o) =>
    exists ps', main_inv st' ps' /\ main_conserves st ps st' ps' o).
Proof. apply main_run_conserves_ok. Qed.

(** After the loop, whatever happens, nothing is handed over or sent. *)
Definition link_down (r : main_state * main_out) : Prop :=
  (in_loop r.1 = false /\ m_pin5 r.1 = 1) /\ to_wifi r.2 = [] /\ to_line r.2 = [].

Lemma main_step_down e st ps :
  main_inv st ps -> main_event_ok e -> in_loop st = false -> m_pin5 st = 1 ->
  total (main_step e st) link_down.
Proof.
  intros Hinv He Hl Hpin. destruct e as [wenv' qenv' cnt'|qenv' p|]; simpl.
  - rewrite Hl. destruct (m_rx st) as [|fifo rx] eqn:Hrx0; [done|].
    destruct Hinv as [_ Hrx _ Hb]. rewrite Hrx0 in Hrx. apply Forall_cons in Hrx as [Hc _].
    by destruct (read_uart0_ok _ _ Hb Hc) as (g & -> & _).
  - apply post_bind. eapply post_mono; [apply uart_wifi_recv_ok; [by destruct Hinv|done]|].
    by intros [s r] _.
  - done.
Qed.

Lemma main_run_down es st ps :
  Forall main_event_ok es -> main_inv st ps -> in_loop st = false -> m_pin5 st = 1 ->
  total (main_run es st) link_down.
Proof.
  intros Hes. revert st ps. induction Hes as [|e es He _ IH]; intros st ps Hinv Hl Hpin; [done|].
  cbn [main_run]. apply post_bind.
  eapply post_mono; [apply post_and; [by apply main_step_ok|by eapply main_step_down]|].
  intros [st1 o1] [(ps1 & Hinv1 & _) ([Hl1 Hp1] & Hw1 & Hline1)]. apply post_bind.
  eapply post_mono; [by apply (IH st1 ps1)|]. intros [st2 o2] (Hst2 & Hw2 & Hline2).
  unfold link_down in *. simpl in *. by rewrite Hw1, Hw2, Hline1, Hline2.
Qed.

(** C25. Link loss: once the connection is lost, the next turn leaves the loop and raises
    pin 5, and from then on the firmware only discards what the host sends: it hands
    over no packet and puts no byte on the line, whatever happens. *)
Theorem main_run_link_down wenv qenv cnt es st ps :
  main_inv st ps -> in_loop st = true -> cnt_ok cnt -> Forall main_event_ok es ->
  total (main_run (MDisconnected :: MTurn wenv qenv cnt :: es) st) (fun '(st', o) =>
    in_loop st' = false /\ m_pin5 st' = 1 /\ to_wifi o = [] /\ to_line o = []).
Proof.
  intros [Htx Hrx Hw Hb] Hl _ Hes. cbn [main_run main_step mbind outcome_bind in_loop m_flag].
  rewrite Hl. cbn [Z.eqb]. cbn [mbind outcome_bind]. do 2 apply post_bind.
  eapply post_mono; [apply (main_run_down es _ ps); try done; by constructor|].
  intros [st2 o2] ((?&?)&?&?). simpl in *. by split_and!.
Qed.

(** ** Witnesses *)

Definition witness_name : list Z := [97; 98].
Definition witness_pass : list Z := [49; 50; 51; 52; 53; 54; 55; 56].
Lemma wifi_init_sta_credentials_witness :
  total (wifi_init_sta esp_uart_init [put_frame SPLIT_CMD (witness_name ++ [0]); [];
                                      put_frame SPLIT_CMD (witness_pass ++ [0]) ++ [9]]) (fun e =>
    exists g rx', e = Received g rx' (overwrite (replicate 32 0) (witness_name ++ [0]),
                                      overwrite (replicate 64 0) (witness_pass ++ [0]))
      /\ uart_ready g /\ status g = STATUS_LEN /\ rx_ok rx' /\ buffered g ++ concat rx' = [9]).
Proof.
  apply wifi_init_sta_credentials; [rx_line_ok|vm_compute; discriminate| |reflexivity].
  split; vm_compute; discriminate.
Defined.

Definition witness_netif : netif := mk_netif [192; 168; 0; 2] [255; 255; 255; 0] [192; 168; 0; 1].
Definition witness_echo : list Z := put_frame SPLIT_CMD (netif_params witness_netif).
Definition witness_esp : esp_state := mk_esp esp_uart_init (replicate 15 0) None 1 0 false.

Lemma start_hock_handshake_witness :
  total (start_hock [192; 168; 0; 2] [mk_netif [127; 0; 0; 1] [255; 0; 0; 0] [0; 0; 0; 0]; witness_netif]
           [0] [witness_echo; [5]] witness_esp)
    (hock_ok witness_netif
       (expected (F := netif_format (put_frame SPLIT_CMD (netif_params witness_netif)) 12)
          (es_uart witness_esp) [witness_echo; [5]]) (tx_room [0]))
  /\ expected (F := netif_format (put_frame SPLIT_CMD (netif_params witness_netif)) 12)
       (es_uart witness_esp) [witness_echo; [5]] = Some (netif_params witness_netif, [5]).
Proof.
  split; [|vm_compute; reflexivity].
  apply start_hock_handshake; [reflexivity|by split_and!|reflexivity|apply uart_ready_init|rx_line_ok|].
  apply Forall_singleton. unfold cnt_ok, UART_FIFO_LEN. lia.
Defined.

Definition main_start (rx : rx_line) : main_state :=
  mk_main esp_wifi_init (wifi_tx_init empty_queue) rx 1 0 true.
Lemma main_start_inv rx : rx_ok rx -> main_inv (main_start rx) [].
Proof.
  intros Hrx. constructor; simpl; [apply tx_inv_init|done|intros _; apply wifi_inv_init|reflexivity].
Qed.

Definition witness_events : list main_event :=
  [MTurn witness_env good_env 0; MPacket good_env [1; 2; 3]; MTurn failing_env good_env 100;
   MTurn witness_env good_env 128; MDisconnected; MTurn witness_env good_env 0].
Lemma witness_events_ok : Forall main_event_ok witness_events.
Proof.
  unfold witness_events. rewrite !Forall_cons, Forall_nil. simpl.
  unfold cnt_ok, packet_ok, UART_FIFO_LEN, MTU_LEN. simpl. lia.
Qed.

Lemma main_run_conserves_witness :
  total (main_run witness_events (main_start witness_polls)) (fun '(st', o) =>
    exists ps', main_inv st' ps' /\ main_conserves (main_start witness_polls) [] st' ps' o).
Proof.
  apply main_run_conserves; [apply main_start_inv; rx_line_ok|apply witness_events_ok].
Defined.

Lemma main_run_link_down_witness :
  total (main_run (MDisconnected :: MTurn witness_env good_env 0 :: witness_events) (main_start witness_polls))
    (fun '(st', o) => in_loop st' = false /\ m_pin5 st' = 1 /\ to_wifi o = [] /\ to_line o = []).
Proof.
  eapply main_run_link_down; [apply main_start_inv; rx_line_ok|reflexivity| |apply witness_events_ok].
  unfold cnt_ok, UART_FIFO_LEN. lia.
Defined.
