(* ===== verification/EspApp.v ===== *)
(** * ESP8266: the application from power-on (main.c)

    [app_main] and the tasks around it as one machine: [init] receives the
    credentials and waits for the semaphore; the event task runs
    [wifi_event_handler], which announces the link and gives the semaphore; then the
    main loop runs.  An event of the SDK is handled as a whole: its task has the
    higher priority, and the receivers it calls poll without giving way. *)
From stdpp Require Import prelude list gmap.
From Stdlib Require Import ZArith Lia.
From S2P Require Import Prelude Memory Wire EspUart EspFraming EspReceive EspUart2wifi.
From S2P Require Import EspQueue EspWifi2uart EspMain.

(** Where [app_main] stands: receiving the credentials in [init]; in [xSemaphoreTake],
    with the globals, the input still to come and the transmit side; in its loops, with
    the array [netif_info].  [AppHanging]: the event task spins in [start_hock] and
    nothing else runs. *)
Inductive app_phase :=
  | AppCredentials
  | AppWaiting (es : esp_state) (rx : rx_line) (tx : wifi_tx)
  | AppHanging
  | AppRunning (info : list Z) (m : main_state).

(** The queue's global stays null when [init] returns early. *)
Definition wifi_tx_null : wifi_tx :=
  mk_wifi_tx 0 (replicate (Z.to_nat MAX_FRAME_LEN) 0) 0 None empty_heap.

(** [app_main] up to the semaphore, from the globals' initial values; also the name and
    the password it configured.  [init] returns nothing: when it fails, [app_main] goes
    on with [runFlag] 0; [pin5] is the level of the pin it has not configured. *)
Definition app_main (sem_ok alloc_ok mutex_ok : bool) (pin5 : Z) (rx : rx_line) :
    outcome (app_phase * option (list Z * list Z)) :=
  let! e := init sem_ok alloc_ok mutex_ok rx in
  Ret match e with
      | InitFailed => (AppRunning (replicate 15 0) (mk_main esp_wifi_init wifi_tx_null rx 0 pin5 true), None)
      | InitPolling => (AppCredentials, None)
      | Configured g rx ssid passwd q pin5 =>
          (AppWaiting (mk_esp g (replicate 15 0) None pin5 0 false) rx (wifi_tx_init q), Some (ssid, passwd))
      end.

(** An event of the SDK; a packet handed over by lwIP; the semaphore waited for; a turn
    of the loops. *)
Inductive app_event :=
  | AEvent (e : wifi_event)
  | APacket (env : queue_env) (payload : list Z)
  | ATake
  | ATurn (wenv : wifi_env) (qenv : queue_env) (txfifo_cnt : Z).

Definition no_out : main_out := mk_out [] [] [].

(** The handler reads the line from where it is now. *)
Definition at_line (rx : rx_line) (e : wifi_event) : wifi_event :=
  match e with IP_EVENT_STA_GOT_IP ip l txl _ => IP_EVENT_STA_GOT_IP ip l txl rx | e => e end.

(** The globals as the event task sees them while [app_main] is in its loops. *)
Definition running_globals (info : list Z) (m : main_state) : esp_state :=
  mk_esp (uart (m_wifi m)) info None (m_pin5 m) (m_flag m) false.
Definition with_globals (st : esp_state) (rx : rx_line) (m : main_state) : main_state :=
  mk_main (mk_esp_wifi (es_uart st) (send_pbuf (m_wifi m)) (dest (m_wifi m))) (m_tx m) rx
    (runFlag st) (gpio5 st) (in_loop m).

(** [wifi_event_handler] works on the globals, in both phases.  The semaphore is binary
    and taken once.  Where an event cannot happen the state stays. *)
Definition app_step (e : app_event) (a : app_phase) : outcome (app_phase * main_out) :=
  match a, e with
  | AppWaiting es rx tx, AEvent e =>
      let! ' (es, _, h) := wifi_event_handler (at_line rx e) es in
      Ret match h with
          | Some (Hooked _ rx out) => (AppWaiting es rx tx, mk_out [] out [])
          | Some (Blocked out) => (AppHanging, mk_out [] out [])
          | _ => (AppWaiting es rx tx, no_out)
          end
  | AppWaiting es rx tx, APacket env p =>
      let! ' (tx, r) := uart_wifi_recv env p tx in
      Ret (AppWaiting es rx tx, mk_out [] [] (if r =? QUEUE_OK then [p] else []))
  | AppWaiting es rx tx, ATake =>
      if uart_wifi_mutex es then
        Ret (AppRunning (esp_netif_info es)
               (mk_main (mk_esp_wifi (es_uart es) None None) tx rx (runFlag es) (gpio5 es) true), no_out)
      else Ret (a, no_out)
  | AppRunning info m, AEvent e =>
      let! ' (es, _, h) := wifi_event_handler (at_line (m_rx m) e) (running_globals info m) in
      Ret match h with
          | Some (Hooked _ rx out) => (AppRunning (esp_netif_info es) (with_globals es rx m), mk_out [] out [])
          | Some (Blocked out) => (AppHanging, mk_out [] out [])
          | _ => (AppRunning info (with_globals es (m_rx m) m), no_out)
          end
  | AppRunning info m, APacket env p =>
      let! ' (m, o) := main_step (MPacket env p) m in Ret (AppRunning info m, o)
  | AppRunning info m, ATurn wenv qenv cnt =>
      let! ' (m, o) := main_step (MTurn wenv qenv cnt) m in Ret (AppRunning info m, o)
  | _, _ => Ret (a, no_out)
  end.

Definition out_app (o1 o2 : main_out) : main_out :=
  mk_out (to_wifi o1 ++ to_wifi o2) (to_line o1 ++ to_line o2) (accepted o1 ++ accepted o2).

Fixpoint app_run (es : list app_event) (a : app_phase) : outcome (app_phase * main_out) :=
  match es with
  | [] => Ret (a, no_out)
  | e :: es =>
      let! ' (a, o1) := app_step e a in
      let! ' (a, o2) := app_run es a in Ret (a, out_app o1 o2)
  end.

(** ** The loop phase is the main loop *)

Definition as_main (e : app_event) : list main_event :=
  match e with
  | AEvent WIFI_EVENT_STA_DISCONNECTED => [MDisconnected]
  | APacket env p => [MPacket env p]
  | ATurn wenv qenv cnt => [MTurn wenv qenv cnt]
  | _ => []
  end.

(** The address does not change while the loops run. *)
Definition same_address (e : app_event) : Prop :=
  match e with AEvent (IP_EVENT_STA_GOT_IP _ _ _ _) => False | _ => True end.
Definition app_event_ok (e : app_event) : Prop := same_address e /\ Forall main_event_ok (as_main e).

Lemma out_app_nil o : out_app no_out o = o.
Proof. by destruct o. Qed.

Lemma with_globals_same info m : with_globals (running_globals info m) (m_rx m) m = m.
Proof. by destruct m as [[]]. Qed.

(** An event is a step of the main loop, or no step. *)
Lemma app_step_main e info m :
  same_address e ->
  app_step e (AppRunning info m)
    = (let! ' (m, o) := main_run (as_main e) m in Ret (AppRunning info m, o)).
Proof.
  intros He. assert (forall e', (let! ' (m, o) := main_run [e'] m in Ret (AppRunning info m, o))
    = (let! ' (m, o) := main_step e' m in Ret (AppRunning info m, o))) as Hone.
  { intros e'. cbn [main_run]. destruct (main_step e' m) as [[m1 [o1 o2 o3]]| |]; [|done..].
    cbn [mbind outcome_bind to_wifi to_line accepted]. by rewrite !app_nil_r. }
  destruct e as [e|env p| |wenv qenv cnt].
  - destruct e; try done; cbn [app_step as_main at_line wifi_event_handler mbind outcome_bind main_run];
      rewrite ?with_globals_same; try done. by destruct m as [[]].
  - cbn [as_main]. by rewrite (Hone (MPacket env p)).
  - done.
  - cbn [as_main]. by rewrite (Hone (MTurn wenv qenv cnt)).
Qed.

Lemma main_run_app es1 es2 m :
  main_run (es1 ++ es2) m
    = (let! ' (m, o1) := main_run es1 m in let! ' (m, o2) := main_run es2 m in Ret (m, out_app o1 o2)).
Proof.
  revert m. induction es1 as [|e es1 IH]; intros m.
  { simpl. destruct (main_run es2 m) as [[m2 o2]| |]; [|done..]. cbn [mbind outcome_bind]. by rewrite out_app_nil. }
  cbn [app main_run]. destruct (main_step e m) as [[m1 o1]| |]; [|done..]. cbn [mbind outcome_bind].
  rewrite IH. destruct (main_run es1 m1) as [[m2 o2]| |]; [|done..]. cbn [mbind outcome_bind].
  destruct (main_run es2 m2) as [[m3 o3]| |]; [|done..]. cbn [mbind outcome_bind].
  unfold out_app. simpl. by rewrite !app_assoc.
Qed.

Lemma app_run_main es info m :
  Forall same_address es ->
  app_run es (AppRunning info m)
    = (let! ' (m, o) := main_run (concat (as_main <$> es)) m in Ret (AppRunning info m, o)).
Proof.
  intros Hes. revert m. induction Hes as [|e es He _ IH]; intros m; [done|].
  cbn [app_run fmap list_fmap concat]. rewrite main_run_app, app_step_main by done.
  destruct (main_run (as_main e) m) as [[m1 o1]| |]; [|done..]. cbn [mbind outcome_bind]. rewrite IH.
  by destruct (main_run (concat (as_main <$> es)) m1) as [[m2 o2]| |].
Qed.

(** Until the semaphore is given, these change nothing. *)
Definition quiet (e : app_event) : Prop :=
  match e with
  | AEvent (WIFI_EVENT_STA_DISCONNECTED | IP_EVENT_STA_GOT_IP _ _ _ _) | APacket _ _ => False
  | _ => True
  end.

Lemma app_run_quiet pre es st rx tx :
  Forall quiet pre -> uart_wifi_mutex st = false ->
  app_run (pre ++ es) (AppWaiting st rx tx) = app_run es (AppWaiting st rx tx).
Proof.
  intros Hpre Hm. induction Hpre as [|e pre He _ IH]; [done|]. cbn [app app_run].
  assert (app_step e (AppWaiting st rx tx) = Ret (AppWaiting st rx tx, no_out)) as ->.
  { destruct e as [e|env p| |wenv qenv cnt]; simpl; [by destruct e|done|by rewrite Hm|done]. }
  cbn [mbind outcome_bind]. rewrite IH. destruct (app_run es _) as [[a o]| |]; [|done..].
  cbn [mbind outcome_bind]. by rewrite out_app_nil.
Qed.

(** The state in which [app_main] enters its loop. *)
Lemma app_hooked_main g rx tx rest :
  uart_ready g -> status g = STATUS_LEN -> rx_ok rx -> tx_inv tx [] -> buffered g ++ concat rx = rest ->
  let m := mk_main (mk_esp_wifi g None None) tx rx 1 0 true in
  main_inv m [] /\ pending_packets (m_wifi m) (m_rx m) = deframe (F := data_format) rest.
Proof.
  intros Hg Hst Hrx Htx Hrest m. split.
  - constructor; try done; [|by destruct Hg]. intros _. split; [by apply uart_ready_inv|done].
  - unfold pending_packets. simpl. by rewrite Hst, Hrest, deframe_from_sync.
Qed.

(** Behind the loop, turns only discard input. *)
Definition turn (t : wifi_env * queue_env * Z) : main_event := let '(w, q, c) := t in MTurn w q c.

(** A turn with the queue's mutex free and room in the transmit FIFO. *)
Definition good_turn (t : wifi_env * queue_env * Z) : Prop :=
  let '(_, q, c) := t in take_ok q = true /\ 0 <= c < UART_FIFO_LEN.

(** As many of them as there are bytes left send all of these. *)
Lemma main_run_drains turns m ps :
  main_inv m ps -> in_loop m = true -> m_flag m <> 0 -> Forall good_turn turns ->
  (length (tx_backlog (m_tx m) ps) <= length turns)%nat ->
  total (main_run (turn <$> turns) m) (fun '(m', o) => to_line o = tx_backlog (m_tx m) ps /\ accepted o = []).
Proof.
  intros Hinv Hl Hf Hturns. revert m ps Hinv Hl Hf.
  induction Hturns as [|[[w q] c] turns [Hq Hc] _ IH]; intros m ps Hinv Hl Hf Hlen.
  { simpl in *. by destruct (tx_backlog (m_tx m) ps); [|simpl in Hlen; lia]. }
  cbn [fmap list_fmap main_run turn]. apply post_bind.
  eapply post_mono; [apply (main_turn_ok w q c m ps); unfold cnt_ok; [done|lia|done|done]|].
  intros [m1 o1] ((ps1 & Hinv1 & Hline & _) & Hl1 & Hf1 & Ha1 & Hprog). rewrite Ha1, app_nil_r in Hline.
  apply post_bind. eapply post_mono; [apply (IH m1 ps1); [done|done|congruence|]|].
  - apply (f_equal length) in Hline as HL. rewrite length_app in HL. simpl in Hlen.
    destruct (tx_backlog (m_tx m) ps) as [|b bs] eqn:Hbl; [simpl in HL; lia|].
    destruct (to_line o1); [by destruct (Hprog Hq (proj2 Hc))|simpl in *; lia].
  - intros [m2 o2] [Hto Ha]. simpl. by rewrite Hto, Ha, Ha1, Hline.
Qed.

Lemma main_run_discards turns m :
  in_loop m = false -> rx_ok (m_rx m) ->
  zlen (uartRecvBuffer (uart (m_wifi m))) = MAX_FRAME_LEN + UART_FIFO_LEN ->
  total (main_run (turn <$> turns) m) (fun '(m', o) =>
    in_loop m' = false /\ m_pin5 m' = m_pin5 m /\ o = no_out).
Proof.
  revert m. induction turns as [|[[w q] c] turns IH]; intros m Hl Hrx Hb; [done|].
  cbn [fmap list_fmap main_run turn main_step]. rewrite Hl. apply post_bind.
  destruct (m_rx m) as [|fifo rx] eqn:Hm.
  - cbn [post]. apply post_bind. eapply post_mono; [apply (IH m); [done|by rewrite Hm|done]|].
    intros [m' o] (? & ? & ->). done.
  - apply Forall_cons in Hrx as [Hc Hrx]. destruct (read_uart0_ok _ _ Hb Hc) as (g & -> & HL).
    cbn [mbind outcome_bind post]. apply post_bind.
    eapply post_mono; [apply IH; [done|done|simpl; by rewrite HL]|]. intros [m' o] (? & ? & ->). done.
Qed.

Definition app_turn (t : wifi_env * queue_env * Z) : app_event := let '(w, q, c) := t in ATurn w q c.

Lemma app_run_turns turns info m :
  app_run (app_turn <$> turns) (AppRunning info m)
    = (let! ' (m, o) := main_run (turn <$> turns) m in Ret (AppRunning info m, o)).
Proof.
  rewrite app_run_main.
  2: { apply Forall_fmap, Forall_forall. by intros [[w q] c]. }
  assert (concat (as_main <$> (app_turn <$> turns)) = turn <$> turns) as ->; [|done].
  induction turns as [|[[w q] c] l IH]; [done|]. cbn [fmap list_fmap concat]. by rewrite IH.
Qed.

Lemma app_main_session_ok pin5 rx name pass n rest ip l txl pre evs :
  rx_ok rx -> zlen name + 1 <= WPA_MAX_SSID_LEN ->
  WPA_MIN_PASSWD_LEN <= zlen pass + 1 <= WPA_MAX_PASSWD_LEN ->
  concat rx = put_frame SPLIT_CMD (name ++ [0]) ++ put_frame SPLIT_CMD (pass ++ [0])
              ++ put_frame SPLIT_CMD (netif_params n) ++ rest ->
  find_netif ip l = Some n -> netif_ok n -> Forall cnt_ok txl -> 15 <= tx_room txl ->
  Forall quiet pre -> Forall app_event_ok evs ->
  total (let! ' (a, cfg) := app_main true true true pin5 rx in
         let! ' (a, o) := app_run (pre ++ AEvent (IP_EVENT_STA_GOT_IP ip l txl []) :: ATake :: evs) a in
         Ret (a, cfg, o))
    (fun '(a, cfg, o) => exists info m sent ps,
       a = AppRunning info m
       /\ cfg = Some (overwrite (replicate 32 0) (name ++ [0]), overwrite (replicate 64 0) (pass ++ [0]))
       /\ to_line o = put_frame SPLIT_CMD (netif_params n) ++ sent
       /\ tx_inv (m_tx m) ps /\ put_frames SPLIT_DATA (accepted o) = sent ++ tx_backlog (m_tx m) ps
       /\ (in_loop m = true -> m_flag m <> 0 -> forall turns, Forall good_turn turns ->
           (length (tx_backlog (m_tx m) ps) <= length turns)%nat ->
           total (app_run (app_turn <$> turns) a) (fun '(_, o') =>
             sent ++ to_line o' = put_frames SPLIT_DATA (accepted o) /\ accepted o' = []))
       /\ (to_wifi o).*1 `prefix_of` deframe (F := data_format) rest
       /\ (in_loop m = true ->
           deframe (F := data_format) rest = (to_wifi o).*1 ++ pending_packets (m_wifi m) (m_rx m))
       /\ Forall (fun '(p, d) => d = ip_dest p /\ 20 <= zlen p <= MTU_LEN) (to_wifi o)).
Proof.
  intros Hrx Hn Hp Hline Hfind Hok Htx Hroom Hpre Hevs. unfold app_main, init.
  cbn [negb queue_init Z.eqb]. apply post_bind, post_bind, post_bind.
  eapply post_mono; [by eapply wifi_init_sta_ok|].
  intros e (g & rx1 & -> & Hg & Hst & Hrx1 & Hrest). cbn [post].
  rewrite app_run_quiet by done. cbn [app_run app_step at_line wifi_event_handler].
  do 4 apply post_bind. eapply post_mono; [apply (start_hock_ok ip l txl rx1 _ n); done|].
  intros h Hh. unfold hock_ok in Hh.
  replace (tx_room txl <? 15) with false in Hh by (symmetry; apply Z.ltb_ge; lia).
  unfold expected in Hh. cbn [es_uart] in Hh. rewrite Hst, Hrest in Hh. cbn [next_frame_from] in Hh.
  pose proof (netif_format_laws (put_frame SPLIT_CMD (netif_params n)) 12 ltac:(lia)) as Hlaws.
  rewrite next_frame_put in Hh by by apply netif_sendable, netif_params_length.
  destruct Hh as (st' & rx' & -> & Hg' & Hst' & Hrx' & Hrest' & _ & Hrun & Hpin & Hm).
  cbn [post app_run app_step]. rewrite Hm. cbn [mbind outcome_bind]. rewrite app_run_main, Hrun, Hpin.
  2: { eapply Forall_impl; [exact Hevs|]. by intros e [? _]. }
  destruct (app_hooked_main (es_uart st') rx' (wifi_tx_init empty_queue) rest) as [Hmain Hpend];
    try done; [apply tx_inv_init|]. set (m := mk_main _ _ _ _ _ _) in *.
  do 3 apply post_bind. eapply post_mono; [apply (main_run_conserves_ok _ m []); [done|]|].
  { apply Forall_concat, Forall_fmap. eapply Forall_impl; [exact Hevs|]. by intros e [_ ?]. }
  intros [m' o] (ps' & Hinv' & Hto & Hwifi & Hdest). cbn [post]. simpl (in_loop m) in Hwifi. cbv iota in Hwifi.
  destruct Hwifi as [Hpre' Hall]. rewrite Hpend in Hpre', Hall.
  exists (esp_netif_info st'), m', (to_line o), ps'. rewrite out_app_nil.
  change (tx_backlog (m_tx m) []) with (@nil Z) in Hto. rewrite app_nil_l in Hto.
  split_and!; try done; [by destruct Hinv'|]. intros Hl Hf turns Hturns Hlen.
  rewrite app_run_turns. apply post_bind. eapply post_mono; [by eapply main_run_drains|].
  intros [m2 o2] [Hto2 Ha2]. cbn [post]. rewrite Hto2.
  split; [symmetry; exact Hto|done].
Qed.

(** ** Properties *)


(** When the semaphore, the queue or its mutex cannot be created, [init] returns early and
    [app_main] goes on as if nothing had happened: it never configures a station, tells
    the host through pin 5 that the link is down, and discards what the host sends. *)
Theorem app_main_without_resources sem_ok alloc_ok mutex_ok pin5 rx t turns :
  sem_ok && alloc_ok && mutex_ok = false -> rx_ok rx ->
  total (let! ' (a, cfg) := app_main sem_ok alloc_ok mutex_ok pin5 rx in
         let! ' (a, o) := app_run (app_turn <$> t :: turns) a in Ret (a, cfg, o))
    (fun '(a, cfg, o) => exists info m, a = AppRunning info m /\ cfg = None /\ in_loop m = false /\ m_pin5 m = 1
       /\ o = no_out).
Proof.
  intros Hres Hrx. set (m := mk_main esp_wifi_init wifi_tx_null rx 0 pin5 true).
  assert (app_main sem_ok alloc_ok mutex_ok pin5 rx = Ret (AppRunning (replicate 15 0) m, None)) as ->.
  { unfold app_main, init. destruct sem_ok, alloc_ok, mutex_ok; done. }
  cbn [mbind outcome_bind]. rewrite app_run_turns.
  destruct t as [[w q] c]. cbn [fmap list_fmap main_run turn main_step]. simpl (in_loop m).
  cbn [m_flag m Z.eqb mbind outcome_bind]. do 3 apply post_bind.
  eapply post_mono; [by apply main_run_discards|]. intros [m' o] (? & ? & ->). cbn [post].
  by exists (replicate 15 0), m'.
Qed.

(** ** Witnesses *)

Definition witness_boot : rx_line :=
  [put_frame SPLIT_CMD (witness_name ++ [0]); []; put_frame SPLIT_CMD (witness_pass ++ [0]) ++ [12];
   drop 1 witness_echo ++ replicate 49 0; put_frame SPLIT_DATA (replicate 20 1)].


Lemma app_main_without_resources_witness :
  total (let! ' (a, cfg) := app_main true true false 0 witness_boot in
         let! ' (a, o) := app_run (app_turn
            <$> (witness_env, good_env, 0) :: [(witness_env, good_env, 0)]) a in Ret (a, cfg, o))
    (fun '(a, cfg, o) => exists info m, a = AppRunning info m /\ cfg = None /\ in_loop m = false /\ m_pin5 m = 1
       /\ o = no_out).
Proof. apply app_main_without_resources; [reflexivity|rx_line_ok]. Defined.
