(* ===== verification/HostState.v ===== *)
(** * Linux driver: constants, state and the kernel objects it touches (common.h)

    [uart_wifi_struct] keeps the fields the code reads or writes as data; locks,
    work items, wait queues and device handles are represented by the operations
    that use them.  A [sk_buff] is its linear buffer with the offsets the driver
    moves. *)
From stdpp Require Import prelude list.
From Stdlib Require Import ZArith Lia.
From S2P Require Import Prelude Memory Wire.

Definition SPLIT_DATA : Z := 0x55.
Definition SPLIT_CMD : Z := 0xaa.
Definition MTU_LEN : Z := 1500.
Definition MAX_FRAME_LEN : Z := 2 + MTU_LEN + 1.
Definition WPA_MAX_SSID_LEN : Z := 32.
Definition WPA_MAX_PASSWD_LEN : Z := 64.

(** Kernel ABI constants the code uses: Ethernet header length, IPv4 ethertype,
    [htons] on a little-endian machine. *)
Definition ETH_HLEN : Z := 14.
Definition ETH_P_IP : Z := 0x0800.
Definition htons (x : Z) : Z := (x mod 256) * 256 + (x / 256) mod 256.

(** A socket buffer with linear data only: [lin] from the MAC header on, [data]
    and [skb_tail] as offsets into it. *)
Record sk_buff := mk_skb {
  lin : list Z;
  data : Z;
  skb_tail : Z;
  skb_len : Z;
  mac_header : Z;
  protocol : Z;
}.

Record uart_wifi_struct := mk_uart_wifi {
  tty_name : list Z;
  ssid : list Z;
  password : list Z;
  uart_recv_status : recv_status;
  uartDataLen : Z;
  recv_skb : option sk_buff;
  tx_packets : Z;
  tx_bytes : Z;
  rx_packets : Z;
  rx_bytes : Z;
  work_hold : Z;
  netif_info : list Z;
  netif_info_recv_len : Z;
  netif_info_vaild : Z;
  force_reset : Z;
}.

Definition NETIF_INFO_SIZE : Z := 2 + 12 + 1 + 12 * 4 + 1.
Definition TTY_NAME_SIZE : Z := 10.
Definition SSID_SIZE : Z := 2 + WPA_MAX_SSID_LEN + 1.
Definition PASSWORD_SIZE : Z := 2 + WPA_MAX_PASSWD_LEN + 1.

(** [devm_kzalloc]: all fields zero. *)
Definition kzalloc_uart_wifi : uart_wifi_struct :=
  mk_uart_wifi (replicate (Z.to_nat TTY_NAME_SIZE) 0) (replicate (Z.to_nat SSID_SIZE) 0)
    (replicate (Z.to_nat PASSWORD_SIZE) 0) STATUS_LEN 0 None 0 0 0 0 0
    (replicate (Z.to_nat NETIF_INFO_SIZE) 0) 0 0 0.

(** ** Field updates *)

Section Setters.
Context (u : uart_wifi_struct).
Let mk := mk_uart_wifi.

Definition set_tty_name (v : list Z) := mk v (ssid u) (password u) (uart_recv_status u)
  (uartDataLen u) (recv_skb u) (tx_packets u) (tx_bytes u) (rx_packets u) (rx_bytes u)
  (work_hold u) (netif_info u) (netif_info_recv_len u) (netif_info_vaild u) (force_reset u).
Definition set_ssid (v : list Z) := mk (tty_name u) v (password u) (uart_recv_status u)
  (uartDataLen u) (recv_skb u) (tx_packets u) (tx_bytes u) (rx_packets u) (rx_bytes u)
  (work_hold u) (netif_info u) (netif_info_recv_len u) (netif_info_vaild u) (force_reset u).
Definition set_password (v : list Z) := mk (tty_name u) (ssid u) v (uart_recv_status u)
  (uartDataLen u) (recv_skb u) (tx_packets u) (tx_bytes u) (rx_packets u) (rx_bytes u)
  (work_hold u) (netif_info u) (netif_info_recv_len u) (netif_info_vaild u) (force_reset u).
(** The receive state machine's two fields, saved together at [exit]. *)
Definition set_recv_state (st : recv_status) (dl : Z) := mk (tty_name u) (ssid u) (password u) st
  dl (recv_skb u) (tx_packets u) (tx_bytes u) (rx_packets u) (rx_bytes u)
  (work_hold u) (netif_info u) (netif_info_recv_len u) (netif_info_vaild u) (force_reset u).
Definition set_recv_skb (v : option sk_buff) := mk (tty_name u) (ssid u) (password u)
  (uart_recv_status u) (uartDataLen u) v (tx_packets u) (tx_bytes u) (rx_packets u) (rx_bytes u)
  (work_hold u) (netif_info u) (netif_info_recv_len u) (netif_info_vaild u) (force_reset u).
Definition add_rx_stats (n bytes : Z) := mk (tty_name u) (ssid u) (password u)
  (uart_recv_status u) (uartDataLen u) (recv_skb u) (tx_packets u) (tx_bytes u)
  (rx_packets u + n) (rx_bytes u + bytes)
  (work_hold u) (netif_info u) (netif_info_recv_len u) (netif_info_vaild u) (force_reset u).
Definition add_tx_stats (n bytes : Z) := mk (tty_name u) (ssid u) (password u)
  (uart_recv_status u) (uartDataLen u) (recv_skb u) (tx_packets u + n) (tx_bytes u + bytes)
  (rx_packets u) (rx_bytes u)
  (work_hold u) (netif_info u) (netif_info_recv_len u) (netif_info_vaild u) (force_reset u).
Definition set_work_hold (v : Z) := mk (tty_name u) (ssid u) (password u)
  (uart_recv_status u) (uartDataLen u) (recv_skb u) (tx_packets u) (tx_bytes u) (rx_packets u)
  (rx_bytes u) v (netif_info u) (netif_info_recv_len u) (netif_info_vaild u) (force_reset u).
Definition set_netif_info (v : list Z) := mk (tty_name u) (ssid u) (password u)
  (uart_recv_status u) (uartDataLen u) (recv_skb u) (tx_packets u) (tx_bytes u) (rx_packets u)
  (rx_bytes u) (work_hold u) v (netif_info_recv_len u) (netif_info_vaild u) (force_reset u).
Definition set_netif_info_recv_len (v : Z) := mk (tty_name u) (ssid u) (password u)
  (uart_recv_status u) (uartDataLen u) (recv_skb u) (tx_packets u) (tx_bytes u) (rx_packets u)
  (rx_bytes u) (work_hold u) (netif_info u) v (netif_info_vaild u) (force_reset u).
Definition set_netif_info_vaild (v : Z) := mk (tty_name u) (ssid u) (password u)
  (uart_recv_status u) (uartDataLen u) (recv_skb u) (tx_packets u) (tx_bytes u) (rx_packets u)
  (rx_bytes u) (work_hold u) (netif_info u) (netif_info_recv_len u) v (force_reset u).
Definition set_force_reset (v : Z) := mk (tty_name u) (ssid u) (password u)
  (uart_recv_status u) (uartDataLen u) (recv_skb u) (tx_packets u) (tx_bytes u) (rx_packets u)
  (rx_bytes u) (work_hold u) (netif_info u) (netif_info_recv_len u) (netif_info_vaild u) v.
End Setters.

(** The network parameters are the same. *)
Definition same_params (u u' : uart_wifi_struct) : Prop :=
  netif_info_vaild u' = netif_info_vaild u /\ netif_info u' = netif_info u.

Lemma same_params_trans u1 u2 u3 : same_params u1 u2 -> same_params u2 u3 -> same_params u1 u3.
Proof. intros [] []. split; congruence. Qed.

(** The kernel as the receive path sees it: cache-line rounding, the [k]-th skb
    allocation of a given size (its raw memory, or failure), and what the stack
    does with the [k]-th packet: its return code and the value [skb->len] has
    when the driver reads it after the hand-over. *)
Class Kernel := {
  SKB_DATA_ALIGN : Z -> Z;
  netdev_alloc_skb : nat -> Z -> option (list Z);
  netif_rx_ni : nat -> sk_buff -> Z * Z;
}.

(** What the kernel documents of them. *)
Class KernelLaws (K : Kernel) := {
  skb_data_align_le x : x <= SKB_DATA_ALIGN x;
  skb_data_align_lt x : SKB_DATA_ALIGN x < x + 4096;
  netdev_alloc_skb_size k n l : netdev_alloc_skb k n = Some l -> zlen l = n;
}.
