(* ===== verification/HostDump.v ===== *)
(** * Linux driver: the hex dumps (dump.c)

    [dump], [recv_dump] and [send_dump] are three copies of one function, each
    with a static buffer of its own.  The receive path calls the first two when
    it resynchronises, so their memory behaviour is part of its behaviour. *)
From stdpp Require Import prelude list.
From Stdlib Require Import ZArith Lia.
From S2P Require Import Prelude Memory CString.

Definition OUTPUT_SIZE : Z := 4096.
Definition empty_output : list Z := replicate (Z.to_nat OUTPUT_SIZE) 0.

(** Bytes one call can print without leaving the buffer. *)
Definition DUMP_MAX : Z := (OUTPUT_SIZE - 1) / 5.

(** The loop of the three functions from [output + offset] on; [sizeof(output) -
    offset] is an unsigned 32-bit word.  Returns the final [offset]. *)
Fixpoint dump_loop (output : list Z) (offset : Z) (buf : list Z) : outcome (Z * list Z) :=
  match buf with
  | [] => Ret (offset, output)
  | b :: buf =>
      let! ' (ret, output) := snprintf 0 output offset (u32 (OUTPUT_SIZE - offset)) (hex_text b) in
      if ret <=? 0 then Ret (offset, output) else dump_loop output (offset + ret) buf
  end.

(** [dump(dev, buf, len)]: the final contents of [output], which go to the log. *)
Definition dump (output buf : list Z) : outcome (list Z) :=
  let! ' (offset, output) := dump_loop output 0 buf in
  let? output := store1 output offset 0 in Ret output.

Definition recv_dump (recv_output buf : list Z) : outcome (list Z) :=
  let! ' (offset, recv_output) := dump_loop recv_output 0 buf in
  let? recv_output := store1 recv_output offset 0 in Ret recv_output.

Definition send_dump (send_output buf : list Z) : outcome (list Z) :=
  let! ' (offset, send_output) := dump_loop send_output 0 buf in
  let? send_output := store1 send_output offset 0 in Ret send_output.

(** [recv_dump_skb], [send_dump_skb]: the linear part, then every fragment. *)
Fixpoint dump_frags (f : list Z -> list Z -> outcome (list Z)) (output : list Z)
    (frags : list (list Z)) : outcome (list Z) :=
  match frags with
  | [] => Ret output
  | frag :: frags => let! output := f output frag in dump_frags f output frags
  end.
Definition recv_dump_skb (recv_output headlen : list Z) (frags : list (list Z)) : outcome (list Z) :=
  let! recv_output := recv_dump recv_output headlen in dump_frags recv_dump recv_output frags.
Definition send_dump_skb (send_output headlen : list Z) (frags : list (list Z)) : outcome (list Z) :=
  let! send_output := send_dump send_output headlen in dump_frags send_dump send_output frags.

(** ** What is printed *)

Definition hex_line (buf : list Z) : list Z := concat (hex_text <$> buf).

Lemma hex_line_length buf : zlen (hex_line buf) = 5 * zlen buf.
Proof.
  unfold hex_line. induction buf as [|b buf IH]; [done|]. csimpl. lia.
Qed.

(** Everything fits: the text is appended at [offset]. *)
Lemma dump_loop_fits output offset buf :
  zlen output = OUTPUT_SIZE -> 0 <= offset -> offset + 5 * zlen buf < OUTPUT_SIZE ->
  exists out, dump_loop output offset buf = Ret (offset + 5 * zlen buf, out)
    /\ zlen out = OUTPUT_SIZE
    /\ ztake (offset + 5 * zlen buf) out = ztake offset output ++ hex_line buf.
Proof.
  unfold OUTPUT_SIZE. revert output offset. induction buf as [|b buf IH]; intros output offset Hs Ho Hf.
  - exists output. simpl. rewrite Z.add_0_r, app_nil_r. done.
  - cbn [length] in Hf. cbn [dump_loop]. unfold OUTPUT_SIZE. rewrite u32_small by lia.
    destruct (snprintf_fits 0 output offset (4096 - offset) (hex_text b)) as (a & -> & Ha & Ht);
      rewrite ?hex_text_length; unfold INT_MAX; [lia..|].
    cbn [mbind outcome_bind]. rewrite hex_text_length in *. cbn [Z.leb Z.compare].
    destruct (IH a (offset + 5)) as (out & -> & Hl & Hout); [lia..|].
    exists out. cbn [length]. split; [f_equal; f_equal; lia|]. split; [done|].
    replace (offset + 5 * Z.of_nat (S (length buf))) with (offset + 5 + 5 * zlen buf) by lia.
    rewrite Hout, Ht, <- app_assoc. done.
Qed.

(** One byte too many: the first text that does not fit still advances [offset]
    past the end, and the next size, wrapped around, is refused. *)
Lemma dump_loop_overruns output offset buf :
  zlen output = OUTPUT_SIZE -> 0 <= offset -> offset mod 5 = 0 -> offset < OUTPUT_SIZE ->
  OUTPUT_SIZE <= offset + 5 * zlen buf ->
  exists out, dump_loop output offset buf = Ret (4100, out) /\ zlen out = OUTPUT_SIZE.
Proof.
  unfold OUTPUT_SIZE. revert output offset.
  induction buf as [|b buf IH]; intros output offset Hs Ho Hm Hlt Hf; [simpl in Hf; lia|].
  cbn [length] in Hf. cbn [dump_loop]. unfold OUTPUT_SIZE. rewrite u32_small by lia.
  destruct (decide (offset < 4095)) as [Hc|Hc].
  - destruct (snprintf_fits 0 output offset (4096 - offset) (hex_text b)) as (a & -> & Ha & _);
      rewrite ?hex_text_length; unfold INT_MAX; try (Z.div_mod_to_equations; lia).
    cbn [mbind outcome_bind]. rewrite ?hex_text_length. cbn [Z.leb Z.compare].
    apply (IH a (offset + 5)); try lia; Z.div_mod_to_equations; lia.
  - assert (offset = 4095) as -> by lia. change (4096 - 4095) with 1.
    destruct (snprintf_truncates 0 output 4095 1 (hex_text b)) as (a & -> & Ha & _);
      rewrite ?hex_text_length; unfold INT_MAX; [lia..|].
    cbn [mbind outcome_bind]. rewrite ?hex_text_length. cbn [Z.leb Z.compare].
    change (4095 + 5) with 4100. destruct buf as [|b' buf]; [exists a; split; [done|lia]|].
    cbn [dump_loop]. exists a. split; [|lia]. done.
Qed.

(** [recv_dump] of up to 819 bytes prints them all; from 820 bytes on it writes
    its NUL four bytes behind its buffer. *)
Lemma recv_dump_ok recv_output buf :
  zlen recv_output = OUTPUT_SIZE ->
  if zlen buf <=? DUMP_MAX
  then exists out, recv_dump recv_output buf = Ret out /\ zlen out = OUTPUT_SIZE
                   /\ ztake (5 * zlen buf + 1) out = hex_line buf ++ [0]
  else recv_dump recv_output buf = Undef.
Proof.
  change DUMP_MAX with 819. intros Hs. unfold recv_dump. case_if as Hle.
  - destruct (dump_loop_fits recv_output 0 buf) as (out & -> & Hl & Ht); [done|unfold OUTPUT_SIZE; lia..|].
    unfold OUTPUT_SIZE in *. cbn [mbind outcome_bind]. unfold store1.
    destruct (store out (0 + 5 * zlen buf) [0]) as [out'|] eqn:Hst;
      [|rewrite store_Some in Hst; [done|lia|len; lia]].
    exists out'. split; [done|]. pose proof (store_length _ _ _ _ Hst). split; [lia|].
    apply store_prefix in Hst. rewrite Ht in Hst. exact Hst.
  - destruct (dump_loop_overruns recv_output 0 buf) as (out & -> & Hl); try done;
      [unfold OUTPUT_SIZE; lia..|].
    cbn [mbind outcome_bind]. unfold store1, store. rewrite Hl. done.
Qed.

Lemma dump_is_recv_dump output buf : dump output buf = recv_dump output buf.
Proof. done. Qed.

(** As a guard: printing [n] bytes. *)
Lemma recv_dump_total recv_output buf :
  zlen recv_output = OUTPUT_SIZE -> zlen buf <= DUMP_MAX ->
  exists out, recv_dump recv_output buf = Ret out.
Proof.
  intros Hs Hle. pose proof (recv_dump_ok recv_output buf Hs) as H. case_match; bool_cases; [|lia].
  destruct H as (out & -> & _). by eexists.
Qed.

Lemma recv_dump_post recv_output buf (U : Prop) (Q : list Z -> Prop) :
  zlen recv_output = OUTPUT_SIZE -> (DUMP_MAX < zlen buf -> U) -> (forall out, Q out) ->
  post (recv_dump recv_output buf) U Q.
Proof.
  intros Hs HU HQ. pose proof (recv_dump_ok recv_output buf Hs) as H. case_match; bool_cases.
  - destruct H as (out & -> & _). apply HQ.
  - rewrite H. simpl. auto.
Qed.

(** ** Properties *)

(** C34. The hex dump is in bounds for up to 819 bytes, where it prints all of them;
    from 820 bytes on its final NUL lands behind the 4096-byte static buffer. *)
Theorem recv_dump_bounds recv_output buf :
  zlen recv_output = OUTPUT_SIZE ->
  if zlen buf <=? DUMP_MAX
  then exists out, recv_dump recv_output buf = Ret out /\ zlen out = OUTPUT_SIZE
                   /\ ztake (5 * zlen buf + 1) out = hex_line buf ++ [0]
  else recv_dump recv_output buf = Undef.
Proof. apply recv_dump_ok. Qed.

Lemma recv_dump_bounds_witness :
  (exists out, recv_dump empty_output [0x55; 0xaa] = Ret out /\ zlen out = OUTPUT_SIZE
     /\ ztake (5 * zlen [0x55; 0xaa] + 1) out = hex_line [0x55; 0xaa] ++ [0])
  /\ recv_dump empty_output (replicate 820 0) = Undef.
Proof.
  split; [apply (recv_dump_bounds empty_output [0x55; 0xaa]); reflexivity|].
  apply (recv_dump_bounds empty_output (replicate 820 0)). reflexivity.
Defined.
