(* ===== verification/HostReceive.v ===== *)
(** * Linux driver: receiving packets (uart.c, [ttyio_receive_data])

    The line discipline hands received bytes to [ttyio_receive_data] in chunks;
    it collects a frame in an skb and passes the skb to the network stack. *)
From stdpp Require Import prelude list.
From Stdlib Require Import ZArith Lia.
From S2P Require Import Prelude Memory CString Wire HostState HostDump.

(** The driver's state with the history of its calls into the kernel: how many
    skbs it asked for, and those it handed to the stack, oldest first. *)
Record host_rx := mk_host_rx {
  uw : uart_wifi_struct;
  n_alloc : nat;
  delivered : list sk_buff;
}.

Definition set_uw (u : uart_wifi_struct) (s : host_rx) : host_rx :=
  mk_host_rx u (n_alloc s) (delivered s).

(** ** skb operations *)

(** [__skb_put_data(skb, cp + off, n)]: append [n] bytes at the tail. *)
Definition skb_put_data (skb : sk_buff) (cp : list Z) (off n : Z) : option sk_buff :=
  lin' ← memcpy (lin skb) (skb_tail skb) cp off n;
  Some (mk_skb lin' (data skb) (skb_tail skb + n) (u32 (skb_len skb + n)) (mac_header skb)
          (protocol skb)).

(** [skb->data[i]] *)
Definition skb_byte (skb : sk_buff) (i : Z) : option Z := load1 (lin skb) (data skb + i).

Section Driver.
Context {K : Kernel}.

Definition MAX_RECV_LEN : Z := SKB_DATA_ALIGN ETH_HLEN + MTU_LEN + 1.

(** [alloc_new_skb_to_recv]: a fresh skb whose data starts 12 zero bytes after
    the MAC header; -1 and a null [recv_skb] when there is no memory. *)
Definition alloc_new_skb_to_recv (s : host_rx) : outcome (Z * host_rx) :=
  match netdev_alloc_skb (n_alloc s) MAX_RECV_LEN with
  | None => Ret (-1, mk_host_rx (set_recv_skb (uw s) None) (S (n_alloc s)) (delivered s))
  | Some mem =>
      let? mem := store mem 0 (replicate (Z.to_nat (ETH_HLEN - 2)) 0) in
      let skb := mk_skb mem (ETH_HLEN - 2) (ETH_HLEN - 2) 0 0 (htons ETH_P_IP) in
      let u := set_recv_skb (uw s) (Some skb) in
      Ret (0, mk_host_rx (set_recv_state u STATUS_LEN (uartDataLen u)) (S (n_alloc s))
                (delivered s))
  end.

(** The locals of [ttyio_receive_data] at the label [restart]; [skb] is
    [uart_wifi->recv_skb]. *)
Record rx_locals := mk_rx {
  rx_s : host_rx;
  rx_status : recv_status;
  rx_dl : Z;
  processed : Z;
  surplus : Z;
}.

Definition rx_skb (l : rx_locals) : option sk_buff := recv_skb (uw (rx_s l)).
Definition rx_set_skb (skb : sk_buff) (l : rx_locals) : rx_locals :=
  mk_rx (set_uw (set_recv_skb (uw (rx_s l)) (Some skb)) (rx_s l)) (rx_status l) (rx_dl l)
    (processed l) (surplus l).
Definition rx_set_status (st : recv_status) (l : rx_locals) : rx_locals :=
  mk_rx (rx_s l) st (rx_dl l) (processed l) (surplus l).
Definition rx_set_dl (dl : Z) (l : rx_locals) : rx_locals :=
  mk_rx (rx_s l) (rx_status l) dl (processed l) (surplus l).
Definition rx_set_progress (p sp : Z) (l : rx_locals) : rx_locals :=
  mk_rx (rx_s l) (rx_status l) (rx_dl l) p sp.

(** [actualcopy = min(surplus, want); __skb_put_data(..); goto restart;] *)
Definition rx_copy (cp : list Z) (l : rx_locals) (skb : sk_buff) (want : Z) :
    outcome (rx_locals + rx_locals) :=
  let actualcopy := Z.min (surplus l) want in
  let? skb := skb_put_data skb cp (processed l) actualcopy in
  goto (rx_set_progress (processed l + actualcopy) (surplus l - actualcopy) (rx_set_skb skb l)).

(** [case STATUS_SPLIT], the dumps included: the log buffers are written before
    they are read, so each dump starts from an empty one. *)
Definition rx_split (cp : list Z) (count : Z) (l : rx_locals) (skb : sk_buff) :
    outcome (rx_locals + rx_locals) :=
  let? seen := load (lin skb) (data skb) (skb_len skb) in
  match split_index SPLIT_DATA seen with
  | Some skip =>
      let! _ := recv_dump_skb empty_output seen [] in
      let len := u32 (skb_len skb - skip) in
      let? mem := memmove (lin skb) (data skb) (data skb + skip) len in
      let? left := load mem (data skb) len in
      let! _ := recv_dump_skb empty_output left [] in
      goto (rx_set_status STATUS_LEN
        (rx_set_skb (mk_skb mem (data skb) (skb_tail skb - skip) len (mac_header skb)
                       (protocol skb)) l))
  | None =>
      let l := rx_set_skb (mk_skb (lin skb) (data skb) (data skb) 0 (mac_header skb)
                             (protocol skb)) l in
      match split_index SPLIT_DATA (zdrop (processed l) cp) with
      | Some i =>
          let skip := processed l + i in
          let! _ := dump empty_output cp in
          goto (rx_set_status STATUS_LEN
                  (rx_set_progress (processed l + skip) (surplus l - skip) l))
      | None => leave (rx_set_progress count (surplus l) (rx_set_status STATUS_SPLIT l))
      end
  end.

(** A complete frame: rewrite the length word as the ethertype, strip the
    framing, hand the skb over and get a new one. *)
Definition rx_deliver (l : rx_locals) (skb : sk_buff) : outcome (rx_locals + rx_locals) :=
  let? mem := store_u16 (lin skb) (data skb) (htons ETH_P_IP) in
  let skb := mk_skb mem (data skb + 2) (skb_tail skb - 1) (u32 (skb_len skb - 3))
               (mac_header skb) (protocol skb) in
  let s := rx_s l in
  let '(ret, len_after) := netif_rx_ni (length (delivered s)) skb in
  let s := mk_host_rx (add_rx_stats (uw s) 1 len_after) (n_alloc s) (delivered s ++ [skb]) in
  let! ' (r, s) := alloc_new_skb_to_recv s in
  let l := mk_rx s (rx_status l) (rx_dl l) (processed l) (surplus l) in
  if negb (r =? 0) then leave l else goto (rx_set_status STATUS_LEN l).

(** [case STATUS_DATA] *)
Definition rx_data (cp : list Z) (count : Z) (l : rx_locals) (skb : sk_buff) :
    outcome (rx_locals + rx_locals) :=
  if skb_len skb <? u32 (rx_dl l + 3) then
    if surplus l =? 0 then leave l
    else rx_copy cp l skb (s32 (u32 (rx_dl l + 3 - skb_len skb)))
  else
    let? b := skb_byte skb (rx_dl l + 2) in
    if b =? SPLIT_DATA then rx_deliver l skb
    else rx_split cp count (rx_set_status STATUS_SPLIT l) skb.

(** From [restart] to the next jump or to [exit]. *)
Definition rx_step (cp : list Z) (count : Z) (l : rx_locals) :
    outcome (rx_locals + rx_locals) :=
  let? skb := rx_skb l in
  match rx_status l with
  | STATUS_LEN =>
      if skb_len skb <? 2 then
        if surplus l =? 0 then leave l
        else rx_copy cp l skb (s32 (u32 (2 - skb_len skb)))
      else
        let? dl := load_s16 (lin skb) (data skb) in
        let l := rx_set_dl dl l in
        if (MTU_LEN <? dl) || (dl <? 20) then goto (rx_set_status STATUS_SPLIT l)
        else rx_data cp count (rx_set_status STATUS_DATA l) skb
  | STATUS_DATA => rx_data cp count l skb
  | STATUS_SPLIT => rx_split cp count l skb
  end.

Definition rx_fuel (count : Z) : nat := (4 * Z.to_nat count + 3 * Z.to_nat MAX_FRAME_LEN + 3)%nat.

Definition rx_exit (l : rx_locals) : Z * host_rx :=
  (processed l, set_uw (set_recv_state (uw (rx_s l)) (rx_status l) (rx_dl l)) (rx_s l)).

(** [ttyio_receive_data(tty, cp, fp, count)]: the number of bytes processed and
    the new state.  The flag buffer [fp] is not used by the code. *)
Definition ttyio_receive_data (cp : list Z) (s : host_rx) : outcome (Z * host_rx) :=
  let count := zlen cp in
  let l := mk_rx s (uart_recv_status (uw s)) (uartDataLen (uw s)) 0 count in
  match recv_skb (uw s) with
  | Some _ => let! l := run (rx_step cp count) (rx_fuel count) l in Ret (rx_exit l)
  | None =>
      let! ' (r, s') := alloc_new_skb_to_recv s in
      let l := mk_rx s' (rx_status l) (rx_dl l) 0 count in
      if negb (r =? 0) then Ret (rx_exit l)
      else
        let! l := run (rx_step cp count) (rx_fuel count) (rx_set_status STATUS_LEN l) in
        Ret (rx_exit l)
  end.
End Driver.

(** ** The skb in use *)

(** The bytes of an skb. *)
Definition skb_bytes (skb : sk_buff) : list Z := ztake (skb_len skb) (zdrop (data skb) (lin skb)).

(** The skb being filled: 12 zero bytes, then the bytes received, within the
    memory allocated. *)
Record skb_ok (skb : sk_buff) : Prop := {
  skb_data : data skb = 12;
  skb_tail_ok : skb_tail skb = 12 + skb_len skb;
  skb_len_ok : 0 <= skb_len skb <= MAX_FRAME_LEN;
  skb_room : 12 + MAX_FRAME_LEN <= zlen (lin skb);
  skb_header : ztake 12 (lin skb) = replicate 12 0;
  skb_meta : mac_header skb = 0 /\ protocol skb = htons ETH_P_IP;
}.

Lemma skb_bytes_length skb : skb_ok skb -> zlen (skb_bytes skb) = skb_len skb.
Proof. intros [Hd Ht Hl Hr _ _]. unfold skb_bytes. rewrite Hd. len. lia. Qed.

Lemma skb_load skb n :
  skb_ok skb -> 0 <= n <= skb_len skb -> load (lin skb) (data skb) n = Some (ztake n (skb_bytes skb)).
Proof.
  intros [Hd Ht Hl Hr _ _] Hn. rewrite load_Some by lia. unfold skb_bytes.
  rewrite take_take. do 2 f_equal. lia.
Qed.

Lemma skb_byte_lookup skb i :
  skb_ok skb -> 0 <= i < skb_len skb -> skb_byte skb i = skb_bytes skb !! Z.to_nat i.
Proof.
  intros [Hd Ht Hl Hr _ _] Hi. unfold skb_byte, skb_bytes. rewrite load1_lookup by lia.
  rewrite lookup_take_lt by lia. rewrite lookup_drop. f_equal. lia.
Qed.

Lemma skb_load_s16 skb :
  skb_ok skb -> 2 <= skb_len skb ->
  exists lo hi bs, skb_bytes skb = lo :: hi :: bs
                   /\ load_s16 (lin skb) (data skb) = Some (get_s16 lo hi).
Proof.
  intros Hok H2. pose proof (skb_bytes_length _ Hok) as HL.
  destruct (skb_bytes skb) as [|lo [|hi bs]] eqn:Hb; simpl in HL; [lia..|].
  exists lo, hi, bs. split; [done|]. unfold load_s16.
  pose proof (skb_byte_lookup skb 0 Hok ltac:(lia)) as H0.
  pose proof (skb_byte_lookup skb 1 Hok ltac:(lia)) as H1.
  unfold skb_byte in H0, H1. rewrite Hb in H0, H1. rewrite Z.add_0_r in H0.
  rewrite H0, H1. done.
Qed.

Lemma skb_put_ok skb cp off n :
  skb_ok skb -> 0 <= off -> 0 <= n -> off + n <= zlen cp -> skb_len skb + n <= MAX_FRAME_LEN ->
  exists skb', skb_put_data skb cp off n = Some skb' /\ skb_ok skb'
    /\ skb_bytes skb' = skb_bytes skb ++ ztake n (zdrop off cp)
    /\ skb_len skb' = skb_len skb + n.
Proof.
  intros [Hd Ht Hl Hr Hh Hm] Ho Hn Hc Hfit. unfold MAX_FRAME_LEN, MTU_LEN in *.
  unfold skb_put_data, memcpy. rewrite load_Some by lia. simpl.
  destruct (store (lin skb) (skb_tail skb) (ztake n (zdrop off cp))) as [l'|] eqn:Hs.
  2: { rewrite store_Some in Hs; [done|lia|len; lia]. }
  pose proof (store_length _ _ _ _ Hs) as HL. pose proof (store_prefix _ _ _ _ Hs) as HP.
  pose proof (store_before _ _ _ _ 12 Hs) as HB. simpl. rewrite u32_small by lia.
  eexists. split; [done|]. split; [|split; [|done]].
  - constructor; simpl; unfold MAX_FRAME_LEN, MTU_LEN; try done; try lia. rewrite HB by lia. done.
  - unfold skb_bytes. simpl. rewrite Hd.
    replace (skb_tail skb + zlen (ztake n (zdrop off cp))) with (12 + (skb_len skb + n)) in HP
      by (len; lia).
    rewrite (take_split_off l' 12) in HP by lia. rewrite HB in HP by lia.
    rewrite Ht, (take_split_off (lin skb) 12) in HP by lia. rewrite <- app_assoc in HP.
    apply app_inv_head in HP. done.
Qed.

(** The skb after dropping its first [skip] bytes in place. *)
Lemma skb_skip_ok skb skip :
  skb_ok skb -> 0 <= skip <= skb_len skb ->
  exists mem, memmove (lin skb) (data skb) (data skb + skip) (skb_len skb - skip) = Some mem
    /\ let skb' := mk_skb mem (data skb) (skb_tail skb - skip) (skb_len skb - skip)
                     (mac_header skb) (protocol skb) in
       skb_ok skb' /\ skb_bytes skb' = zdrop skip (skb_bytes skb).
Proof.
  intros [Hd Ht Hl Hr Hh Hm] Hs. unfold MAX_FRAME_LEN, MTU_LEN in *. unfold memmove, memcpy.
  rewrite load_Some by lia. simpl.
  set (bs := ztake (skb_len skb - skip) (zdrop (data skb + skip) (lin skb))).
  assert (zlen bs = skb_len skb - skip) as HLb by (unfold bs; len; lia).
  destruct (store (lin skb) (data skb) bs) as [mem|] eqn:Hst.
  2: { rewrite store_Some in Hst; [done|lia|lia]. }
  pose proof (store_length _ _ _ _ Hst) as HL. pose proof (load_store_same _ _ _ _ Hst) as HP.
  pose proof (store_before _ _ _ _ 12 Hst) as HB. exists mem. split; [done|]. simpl. split.
  - constructor; simpl; unfold MAX_FRAME_LEN, MTU_LEN; try done; try lia. rewrite HB by lia. done.
  - apply load_inv in HP as (_ & _ & _ & HP). unfold skb_bytes. simpl. rewrite <- HLb, <- HP.
    unfold bs. rewrite skipn_firstn_comm, drop_drop. f_equal; [lia|]. f_equal. lia.
Qed.

Section Correctness.
Context {K : Kernel} {KL : KernelLaws K}.

Lemma alloc_new_skb_ok s :
  exists r s', alloc_new_skb_to_recv s = Ret (r, s') /\ delivered s' = delivered s
    /\ rx_packets (uw s') = rx_packets (uw s)
    /\ same_params (uw s) (uw s')
    /\ ((r = -1 /\ recv_skb (uw s') = None /\ netdev_alloc_skb (n_alloc s) MAX_RECV_LEN = None)
        \/ (r = 0 /\ exists skb, recv_skb (uw s') = Some skb /\ skb_ok skb /\ skb_len skb = 0)).
Proof.
  unfold alloc_new_skb_to_recv. destruct (netdev_alloc_skb _ _) as [mem|] eqn:Ha.
  - apply netdev_alloc_skb_size in Ha. unfold MAX_RECV_LEN in Ha.
    pose proof (skb_data_align_le ETH_HLEN). unfold ETH_HLEN, MTU_LEN in *.
    destruct (store mem 0 _) as [mem'|] eqn:Hs; [|rewrite store_Some in Hs; [done|lia|len; lia]].
    pose proof (store_length _ _ _ _ Hs). pose proof (store_prefix _ _ _ _ Hs) as HP. simpl.
    do 2 eexists. split; [done|]. simpl. split_and!; try done. right. split; [done|].
    eexists. split; [done|]. split; [|done].
    constructor; simpl; unfold MAX_FRAME_LEN, MTU_LEN; try done; try lia.
  - do 2 eexists. split; [done|]. simpl. split_and!; try done. left. done.
Qed.

(** ** Termination and memory safety for arbitrary bytes *)

(** Between calls. *)
Definition host_inv (s : host_rx) : Prop :=
  match recv_skb (uw s) with
  | None => True
  | Some skb => skb_ok skb
      /\ (uart_recv_status (uw s) = STATUS_DATA -> 20 <= uartDataLen (uw s) <= MTU_LEN)
  end.

(** At [restart]; [surplus] may go negative (see [rx_split]), but not when the
    chunk is a single byte. *)
Record rx_inv (cp : list Z) (l : rx_locals) (skb : sk_buff) : Prop := {
  rxi_skb : rx_skb l = Some skb;
  rxi_ok : skb_ok skb;
  rxi_dl : rx_status l = STATUS_DATA -> 20 <= rx_dl l <= MTU_LEN;
  rxi_count : processed l + surplus l = zlen cp;
  rxi_pos : 0 <= processed l;
  rxi_one : zlen cp <= 1 -> 0 <= surplus l;
}.

Definition rx_rank (st : recv_status) : nat :=
  match st with STATUS_LEN => 2 | STATUS_DATA => 1 | STATUS_SPLIT => 0 end.
Definition rx_measure (l : rx_locals) : nat :=
  (4 * Z.to_nat (surplus l) + rx_rank (rx_status l)
   + match rx_skb l with Some skb => 3 * Z.to_nat (skb_len skb) | None => 0 end)%nat.

(** What can go wrong, the frame and the chunk having [L] bytes together: a
    chunk of several bytes (see [rx_split]) or a dump that does not fit. *)
Definition rx_risk (cp : list Z) (L : Z) : Prop := 1 < zlen cp \/ DUMP_MAX < L.

Definition rx_room (cp : list Z) (L : Z) (l : rx_locals) (skb : sk_buff) : Prop :=
  zlen cp <= 1 -> skb_len skb + surplus l <= L.

(** One pass. *)
Definition rx_step_ok (cp : list Z) (L : Z) (m : nat) (r : rx_locals + rx_locals) : Prop :=
  match r with
  | inl l => (exists skb, rx_inv cp l skb /\ rx_room cp L l skb) /\ (rx_measure l < m)%nat
  | inr l => host_inv (rx_exit l).2 /\ (processed l = zlen cp \/ rx_skb l = None)
  end.

Lemma rx_copy_ok cp L l skb want m :
  rx_inv cp l skb -> rx_room cp L l skb -> surplus l <> 0 -> 0 < want ->
  skb_len skb + want <= MAX_FRAME_LEN -> (rx_measure l <= m)%nat ->
  post (rx_copy cp l skb want) (rx_risk cp L) (rx_step_ok cp L m).
Proof.
  intros [Hs Hok Hdl Hc Hp H1] Hr Hne Hw Hfit Hm. unfold rx_copy, rx_room, rx_risk in *.
  destruct (decide (0 < surplus l)) as [Hpos|Hneg].
  - destruct (skb_put_ok skb cp (processed l) (Z.min (surplus l) want))
      as (skb' & -> & Hok' & _ & Hlen); try lia; [done|]. simpl. split.
    + exists skb'. split; [|unfold rx_room; simpl; lia]. constructor; simpl; try done; try lia.
    + unfold rx_measure in *. rewrite Hs in Hm. simpl. rewrite Hlen.
      destruct Hok as [_ _ ? _ _ _]. lia.
  - unfold skb_put_data, memcpy, load. replace (0 <=? Z.min _ _) with false
      by (symmetry; apply Z.leb_gt; lia). rewrite andb_false_r. simpl. left. lia.
Qed.

(** A dump of received bytes goes wrong only at risk. *)
Lemma rx_dump_ok {B} cp L bs (k : list Z -> outcome B) Q :
  (DUMP_MAX < zlen bs -> rx_risk cp L) -> (forall out, post (k out) (rx_risk cp L) Q) ->
  post (let! out := recv_dump empty_output bs in k out) (rx_risk cp L) Q.
Proof. intros Hl Hk. apply post_bind. by apply recv_dump_post. Qed.

Lemma rx_dump_skb_ok {B} cp L bs (k : list Z -> outcome B) Q :
  (DUMP_MAX < zlen bs -> rx_risk cp L) -> (forall out, post (k out) (rx_risk cp L) Q) ->
  post (let! out := recv_dump_skb empty_output bs [] in k out) (rx_risk cp L) Q.
Proof.
  intros Hl Hk. apply post_bind. unfold recv_dump_skb. apply rx_dump_ok; [done|].
  intros out. apply Hk.
Qed.

Lemma rx_split_ok cp L l skb m :
  rx_inv cp l skb -> rx_room cp L l skb -> rx_status l = STATUS_SPLIT -> (rx_measure l <= m)%nat ->
  post (rx_split cp (zlen cp) l skb) (rx_risk cp L) (rx_step_ok cp L m).
Proof.
  intros [Hs Hok Hdl Hc Hp H1] Hr Hst Hm. pose proof Hok as [Hd Ht Hl Hrm Hh [Hmac Hpr]].
  unfold MAX_FRAME_LEN, MTU_LEN in *. pose proof (skb_bytes_length _ Hok) as HL.
  unfold rx_split. rewrite skb_load, take_ge by (done || lia). cbn [access mbind outcome_bind].
  unfold rx_measure in Hm. rewrite Hs, Hst in Hm. simpl in Hm.
  assert (DUMP_MAX < skb_len skb -> rx_risk cp L) as Hrisk.
  { unfold rx_risk, rx_room in *. lia. }
  destruct (split_index SPLIT_DATA (skb_bytes skb)) as [skip|] eqn:Hi.
  - pose proof (split_index_bounds _ _ _ Hi).
    apply rx_dump_skb_ok; [by rewrite HL|]. intros _.
    rewrite u32_small by lia.
    destruct (skb_skip_ok skb skip) as (mem & -> & Hok' & Hb'); [done|lia|].
    cbn [access mbind outcome_bind].
    pose proof (skb_load _ (skb_len skb - skip) Hok' ltac:(simpl; lia)) as Hload. simpl in Hload.
    rewrite Hload. cbn [access mbind outcome_bind].
    rewrite take_ge by (pose proof (skb_bytes_length _ Hok'); simpl in *; lia).
    apply rx_dump_skb_ok; [rewrite Hb', length_drop; intros Hlong; apply Hrisk; lia|]. intros _. simpl. split.
    + eexists. split; [constructor; simpl; try done|unfold rx_room in *; simpl; lia].
    + unfold rx_measure. simpl. lia.
  - assert (skb_ok (mk_skb (lin skb) (data skb) (data skb) 0 (mac_header skb) (protocol skb))) as Hok0.
    { constructor; simpl; try done; unfold MAX_FRAME_LEN, MTU_LEN; lia. }
    destruct (split_index SPLIT_DATA (zdrop (processed _) cp)) as [i|] eqn:Hi2; simpl in Hi2.
    + pose proof (split_index_bounds _ _ _ Hi2) as Hb. revert Hb. len. intros Hb.
      rewrite dump_is_recv_dump. apply rx_dump_ok.
      { unfold DUMP_MAX, OUTPUT_SIZE. intros Hlong. left. Z.div_mod_to_equations. lia. }
      intros _. simpl. split.
      * eexists. split; [constructor; simpl; try done; lia|unfold rx_room in *; simpl; lia].
      * unfold rx_measure. simpl. lia.
    + simpl. split; [|by left]. unfold host_inv, rx_exit. simpl. done.
Qed.

Lemma rx_deliver_ok cp L l skb m :
  rx_inv cp l skb -> rx_room cp L l skb -> 3 <= skb_len skb -> (rx_measure l <= m)%nat ->
  total (rx_deliver l skb) (rx_step_ok cp L m).
Proof.
  intros [Hs Hok Hdl Hc Hp H1] Hr Hlen Hm. pose proof Hok as [Hd Ht Hl Hrm Hh [Hmac Hpr]].
  unfold MAX_FRAME_LEN, MTU_LEN in *. unfold rx_deliver, store_u16, put_u16.
  rewrite store_Some by (len; lia). cbn [access mbind outcome_bind].
  destruct (netif_rx_ni _ _) as [ret after]. set (s1 := mk_host_rx _ _ _).
  destruct (alloc_new_skb_ok s1) as (r & s' & -> & _ & _ & _ & Hr').
  cbn [mbind outcome_bind]. destruct Hr' as [(-> & Hnone & _)|(-> & skb' & Hsome & Hok' & Hz)].
  - simpl. split; [|by right]. unfold host_inv. simpl. by rewrite Hnone.
  - simpl. split.
    + exists skb'. split; [constructor; simpl; try done|].
      unfold rx_room in *. simpl. rewrite Hz. lia.
    + unfold rx_measure in *. rewrite Hs in Hm. unfold rx_skb. simpl. rewrite Hsome, Hz.
      simpl. destruct (rx_status l); simpl in *; lia.
Qed.

Lemma rx_leave_ok cp l skb :
  rx_inv cp l skb -> surplus l = 0 -> host_inv (rx_exit l).2 /\ (processed l = zlen cp \/ rx_skb l = None).
Proof.
  intros [Hs Hok Hdl Hc Hp H1] Hz. split; [|left; lia]. unfold host_inv. simpl.
  unfold rx_skb in Hs. by rewrite Hs.
Qed.

Lemma rx_data_ok cp L l skb m :
  rx_inv cp l skb -> rx_room cp L l skb -> rx_status l = STATUS_DATA -> (rx_measure l <= m)%nat ->
  post (rx_data cp (zlen cp) l skb) (rx_risk cp L) (rx_step_ok cp L m).
Proof.
  intros Hinv Hr Hst Hm. pose proof Hinv as [Hs Hok Hdl Hc Hp H1]. specialize (Hdl Hst).
  pose proof (skb_len_ok _ Hok) as Hl. unfold MAX_FRAME_LEN, MTU_LEN in *. unfold rx_data.
  rewrite u32_small by lia. case_if as Hshort.
  - case_if as Hz; [exact (rx_leave_ok _ _ skb Hinv Hz)|].
    rewrite u32_small, s32_small by lia. apply rx_copy_ok; try done; unfold MAX_FRAME_LEN, MTU_LEN; lia.
  - rewrite skb_byte_lookup by (done || lia). pose proof (skb_bytes_length _ Hok) as HL.
    destruct (lookup_lt_is_Some_2 (skb_bytes skb) (Z.to_nat (rx_dl l + 2))) as [b ->]; [lia|]. simpl.
    case_if as Hb; [apply post_total, (rx_deliver_ok cp); try done; lia|].
    apply rx_split_ok; try done.
    unfold rx_measure in *. rewrite Hst in Hm. simpl in *. unfold rx_skb in *. simpl. lia.
Qed.

Lemma rx_step_ok_all cp L l skb :
  rx_inv cp l skb -> rx_room cp L l skb ->
  post (rx_step cp (zlen cp) l) (rx_risk cp L) (rx_step_ok cp L (rx_measure l)).
Proof.
  intros Hinv Hr. pose proof Hinv as [Hs Hok Hdl Hc Hp H1]. pose proof (skb_len_ok _ Hok) as Hl.
  unfold MAX_FRAME_LEN, MTU_LEN in *. unfold rx_step. rewrite Hs. simpl.
  destruct (rx_status l) eqn:Hst; [|by apply rx_data_ok|by apply rx_split_ok].
  case_if as H2.
  - case_if as Hz; [exact (rx_leave_ok _ _ skb Hinv Hz)|].
    rewrite u32_small, s32_small by lia. apply rx_copy_ok; try done; unfold MAX_FRAME_LEN, MTU_LEN; lia.
  - destruct (skb_load_s16 skb) as (lo & hi & bs & _ & ->); [done|lia|]. simpl.
    case_if as Hbad.
    + simpl. split.
      * exists skb. split; [constructor; simpl; try done|done].
      * unfold rx_measure, rx_skb in *. simpl. rewrite Hst. simpl. lia.
    + apply rx_data_ok; simpl; try done.
      unfold rx_measure, rx_skb in *. simpl. rewrite Hst. simpl. lia.
Qed.

Lemma rx_loop_ok cp l skb :
  rx_inv cp l skb -> surplus l = zlen cp ->
  post (run (rx_step cp (zlen cp)) (rx_fuel (zlen cp)) l) (rx_risk cp (skb_len skb + zlen cp)) (fun l' =>
    host_inv (rx_exit l').2 /\ (processed l' = zlen cp \/ rx_skb l' = None)).
Proof.
  intros Hinv Hsp. set (L := skb_len skb + zlen cp).
  eapply run_post with (I := fun l => exists skb, rx_inv cp l skb /\ rx_room cp L l skb)
    (m := rx_measure).
  - intros l' (skb' & Hinv' & Hr'). eapply post_mono; [by apply (rx_step_ok_all cp L l' skb')|].
    intros [l''|l'']; [done|done].
  - exists skb. split; [done|]. unfold rx_room, L. lia.
  - unfold rx_measure, rx_fuel. destruct Hinv as [Hs [_ _ Hl _ _ _] _ _ _ _]. rewrite Hs, Hsp.
    destruct (rx_status l); cbn [rx_rank]; lia.
Qed.

(** The bytes of the frame being received. *)
Definition frame_len (s : host_rx) : Z :=
  match recv_skb (uw s) with Some skb => skb_len skb | None => 0 end.

(** [ttyio_receive_data] ends on every input, keeps the driver's state in order
    and consumes the whole chunk unless memory runs out; it has no undefined
    behaviour on one-byte chunks as long as frames are short enough to dump. *)
Lemma ttyio_receive_data_ok cp s :
  host_inv s ->
  post (ttyio_receive_data cp s) (rx_risk cp (frame_len s + zlen cp)) (fun '(n, s') =>
    host_inv s' /\ (n = zlen cp \/ recv_skb (uw s') = None)).
Proof.
  intros Hinv. unfold ttyio_receive_data, frame_len. unfold host_inv in Hinv.
  destruct (recv_skb (uw s)) as [skb|] eqn:Hskb.
  - destruct Hinv as [Hok Hdl]. apply post_bind.
    eapply post_mono; [apply (rx_loop_ok cp _ skb); [|done]|done].
    constructor; simpl; try done; lia.
  - destruct (alloc_new_skb_ok s) as (r & s' & -> & _ & _ & _ & Hr). cbn [mbind outcome_bind].
    destruct Hr as [(-> & Hnone & _)|(-> & skb & Hsome & Hok & Hz)]; simpl.
    + split; [|by right]. unfold host_inv. simpl. by rewrite Hnone.
    + rewrite <- Hz. apply post_bind. eapply post_mono; [apply (rx_loop_ok cp _ skb); [|done]|done].
      constructor; simpl; try done; lia.
Qed.
End Correctness.

(** ** Well-formed traffic *)

(** IP packets the receiver accepts. *)
Definition ip_packet (p : list Z) : Prop := 20 <= zlen p <= MTU_LEN.

(** The skb handed to the stack for packet [p]: the packet behind an Ethernet
    header of zero addresses and ethertype IPv4. *)
Record packet_skb (p : list Z) (skb : sk_buff) : Prop := {
  pk_data : data skb = ETH_HLEN;
  pk_len : skb_len skb = zlen p;
  pk_tail : skb_tail skb = data skb + skb_len skb;
  pk_bytes : skb_bytes skb = p;
  pk_header : ztake ETH_HLEN (zdrop (mac_header skb) (lin skb)) = replicate 12 0 ++ [0x08; 0x00];
  pk_protocol : protocol skb = htons ETH_P_IP;
}.

(** The machine is inside a frame of the first packet of [ps]: [bs] are its
    bytes so far. *)
Definition in_frame (st : recv_status) (dl : Z) (bs : list Z) (ps : list (list Z)) : Prop :=
  st <> STATUS_SPLIT
  /\ (zlen bs <= 2 \/ exists p ps', ps = p :: ps' /\ zlen bs <= zlen p + 3)
  /\ (st = STATUS_DATA -> 2 <= zlen bs /\ exists p ps', ps = p :: ps' /\ dl = zlen p).

(** The frame in the buffer is not complete. *)
Definition unfinished (bs : list Z) (ps : list (list Z)) : Prop :=
  zlen bs < 2 \/ exists p ps', ps = p :: ps' /\ zlen bs < zlen p + 3.

(** Between calls: what is buffered and what is to come are the frames of [ps]. *)
Definition rx_sync (s : host_rx) (fut : list Z) (ps : list (list Z)) : Prop :=
  match recv_skb (uw s) with
  | None => fut = put_frames SPLIT_DATA ps
  | Some skb => skb_ok skb /\ in_frame (uart_recv_status (uw s)) (uartDataLen (uw s)) (skb_bytes skb) ps
      /\ unfinished (skb_bytes skb) ps /\ skb_bytes skb ++ fut = put_frames SPLIT_DATA ps
  end.

Lemma put_frames_cons c p ps : put_frames c (p :: ps) = put_u16 (zlen p) ++ p ++ c :: put_frames c ps.
Proof. unfold put_frames. simpl. unfold put_frame. by rewrite <- !app_assoc. Qed.

(** The head of a stream of frames. *)
Lemma frames_head c bs rest ps :
  bs ++ rest = put_frames c ps -> 0 < zlen bs -> exists p ps', ps = p :: ps'.
Proof. destruct ps as [|p ps]; [|by eauto]. intros H. destruct bs; simpl; [lia|done]. Qed.

Lemma frames_length_word c lo hi bs rest p ps :
  (lo :: hi :: bs) ++ rest = put_frames c (p :: ps) -> zlen p < 32768 -> get_s16 lo hi = zlen p.
Proof.
  intros H Hlt. rewrite put_frames_cons in H. unfold put_u16 in H. simpl in H.
  injection H as -> -> _. apply get_put_s16. lia.
Qed.

Lemma frames_complete c bs rest p ps :
  bs ++ rest = put_frames c (p :: ps) -> zlen bs = zlen p + 3 ->
  bs = put_frame c p /\ rest = put_frames c ps.
Proof.
  intros H Hl. change (put_frames c (p :: ps)) with (put_frame c p ++ put_frames c ps) in H.
  apply app_inj_1 in H; [done|]. pose proof (put_frame_length c p). lia.
Qed.

Section Traffic.
Context {K : Kernel} {KL : KernelLaws K}.
Context (cp fut : list Z) (s0 : host_rx) (ps : list (list Z)).

(** What has been handed to the stack since [s0] are the packets [ps1]. *)
Definition handed_over (s : host_rx) (ps1 : list (list Z)) : Prop :=
  (rx_packets (uw s) = rx_packets (uw s0) + zlen ps1
   /\ same_params (uw s0) (uw s))
  /\ exists new, delivered s = delivered s0 ++ new /\ Forall2 packet_skb ps1 new.

Definition sync_at (l : rx_locals) : Prop :=
  exists skb ps1 ps2, rx_inv cp l skb /\ 0 <= surplus l /\ ps = ps1 ++ ps2
    /\ handed_over (rx_s l) ps1
    /\ in_frame (rx_status l) (rx_dl l) (skb_bytes skb) ps2
    /\ skb_bytes skb ++ zdrop (processed l) cp ++ fut = put_frames SPLIT_DATA ps2.

Definition sync_end (l : rx_locals) : Prop :=
  exists ps1 ps2, ps = ps1 ++ ps2 /\ handed_over (rx_s l) ps1
    /\ rx_sync (rx_exit l).2 (zdrop (processed l) cp ++ fut) ps2
    /\ 0 <= processed l <= zlen cp
    /\ (processed l = zlen cp
        \/ (rx_skb l = None /\ exists k, netdev_alloc_skb k MAX_RECV_LEN = None)).

Definition sync_step_ok (m : nat) (r : rx_locals + rx_locals) : Prop :=
  match r with
  | inl l => sync_at l /\ (rx_measure l < m)%nat
  | inr l => sync_end l
  end.

Context (Hps : Forall ip_packet ps).

Lemma sync_copy_ok l skb ps1 ps2 want m :
  rx_inv cp l skb -> 0 < surplus l -> ps = ps1 ++ ps2 -> handed_over (rx_s l) ps1 ->
  (rx_status l = STATUS_LEN /\ skb_len skb + want = 2
   \/ rx_status l = STATUS_DATA /\ 2 <= skb_len skb
      /\ exists p ps', ps2 = p :: ps' /\ rx_dl l = zlen p /\ skb_len skb + want = zlen p + 3) ->
  0 < want -> skb_len skb + want <= MAX_FRAME_LEN ->
  skb_bytes skb ++ zdrop (processed l) cp ++ fut = put_frames SPLIT_DATA ps2 ->
  (rx_measure l <= m)%nat ->
  total (rx_copy cp l skb want) (sync_step_ok m).
Proof.
  intros Hinv Hpos Hsplit Hho Hst Hw Hfit Hstream Hm. pose proof Hinv as [Hs Hok Hdl Hc Hp H1].
  unfold rx_copy. set (n := Z.min (surplus l) want).
  destruct (skb_put_ok skb cp (processed l) n) as (skb' & -> & Hok' & Hb' & Hlen); try lia; [done|].
  simpl. pose proof (skb_bytes_length _ Hok') as HL'. split.
  - exists skb', ps1, ps2. split_and!; try done; simpl; try lia.
    + constructor; simpl; try done; lia.
    + split; [by destruct Hst as [[-> _]|[-> _]]|]. split.
      * destruct Hst as [[_ ?]|(_ & _ & p & ps' & -> & _ & ?)]; [left; lia|right].
        exists p, ps'. split; [done|lia].
      * intros E. destruct Hst as [[? _]|(_ & ? & p & ps' & -> & ? & _)]; [congruence|].
        split; [lia|by eauto].
    + rewrite Hb', <- Hstream, <- app_assoc. f_equal.
      rewrite <- (take_drop (Z.to_nat n) (zdrop (processed l) cp)) at 2.
      rewrite drop_drop, <- app_assoc. do 3 f_equal. lia.
  - unfold rx_measure in *. rewrite Hs in Hm. simpl. rewrite Hlen.
    destruct (skb_len_ok _ Hok). lia.
Qed.

(** The skb of a complete frame, as it is handed over. *)
Lemma deliver_skb_ok skb p mem :
  skb_ok skb -> ip_packet p -> skb_bytes skb = put_frame SPLIT_DATA p ->
  store_u16 (lin skb) (data skb) (htons ETH_P_IP) = Some mem ->
  packet_skb p (mk_skb mem (data skb + 2) (skb_tail skb - 1) (u32 (skb_len skb - 3))
                  (mac_header skb) (protocol skb)).
Proof.
  intros Hok Hp Hb Hst. pose proof (skb_bytes_length _ Hok) as HL. rewrite Hb in HL.
  pose proof (put_frame_length SPLIT_DATA p). destruct Hok as [Hd Ht Hl Hr Hh [Hmac Hpr]].
  unfold ip_packet, MAX_FRAME_LEN, MTU_LEN in *. unfold store_u16 in Hst.
  pose proof (store_length _ _ _ _ Hst). pose proof (store_prefix _ _ _ _ Hst) as HP.
  pose proof (store_after _ _ _ _ 14 Hst) as HA. rewrite Hd in *.
  rewrite u32_small by lia.
  constructor; cbn [data skb_len skb_tail mac_header protocol lin]; try done; try lia.
  - unfold skb_bytes in *. cbn [skb_len data lin]. change (12 + 2) with 14.
    rewrite HA by (unfold put_u16; len; lia).
    rewrite Hd in Hb. apply (f_equal (fun l => ztake (zlen p) (drop 2 l))) in Hb.
    unfold put_frame, put_u16 in Hb. cbn [app skipn] in Hb. rewrite drop_0, take_app_length' in Hb by lia.
    rewrite skipn_firstn_comm, drop_drop, take_take in Hb. etransitivity; [|exact Hb].
    f_equal. lia.
  - rewrite Hmac, drop_0. change ETH_HLEN with (12 + zlen (put_u16 (htons ETH_P_IP))).
    by rewrite HP, Hh.
Qed.

Lemma sync_deliver_ok l skb ps1 p ps2 m :
  rx_inv cp l skb -> 0 <= surplus l -> ps = ps1 ++ p :: ps2 -> handed_over (rx_s l) ps1 ->
  rx_status l = STATUS_DATA -> skb_len skb = zlen p + 3 ->
  skb_bytes skb ++ zdrop (processed l) cp ++ fut = put_frames SPLIT_DATA (p :: ps2) ->
  (rx_measure l <= m)%nat ->
  total (rx_deliver l skb) (sync_step_ok m).
Proof.
  intros Hinv Hpos Hsplit ([Hrx Hv] & new & Hnew & Hpk) Hst Hlen Hstream Hm.
  pose proof Hinv as [Hs Hok Hdl Hc Hp H1]. pose proof (skb_bytes_length _ Hok) as HL.
  assert (ip_packet p) as Hp1 by (rewrite Hsplit, Forall_app, Forall_cons in Hps; tauto).
  apply frames_complete in Hstream as [Hb Hrest]; [|lia].
  pose proof Hok as [Hd Ht Hl Hr _ _]. unfold MAX_FRAME_LEN, MTU_LEN in *. unfold rx_deliver.
  destruct (store_u16 (lin skb) (data skb) (htons ETH_P_IP)) as [mem|] eqn:Hmem;
    [|unfold store_u16, put_u16 in Hmem; rewrite store_Some in Hmem; [done|lia|len; lia]].
  pose proof (deliver_skb_ok _ _ _ Hok Hp1 Hb Hmem) as Hpkt. cbn [access mbind outcome_bind].
  set (skb1 := mk_skb mem _ _ _ _ _) in *. destruct (netif_rx_ni _ _) as [ret after].
  set (s1 := mk_host_rx _ _ _).
  destruct (alloc_new_skb_ok s1) as (r & s' & -> & Hdel & Hpkts & Hvd & Hr').
  assert (handed_over s' (ps1 ++ [p])) as Hho.
  { split; [split; [rewrite Hpkts; simpl; rewrite Hrx; len; lia|by eapply same_params_trans]|]. exists (new ++ [skb1]).
    split; [rewrite Hdel; simpl; by rewrite Hnew, app_assoc|].
    apply Forall2_app; [done|]. by constructor. }
  cbn [mbind outcome_bind]. destruct Hr' as [(-> & Hnone & Hfail)|(-> & skb' & Hsome & Hok' & Hz)];
    simpl.
  - exists (ps1 ++ [p]), ps2. rewrite <- app_assoc. split_and!; try done; simpl; try lia.
    + unfold rx_sync. simpl. by rewrite Hnone.
    + right. split; [done|by eexists].
  - pose proof (skb_bytes_length _ Hok') as HL'. split.
    + exists skb', (ps1 ++ [p]), ps2. rewrite <- app_assoc. split_and!; try done; simpl.
      * split; [done|]. split; [left; lia|done].
      * destruct (skb_bytes skb'); [done|simpl in HL'; lia].
    + unfold rx_measure in *. rewrite Hs in Hm. unfold rx_skb. simpl. rewrite Hsome, Hz.
      rewrite Hst in Hm. simpl in *. lia.
Qed.

Lemma sync_leave_ok l skb ps1 ps2 :
  rx_inv cp l skb -> surplus l = 0 -> ps = ps1 ++ ps2 -> handed_over (rx_s l) ps1 ->
  in_frame (rx_status l) (rx_dl l) (skb_bytes skb) ps2 -> unfinished (skb_bytes skb) ps2 ->
  skb_bytes skb ++ zdrop (processed l) cp ++ fut = put_frames SPLIT_DATA ps2 -> sync_end l.
Proof.
  intros [Hs Hok Hdl Hc Hp H1] Hz Hsplit Hho Hin Hun Hstream. exists ps1, ps2.
  split_and!; try done; try lia. unfold rx_sync. simpl. unfold rx_skb in Hs. by rewrite Hs.
Qed.

Lemma sync_data_ok l skb ps1 ps2 m :
  rx_inv cp l skb -> 0 <= surplus l -> ps = ps1 ++ ps2 -> handed_over (rx_s l) ps1 ->
  rx_status l = STATUS_DATA -> in_frame STATUS_DATA (rx_dl l) (skb_bytes skb) ps2 ->
  skb_bytes skb ++ zdrop (processed l) cp ++ fut = put_frames SPLIT_DATA ps2 ->
  (rx_measure l <= m)%nat ->
  total (rx_data cp (zlen cp) l skb) (sync_step_ok m).
Proof.
  intros Hinv Hpos Hsplit Hho Hst Hin Hstream Hm. pose proof Hinv as [Hs Hok Hdl Hc Hp H1].
  pose proof (skb_bytes_length _ Hok) as HL. pose proof (skb_len_ok _ Hok) as Hl.
  pose proof Hin as (_ & Hbound & Hdata). destruct (Hdata eq_refl) as (H2 & p & ps' & -> & Hdlp).
  assert (ip_packet p) as Hp1 by (rewrite Hsplit, Forall_app, Forall_cons in Hps; tauto).
  unfold ip_packet, MAX_FRAME_LEN, MTU_LEN in *.
  assert (zlen (skb_bytes skb) <= zlen p + 3) as Hle.
  { destruct Hbound as [?|(q & qs & E & ?)]; [lia|]. by simplify_eq. }
  unfold rx_data. rewrite u32_small by lia. case_if as Hshort.
  - case_if as Hz.
    + exact (sync_leave_ok l skb ps1 (p :: ps') Hinv Hz Hsplit Hho ltac:(by rewrite Hst)
               ltac:(right; exists p, ps'; split; [done|lia]) Hstream).
    + rewrite u32_small, s32_small by lia.
      eapply sync_copy_ok; try done; [lia| |lia|unfold MAX_FRAME_LEN, MTU_LEN; lia].
      right. split; [done|]. split; [lia|]. exists p, ps'. split_and!; try done. lia.
  - rewrite skb_byte_lookup by (done || lia).
    pose proof Hstream as [Hb _]%frames_complete; [|lia].
    rewrite Hb. unfold put_frame. rewrite app_assoc, list_lookup_middle.
    2: { unfold put_u16. len. lia. }
    cbn [access mbind outcome_bind]. rewrite Z.eqb_refl. eapply sync_deliver_ok; try done. lia.
Qed.

Lemma sync_step_all l :
  sync_at l -> total (rx_step cp (zlen cp) l) (sync_step_ok (rx_measure l)).
Proof.
  intros (skb & ps1 & ps2 & Hinv & Hpos & Hsplit & Hho & Hin & Hstream).
  pose proof Hinv as [Hs Hok Hdl Hc Hp H1]. pose proof (skb_bytes_length _ Hok) as HL.
  pose proof (skb_len_ok _ Hok) as Hl. unfold MAX_FRAME_LEN, MTU_LEN in *.
  unfold rx_step. rewrite Hs. cbn [access mbind outcome_bind].
  destruct (rx_status l) eqn:Hst; [|by eapply sync_data_ok|by destruct Hin].
  case_if as H2.
  - case_if as Hz; [exact (sync_leave_ok l skb ps1 ps2 Hinv Hz Hsplit Hho
                          ltac:(by rewrite Hst) ltac:(left; lia) Hstream)|].
    rewrite u32_small, s32_small by lia.
    eapply sync_copy_ok; try done; [lia| |lia|unfold MAX_FRAME_LEN, MTU_LEN; lia].
    left. split; [done|lia].
  - destruct (skb_load_s16 skb) as (lo & hi & bs & Hb & ->); [done|lia|].
    cbn [access mbind outcome_bind].
    destruct (frames_head _ _ _ _ Hstream) as (p & ps' & ->); [lia|].
    assert (ip_packet p) as Hp1 by (rewrite Hsplit, Forall_app, Forall_cons in Hps; tauto).
    unfold ip_packet, MTU_LEN in Hp1.
    pose proof Hstream as Hword. rewrite Hb in Hword. apply frames_length_word in Hword; [|lia].
    rewrite Hword. case_if as Hbad; [apply orb_true_iff in Hbad as [?|?]; bool_cases; unfold MTU_LEN in *; lia|].
    eapply sync_data_ok; simpl; try done.
    + destruct Hin as (_ & Hbound & _). split; [done|]. split; [|split; [lia|by eauto]].
      destruct Hbound as [?|?]; [by left|by right].
    + unfold rx_measure, rx_skb in *. simpl. rewrite Hst. simpl. lia.
Qed.
End Traffic.

(** ** Calls and sequences of calls *)

Section Calls.
Context {K : Kernel} {KL : KernelLaws K}.

Definition call_end (cp fut : list Z) (s0 : host_rx) (ps : list (list Z)) (r : Z * host_rx) : Prop :=
  let '(n, s) := r in
  exists ps1 ps2, ps = ps1 ++ ps2 /\ handed_over s0 s ps1 /\ rx_sync s (zdrop n cp ++ fut) ps2
    /\ 0 <= n <= zlen cp
    /\ (n = zlen cp
        \/ (recv_skb (uw s) = None /\ exists k, netdev_alloc_skb k MAX_RECV_LEN = None)).

Lemma sync_loop_ok cp fut s0 ps l :
  Forall ip_packet ps -> sync_at cp fut s0 ps l -> surplus l = zlen cp ->
  total (run (rx_step cp (zlen cp)) (rx_fuel (zlen cp)) l) (sync_end cp fut s0 ps).
Proof.
  intros Hps Hat Hsp. apply run_post with (I := sync_at cp fut s0 ps) (m := rx_measure).
  - intros l' Hat'. eapply post_mono; [by apply sync_step_all|]. by intros [|].
  - done.
  - destruct Hat as (skb & _ & _ & Hinv & _). unfold rx_measure, rx_fuel.
    destruct Hinv as [Hs [_ _ Hl _ _ _] _ _ _ _]. rewrite Hs, Hsp.
    destruct (rx_status l); cbn [rx_rank]; lia.
Qed.

Lemma handed_over_refl s u n :
  rx_packets u = rx_packets (uw s) -> same_params (uw s) u ->
  handed_over s (mk_host_rx u n (delivered s)) [].
Proof.
  intros Hu Hv. split; [split; [simpl; lia|done]|]. exists []. simpl. by rewrite app_nil_r.
Qed.

Lemma ttyio_receive_data_sync cp fut s ps :
  Forall ip_packet ps -> rx_sync s (cp ++ fut) ps ->
  total (ttyio_receive_data cp s) (call_end cp fut s ps).
Proof.
  intros Hps Hsync. unfold ttyio_receive_data. unfold rx_sync in Hsync.
  assert (forall skb s' st dl, recv_skb (uw s') = Some skb -> skb_ok skb ->
    handed_over s s' [] -> in_frame st dl (skb_bytes skb) ps ->
    skb_bytes skb ++ cp ++ fut = put_frames SPLIT_DATA ps ->
    total (let! l := run (rx_step cp (zlen cp)) (rx_fuel (zlen cp)) (mk_rx s' st dl 0 (zlen cp)) in
           Ret (rx_exit l)) (call_end cp fut s ps)) as Hgo.
  { intros skb s' st dl Hskb Hok Hho Hin Hst. apply post_bind.
    eapply post_mono; [apply sync_loop_ok with (ps := ps) (s0 := s) (fut := fut); try done|].
    - exists skb, [], ps. split_and!; try done; simpl; try lia.
      constructor; simpl; try done; try lia. intros ->.
      destruct Hin as (_ & _ & Hd). destruct (Hd eq_refl) as (_ & p & ps' & -> & ->).
      apply Forall_cons in Hps as [Hp _]. exact Hp.
    - intros l Hend. destruct Hend as (ps1 & ps2 & ? & ? & ? & ? & ?). simpl.
      exists ps1, ps2. split_and!; try done; tauto. }
  destruct (recv_skb (uw s)) as [skb|] eqn:Hskb.
  - destruct Hsync as (Hok & Hin & _ & Hst). apply (Hgo skb); try done.
    destruct s as [u n d]. by apply handed_over_refl.
  - destruct (alloc_new_skb_ok s) as (r & s' & -> & Hd & Hpk & Hvd & Hr). cbn [mbind outcome_bind].
    assert (handed_over s s' []) as Hho.
    { destruct s' as [u n d]. simpl in *. rewrite Hd. by apply handed_over_refl. }
    destruct Hr as [(-> & Hnone & Hfail)|(-> & skb & Hsome & Hok & Hz)]; simpl.
    + exists [], ps. split_and!; try done; try lia.
      * unfold rx_sync. simpl. by rewrite Hnone, drop_0.
      * right. simpl. split; [done|by eexists].
    + pose proof (skb_bytes_length _ Hok) as HL. apply (Hgo skb); try done.
      * split; [done|]. split; [left; lia|done].
      * destruct (skb_bytes skb); [done|simpl in HL; lia].
Qed.

(** The line discipline's calls: what one call leaves unprocessed is presented
    again, in front of the bytes that arrive next. *)
Fixpoint receive_chunks (held : list Z) (chunks : list (list Z)) (s : host_rx) :
    outcome (list Z * host_rx) :=
  match chunks with
  | [] => Ret (held, s)
  | c :: cs =>
      let! ' (n, s) := ttyio_receive_data (held ++ c) s in
      receive_chunks (zdrop n (held ++ c)) cs s
  end.

Lemma handed_over_trans s0 s1 s2 ps1 ps2 :
  handed_over s0 s1 ps1 -> handed_over s1 s2 ps2 -> handed_over s0 s2 (ps1 ++ ps2).
Proof.
  intros [[Hr1 Hv1] (n1 & Hd1 & Hf1)] [[Hr2 Hv2] (n2 & Hd2 & Hf2)].
  split; [split; [rewrite Hr2, Hr1; len; lia|by eapply same_params_trans]|].
  exists (n1 ++ n2). rewrite Hd2, Hd1, app_assoc. split; [done|]. by apply Forall2_app.
Qed.

(** The state after a sequence of calls: packets handed over, packets to come,
    and nothing held back unless an allocation failed. *)
Definition calls_end (fut : list Z) (s0 : host_rx) (ps : list (list Z)) (r : list Z * host_rx) : Prop :=
  let '(held, s) := r in
  exists ps1 ps2, ps = ps1 ++ ps2 /\ handed_over s0 s ps1 /\ rx_sync s (held ++ fut) ps2
    /\ (held = [] \/ exists k, netdev_alloc_skb k MAX_RECV_LEN = None).

Lemma receive_chunks_ok chunks held fut s ps :
  Forall ip_packet ps -> rx_sync s (held ++ concat chunks ++ fut) ps ->
  held = [] \/ (exists k, netdev_alloc_skb k MAX_RECV_LEN = None) ->
  total (receive_chunks held chunks s) (calls_end fut s ps).
Proof.
  revert held s ps. induction chunks as [|c cs IH]; intros held s ps Hps Hsync Hheld.
  - simpl. exists [], ps. split_and!; try done. destruct s. by apply handed_over_refl.
  - cbn [receive_chunks]. apply post_bind. simpl in Hsync. rewrite <- app_assoc, app_assoc in Hsync.
    eapply post_mono; [by apply ttyio_receive_data_sync|].
    intros [n s1] (ps1 & ps2 & -> & Hho & Hs1 & Hn & Hend). apply Forall_app in Hps as [_ Hps2].
    eapply post_mono; [apply (IH _ _ ps2); try done|].
    + destruct Hend as [->|[_ Hk]]; [left|by right]. apply drop_ge. lia.
    + intros [h s2] (ps3 & ps4 & -> & Hho2 & Hs2 & Hh). exists (ps1 ++ ps3), ps4.
      rewrite <- app_assoc. split_and!; try done. by eapply handed_over_trans.
Qed.

(** Nothing is left in the buffer once all the frames have arrived. *)
Lemma rx_sync_done s ps :
  Forall ip_packet ps -> rx_sync s [] ps -> ps = [].
Proof.
  intros Hps Hs. unfold rx_sync in Hs. destruct ps as [|p ps]; [done|exfalso].
  assert (zlen (put_frames SPLIT_DATA (p :: ps)) >= zlen p + 3) as HL.
  { change (put_frames SPLIT_DATA (p :: ps)) with (put_frame SPLIT_DATA p ++ put_frames SPLIT_DATA ps).
    rewrite length_app. pose proof (put_frame_length SPLIT_DATA p). lia. }
  apply Forall_cons in Hps as [Hp _]. unfold ip_packet in Hp.
  destruct (recv_skb (uw s)) as [skb|]; [|by rewrite <- Hs in HL; simpl in HL; lia].
  destruct Hs as (Hok & _ & Hun & Hb). rewrite app_nil_r in Hb. rewrite <- Hb in HL.
  destruct Hun as [Hun|(q & qs & E & ?)]; [|simplify_eq]; lia.
Qed.
End Calls.

(** ** Properties *)

(** The driver has no skb in hand, as before the first byte. *)
Definition rx_fresh (s : host_rx) : Prop := recv_skb (uw s) = None.

Lemma receive_chunks_deliver {K : Kernel} {KL : KernelLaws K} chunks s ps :
  (forall k, netdev_alloc_skb k MAX_RECV_LEN <> None) ->
  rx_fresh s -> Forall ip_packet ps -> concat chunks = put_frames SPLIT_DATA ps ->
  total (receive_chunks [] chunks s) (fun '(held, s') => held = [] /\ handed_over s s' ps).
Proof.
  intros Hmem Hs Hps Hline. eapply post_mono; [apply (receive_chunks_ok chunks [] [] s ps)|].
  - done.
  - unfold rx_sync. rewrite Hs. by rewrite app_nil_r.
  - by left.
  - intros [held s'] (ps1 & ps2 & -> & Hho & Hsync & Hheld).
    destruct Hheld as [->|[k Hk]]; [|by destruct (Hmem k)]. apply Forall_app in Hps as [_ Hps2].
    apply rx_sync_done in Hsync as ->; [|done]. by rewrite app_nil_r.
Qed.

(** Round trip: when the line carries the frames of IP packets and memory does
    not run out, then, however the tty layer cuts the bytes into chunks, the
    network stack receives exactly these packets, in order and each once, behind
    an Ethernet header with ethertype IPv4, and rx_packets counts them. *)
Theorem ttyio_receive_data_delivers {K : Kernel} {KL : KernelLaws K} chunks s ps :
  (forall k, netdev_alloc_skb k MAX_RECV_LEN <> None) ->
  rx_fresh s -> Forall ip_packet ps -> concat chunks = put_frames SPLIT_DATA ps ->
  total (receive_chunks [] chunks s) (fun '(held, s') => held = [] /\ handed_over s s' ps).
Proof. apply receive_chunks_deliver. Qed.

(** C15. Memory pressure loses nothing: whatever allocations fail, the packets handed
    over so far are a prefix of those sent, and the frame in the buffer with the
    bytes still held by the tty layer is exactly the rest of the line. *)
Theorem ttyio_receive_data_lossless {K : Kernel} {KL : KernelLaws K} chunks s ps :
  rx_fresh s -> Forall ip_packet ps -> concat chunks = put_frames SPLIT_DATA ps ->
  total (receive_chunks [] chunks s) (fun '(held, s') =>
    exists ps1 ps2, ps = ps1 ++ ps2 /\ handed_over s s' ps1 /\ rx_sync s' held ps2).
Proof.
  intros Hs Hps Hline. eapply post_mono; [apply (receive_chunks_ok chunks [] [] s ps)|].
  - done.
  - unfold rx_sync. rewrite Hs. by rewrite app_nil_r.
  - by left.
  - intros [held s'] (ps1 & ps2 & ? & ? & Hsync & _). exists ps1, ps2.
    by rewrite app_nil_r in Hsync.
Qed.

(** C16. On arbitrary bytes [ttyio_receive_data] ends, keeps the receive state in
    order and takes the whole chunk unless an allocation failed; it can only do
    something undefined when the chunk has several bytes or when the frame in the
    buffer is too long for the log dump of the resynchronisation. *)
Theorem ttyio_receive_data_safe {K : Kernel} {KL : KernelLaws K} cp s :
  host_inv s ->
  post (ttyio_receive_data cp s) (1 < zlen cp \/ DUMP_MAX < frame_len s + zlen cp)
    (fun '(n, s') => host_inv s' /\ (n = zlen cp \/ recv_skb (uw s') = None)).
Proof. apply ttyio_receive_data_ok. Qed.

(** A kernel whose allocations succeed. *)
#[export] Instance plain_kernel : Kernel := {|
  SKB_DATA_ALIGN x := (x + 63) / 64 * 64;
  netdev_alloc_skb _ n := if 0 <=? n then Some (replicate (Z.to_nat n) 0) else None;
  netif_rx_ni _ skb := (0, skb_len skb);
|}.
#[export] Instance plain_kernel_laws : KernelLaws plain_kernel.
Proof.
  split; simpl.
  - intros x. Z.div_mod_to_equations. lia.
  - intros x. Z.div_mod_to_equations. lia.
  - intros _ n l. case_if as Hn; [|done]. intros [= <-]. len. lia.
Qed.

Definition fresh_rx : host_rx := mk_host_rx kzalloc_uart_wifi 0 [].
Definition small_packet (x : Z) : list Z := 0x45 :: replicate 18 x ++ [7].

(** A corrupted length word can make the driver lose the packets behind it even
    after it has found a terminator again: the buffer then holds more than the
    next frame, and all of it is handed over as one packet.  Here the line denotes
    the packets 1 and 2, but the stack receives packet 1 with the frame of packet
    2 appended. *)
Theorem ttyio_receive_data_resync_swallows :
  let line := [60; 0; SPLIT_DATA] ++ put_frames SPLIT_DATA [small_packet 1; small_packet 2]
              ++ replicate 14 0 in
  exists s skb, receive_chunks [] ((fun b => [b]) <$> line) fresh_rx = Ret ([], s)
    /\ delivered s = [skb]
    /\ skb_bytes skb = small_packet 1 ++ SPLIT_DATA :: put_frame SPLIT_DATA (small_packet 2) ++ replicate 13 0.
Proof. vm_compute. do 2 eexists. split; [reflexivity|]. split; reflexivity. Qed.

(** ** Witnesses *)

Definition witness_chunks : list (list Z) :=
  [[20]; 0 :: small_packet 1 ++ [SPLIT_DATA; 20; 0]; []; small_packet 2 ++ [SPLIT_DATA]].
Lemma small_packets_ok : Forall ip_packet [small_packet 1; small_packet 2].
Proof. repeat constructor; vm_compute; discriminate. Qed.

Lemma ttyio_receive_data_delivers_witness :
  total (receive_chunks [] witness_chunks fresh_rx)
    (fun '(held, s') => held = [] /\ handed_over fresh_rx s' [small_packet 1; small_packet 2]).
Proof.
  apply ttyio_receive_data_delivers; [done|reflexivity|apply small_packets_ok|reflexivity].
Defined.

(** A kernel that runs out of memory after the first skb. *)
Definition poor_kernel : Kernel := {|
  SKB_DATA_ALIGN x := x;
  netdev_alloc_skb k n := if (k =? 1)%nat then None else netdev_alloc_skb (Kernel := plain_kernel) k n;
  netif_rx_ni _ skb := (0, skb_len skb);
|}.
Lemma poor_kernel_laws : KernelLaws poor_kernel.
Proof.
  split; simpl; [done|lia|]. intros k n l. destruct (k =? 1)%nat; [done|].
  apply (netdev_alloc_skb_size (K := plain_kernel) k n l).
Qed.

Lemma ttyio_receive_data_lossless_witness :
  total (receive_chunks (K := poor_kernel) [] witness_chunks fresh_rx) (fun '(held, s') =>
    exists ps1 ps2, [small_packet 1; small_packet 2] = ps1 ++ ps2
      /\ handed_over fresh_rx s' ps1 /\ rx_sync s' held ps2).
Proof.
  apply (ttyio_receive_data_lossless (K := poor_kernel) (KL := poor_kernel_laws));
    [reflexivity|apply small_packets_ok|reflexivity].
Defined.

Lemma ttyio_receive_data_safe_witness :
  post (ttyio_receive_data [7] fresh_rx) (1 < zlen [7] \/ DUMP_MAX < frame_len fresh_rx + zlen [7])
    (fun '(n, s') => host_inv s' /\ (n = zlen [7] \/ recv_skb (uw s') = None)).
Proof. apply ttyio_receive_data_safe. exact I. Defined.
