(* ===== verification/HostRecover.v ===== *)
(** * Linux driver: finding the frames again (uart.c, [ttyio_receive_data])

    From STATUS_SPLIT the driver looks for the next SPLIT_DATA.  The search works when it
    starts at the beginning of a chunk, and is wrong when it starts in the middle of
    one: there it can make the driver copy a negative number of bytes. *)
From stdpp Require Import prelude list.
From Stdlib Require Import ZArith Lia.
From S2P Require Import Prelude Memory CString Wire HostState HostDump HostReceive.

(** Between calls: looking for a terminator, with nothing in the skb. *)
Definition out_of_sync (s : host_rx) : Prop :=
  uart_recv_status (uw s) = STATUS_SPLIT
  /\ exists skb, recv_skb (uw s) = Some skb /\ skb_ok skb /\ skb_len skb = 0.

Section Recovery.
Context {K : Kernel} {KL : KernelLaws K}.

(** The locals at the start of a call. *)
Definition rx_begin (cp : list Z) (s : host_rx) : rx_locals :=
  mk_rx s (uart_recv_status (uw s)) (uartDataLen (uw s)) 0 (zlen cp).

Lemma receive_out_of_sync cp s skb :
  recv_skb (uw s) = Some skb ->
  ttyio_receive_data cp s
    = (let! l := run (rx_step cp (zlen cp)) (rx_fuel (zlen cp)) (rx_begin cp s) in Ret (rx_exit l)).
Proof. intros Hk. unfold ttyio_receive_data. by rewrite Hk. Qed.

Lemma run_one cp fuel l r :
  (0 < fuel)%nat -> rx_step cp (zlen cp) l = Ret r ->
  run (rx_step cp (zlen cp)) fuel l
    = match r with inl l' => run (rx_step cp (zlen cp)) (pred fuel) l' | inr l' => Ret l' end.
Proof. intros Hf Hs. destruct fuel as [|fuel]; [lia|]. cbn [run]. rewrite Hs. by destruct r. Qed.

Lemma rx_fuel_pos n : (0 < rx_fuel n)%nat.
Proof. unfold rx_fuel. lia. Qed.

(** The skb after [skb_reset_tail_pointer] and [len = 0]. *)
Lemma skb_reset_ok skb :
  skb_ok skb -> let skb' := mk_skb (lin skb) (data skb) (data skb) 0 (mac_header skb) (protocol skb) in
  skb_ok skb' /\ skb_len skb' = 0 /\ skb_bytes skb' = [].
Proof.
  intros [Hd Ht Hl Hr Hh Hm]. simpl. split; [|done]. constructor; simpl; try done; lia.
Qed.

(** One pass in STATUS_SPLIT with an empty skb. *)
Lemma rx_step_searches cp l skb :
  rx_status l = STATUS_SPLIT -> rx_skb l = Some skb -> skb_ok skb -> skb_len skb = 0 ->
  let l' := rx_set_skb (mk_skb (lin skb) (data skb) (data skb) 0 (mac_header skb) (protocol skb)) l in
  rx_step cp (zlen cp) l =
    match split_index SPLIT_DATA (zdrop (processed l) cp) with
    | Some i =>
        let skip := processed l + i in
        let! _ := dump empty_output cp in
        goto (rx_set_status STATUS_LEN (rx_set_progress (processed l + skip) (surplus l - skip) l'))
    | None => leave (rx_set_progress (zlen cp) (surplus l) (rx_set_status STATUS_SPLIT l'))
    end.
Proof.
  intros Hst Hk Hok H0 l'. unfold rx_step. rewrite Hk, Hst. cbn [access mbind outcome_bind]. unfold rx_split.
  rewrite (skb_load skb), H0 by (done || lia). done.
Qed.

(** A chunk without a terminator is skipped. *)
Lemma receive_garbage cp s :
  out_of_sync s -> (SPLIT_DATA ∉ cp) ->
  exists s', ttyio_receive_data cp s = Ret (zlen cp, s') /\ out_of_sync s' /\ handed_over s s' [].
Proof.
  intros (Hst & skb & Hk & Hok & H0) Hcp. rewrite (receive_out_of_sync _ _ skb) by done.
  erewrite run_one; [|apply rx_fuel_pos|].
  2: { rewrite (rx_step_searches _ _ skb) by done. simpl (processed _). rewrite drop_0, split_index_absent by done. done. }
  cbn [mbind outcome_bind]. eexists. split; [done|]. split.
  - split; [done|]. eexists. split; [done|]. by destruct (skb_reset_ok skb Hok) as (? & ? & _).
  - split; [by split; simpl; [lia|]|]. exists []. by rewrite app_nil_r.
Qed.

(** The terminator realigns the receiver: the rest of the chunk is read as frames. *)
Lemma receive_realigns g tail fut s ps :
  out_of_sync s -> (SPLIT_DATA ∉ g) -> zlen (g ++ SPLIT_DATA :: tail) <= DUMP_MAX ->
  Forall ip_packet ps -> tail ++ fut = put_frames SPLIT_DATA ps ->
  total (ttyio_receive_data (g ++ SPLIT_DATA :: tail) s) (call_end (g ++ SPLIT_DATA :: tail) fut s ps).
Proof.
  intros (Hst & skb & Hk & Hok & H0) Hg Hshort Hps Hline. set (cp := g ++ SPLIT_DATA :: tail) in *.
  rewrite (receive_out_of_sync _ _ skb) by done.
  destruct (recv_dump_total empty_output cp) as [out Hdump]; [done|done|].
  destruct (skb_reset_ok skb Hok) as (Hok' & H0' & Hb').
  erewrite run_one; [|apply rx_fuel_pos|].
  2: { rewrite (rx_step_searches _ _ skb) by done. simpl (processed _). rewrite drop_0. unfold cp at 1.
    rewrite split_index_found by done. rewrite dump_is_recv_dump, Hdump. done. }
  set (l := rx_set_status STATUS_LEN _). assert (zlen cp = zlen g + 1 + zlen tail) as HL by (unfold cp; len; lia).
  assert (sync_at cp fut s ps l) as Hat.
  { eexists _, [], ps. split; [constructor; simpl; try done; lia|].
    split; [simpl; lia|]. split; [done|]. split.
    - split; [by split; simpl; [lia|]|]. exists []. by rewrite app_nil_r.
    - rewrite Hb'. split; [split; [done|]; split; [left; simpl; lia|done]|].
      simpl (processed _). rewrite app_nil_l. unfold cp. rewrite cons_middle, app_assoc, drop_app_length'; [done|].
      len. lia. }
  apply post_bind. eapply post_mono.
  - apply run_post with (I := sync_at cp fut s ps) (m := rx_measure).
    + intros l' Hl'. eapply post_mono; [by apply sync_step_all|]. by intros [].
    + exact Hat.
    + unfold rx_measure, rx_fuel, l. simpl. lia.
  - intros l' (ps1 & ps2 & ? & ? & ? & ? & ?). exists ps1, ps2. split_and!; try done; tauto.
Qed.

Lemma receive_chunks_app c cs held s n s' :
  ttyio_receive_data (held ++ c) s = Ret (n, s') ->
  receive_chunks held (c :: cs) s = receive_chunks (zdrop n (held ++ c)) cs s'.
Proof. intros H. cbn [receive_chunks]. by rewrite H. Qed.

Lemma receive_chunks_recover garbage g tail chunks s ps :
  (forall k, netdev_alloc_skb k MAX_RECV_LEN <> None) ->
  out_of_sync s -> Forall (fun c => SPLIT_DATA ∉ c) garbage -> (SPLIT_DATA ∉ g) ->
  zlen (g ++ SPLIT_DATA :: tail) <= DUMP_MAX ->
  Forall ip_packet ps -> tail ++ concat chunks = put_frames SPLIT_DATA ps ->
  total (receive_chunks [] (garbage ++ (g ++ SPLIT_DATA :: tail) :: chunks) s)
    (fun '(held, s') => held = [] /\ handed_over s s' ps).
Proof.
  intros Hmem Hs Hgar Hg Hshort Hps Hline. revert s Hs. induction Hgar as [|c garbage Hc _ IH]; intros s Hs.
  - cbn [app receive_chunks]. apply post_bind. change ([] ++ ?l) with l.
    eapply post_mono; [by apply receive_realigns|].
    intros [n s1] (ps1 & ps2 & -> & Hho & Hs1 & Hn & Hend). apply Forall_app in Hps as [_ Hps2].
    destruct Hend as [->|[_ [k Hk]]]; [|by destruct (Hmem k)]. rewrite drop_ge in Hs1 |- * by lia.
    eapply post_mono; [apply (receive_chunks_ok chunks [] [] s1 ps2); [done|by rewrite app_nil_r|by left]|].
    intros [held s2] (ps3 & ps4 & -> & Hho2 & Hs2 & Hheld). destruct Hheld as [->|[k Hk]]; [|by destruct (Hmem k)].
    apply Forall_app in Hps2 as [_ Hps4]. apply rx_sync_done in Hs2 as ->; [|done].
    rewrite app_nil_r. split; [done|]. by eapply handed_over_trans.
  - destruct (receive_garbage c s Hs Hc) as (s1 & H1 & Hs1 & Hho). simpl app.
    rewrite (receive_chunks_app c _ [] _ _ _ H1), app_nil_l, drop_ge by lia.
    eapply post_mono; [by apply IH|]. intros [held s2] [-> Hho2]. split; [done|].
    by eapply (handed_over_trans _ _ _ []).
Qed.

(** ** A search that starts in the middle of a chunk *)

(** One pass from [restart] to the next jump there. *)
Definition rx_goes (cp : list Z) (l l' : rx_locals) : Prop := rx_step cp (zlen cp) l = goto l'.

Lemma run_goes cp n l l' fuel :
  nsteps (rx_goes cp) n l l' -> run (rx_step cp (zlen cp)) (n + fuel) l = run (rx_step cp (zlen cp)) fuel l'.
Proof.
  revert l. induction n as [|n IH]; intros l H; inversion H as [|? ? l1 ? H1 H2]; subst; [done|].
  cbn [Nat.add run]. rewrite H1. cbn [mbind outcome_bind goto]. by apply IH.
Qed.

(** The receiver expects [want] more bytes of a frame and the chunk has them. *)
Lemma rx_copy_takes cp l skb want g rest :
  rx_skb l = Some skb -> skb_ok skb -> 0 <= processed l -> zdrop (processed l) cp = g ++ rest ->
  0 < zlen g -> zlen g = want -> surplus l = zlen (g ++ rest) -> skb_len skb + want <= MAX_FRAME_LEN ->
  exists l' skb', rx_copy cp l skb want = goto l' /\ rx_skb l' = Some skb' /\ skb_ok skb'
    /\ skb_bytes skb' = skb_bytes skb ++ g /\ rx_status l' = rx_status l /\ rx_dl l' = rx_dl l
    /\ processed l' = processed l + zlen g /\ surplus l' = zlen rest /\ zdrop (processed l') cp = rest.
Proof.
  intros Hk Hok Hp Hcp Hg Hw Hsp Hfit. unfold rx_copy. rewrite length_app in Hsp.
  assert (zlen g + zlen rest <= zlen cp - processed l) as Hlen.
  { apply (f_equal length) in Hcp. rewrite length_drop, length_app in Hcp. lia. }
  replace (Z.min (surplus l) want) with (zlen g) by lia.
  destruct (skb_put_ok skb cp (processed l) (zlen g)) as (skb' & -> & Hok' & Hb & _); [done|lia..|].
  cbn [access mbind outcome_bind]. do 2 eexists. split; [done|]. split; [done|]. split; [done|].
  rewrite Hb, Hcp, take_app_length' by lia. split_and!; try done; simpl; [lia|].
  replace (Z.to_nat (processed l + zlen g)) with (Z.to_nat (processed l) + length g)%nat by lia.
  rewrite <- drop_drop, Hcp. apply drop_app_length.
Qed.

(** The receiver takes [bs] for a frame of length [dl]: it has read this length, or finds
    it at the head of [bs]. *)
Definition in_frame_of (l : rx_locals) (bs : list Z) (dl : Z) : Prop :=
  rx_status l = STATUS_LEN /\ (exists lo hi b, bs = lo :: hi :: b /\ get_s16 lo hi = dl)
  \/ rx_status l = STATUS_DATA /\ rx_dl l = dl.

(** The rest of such a frame has been taken from the chunk. *)
Definition frame_held (cp : list Z) (l : rx_locals) (bs g rest : list Z) (dl : Z) (l' : rx_locals) : Prop :=
  exists skb', rx_skb l' = Some skb' /\ skb_ok skb' /\ skb_bytes skb' = bs
    /\ rx_status l' = STATUS_DATA /\ rx_dl l' = dl /\ processed l' = processed l + zlen g
    /\ surplus l' = zlen rest /\ zdrop (processed l') cp = rest.

Lemma rx_data_completes cp l skb dl g rest :
  rx_skb l = Some skb -> skb_ok skb -> 0 <= processed l -> zdrop (processed l) cp = g ++ rest ->
  surplus l = zlen (g ++ rest) -> 0 < zlen g -> 20 <= dl <= MTU_LEN ->
  zlen (skb_bytes skb ++ g) = dl + 3 -> rx_status l = STATUS_DATA -> rx_dl l = dl ->
  exists l', rx_data cp (zlen cp) l skb = goto l' /\ frame_held cp l (skb_bytes skb ++ g) g rest dl l'.
Proof.
  intros Hk Hok Hp Hcp Hsp Hg Hdl HB Hst Hd. pose proof (skb_bytes_length _ Hok) as HL.
  rewrite length_app in HB. unfold MTU_LEN in *. unfold rx_data. rewrite Hd, Hsp, u32_small by lia.
  replace (skb_len skb <? dl + 3) with true by (symmetry; apply Z.ltb_lt; lia).
  rewrite length_app. destruct (Z.eqb_spec (Z.of_nat (length g + length rest)) 0); [lia|].
  rewrite u32_small, s32_small by lia.
  destruct (rx_copy_takes cp l skb (dl + 3 - skb_len skb) g rest)
    as (l' & skb' & E & ? & ? & Hb' & ? & ? & ? & ? & ?); unfold MAX_FRAME_LEN, MTU_LEN; try done; try lia.
  exists l'. split; [done|]. exists skb'. split_and!; try done; congruence.
Qed.

Lemma frame_complete_step cp l skb dl g rest :
  rx_skb l = Some skb -> skb_ok skb -> 0 <= processed l -> zdrop (processed l) cp = g ++ rest ->
  surplus l = zlen (g ++ rest) -> 0 < zlen g -> 20 <= dl <= MTU_LEN ->
  zlen (skb_bytes skb ++ g) = dl + 3 -> in_frame_of l (skb_bytes skb ++ g) dl ->
  rx_status l = STATUS_DATA \/ 2 <= skb_len skb ->
  exists l', rx_goes cp l l' /\ frame_held cp l (skb_bytes skb ++ g) g rest dl l'.
Proof.
  intros Hk Hok Hp Hcp Hsp Hg Hdl HB Hin H2. unfold rx_goes, rx_step. rewrite Hk. cbn [access mbind outcome_bind].
  destruct Hin as [(Hst & lo & hi & b & Hb & Hw)|[Hst Hd]]; rewrite Hst; [|by apply rx_data_completes].
  destruct H2 as [?|H2]; [congruence|].
  replace (skb_len skb <? 2) with false by (symmetry; apply Z.ltb_ge; lia).
  destruct (skb_load_s16 skb) as (lo' & hi' & bs & Hbs & ->); [done|lia|].
  assert (get_s16 lo' hi' = dl) as -> by (rewrite Hbs in Hb; injection Hb as -> -> _; done).
  cbn [access mbind outcome_bind].
  replace (MTU_LEN <? dl) with false by (symmetry; apply Z.ltb_ge; lia).
  replace (dl <? 20) with false by (symmetry; apply Z.ltb_ge; lia). cbn [orb].
  by apply (rx_data_completes cp (rx_set_status STATUS_DATA (rx_set_dl dl l))).
Qed.

(** ... from its first bytes on. *)
Lemma frame_completes cp l skb dl g rest :
  rx_skb l = Some skb -> skb_ok skb -> 0 <= processed l -> zdrop (processed l) cp = g ++ rest ->
  surplus l = zlen (g ++ rest) -> 0 < zlen g -> 20 <= dl <= MTU_LEN ->
  zlen (skb_bytes skb ++ g) = dl + 3 -> in_frame_of l (skb_bytes skb ++ g) dl ->
  exists n l', (n <= 2)%nat /\ nsteps (rx_goes cp) n l l' /\ frame_held cp l (skb_bytes skb ++ g) g rest dl l'.
Proof.
  intros Hk Hok Hp Hcp Hsp Hg Hdl HB Hin. pose proof (skb_bytes_length _ Hok) as HL.
  assert (rx_status l = STATUS_DATA \/ 2 <= skb_len skb ->
    exists n l', (n <= 2)%nat /\ nsteps (rx_goes cp) n l l' /\ frame_held cp l (skb_bytes skb ++ g) g rest dl l') as Hnow.
  { intros H2. destruct (frame_complete_step cp l skb dl g rest) as (l' & Hs & H); try done.
    exists 1%nat, l'. split; [lia|]. split; [by apply nsteps_once|done]. }
  destruct (decide (2 <= skb_len skb)) as [?|H2]; [apply Hnow; by right|].
  assert (rx_status l = STATUS_LEN \/ rx_status l = STATUS_DATA) as [Hst|?] by (destruct Hin as [[? _]|[? _]]; tauto);
    [|apply Hnow; by left].
  pose proof (skb_len_ok _ Hok) as H0. rewrite length_app in HB. unfold MTU_LEN in *.
  assert (g = ztake (2 - skb_len skb) g ++ zdrop (2 - skb_len skb) g) as Hsplit by by rewrite take_drop.
  set (g1 := ztake _ g) in Hsplit. set (g2 := zdrop _ g) in Hsplit.
  assert (zlen g1 = 2 - skb_len skb) as Hg1 by (unfold g1; len; lia).
  assert (zlen g2 = zlen g - (2 - skb_len skb)) as Hg2 by (unfold g2; len; lia).
  destruct (rx_copy_takes cp l skb (2 - skb_len skb) g1 (g2 ++ rest))
    as (l1 & skb1 & E & K1 & Ok1 & B1 & T1 & D1 & P1 & S1 & C1); try done; try lia.
  { by rewrite Hcp, Hsplit at 1; rewrite <- app_assoc. }
  { rewrite Hsp, Hsplit at 1. by rewrite <- app_assoc. }
  { unfold MAX_FRAME_LEN, MTU_LEN. lia. }
  pose proof (skb_bytes_length _ Ok1) as HL1. rewrite B1, length_app in HL1.
  assert (skb_bytes skb1 ++ g2 = skb_bytes skb ++ g) as Hb1 by by rewrite B1, <- app_assoc, <- Hsplit.
  destruct (frame_complete_step cp l1 skb1 dl g2 rest)
    as (l' & Hs & skb' & K2 & Ok2 & B2 & T2 & D2 & P2 & S2 & C2); try done; try lia.
  { rewrite Hb1, length_app. lia. }
  { rewrite Hb1. destruct Hin as [(_ & Hw)|[? _]]; [left; split; [congruence|done]|congruence]. }
  exists 2%nat, l'. split; [lia|]. split.
  { eapply nsteps_l; [|by apply nsteps_once]. unfold rx_goes, rx_step. rewrite Hk.
    cbn [access mbind outcome_bind]. rewrite Hst.
    replace (skb_len skb <? 2) with true by (symmetry; apply Z.ltb_lt; lia).
    destruct (Z.eqb_spec (surplus l) 0); [rewrite length_app in Hsp; lia|].
    rewrite u32_small, s32_small by lia. exact E. }
  exists skb'. rewrite <- Hb1. split_and!; try done. lia.
Qed.

(** The driver copies a negative number of bytes. *)
Definition copies_negative (cp : list Z) (s : host_rx) (n : Z) : Prop :=
  exists k l skb, nsteps (rx_goes cp) k (rx_begin cp s) l /\ rx_status l = STATUS_LEN
    /\ rx_skb l = Some skb /\ skb_len skb = 0 /\ Z.min (surplus l) 2 = n /\ n < 0
    /\ rx_step cp (zlen cp) l = rx_copy cp l skb 2 /\ rx_copy cp l skb 2 = Undef.

(** A frame whose terminator is wrong, and a SPLIT_DATA later in the chunk: the search
    adds the index in the chunk to [processed] as if it were relative. *)
Lemma resync_crash g x y s skb dl :
  let cp := g ++ x ++ SPLIT_DATA :: y in
  recv_skb (uw s) = Some skb -> skb_ok skb -> in_frame_of (rx_begin cp s) (skb_bytes skb ++ g) dl ->
  20 <= dl <= MTU_LEN -> zlen (skb_bytes skb ++ g) = dl + 3 ->
  (SPLIT_DATA ∉ skb_bytes skb ++ g) -> (SPLIT_DATA ∉ x) -> zlen y < zlen g -> zlen cp <= DUMP_MAX ->
  copies_negative cp s (zlen y - zlen g) /\ ttyio_receive_data cp s = Undef.
Proof.
  intros cp Hk Hok Hin Hdl HB Hg Hx Hy Hshort.
  destruct (frame_completes cp (rx_begin cp s) skb dl g (x ++ SPLIT_DATA :: y))
    as (n & l & Hn & Hsteps & skb1 & K1 & Ok1 & B1 & T1 & D1 & P1 & S1 & C1); try done; try lia.
  pose proof (skb_bytes_length _ Ok1) as HL1. rewrite B1 in HL1.
  unfold MTU_LEN in *. destruct (skb_reset_ok skb1 Ok1) as (Ok2 & L2 & _).
  set (skb2 := mk_skb _ _ _ _ _ _) in *.
  set (l2 := rx_set_status STATUS_LEN (rx_set_progress (processed l + (zlen g + (zlen x + 1)))
               (surplus l - (zlen g + (zlen x + 1))) (rx_set_skb skb2 (rx_set_status STATUS_SPLIT l)))).
  assert (rx_goes cp l l2) as Hgo.
  { unfold rx_goes, rx_step. rewrite K1. cbn [access mbind outcome_bind]. rewrite T1. unfold rx_data.
    rewrite D1, u32_small by lia.
    replace (skb_len skb1 <? dl + 3) with false by (symmetry; apply Z.ltb_ge; lia).
    rewrite skb_byte_lookup by (done || lia).
    destruct (lookup_lt_is_Some_2 (skb_bytes skb1) (Z.to_nat (dl + 2))) as [z Hz]; [rewrite B1; lia|].
    rewrite Hz. cbn [access mbind outcome_bind]. rewrite B1 in Hz.
    destruct (Z.eqb_spec z SPLIT_DATA) as [->|_]; [by apply list_elem_of_lookup_2 in Hz|].
    unfold rx_split. rewrite (skb_load skb1), take_ge by (done || (rewrite B1; lia) || lia).
    cbn [access mbind outcome_bind]. rewrite B1, split_index_absent by done.
    cbn [processed rx_set_skb rx_set_status]. rewrite C1, split_index_found by done.
    destruct (recv_dump_total empty_output cp) as [out Hdump]; [done|done|].
    rewrite dump_is_recv_dump, Hdump. cbn [mbind outcome_bind]. rewrite P1. unfold l2. rewrite P1. done. }
  assert (surplus l2 = zlen y - zlen g) as Hneg.
  { unfold l2. simpl. rewrite S1. len. lia. }
  assert (rx_copy cp l2 skb2 2 = Undef) as Hcopy.
  { unfold rx_copy, skb_put_data, memcpy, load. rewrite Hneg. replace (0 <=? Z.min _ _) with false
      by (symmetry; apply Z.leb_gt; lia). by rewrite andb_false_r. }
  assert (rx_step cp (zlen cp) l2 = rx_copy cp l2 skb2 2) as Hstep.
  { unfold rx_step. change (rx_skb l2) with (Some skb2). cbn [access mbind outcome_bind].
    change (rx_status l2) with STATUS_LEN. cbv iota. rewrite L2. cbn [Z.ltb Z.compare].
    rewrite Hneg. destruct (Z.eqb_spec (zlen y - zlen g) 0); [lia|done]. }
  assert (nsteps (rx_goes cp) (n + 1) (rx_begin cp s) l2) as Hall.
  { eapply nsteps_trans; [done|by apply nsteps_once]. }
  split.
  - exists (n + 1)%nat, l2, skb2. rewrite Hneg. split_and!; try done; lia.
  - rewrite (receive_out_of_sync _ _ skb) by done.
    replace (rx_fuel (zlen cp)) with (n + 1 + S (rx_fuel (zlen cp) - n - 2))%nat by (unfold rx_fuel, MAX_FRAME_LEN, MTU_LEN; lia).
    rewrite (run_goes _ _ _ _ _ Hall). cbn [run]. by rewrite Hstep, Hcopy.
Qed.
End Recovery.

(** ** Properties *)

(** C21. Recovery: once the driver has lost the frames, with nothing in the skb, it skips
    every chunk without a SPLIT_DATA byte; the first chunk with one realigns it, if it has
    at most 819 bytes (what the log dump holds), and every packet behind it is delivered,
    in order and each once, however the following bytes are cut, as long as allocations
    succeed. *)
Theorem ttyio_receive_data_recovers {K : Kernel} {KL : KernelLaws K} garbage g tail chunks s ps :
  (forall k, netdev_alloc_skb k MAX_RECV_LEN <> None) ->
  out_of_sync s -> Forall (fun c => SPLIT_DATA ∉ c) garbage -> (SPLIT_DATA ∉ g) ->
  zlen (g ++ SPLIT_DATA :: tail) <= DUMP_MAX ->
  Forall ip_packet ps -> tail ++ concat chunks = put_frames SPLIT_DATA ps ->
  total (receive_chunks [] (garbage ++ (g ++ SPLIT_DATA :: tail) :: chunks) s)
    (fun '(held, s') => held = [] /\ handed_over s s' ps).
Proof. apply receive_chunks_recover. Qed.

(** C35. A wrong terminator can crash the driver: let [skb] hold the first bytes of a frame of
    valid length [dl], and the chunk bring the rest [g] of it with a wrong byte for its
    terminator, and then, behind [x], a SPLIT_DATA with fewer bytes [y] behind it than
    [g] has.  With no other SPLIT_DATA byte in the frame and in [x], the search adds the
    index in the chunk to [processed] as if it were relative: the count of remaining
    bytes becomes [zlen y - zlen g], and the next copy is one of that negative length. *)
Theorem ttyio_receive_data_resync_crash {K : Kernel} {KL : KernelLaws K} g x y s skb dl :
  let cp := g ++ x ++ SPLIT_DATA :: y in
  recv_skb (uw s) = Some skb -> skb_ok skb -> in_frame_of (rx_begin cp s) (skb_bytes skb ++ g) dl ->
  20 <= dl <= MTU_LEN -> zlen (skb_bytes skb ++ g) = dl + 3 ->
  (SPLIT_DATA ∉ skb_bytes skb ++ g) -> (SPLIT_DATA ∉ x) -> zlen y < zlen g -> zlen cp <= DUMP_MAX ->
  copies_negative cp s (zlen y - zlen g) /\ ttyio_receive_data cp s = Undef.
Proof. apply resync_crash. Qed.

(** ** Witnesses *)

(** After a frame of length 0, which the driver refuses. *)
Definition lost_rx : host_rx :=
  match ttyio_receive_data [0; 0; 1] fresh_rx with Ret (_, s) => s | _ => fresh_rx end.
Lemma lost_rx_out_of_sync : out_of_sync lost_rx.
Proof.
  split; [by vm_compute|]. eexists. split; [by vm_compute|]. split; [|done].
  constructor; try (by vm_compute); split; by vm_compute.
Qed.

Lemma ttyio_receive_data_recovers_witness :
  total (receive_chunks [] ([[1; 2]; []] ++ ([3] ++ SPLIT_DATA :: [20]) :: [0 :: small_packet 1; [SPLIT_DATA]]) lost_rx)
    (fun '(held, s') => held = [] /\ handed_over lost_rx s' [small_packet 1]).
Proof.
  apply ttyio_receive_data_recovers.
  - intros k. by vm_compute.
  - exact lost_rx_out_of_sync.
  - rewrite !Forall_cons, Forall_nil. split_and!; [|apply not_elem_of_nil|done].
    apply (bool_decide_unpack _). by vm_compute.
  - apply (bool_decide_unpack _). by vm_compute.
  - by vm_compute.
  - pose proof small_packets_ok as H. apply Forall_cons in H as [H _]. by constructor.
  - reflexivity.
Defined.

(** The first five bytes of a frame that ends in 0 instead of SPLIT_DATA. *)
Definition broken_frame : list Z := put_frame 0 (small_packet 1).
Definition broken_rx : host_rx :=
  match ttyio_receive_data (take 5 broken_frame) fresh_rx with Ret (_, s) => s | _ => fresh_rx end.
Definition broken_skb : sk_buff := default (mk_skb [] 0 0 0 0 0) (recv_skb (uw broken_rx)).
Lemma broken_skb_ok : skb_ok broken_skb.
Proof. constructor; try (by vm_compute); split; by vm_compute. Qed.

Lemma ttyio_receive_data_resync_crash_witness :
  let cp := drop 5 broken_frame ++ [1; 2] ++ SPLIT_DATA :: [20] in
  copies_negative cp broken_rx (zlen [20] - zlen (drop 5 broken_frame))
  /\ ttyio_receive_data cp broken_rx = Undef.
Proof.
  apply (ttyio_receive_data_resync_crash (drop 5 broken_frame) [1; 2] [20] broken_rx broken_skb 20).
  - reflexivity.
  - exact broken_skb_ok.
  - right. split; reflexivity.
  - split; by vm_compute.
  - reflexivity.
  - apply (bool_decide_unpack _). by vm_compute.
  - apply (bool_decide_unpack _). by vm_compute.
  - by vm_compute.
  - by vm_compute.
Defined.
