(* ===== verification/HostNetifInfo.v ===== *)
(** * Linux driver: receiving the network parameters (uart.c, [ttyio_netif_info])

    After a reset the firmware announces its address, netmask and gateway in one
    12-byte command frame.  Until it has arrived, received bytes go to
    [ttyio_netif_info], which echoes the frame and renders it for sysfs; then
    [ttyio_receive_buf2] sends them to [ttyio_receive_data].

    [netif_info] is an array of [char]; as on the driver's ARM targets, [char] is
    unsigned here (with a signed one no terminator would ever compare equal). *)
From stdpp Require Import prelude list.
From Stdlib Require Import ZArith Lia.
From S2P Require Import Prelude Memory CString Wire HostState HostDump HostReceive.

(** ["%hhu.%hhu.%hhu.%hhu\n"] *)
Definition addr_text (a b c d : Z) : list Z :=
  dec_text a ++ [46] ++ dec_text b ++ [46] ++ dec_text c ++ [46] ++ dec_text d ++ [10].

(** The three lines printed for the 12 parameter bytes. *)
Definition netif_text (info : list Z) : list Z :=
  match info with
  | [a; b; c; d; e; f; g; h; i; j; k; l] =>
      addr_text a b c d ++ addr_text e f g h ++ addr_text i j k l
  | _ => []
  end.

(** [transform_netif_info(buf)]: [snprintf(buf+15, 12*4, ..)] of [buf[2..13]]. *)
Definition transform_netif_info (buf : list Z) : outcome (list Z) :=
  let? info := load buf 2 12 in
  let! ' (_, buf) := snprintf 0 buf 15 (12 * 4) (netif_text info) in Ret buf.

(** The locals of [ttyio_netif_info] at the label [restart]. *)
Record ni_locals := mk_ni {
  ni_u : uart_wifi_struct;
  ni_status : recv_status;
  ni_len : Z;
  ni_dl : Z;
  ni_processed : Z;
  ni_surplus : Z;
}.

Definition ni_set_status (st : recv_status) (l : ni_locals) : ni_locals :=
  mk_ni (ni_u l) st (ni_len l) (ni_dl l) (ni_processed l) (ni_surplus l).
Definition ni_set_dl (dl : Z) (l : ni_locals) : ni_locals :=
  mk_ni (ni_u l) (ni_status l) (ni_len l) dl (ni_processed l) (ni_surplus l).
Definition ni_set_buffer (a : list Z) (len : Z) (l : ni_locals) : ni_locals :=
  mk_ni (set_netif_info (ni_u l) a) (ni_status l) len (ni_dl l) (ni_processed l) (ni_surplus l).
Definition ni_set_progress (p sp : Z) (l : ni_locals) : ni_locals :=
  mk_ni (ni_u l) (ni_status l) (ni_len l) (ni_dl l) p sp.

(** [goto exit] saves the state; the [return] behind a complete frame does not, and
    has written the echo. *)
Inductive ni_exit :=
  | NiExit (l : ni_locals)
  | NiDone (l : ni_locals) (echo : list Z).

(** [actualcopy = min(surplus, want); memcpy(..); goto restart;], or [goto exit]
    when nothing is left. *)
Definition ni_copy (cp : list Z) (l : ni_locals) (want : Z) : outcome (ni_locals + ni_exit) :=
  if ni_surplus l =? 0 then leave (NiExit l)
  else
    let actualcopy := Z.min (ni_surplus l) want in
    let? a := memcpy (netif_info (ni_u l)) (ni_len l) cp (ni_processed l) actualcopy in
    goto (ni_set_progress (ni_processed l + actualcopy) (ni_surplus l - actualcopy)
            (ni_set_buffer a (s16 (ni_len l + actualcopy)) l)).

(** The first [skip >= from] with [netif_info[skip] == 12]. *)
Definition ni_find (l : ni_locals) (from : Z) : outcome (option Z) :=
  if ni_len l <=? from then Ret None
  else
    let? seen := load (netif_info (ni_u l)) from (ni_len l - from) in
    Ret ((fun i => from + i - 1) <$> split_index 12 seen).

(** Drop the first [skip] bytes: the dumps, the memmove, back to STATUS_LEN. *)
Definition ni_relocate (l : ni_locals) (skip : Z) : outcome (ni_locals + ni_exit) :=
  let? seen := load (netif_info (ni_u l)) 0 (ni_len l) in
  let! _ := recv_dump empty_output seen in
  let len := s16 (ni_len l - skip) in
  let? a := memmove (netif_info (ni_u l)) 0 skip len in
  let? seen := load a 0 len in
  let! _ := recv_dump empty_output seen in
  goto (ni_set_status STATUS_LEN (ni_set_buffer a len l)).

(** [case STATUS_SPLIT] *)
Definition ni_split (cp : list Z) (l : ni_locals) : outcome (ni_locals + ni_exit) :=
  let! found := ni_find l 0 in
  match found with
  | Some skip => ni_relocate l skip
  | None =>
      let l := ni_set_buffer (netif_info (ni_u l)) 0 l in
      match split_index 12 (zdrop (ni_processed l) cp) with
      | Some i =>
          let skip := ni_processed l + i - 1 in
          let! _ := recv_dump empty_output cp in
          goto (ni_set_status STATUS_LEN
                  (ni_set_progress (ni_processed l + skip) (ni_surplus l - skip) l))
      | None => leave (NiExit (ni_set_status STATUS_SPLIT (ni_set_progress (zlen cp) (ni_surplus l) l)))
      end
  end.

(** [case STATUS_DATA] *)
Definition ni_data (cp : list Z) (l : ni_locals) : outcome (ni_locals + ni_exit) :=
  if ni_len l <? ni_dl l + 3 then ni_copy cp l (ni_dl l + 3 - ni_len l)
  else
    let? b := load1 (netif_info (ni_u l)) (ni_dl l + 2) in
    if b =? SPLIT_CMD then
      let echo := netif_info (ni_u l) in
      let! _ := recv_dump empty_output echo in
      let! a := transform_netif_info echo in
      leave (NiDone (ni_set_status STATUS_LEN
                       (mk_ni (set_netif_info_vaild (set_netif_info (ni_u l) a) 1) (ni_status l)
                          (ni_len l) (ni_dl l) (ni_processed l) (ni_surplus l))) echo)
    else ni_split cp (ni_set_status STATUS_SPLIT l).

Definition ni_step (cp : list Z) (l : ni_locals) : outcome (ni_locals + ni_exit) :=
  match ni_status l with
  | STATUS_LEN =>
      if ni_len l <? 2 then ni_copy cp l (2 - ni_len l)
      else
        let? dl := load_s16 (netif_info (ni_u l)) 0 in
        let l := ni_set_dl dl l in
        if negb (dl =? 12) then
          let? b := load1 (netif_info (ni_u l)) 0 in
          let! found := (if b =? 12 then ni_find l 1 else Ret None) in
          match found with
          | Some skip => ni_relocate l skip
          | None => goto (ni_set_status STATUS_SPLIT l)
          end
        else ni_data cp (ni_set_status STATUS_DATA l)
  | STATUS_DATA => ni_data cp l
  | STATUS_SPLIT => ni_split cp l
  end.

Definition ni_start (cp : list Z) (u : uart_wifi_struct) : ni_locals :=
  mk_ni u (uart_recv_status u) (netif_info_recv_len u) 12 0 (zlen cp).

(** [ttyio_netif_info(tty, cp, fp, count)]: bytes processed, new state, and what it
    wrote to the tty.  It need not end, so the fuel is an argument. *)
Definition ttyio_netif_info (fuel : nat) (cp : list Z) (u : uart_wifi_struct) :
    outcome (Z * uart_wifi_struct * list (list Z)) :=
  let! _ := recv_dump empty_output cp in
  let! e := run (ni_step cp) fuel (ni_start cp u) in
  match e with
  | NiExit l =>
      Ret (ni_processed l,
           set_netif_info_recv_len (set_recv_state (ni_u l) (ni_status l) (uartDataLen (ni_u l)))
             (ni_len l), [])
  | NiDone l echo => Ret (ni_processed l, ni_u l, [echo])
  end.

(** [ttyio_receive_buf2]: the line discipline's entry; [None] while [disc_data] is
    not set yet. *)
Definition ttyio_receive_buf2 {K : Kernel} (fuel : nat) (cp : list Z) (s : option host_rx) :
    outcome (Z * option host_rx * list (list Z)) :=
  match s with
  | None => Ret (zlen cp, None, [])
  | Some s =>
      if negb (netif_info_vaild (uw s) =? 0) then
        let! ' (n, s) := ttyio_receive_data cp s in Ret (n, Some s, [])
      else
        let! ' (n, u, w) := ttyio_netif_info fuel cp (uw s) in Ret (n, Some (set_uw u s), w)
  end.

(** ** The text *)

(** The octets of a text: decimal numbers, each ended by a dot or a newline. *)
Fixpoint parse_octets (acc : Z) (s : list Z) : list Z :=
  match s with
  | [] => []
  | c :: s => if (c =? 46) || (c =? 10) then acc :: parse_octets 0 s
              else parse_octets (10 * acc + (c - 48)) s
  end.

Lemma parse_octets_text v sep s :
  sep = 46 \/ sep = 10 -> parse_octets 0 (dec_text v ++ sep :: s) = u8 v :: parse_octets 0 s.
Proof.
  intros Hsep. rewrite <- (dec_value_text v). unfold dec_value. pose proof (dec_text_digits v) as Hd.
  generalize 0 at 1 2. induction Hd as [|c ds Hc _ IH]; intros acc; simpl.
  - by replace ((sep =? 46) || (sep =? 10))%bool with true by (destruct Hsep as [-> | ->]; done).
  - destruct (Z.eqb_spec c 46), (Z.eqb_spec c 10); try lia. apply IH.
Qed.

Lemma parse_addr_text a b c d s :
  parse_octets 0 (addr_text a b c d ++ s) = u8 a :: u8 b :: u8 c :: u8 d :: parse_octets 0 s.
Proof.
  unfold addr_text. rewrite <- !app_assoc. simpl.
  by rewrite !parse_octets_text by (by (left + right)).
Qed.

Lemma addr_text_length a b c d : 8 <= zlen (addr_text a b c d) <= 16.
Proof.
  unfold addr_text. pose proof (dec_text_length a). pose proof (dec_text_length b).
  pose proof (dec_text_length c). pose proof (dec_text_length d). len. lia.
Qed.

Lemma addr_text_no_nul a b c d : 0 ∉ addr_text a b c d.
Proof.
  assert (forall v, (0 ∉ dec_text v)) as H.
  { intros v Hin. pose proof (dec_text_digits v) as Hd. rewrite Forall_forall in Hd.
    apply Hd in Hin. lia. }
  unfold addr_text. rewrite !not_elem_of_app. split_and!; try apply H;
    apply not_elem_of_cons; (split; [done|apply not_elem_of_nil]).
Qed.

Lemma info_cases (info : list Z) : zlen info = 12 ->
  exists a b c d e f g h i j k l, info = [a; b; c; d; e; f; g; h; i; j; k; l].
Proof.
  intros H. do 12 (destruct info as [|? info]; [simpl in H; lia|]).
  destruct info; [by do 12 eexists|simpl in H; lia].
Qed.

Lemma netif_text_parse info : zlen info = 12 -> parse_octets 0 (netif_text info) = u8 <$> info.
Proof.
  intros (a&b&c&d&e&f&g&h&i&j&k&l&->)%info_cases. unfold netif_text.
  rewrite !parse_addr_text. rewrite <- (app_nil_r (addr_text i j k l)), parse_addr_text. done.
Qed.

Lemma netif_text_length info : zlen info = 12 -> 24 <= zlen (netif_text info) <= 48.
Proof.
  intros (a&b&c&d&e&f&g&h&i&j&k&l&->)%info_cases. unfold netif_text.
  pose proof (addr_text_length a b c d). pose proof (addr_text_length e f g h).
  pose proof (addr_text_length i j k l). len. lia.
Qed.

Lemma netif_text_no_nul info : 0 ∉ netif_text info.
Proof.
  unfold netif_text. repeat case_match; try apply not_elem_of_nil.
  rewrite !not_elem_of_app. split_and!; apply addr_text_no_nul.
Qed.

(** The rendering keeps the frame in front of it and leaves the text as a string. *)
Lemma transform_netif_info_ok buf info :
  zlen buf = NETIF_INFO_SIZE -> load buf 2 12 = Some info ->
  exists buf', transform_netif_info buf = Ret buf' /\ length buf' = length buf
    /\ ztake 15 buf' = ztake 15 buf /\ cstr (zdrop 15 buf') = Some (ztake 47 (netif_text info)).
Proof.
  change NETIF_INFO_SIZE with 64. intros Hs Hl. unfold transform_netif_info. rewrite Hl.
  cbn [access mbind outcome_bind].
  destruct (snprintf_cstr 0 buf 15 (12 * 4) (netif_text info)) as (buf' & -> & ?);
    [lia|unfold INT_MAX; lia|lia|apply netif_text_no_nul|].
  by exists buf'.
Qed.

(** ** A clean announcement *)

Section Announcement.
Context (cp fut : list Z) (u0 : uart_wifi_struct) (info rest : list Z).
Context (Hinfo : zlen info = 12) (Hcp : zlen cp <= DUMP_MAX).

(** Received so far, and what is to come, make the frame and the bytes behind it. *)
Record ni_inv (l : ni_locals) : Prop := {
  nii_u : ni_u l = set_netif_info u0 (netif_info (ni_u l));
  nii_size : zlen (netif_info (ni_u l)) = NETIF_INFO_SIZE
             /\ zdrop 15 (netif_info (ni_u l)) = zdrop 15 (netif_info u0);
  nii_dl : ni_dl l = 12;
  nii_len : 0 <= ni_len l <= 15 /\ (ni_status l = STATUS_LEN -> ni_len l <= 2)
            /\ (ni_status l = STATUS_DATA -> 2 <= ni_len l);
  nii_status : ni_status l <> STATUS_SPLIT;
  nii_count : ni_processed l + ni_surplus l = zlen cp /\ 0 <= ni_processed l /\ 0 <= ni_surplus l;
  nii_stream : ztake (ni_len l) (netif_info (ni_u l)) ++ zdrop (ni_processed l) cp ++ fut
               = put_frame SPLIT_CMD info ++ rest;
}.

(** The frame has arrived: the echo starts with it, sysfs can read the text, and
    the bytes behind the frame are not touched. *)
Definition announced (p : Z) (u : uart_wifi_struct) (echo : list Z) : Prop :=
  0 <= p <= zlen cp /\ zdrop p cp ++ fut = rest
  /\ zlen echo = NETIF_INFO_SIZE /\ ztake 15 echo = put_frame SPLIT_CMD info
  /\ zdrop 15 echo = zdrop 15 (netif_info u0)
  /\ exists a, u = set_netif_info_vaild (set_netif_info u0 a) 1 /\ zlen a = NETIF_INFO_SIZE
               /\ ztake 15 a = put_frame SPLIT_CMD info
               /\ cstr (zdrop 15 a) = Some (ztake 47 (netif_text info)).

Definition ni_exit_ok (e : ni_exit) : Prop :=
  match e with
  | NiExit l => ni_inv l /\ ni_processed l = zlen cp /\ ni_len l < 15
  | NiDone l echo => announced (ni_processed l) (ni_u l) echo
  end.

Definition ni_measure (l : ni_locals) : nat := Z.to_nat (ni_surplus l).

Definition ni_step_ok (m : nat) (r : ni_locals + ni_exit) : Prop :=
  match r with
  | inl l => ni_inv l /\ (ni_measure l < m)%nat
  | inr e => ni_exit_ok e
  end.

Lemma ni_copy_ok l want m :
  ni_inv l -> 0 < want -> ni_len l + want <= 15 ->
  (ni_status l = STATUS_LEN -> ni_len l + want <= 2) -> (ni_measure l <= m)%nat ->
  total (ni_copy cp l want) (ni_step_ok m).
Proof.
  intros Hinv Hw Hfit Hl Hm. pose proof Hinv as [Hu [Hs Htl] Hdl (Hlen & Hl1 & Hl2) Hst (Hc & Hp & Hsp) Hstr].
  unfold NETIF_INFO_SIZE in *. unfold ni_copy. case_if as Hz.
  { simpl. split; [done|]. split; lia. }
  set (n := Z.min (ni_surplus l) want). unfold memcpy. rewrite load_Some by lia.
  cbn [access mbind outcome_bind option_bind].
  destruct (store _ _ _) as [a|] eqn:Hsto; [|rewrite store_Some in Hsto; [done|lia|len; lia]].
  pose proof (store_length _ _ _ _ Hsto) as HL. pose proof (store_prefix _ _ _ _ Hsto) as HP.
  assert (zdrop 15 a = zdrop 15 (netif_info u0)) as HT
    by (rewrite <- Htl; apply (store_after _ _ _ _ 15 Hsto); len; lia).
  cbn [access mbind outcome_bind]. rewrite s16_small by lia. simpl. split.
  - constructor; simpl; try done; try (unfold NETIF_INFO_SIZE; lia).
    + by rewrite Hu.
    + split; [unfold NETIF_INFO_SIZE; lia|done].
    + split; [lia|]. split; [intros; specialize (Hl ltac:(done)); lia|intros; specialize (Hl2 ltac:(done)); lia].
    + replace (ni_len l + n) with (ni_len l + zlen (ztake n (zdrop (ni_processed l) cp))) by (len; lia).
      rewrite HP, <- app_assoc. etransitivity; [|exact Hstr]. f_equal.
      rewrite <- (take_drop (Z.to_nat n) (zdrop (ni_processed l) cp)) at 2.
      rewrite <- app_assoc, drop_drop. do 3 f_equal. lia.
  - unfold ni_measure in *. simpl. lia.
Qed.

(** All 15 bytes are there. *)
Lemma ni_frame_complete l :
  ni_inv l -> ni_len l = 15 ->
  ztake 15 (netif_info (ni_u l)) = put_frame SPLIT_CMD info
  /\ zdrop (ni_processed l) cp ++ fut = rest.
Proof.
  intros [Hu [Hs _] _ _ _ _ Hstr] Hlen. unfold NETIF_INFO_SIZE in *. rewrite Hlen in Hstr.
  apply app_inj_1 in Hstr; [done|]. pose proof (put_frame_length SPLIT_CMD info). len. lia.
Qed.

Lemma ni_data_ok l m :
  ni_inv l -> ni_status l = STATUS_DATA -> (ni_measure l <= m)%nat ->
  total (ni_data cp l) (ni_step_ok m).
Proof.
  intros Hinv Hst Hm. pose proof Hinv as [Hu [Hs Htl] Hdl (Hlen & _ & H2) _ (Hc & Hp & Hsp) _].
  specialize (H2 Hst). unfold NETIF_INFO_SIZE in *. unfold ni_data. rewrite Hdl. case_if as Hshort.
  - apply ni_copy_ok; try done; try lia. intros E. congruence.
  - destruct (ni_frame_complete l Hinv) as [Hf Hrest]; [lia|].
    rewrite (load1_take _ _ 15), Hf by lia.
    assert (put_frame SPLIT_CMD info !! Z.to_nat (12 + 2) = Some SPLIT_CMD) as ->.
    { unfold put_frame. rewrite app_assoc. apply list_lookup_middle. unfold put_u16. len. lia. }
    cbn [access mbind outcome_bind]. rewrite Z.eqb_refl. apply post_bind.
    apply recv_dump_post; [done|rewrite Hs; change DUMP_MAX with 819; lia|]. intros _.
    assert (load (netif_info (ni_u l)) 2 12 = Some info) as Hload.
    { rewrite (load_take _ 2 12 15), Hf by lia. f_equal. unfold put_frame, put_u16. simpl.
      rewrite drop_0. apply take_app_length'. lia. }
    destruct (transform_netif_info_ok _ _ Hs Hload) as (a & -> & Ha & Hpre & Htext).
    cbn [mbind outcome_bind]. simpl. unfold announced. split_and!; try done; try lia.
    exists a. rewrite Hu. split_and!; try done; [unfold NETIF_INFO_SIZE; lia|by rewrite Hpre].
Qed.

Lemma ni_step_all l :
  ni_inv l -> total (ni_step cp l) (ni_step_ok (ni_measure l)).
Proof.
  intros Hinv. pose proof Hinv as [Hu [Hs Htl] Hdl (Hlen & Hl & Hd) Hns (Hc & Hp & Hsp) Hstr].
  unfold NETIF_INFO_SIZE in *. unfold ni_step.
  destruct (ni_status l) eqn:Hst; [|by apply ni_data_ok|done]. specialize (Hl eq_refl).
  case_if as Hshort; [apply ni_copy_ok; try done; lia|].
  assert (load_s16 (netif_info (ni_u l)) 0 = Some 12) as Hw.
  { rewrite (load_s16_take _ 0 (ni_len l)) by lia. replace (ni_len l) with 2 in * by lia.
    destruct (netif_info (ni_u l)) as [|lo [|hi bs]]; [simpl in Hs; lia..|].
    unfold put_frame, put_u16 in Hstr. rewrite Hinfo in Hstr. injection Hstr as -> -> _. done. }
  rewrite Hw. cbn [access mbind outcome_bind]. cbn [Z.eqb Pos.eqb negb].
  apply ni_data_ok; [|done|done]. constructor; simpl; try done.
Qed.

Lemma ni_run_ok fuel :
  ni_inv (ni_start cp u0) -> (length cp < fuel)%nat ->
  total (run (ni_step cp) fuel (ni_start cp u0)) ni_exit_ok.
Proof.
  intros Hinv Hf. apply run_post with (I := ni_inv) (m := ni_measure).
  - intros l Hl. eapply post_mono; [by apply ni_step_all|]. by intros [|].
  - done.
  - unfold ni_measure. simpl. lia.
Qed.
End Announcement.

(** Between calls, waiting for (more of) the announcement; [stream] is still to come. *)
Definition ni_waiting (u : uart_wifi_struct) (stream info rest : list Z) : Prop :=
  ni_inv [] stream u info rest (ni_start [] u) /\ netif_info_recv_len u < 15.

(** What the announcement leaves alone. *)
Definition same_rx (u u' : uart_wifi_struct) : Prop :=
  recv_skb u' = recv_skb u /\ (rx_packets u' = rx_packets u /\ uartDataLen u' = uartDataLen u)
  /\ netif_info_vaild u' = netif_info_vaild u
  /\ zdrop 15 (netif_info u') = zdrop 15 (netif_info u).

Lemma ni_waiting_start u cp fut info rest :
  ni_waiting u (cp ++ fut) info rest -> ni_inv cp fut u info rest (ni_start cp u).
Proof.
  intros [[Hu Hs Hdl Hlen Hst Hc Hstr] _]. constructor; simpl in *; try done. lia.
Qed.

Definition ni_call_ok (cp fut : list Z) (u : uart_wifi_struct) (info rest : list Z)
    (r : Z * uart_wifi_struct * list (list Z)) : Prop :=
  let '(n, u', w) := r in
  (n = zlen cp /\ w = [] /\ ni_waiting u' fut info rest /\ same_rx u u')
  \/ exists echo, w = [echo] /\ announced cp fut u info rest n u' echo.

Lemma ttyio_netif_info_ok fuel cp fut u info rest :
  zlen info = 12 -> zlen cp <= DUMP_MAX -> (length cp < fuel)%nat ->
  ni_waiting u (cp ++ fut) info rest ->
  total (ttyio_netif_info fuel cp u) (ni_call_ok cp fut u info rest).
Proof.
  intros Hi Hcp Hf Hw. unfold ttyio_netif_info. apply post_bind.
  apply recv_dump_post; [done|lia|]. intros _. apply post_bind.
  eapply post_mono; [apply (ni_run_ok cp fut u info rest); try done; by apply ni_waiting_start|].
  intros [l|l echo] He; simpl in He |- *.
  - left. destruct He as ([Hu [Hs Htl] Hdl Hlen Hst Hc Hstr] & Hp & Hl15). split_and!; try done.
    + split; [|done]. constructor; simpl; try done.
      rewrite Hp, drop_ge in Hstr by lia. exact Hstr.
    + rewrite Hu. done.
  - right. by exists echo.
Qed.

(** Calls of the line discipline, as in [receive_chunks]. *)
Fixpoint tty_calls {K : Kernel} (fuel : nat) (held : list Z) (chunks : list (list Z))
    (s : option host_rx) : outcome (list Z * option host_rx * list (list Z)) :=
  match chunks with
  | [] => Ret (held, s, [])
  | c :: cs =>
      let! ' (n, s, w) := ttyio_receive_buf2 fuel (held ++ c) s in
      let! ' (h, s, w') := tty_calls fuel (zdrop n (held ++ c)) cs s in
      Ret (h, s, w ++ w')
  end.

(** Enough for one call while the announcement is awaited. *)
Definition ni_fuel : nat := S (Z.to_nat DUMP_MAX).

Section Sessions.
Context {K : Kernel} {KL : KernelLaws K}.
Context (Hmem : forall k, netdev_alloc_skb k MAX_RECV_LEN <> None).

(** Once the parameters are valid, data frames go to the network stack. *)
Lemma tty_calls_data fuel chunks held s ps :
  Forall ip_packet ps -> netif_info_vaild (uw s) <> 0 ->
  rx_sync s (held ++ concat chunks) ps -> chunks <> [] \/ held = [] ->
  total (tty_calls fuel held chunks (Some s)) (fun '(h, s', w) =>
    h = [] /\ w = [] /\ exists s1, s' = Some s1 /\ handed_over s s1 ps).
Proof.
  revert held s ps. induction chunks as [|c cs IH]; intros held s ps Hps Hv Hsync Hheld.
  - destruct Hheld as [?| ->]; [done|]. simpl in *. apply rx_sync_done in Hsync as ->; [|done].
    split_and!; try done. exists s. split; [done|]. destruct s. by apply handed_over_refl.
  - cbn [tty_calls ttyio_receive_buf2]. apply Z.eqb_neq in Hv. rewrite Hv. cbn [negb].
    simpl in Hsync. rewrite app_assoc in Hsync. apply post_bind, post_bind.
    eapply post_mono; [by apply ttyio_receive_data_sync|].
    intros [n s1] (ps1 & ps2 & -> & Hho & Hs1 & Hn & Hend). apply Forall_app in Hps as [_ Hps2].
    destruct Hend as [-> |[_ [k Hk]]]; [|by destruct (Hmem k)]. rewrite drop_ge in Hs1 by lia.
    cbn [mbind outcome_bind]. apply post_bind. rewrite (drop_ge (held ++ c)) by lia. eapply post_mono; [apply (IH [] s1 ps2); try done|].
    + destruct Hho as [[_ [-> _]] _]. by apply Z.eqb_neq.
    + by right.
    + intros [[h s'] w] (-> & -> & s2 & -> & Hho2). simpl. split_and!; try done. exists s2.
      split; [done|]. by eapply handed_over_trans.
Qed.

(** What a session leaves: one echo, whose first 15 bytes are the announcement;
    the parameters for sysfs; the packets. *)
Definition session_ok (s : host_rx) (info : list Z) (ps : list (list Z))
    (r : list Z * option host_rx * list (list Z)) : Prop :=
  let '(h, s', w) := r in
  h = [] /\ exists echo s1 new, w = [echo] /\ ztake 15 echo = put_frame SPLIT_CMD info
    /\ zlen echo = NETIF_INFO_SIZE /\ zdrop 15 echo = zdrop 15 (netif_info (uw s))
    /\ s' = Some s1 /\ netif_info_vaild (uw s1) = 1
    /\ delivered s1 = delivered s ++ new /\ Forall2 packet_skb ps new
    /\ cstr (zdrop 15 (netif_info (uw s1))) = Some (ztake 47 (netif_text info)).

Lemma tty_calls_announce chunks s info ps :
  zlen info = 12 -> Forall ip_packet ps -> Forall (fun c => zlen c <= DUMP_MAX) chunks ->
  netif_info_vaild (uw s) = 0 -> rx_fresh s ->
  ni_waiting (uw s) (concat chunks) info (put_frames SPLIT_DATA ps) ->
  total (tty_calls ni_fuel [] (chunks ++ [[]]) (Some s)) (session_ok s info ps).
Proof.
  intros Hi Hps Hlen. revert s. induction Hlen as [|c cs Hc _ IH]; intros s Hv Hfresh Hw.
  - exfalso. destruct Hw as [[_ Hs _ Hl _ _ Hstr] Hl15]. simpl in *. unfold NETIF_INFO_SIZE in *.
    apply (f_equal length) in Hstr. pose proof (put_frame_length SPLIT_CMD info) as HL.
    change (length (take ?n ?a ++ [])) with (length (take n a ++ [])) in Hstr.
    rewrite length_app in Hstr.
    assert (length (put_frame SPLIT_CMD info ++ put_frames SPLIT_DATA ps) >= 15)%nat as H15
      by (rewrite length_app; lia).
    unfold put_frame, put_u16 in H15, Hstr. rewrite length_take in Hstr. simpl in *. lia.
  - cbn [app tty_calls ttyio_receive_buf2]. rewrite Hv. cbn [Z.eqb negb].
    apply post_bind, post_bind.
    eapply post_mono; [apply (ttyio_netif_info_ok ni_fuel c (concat cs)); try done;
                       unfold ni_fuel; lia|].
    intros [[n u] w] [(-> & -> & Hw' & (Hr & _ & Hv' & Htl'))|(echo & -> & Hann)];
      cbn [mbind outcome_bind]; apply post_bind.
    + rewrite drop_ge by lia. eapply post_mono; [apply (IH (set_uw u s)); try done|].
      * simpl. by rewrite Hv'.
      * unfold rx_fresh in *. simpl. by rewrite Hr.
      * intros [[h s'] w] (? & echo & s1 & new & H). split; [done|].
        exists echo, s1, new. simpl in H. rewrite Htl' in H. exact H.
    + destruct Hann as (Hn & Hrest & Hel & Hecho & Het & a & -> & _ & Ha & Htext).
      eapply post_mono; [apply (tty_calls_data ni_fuel (cs ++ [[]]) _ _ ps); try done|].
      * unfold rx_sync. unfold rx_fresh in Hfresh. simpl. rewrite Hfresh, concat_app. simpl.
        by rewrite app_nil_r.
      * left. by destruct cs.
      * intros [[h s'] w] (-> & -> & s1 & -> & [_ [Hv1 Hi1]] & new & Hnew & Hpk).
        split; [done|]. exists echo, s1, new. rewrite Hi1. by split_and!.
Qed.
End Sessions.

(** The announcement alone, whatever the driver received before it. *)
Definition announced_ok (s : host_rx) (info : list Z) (r : list Z * option host_rx * list (list Z)) : Prop :=
  let '(h, s', w) := r in
  h = [] /\ exists echo s1, w = [echo] /\ s' = Some s1 /\ ztake 15 echo = put_frame SPLIT_CMD info
    /\ zdrop 15 echo = zdrop 15 (netif_info (uw s)) /\ netif_info_vaild (uw s1) = 1
    /\ cstr (zdrop 15 (netif_info (uw s1))) = Some (ztake 47 (netif_text info)).

Lemma tty_calls_announced {K : Kernel} chunks s info :
  zlen info = 12 -> Forall (fun c => 0 < zlen c <= DUMP_MAX) chunks ->
  netif_info_vaild (uw s) = 0 -> ni_waiting (uw s) (concat chunks) info [] ->
  total (tty_calls ni_fuel [] chunks (Some s)) (announced_ok s info).
Proof.
  intros Hi Hlen. revert s. induction Hlen as [|c cs Hc Hcs IH]; intros s Hv Hw.
  - exfalso. destruct Hw as [[_ Hs _ Hl _ _ Hstr] Hl15]. simpl in *. unfold NETIF_INFO_SIZE in *.
    rewrite !app_nil_r in Hstr. apply (f_equal length) in Hstr. cbn [length] in Hstr.
    rewrite length_take, length_app in Hstr. simpl in *. lia.
  - cbn [tty_calls ttyio_receive_buf2]. rewrite Hv. cbn [Z.eqb negb]. apply post_bind, post_bind.
    eapply post_mono; [apply (ttyio_netif_info_ok ni_fuel c (concat cs)); try done; unfold ni_fuel; lia|].
    intros [[n u] w] [(-> & -> & Hw' & (_ & _ & Hv' & Htl'))|(echo & -> & Hann)];
      cbn [mbind outcome_bind]; apply post_bind.
    + rewrite (drop_ge ([] ++ c)) by (simpl app; lia).
      eapply post_mono; [apply (IH (set_uw u s)); [simpl; by rewrite Hv'|done]|].
      intros [[h s'] w] (-> & echo & s1 & H). split; [done|]. exists echo, s1. simpl in H. by rewrite Htl' in H.
    + destruct Hann as (Hn & Hrest & _ & Hecho & Het & a & -> & _ & _ & Htext).
      apply app_eq_nil in Hrest as [Hrest Hnil].
      assert (cs = []) as ->.
      { destruct Hcs as [|c2 cs Hc2]; [done|]. simpl in Hnil. destruct c2; [simpl in Hc2; lia|done]. }
      simpl app. rewrite Hrest. cbn [tty_calls post mbind outcome_bind]. split; [done|].
      eexists echo, _. by split_and!.
Qed.

(** ** A corrupted announcement *)

Section Livelock.
Context (cp info : list Z) (c : Z).
Context (Hinfo : zlen info = 12) (Hc : c <> SPLIT_CMD).

(** A complete frame with the wrong terminator is in the buffer. *)
Definition ni_held (l : ni_locals) : Prop :=
  ni_len l = 15 /\ zlen (netif_info (ni_u l)) = NETIF_INFO_SIZE
  /\ ztake 15 (netif_info (ni_u l)) = put_frame c info.
Definition ni_stuck (l : ni_locals) : Prop :=
  (ni_status l = STATUS_LEN \/ ni_status l = STATUS_DATA /\ ni_dl l = 12) /\ ni_held l.

Lemma bad_frame_cons : exists bs, put_frame c info = 12 :: 0 :: bs.
Proof using Hinfo. clear Hc. unfold put_frame, put_u16. rewrite Hinfo. by eexists. Qed.

(** The search finds the length word of the same frame and starts over. *)
Lemma ni_split_stuck l :
  ni_held l -> exists l', ni_split cp l = goto l' /\ ni_stuck l'.
Proof using Hinfo. clear Hc.
  intros (Hlen & Hs & Hpre). unfold NETIF_INFO_SIZE in *. unfold ni_split, ni_find.
  rewrite Hlen. cbn [Z.leb Z.compare]. change (15 - 0) with 15.
  rewrite load_Some, drop_0, Hpre by lia. destruct bad_frame_cons as [bs Hbs].
  rewrite Hbs. cbn [access mbind outcome_bind split_index Z.eqb Pos.eqb fmap option_fmap option_map].
  change (0 + 1 - 1) with 0. unfold ni_relocate. rewrite Hlen.
  rewrite load_Some, drop_0, Hpre by lia. cbn [access mbind outcome_bind].
  pose proof (put_frame_length c info) as HL.
  destruct (recv_dump_total empty_output (put_frame c info)) as [out ->];
    [done|change DUMP_MAX with 819; lia|].
  cbn [access mbind outcome_bind]. change (s16 (15 - 0)) with 15.
  destruct (memmove_front (netif_info (ni_u l)) 0 15) as (a & Hmv & Ha & Htake); [lia..|].
  change (15 - 0) with 15 in *. rewrite drop_0, Hpre in Htake. rewrite Hmv.
  cbn [access mbind outcome_bind]. rewrite load_Some, drop_0, Htake by lia.
  cbn [access mbind outcome_bind].
  destruct (recv_dump_total empty_output (put_frame c info)) as [out' ->];
    [done|change DUMP_MAX with 819; lia|].
  cbn [access mbind outcome_bind]. eexists. split; [done|].
  split; [by left|]. split; [done|]. simpl. unfold NETIF_INFO_SIZE. by rewrite Ha.
Qed.

Lemma ni_data_stuck l :
  ni_held l -> ni_dl l = 12 -> exists l', ni_data cp l = goto l' /\ ni_stuck l'.
Proof using Hinfo Hc.
  intros Hst Hdl. pose proof Hst as (Hlen & Hs & Hpre). unfold NETIF_INFO_SIZE in *.
  unfold ni_data. rewrite Hlen, Hdl. change (15 <? 12 + 3) with false. cbn [negb].
  rewrite (load1_take _ _ 15), Hpre by lia.
  assert (put_frame c info !! Z.to_nat (12 + 2) = Some c) as ->.
  { unfold put_frame. rewrite app_assoc. apply list_lookup_middle. unfold put_u16. len. lia. }
  cbn [access mbind outcome_bind]. destruct (Z.eqb_spec c SPLIT_CMD); [done|].
  by apply ni_split_stuck.
Qed.

Lemma ni_step_stuck l : ni_stuck l -> exists l', ni_step cp l = goto l' /\ ni_stuck l'.
Proof using Hinfo Hc.
  intros [Hst Hh]. pose proof Hh as (Hlen & Hs & Hpre). unfold NETIF_INFO_SIZE in *. unfold ni_step.
  destruct Hst as [-> |[-> Hdl]]; [|by apply ni_data_stuck].
  rewrite Hlen. change (15 <? 2) with false.
  rewrite (load_s16_take _ 0 15), Hpre by lia. destruct bad_frame_cons as [bs ->].
  change (load_s16 (12 :: 0 :: bs) 0) with (Some 12). cbn [access mbind outcome_bind Z.eqb Pos.eqb negb].
  by apply ni_data_stuck.
Qed.

Lemma ni_stuck_forever fuel l : ni_stuck l -> run (ni_step cp) fuel l = NoFuel.
Proof using Hinfo Hc. apply run_diverges, ni_step_stuck. Qed.

(** Taking the frame in, from an empty buffer. *)
Context (u : uart_wifi_struct) (rest : list Z).
Context (Hcp : cp = put_frame c info ++ rest) (Hsize : zlen (netif_info u) = NETIF_INFO_SIZE)
  (Hst : uart_recv_status u = STATUS_LEN) (Hlen : netif_info_recv_len u = 0).

Lemma ni_takes_frame : exists l1,
  ni_step cp (ni_start cp u) = goto l1 /\ exists l2, ni_step cp l1 = goto l2 /\ ni_stuck l2.
Proof using All.
  unfold NETIF_INFO_SIZE in *. pose proof (put_frame_length c info) as HL.
  destruct bad_frame_cons as [bs Hbs]. rewrite Hbs in HL. cbn [length] in HL.
  unfold ni_step at 1. simpl. rewrite Hst, Hlen. cbn [Z.ltb Z.compare Z.sub Z.add Z.opp Pos.compare Pos.compare_cont].
  unfold ni_copy. simpl. rewrite Hlen.
  assert (zlen cp = 15 + zlen rest) as Hn.
  { rewrite Hcp, Hbs. cbn [app length]. rewrite length_app. lia. }
  replace (zlen cp =? 0) with false by (symmetry; apply Z.eqb_neq; lia).
  change (2 - 0) with 2. replace (Z.min (zlen cp) 2) with 2 by lia.
  unfold memcpy at 1. rewrite load_Some by lia. cbn [option_bind mbind].
  destruct (store (netif_info u) 0 (ztake 2 (zdrop 0 cp))) as [a|] eqn:Hs1;
    [|rewrite store_Some in Hs1; [done|lia|len; lia]].
  pose proof (store_length _ _ _ _ Hs1) as L1. pose proof (store_prefix _ _ _ _ Hs1) as P1.
  assert (ztake 2 (zdrop 0 cp) = [12; 0]) as Hw by (by rewrite Hcp, Hbs).
  rewrite Hw in P1. change (0 + zlen [12; 0]) with 2 in P1. change (ztake 0 _ ++ ?x) with x in P1.
  cbn [access mbind outcome_bind]. change (s16 (0 + 2)) with 2. eexists. split; [done|].
  unfold ni_step at 1. simpl. rewrite Hst. cbn [Z.ltb Z.compare Pos.compare Pos.compare_cont].
  rewrite (load_s16_take _ 0 2), P1 by lia. change (load_s16 [12; 0] 0) with (Some 12).
  cbn [access mbind outcome_bind Z.eqb Pos.eqb negb]. unfold ni_data. simpl.
  change (2 <? 12 + 3) with true. unfold ni_copy. simpl.
  replace (zlen cp - 2 =? 0) with false by (symmetry; apply Z.eqb_neq; lia).
  change (12 + 3 - 2) with 13. replace (Z.min (zlen cp - 2) 13) with 13 by lia.
  unfold memcpy. rewrite load_Some by lia. cbn [option_bind mbind]. change (0 + 2) with 2.
  destruct (store a 2 (ztake 13 (zdrop 2 cp))) as [a2|] eqn:Hs2;
    [|rewrite store_Some in Hs2; [done|lia|len; lia]].
  pose proof (store_length _ _ _ _ Hs2) as L2. pose proof (store_prefix _ _ _ _ Hs2) as P2.
  cbn [access mbind outcome_bind]. change (s16 (2 + 13)) with 15. eexists. split; [done|].
  split; [by right|]. split; [done|]. simpl. split; [unfold NETIF_INFO_SIZE; lia|].
  replace (2 + zlen (ztake 13 (zdrop 2 cp))) with 15 in P2 by (len; lia).
  rewrite P2, P1, Hcp, Hbs. simpl. do 2 f_equal. rewrite drop_0. apply take_app_length'. lia.
Qed.

Lemma ttyio_netif_info_stuck fuel : zlen cp <= DUMP_MAX -> ttyio_netif_info fuel cp u = NoFuel.
Proof using All.
  intros Hshort. unfold ttyio_netif_info.
  destruct (recv_dump_total empty_output cp) as [out ->]; [done|done|]. cbn [mbind outcome_bind].
  destruct ni_takes_frame as (l1 & H1 & l2 & H2 & H3). destruct fuel as [|[|fuel]]; [done| |];
    cbn [run]; rewrite H1; cbn [mbind outcome_bind goto]; [done|].
  rewrite H2. cbn [mbind outcome_bind goto]. by rewrite ni_stuck_forever.
Qed.
End Livelock.

Section ShortLivelock.
Context (cp : list Z) (x : Z).
Context (Hx : is_byte x) (Hx0 : x <> 0) (Hx12 : x <> 12).

(** The two bytes of the length word are in the buffer, the first of them 12. *)
Definition ni_held_word (l : ni_locals) : Prop :=
  ni_len l = 2 /\ zlen (netif_info (ni_u l)) = NETIF_INFO_SIZE /\ ztake 2 (netif_info (ni_u l)) = [12; x].
Definition ni_stuck_word (l : ni_locals) : Prop :=
  (ni_status l = STATUS_LEN \/ ni_status l = STATUS_SPLIT) /\ ni_held_word l.

Lemma bad_word : get_s16 12 x <> 12.
Proof using Hx Hx0. unfold get_s16, get_u16, s16, is_byte in *. clear Hx12. Z.div_mod_to_equations. lia. Qed.

Lemma ni_word_len l : ni_held_word l ->
  exists l', (ni_status l = STATUS_LEN -> ni_step cp l = goto l') /\ ni_stuck_word l'.
Proof using Hx Hx0 Hx12.
  intros Hh. pose proof Hh as (Hlen & Hs & Hpre). unfold NETIF_INFO_SIZE in *.
  exists (ni_set_status STATUS_SPLIT (ni_set_dl (get_s16 12 x) l)). split; [|by split; [right|]].
  intros Hst. unfold ni_step. rewrite Hst, Hlen. change (2 <? 2) with false.
  rewrite (load_s16_take _ 0 2), Hpre, load_s16_cons by lia. cbn [access mbind outcome_bind].
  destruct (Z.eqb_spec (get_s16 12 x) 12) as [E|_]; [by apply bad_word in E|]. cbn [negb ni_u ni_set_dl].
  rewrite (load1_take _ _ 2), Hpre by (simpl; lia). cbn [access mbind outcome_bind lookup list_lookup Z.to_nat Z.eqb Pos.eqb].
  unfold ni_find. cbn [ni_u ni_len ni_set_dl]. rewrite Hlen. change (2 <=? 1) with false. change (2 - 1) with 1.
  rewrite (load_take _ 1 1 2), Hpre by lia.
  change (ztake 1 (zdrop 1 [12; x])) with [x]. cbn [access mbind outcome_bind split_index].
  destruct (Z.eqb_spec x 12); [done|]. done.
Qed.

Lemma ni_word_split l : ni_held_word l -> exists l', ni_split cp l = goto l' /\ ni_stuck_word l'.
Proof using.
  clear Hx Hx0 Hx12. intros (Hlen & Hs & Hpre). unfold NETIF_INFO_SIZE in *. unfold ni_split, ni_find.
  rewrite Hlen. change (2 <=? 0) with false. change (2 - 0) with 2.
  rewrite (load_take _ 0 2 2), Hpre by lia. change (ztake 2 (zdrop 0 [12; x])) with [12; x].
  cbn [access mbind outcome_bind split_index Z.eqb Pos.eqb fmap option_fmap option_map].
  change (0 + 1 - 1) with 0. unfold ni_relocate. rewrite Hlen.
  rewrite (load_take _ 0 2 2), Hpre by lia. change (ztake 2 (zdrop 0 [12; x])) with [12; x].
  cbn [access mbind outcome_bind].
  destruct (recv_dump_total empty_output [12; x]) as [out ->]; [done|change DUMP_MAX with 819; simpl; lia|].
  cbn [access mbind outcome_bind]. change (s16 (2 - 0)) with 2.
  destruct (memmove_front (netif_info (ni_u l)) 0 2) as (a & Hmv & Ha & Htake); [lia..|].
  change (2 - 0) with 2 in *. rewrite drop_0, Hpre in Htake. rewrite Hmv. cbn [access mbind outcome_bind].
  rewrite (load_take _ 0 2 2), Htake by lia. change (ztake 2 (zdrop 0 [12; x])) with [12; x].
  cbn [access mbind outcome_bind].
  destruct (recv_dump_total empty_output [12; x]) as [out' ->]; [done|change DUMP_MAX with 819; simpl; lia|].
  cbn [access mbind outcome_bind]. eexists. split; [done|]. split; [by left|]. split; [done|].
  simpl. unfold NETIF_INFO_SIZE. by rewrite Ha.
Qed.

Lemma ni_word_step l : ni_stuck_word l -> exists l', ni_step cp l = goto l' /\ ni_stuck_word l'.
Proof using Hx Hx0 Hx12.
  intros [[Hst|Hst] Hh].
  - destruct (ni_word_len l Hh) as (l' & H & Hs). exists l'. split; [by apply H|done].
  - unfold ni_step. rewrite Hst. by apply ni_word_split.
Qed.

Context (u : uart_wifi_struct) (rest : list Z).
Context (Hcp : cp = 12 :: x :: rest) (Hsize : zlen (netif_info u) = NETIF_INFO_SIZE)
  (Hst : uart_recv_status u = STATUS_LEN) (Hlen : netif_info_recv_len u = 0).

Lemma ni_takes_word : exists l1, ni_step cp (ni_start cp u) = goto l1 /\ ni_stuck_word l1.
Proof using All.
  unfold NETIF_INFO_SIZE in *. unfold ni_step. simpl. rewrite Hst, Hlen.
  cbn [Z.ltb Z.compare]. unfold ni_copy. simpl. rewrite Hlen.
  assert (zlen cp = 2 + zlen rest) as Hn by (rewrite Hcp; simpl length; lia).
  replace (zlen cp =? 0) with false by (symmetry; apply Z.eqb_neq; lia).
  change (2 - 0) with 2. replace (Z.min (zlen cp) 2) with 2 by lia.
  unfold memcpy. rewrite load_Some by lia. cbn [option_bind mbind].
  assert (ztake 2 (zdrop 0 cp) = [12; x]) as Hw by by rewrite Hcp. rewrite Hw.
  destruct (store (netif_info u) 0 [12; x]) as [a|] eqn:Hs1;
    [|rewrite store_Some in Hs1; [done|lia|simpl; lia]].
  pose proof (store_length _ _ _ _ Hs1) as L1. pose proof (store_prefix _ _ _ _ Hs1) as P1.
  cbn [access mbind outcome_bind]. change (s16 (0 + 2)) with 2. eexists. split; [done|].
  split; [by left|]. split; [done|]. simpl. split; [unfold NETIF_INFO_SIZE; lia|exact P1].
Qed.

Lemma ttyio_netif_info_stuck_word fuel : zlen cp <= DUMP_MAX -> ttyio_netif_info fuel cp u = NoFuel.
Proof using All.
  intros Hshort. unfold ttyio_netif_info.
  destruct (recv_dump_total empty_output cp) as [out ->]; [done|done|]. cbn [mbind outcome_bind].
  destruct ni_takes_word as (l1 & H1 & H2). destruct fuel as [|fuel]; [done|].
  cbn [run]. rewrite H1. cbn [mbind outcome_bind goto].
  by rewrite (run_diverges (ni_step cp) ni_stuck_word ni_word_step).
Qed.
End ShortLivelock.

(** ** Properties *)

(** The state the work handler leaves before it resets the module. *)
Definition handshake_start (u : uart_wifi_struct) : Prop :=
  zlen (netif_info u) = NETIF_INFO_SIZE /\ uart_recv_status u = STATUS_LEN
  /\ netif_info_recv_len u = 0 /\ netif_info_vaild u = 0.

Lemma handshake_waiting u info rest :
  handshake_start u -> ni_waiting u (put_frame SPLIT_CMD info ++ rest) info rest.
Proof.
  intros (Hs & Hst & Hl & Hv). split; [|lia].
  constructor; simpl; rewrite ?Hst, ?Hl; try done. by destruct u.
Qed.

(** C18. A session: when the line carries the firmware's announcement and then the
    frames of IP packets, cut anywhere into chunks of at most 819 bytes (what the log
    dump holds), the driver has no skb in hand and its allocations succeed, it echoes the
    announcement exactly once, publishes the parameters for sysfs, and hands the
    packets to the network stack, in order and each once; not a byte behind the
    announcement is lost at the switch between the two receivers. *)
Theorem ttyio_session {K : Kernel} {KL : KernelLaws K} chunks s info ps :
  (forall k, netdev_alloc_skb k MAX_RECV_LEN <> None) ->
  zlen info = 12 -> Forall ip_packet ps -> Forall (fun c => zlen c <= DUMP_MAX) chunks ->
  handshake_start (uw s) -> rx_fresh s ->
  concat chunks = put_frame SPLIT_CMD info ++ put_frames SPLIT_DATA ps ->
  total (tty_calls ni_fuel [] (chunks ++ [[]]) (Some s)) (session_ok s info ps).
Proof.
  intros Hmem Hi Hps Hc Hs Hf Hline. apply tty_calls_announce; try done.
  - by destruct Hs as (_ & _ & _ & ?).
  - rewrite Hline. by apply handshake_waiting.
Qed.

(** A corrupted announcement hangs the driver: when the byte behind the 12
    parameter bytes is not SPLIT_CMD, the search for a new start finds the length
    word of the same frame, moves nothing, and [ttyio_netif_info] never returns. *)
Theorem ttyio_netif_info_livelock fuel u info c rest :
  zlen info = 12 -> c <> SPLIT_CMD -> handshake_start u ->
  zlen (put_frame c info ++ rest) <= DUMP_MAX ->
  ttyio_netif_info fuel (put_frame c info ++ rest) u = NoFuel.
Proof. intros Hi Hc (Hs & Hst & Hl & _) Hn. by eapply ttyio_netif_info_stuck. Qed.

(** C36. Two bytes of noise hang the driver: while it waits for the announcement, a byte 12
    (one of the bytes the announcement itself begins with) followed by anything but 0 or 12 makes
    [ttyio_netif_info] loop forever, whatever follows - the length is wrong, and the
    search for a new start finds the first byte again. *)
Theorem ttyio_netif_info_noise_livelock fuel u x rest :
  is_byte x -> x <> 0 -> x <> 12 -> handshake_start u -> zlen (12 :: x :: rest) <= DUMP_MAX ->
  ttyio_netif_info fuel (12 :: x :: rest) u = NoFuel.
Proof. intros Hx H0 H12 (? & ? & ? & ?) Hs. by apply (ttyio_netif_info_stuck_word _ x Hx H0 H12 _ rest). Qed.

(** [transform_netif_info] leaves the frame alone and renders its 12 bytes as a
    string within the array: read back, the text gives the same octets.  Only when
    every octet has three digits is its last byte, the final newline, cut off. *)
Theorem transform_netif_info_renders buf info :
  zlen buf = NETIF_INFO_SIZE -> load buf 2 12 = Some info -> Forall is_byte info ->
  exists buf' t, transform_netif_info buf = Ret buf' /\ length buf' = length buf
    /\ ztake 15 buf' = ztake 15 buf /\ cstr (zdrop 15 buf') = Some t
    /\ if zlen (netif_text info) <? 48 then parse_octets 0 t = info
       else exists x, netif_text info = t ++ [x].
Proof.
  intros Hs Hl Hb. pose proof (transform_netif_info_ok buf info Hs Hl) as (buf' & ? & ? & ? & Ht).
  assert (zlen info = 12) as Hi by (apply load_inv in Hl as (_ & _ & ? & ->); len; lia).
  pose proof (netif_text_length info Hi) as Hlen. eexists _, _. split_and!; try done.
  case_if as Hfit.
  - rewrite take_ge by lia. rewrite netif_text_parse by done.
    clear -Hb. induction Hb as [|b info Hb _ IH]; [done|]. csimpl. by rewrite IH, u8_small.
  - destruct (drop 47 (netif_text info)) as [|x [|y l]] eqn:Hd;
      apply (f_equal length) in Hd as Hd'; rewrite length_drop in Hd'; simpl in Hd'; [lia| |lia].
    exists x. rewrite <- Hd. symmetry. apply take_drop.
Qed.

(** ** Witnesses *)

Definition witness_params : list Z := [192; 168; 0; 2; 255; 255; 255; 0; 192; 168; 0; 1].
Lemma handshake_start_init : handshake_start kzalloc_uart_wifi.
Proof. by split_and!. Qed.

Lemma ttyio_session_witness :
  total (tty_calls ni_fuel []
           ([[12]; 0 :: witness_params ++ [SPLIT_CMD; 20]; 0 :: small_packet 1 ++ [SPLIT_DATA]] ++ [[]])
           (Some fresh_rx))
    (session_ok fresh_rx witness_params [small_packet 1]).
Proof.
  apply ttyio_session; try reflexivity; [done| | |apply handshake_start_init].
  - pose proof small_packets_ok as H. by apply Forall_cons in H as [H _]; constructor.
  - repeat constructor; vm_compute; discriminate.
Defined.

Lemma ttyio_netif_info_livelock_witness :
  ttyio_netif_info 1000 (put_frame 7 witness_params ++ [1; 2]) kzalloc_uart_wifi = NoFuel.
Proof.
  apply ttyio_netif_info_livelock; [reflexivity|done|apply handshake_start_init|vm_compute; discriminate].
Defined.

Lemma ttyio_netif_info_noise_livelock_witness :
  ttyio_netif_info 1000 [12; 1] kzalloc_uart_wifi = NoFuel.
Proof.
  apply (ttyio_netif_info_noise_livelock 1000 kzalloc_uart_wifi 1 []);
    [done|done|done|by apply handshake_start_init|by vm_compute].
Defined.

Definition witness_buf : list Z := put_frame SPLIT_CMD witness_params ++ replicate 49 0.
Lemma transform_netif_info_renders_witness :
  exists buf' t, transform_netif_info witness_buf = Ret buf' /\ length buf' = length witness_buf
    /\ ztake 15 buf' = ztake 15 witness_buf /\ cstr (zdrop 15 buf') = Some t
    /\ if zlen (netif_text witness_params) <? 48 then parse_octets 0 t = witness_params
       else exists x, netif_text witness_params = t ++ [x].
Proof.
  apply transform_netif_info_renders; [reflexivity|reflexivity|].
  unfold witness_params. rewrite !Forall_cons, Forall_nil. unfold is_byte. lia.
Defined.
