(* ===== verification/HostNetdev.v ===== *)
(** * Linux driver: the network device (netdev.c, [ttyio_init] of uart.c)

    Transmission, link management and statistics.  Calls into the tty, gpio and
    timer layers are recorded as a list of actions, oldest first; what those layers
    answer is an argument of the operation. *)
From stdpp Require Import prelude list.
From Stdlib Require Import ZArith Lia.
From S2P Require Import Prelude Memory CString Wire HostState HostReceive.

(** Calls whose order matters outside the driver; a tty is named by the name it was
    opened by. *)
Inductive action :=
  | AWrite (bs : list Z)         (* tty->ops->write *)
  | AFlush                       (* tty->ops->flush_buffer *)
  | AGpioReset (v : Z)           (* gpio_set_value(gpio_reset, v) *)
  | AMsleep (ms : Z)
  | ATermios (cflag iflag oflag lflag baud : Z)
  | AKopen (tty : list Z)        (* tty_kopen, when it gives a tty *)
  | ALdisc (tty : list Z)        (* tty_set_ldisc, when it succeeds *)
  | AKclose (tty : list Z).      (* tty_kclose *)

(** The driver with the flags of its net_device, tty, interrupt and work item;
    [net_tty] is [uart_wifi->tty]. *)
Record host_net := mk_net {
  net_rx : host_rx;
  queue_stopped : bool;
  carrier_ok : bool;
  tty_do_write_wakeup : bool;
  irq_requested : bool;
  work_scheduled : bool;
  disc_data_set : bool;
  net_tty : list Z;
  actions : list action;
}.

Definition net_uw (s : host_net) : uart_wifi_struct := uw (net_rx s).

Section Setters.
Context (s : host_net).
Definition set_net_uw (u : uart_wifi_struct) : host_net :=
  mk_net (set_uw u (net_rx s)) (queue_stopped s) (carrier_ok s) (tty_do_write_wakeup s)
    (irq_requested s) (work_scheduled s) (disc_data_set s) (net_tty s) (actions s).
Definition set_queue_stopped (b : bool) : host_net :=
  mk_net (net_rx s) b (carrier_ok s) (tty_do_write_wakeup s)
    (irq_requested s) (work_scheduled s) (disc_data_set s) (net_tty s) (actions s).
Definition set_carrier (b : bool) : host_net :=
  mk_net (net_rx s) (queue_stopped s) b (tty_do_write_wakeup s)
    (irq_requested s) (work_scheduled s) (disc_data_set s) (net_tty s) (actions s).
Definition set_do_wakeup (b : bool) : host_net :=
  mk_net (net_rx s) (queue_stopped s) (carrier_ok s) b
    (irq_requested s) (work_scheduled s) (disc_data_set s) (net_tty s) (actions s).
Definition set_irq (b : bool) : host_net :=
  mk_net (net_rx s) (queue_stopped s) (carrier_ok s) (tty_do_write_wakeup s)
    b (work_scheduled s) (disc_data_set s) (net_tty s) (actions s).
Definition set_work (b : bool) : host_net :=
  mk_net (net_rx s) (queue_stopped s) (carrier_ok s) (tty_do_write_wakeup s)
    (irq_requested s) b (disc_data_set s) (net_tty s) (actions s).
Definition set_disc_data (b : bool) : host_net :=
  mk_net (net_rx s) (queue_stopped s) (carrier_ok s) (tty_do_write_wakeup s)
    (irq_requested s) (work_scheduled s) b (net_tty s) (actions s).
Definition set_tty (tty : list Z) : host_net :=
  mk_net (net_rx s) (queue_stopped s) (carrier_ok s) (tty_do_write_wakeup s)
    (irq_requested s) (work_scheduled s) (disc_data_set s) tty (actions s).
Definition act (l : list action) : host_net :=
  mk_net (net_rx s) (queue_stopped s) (carrier_ok s) (tty_do_write_wakeup s)
    (irq_requested s) (work_scheduled s) (disc_data_set s) (net_tty s) (actions s ++ l).
End Setters.

(** ** Transmission *)

(** The skb to send: its linear part from the Ethernet header on, and its page
    fragments ([NETIF_F_SG]). *)
Record tx_skb := mk_tx_skb { tx_linear : list Z; tx_frags : list (list Z) }.
Definition tx_len (skb : tx_skb) : Z := zlen (tx_linear skb) + zlen (concat (tx_frags skb)).

Inductive netdev_tx := NETDEV_TX_OK | NETDEV_TX_BUSY.

(** The local [send_len]; and what is done when there is no room for the frame. *)
Definition xmit_len (skb : tx_skb) : Z := u16 (u32 (tx_len skb - ETH_HLEN)).
Definition xmit_busy (s : host_net) : host_net := set_do_wakeup (set_queue_stopped s true) true.

(** [uart_wifi_xmit], [room] being the answer of [write_room]. *)
Definition uart_wifi_xmit (room : Z) (skb : tx_skb) (s : host_net) : outcome (netdev_tx * host_net) :=
  let send_len := xmit_len skb in
  if room <? send_len + 3 then Ret (NETDEV_TX_BUSY, xmit_busy s)
  else
    let? head := load (tx_linear skb) ETH_HLEN (zlen (tx_linear skb) - ETH_HLEN) in
    let s := act s ([AWrite (put_u16 send_len); AWrite head]
                    ++ (AWrite <$> tx_frags skb) ++ [AWrite [SPLIT_DATA]]) in
    Ret (NETDEV_TX_OK, set_net_uw s (add_tx_stats (net_uw s) 1 send_len)).

(** [ttyio_write_wakeup]: the uart driver's buffer runs empty. *)
Definition ttyio_write_wakeup (s : host_net) : host_net :=
  let s := set_do_wakeup s false in
  if carrier_ok s then set_queue_stopped s false else s.

(** [uart_wifi_stats64]: tx packets and bytes, rx packets and bytes. *)
Definition uart_wifi_stats64 (s : host_net) : Z * Z * Z * Z :=
  let u := net_uw s in (tx_packets u, tx_bytes u, rx_packets u, rx_bytes u).

(** ** Link management *)

(** [gpio_irq_handler] *)
Definition gpio_irq_handler (s : host_net) : host_net := set_work s true.

(** How the work item ends: the link is up, the interface is being closed, or it
    is still resetting the module. *)
Inductive work_exit := LinkUp | Closing | Trying.

(** The ten seconds of waiting: [holds] are the values of [work_hold] after each of
    the sleeps, still set where the list says nothing; true when one of them is 0. *)
Fixpoint work_wait (holds : list Z) (n : nat) (s : host_net) : bool * host_net :=
  match n with
  | O => (false, s)
  | S n =>
      let s := act s [AMsleep 1000] in
      match holds with
      | [] => work_wait [] n s
      | hold :: holds => if hold =? 0 then (true, s) else work_wait holds n s
      end
  end.

(** From the top of [while(1)] to the first sleep of the reset ([inl]), or to [return]
    ([inr]); [gpio] is the level of the interrupt pin. *)
Definition work_top (gpio : Z) (s : host_net) : host_net + host_net :=
  let u := net_uw s in
  if negb (force_reset u =? 0) then
    inl (act (set_net_uw s (set_force_reset u 0)) [AFlush; AGpioReset 0; AMsleep 10])
  else if gpio =? 0 then inr (set_queue_stopped (set_carrier s true) false)
  else
    let u := set_netif_info_vaild (set_netif_info_recv_len (set_recv_state u STATUS_LEN (uartDataLen u)) 0) 0 in
    inl (act (set_net_uw s u) [AFlush; AGpioReset 0; AMsleep 10]).

(** From there to the sleep in which the module boots; then the two writes. *)
Definition work_release (s : host_net) : host_net := act s [AGpioReset 1; AMsleep 1000].
Definition work_send (ssid_len password_len : Z) (s : host_net) : outcome host_net :=
  let? f := load (ssid (net_uw s)) 0 (ssid_len + 3) in
  let s := act s [AWrite f] in
  let? f := load (password (net_uw s)) 0 (password_len + 3) in
  Ret (act s [AWrite f]).

(** One turn of [while(1)]. *)
Definition work_round (ssid_len password_len : Z) (gpio : Z) (holds : list Z) (s : host_net) :
    outcome (host_net + work_exit * host_net) :=
  match work_top gpio s with
  | inr s => leave (LinkUp, s)
  | inl s =>
      let! s := work_send ssid_len password_len (work_release s) in
      let '(closing, s) := work_wait holds 10 s in
      if closing : bool then leave (Closing, s) else goto s
  end.

(** [esp8266ex_init_work_handler], for as many turns as the environment describes:
    the pin's level and the ten values of [work_hold] of each turn. *)
Fixpoint work_turns (ssid_len password_len : Z) (env : list (Z * list Z)) (s : host_net) :
    outcome (work_exit * host_net) :=
  match env with
  | [] => Ret (Trying, s)
  | (gpio, holds) :: env =>
      let! r := work_round ssid_len password_len gpio holds s in
      match r with
      | inl s => work_turns ssid_len password_len env s
      | inr e => Ret e
      end
  end.

Definition esp8266ex_init_work_handler (env : list (Z * list Z)) (s : host_net) :
    outcome (work_exit * host_net) :=
  let? ssid_len := load_u16 (ssid (net_uw s)) 0 in
  let? password_len := load_u16 (password (net_uw s)) 0 in
  work_turns ssid_len password_len env (set_work s false).

(** ** Opening and closing *)

Definition EINVAL : Z := 22.
Definition ENODEV : Z := 19.

(** termios flags of the Linux ABI. *)
Definition CREAD : Z := 0x80.
Definition CLOCAL : Z := 0x800.
Definition CRTSCTS : Z := 0x80000000.
Definition CSIZE : Z := 0x30.
Definition CS8 : Z := 0x30.
Definition PARENB : Z := 0x100.
Definition CSTOPB : Z := 0x40.
Definition IXON : Z := 0x400.
Definition IXOFF : Z := 0x1000.
Definition OPOST : Z := 0x1.
Definition ICANON : Z := 0x2.
Definition ECHO : Z := 0x8.
Definition ECHOE : Z := 0x10.
Definition ISIG : Z := 0x1.

(** The answers of the tty layer: [tty_kopen] (an error or success), whether the
    driver has [open] and [write], what they return. *)
Record tty_env := mk_tty_env {
  kopen_err : option Z;
  has_ops : bool;
  open_ret : Z;
  set_ldisc_ret : Z;
}.

(** The tty [tty_dev_name_to_number] finds. *)
Definition tty_of (u : uart_wifi_struct) : list Z := default [] (cstr (tty_name u)).

Definition ttyio_init (env : tty_env) (s : host_net) : Z * host_net :=
  let tty := tty_of (net_uw s) in
  match kopen_err env with
  | Some e => (e, s)
  | None =>
      let s := act s [AKopen tty] in
      let ret := if has_ops env then open_ret env else - ENODEV in
      if negb (ret =? 0) then (ret, s)
      else
        let cflag := Z.lor (Z.lor (Z.lor 0 CREAD) CLOCAL) CRTSCTS in
        let cflag := Z.lor (Z.ldiff cflag CSIZE) CS8 in
        let cflag := Z.ldiff (Z.ldiff cflag PARENB) CSTOPB in
        let iflag := Z.ldiff 0 (Z.lor IXON IXOFF) in
        let oflag := Z.ldiff 0 OPOST in
        let lflag := Z.ldiff 0 (Z.lor (Z.lor (Z.lor ICANON ECHO) ECHOE) ISIG) in
        let s := act s [ATermios cflag iflag oflag lflag 921600] in
        let ret := set_ldisc_ret env in
        if negb (ret =? 0) then (ret, s)
        else
          (* its flags are those of a new tty_struct *)
          let s := set_do_wakeup (act s [ALdisc tty]) false in
          (0, set_tty (set_disc_data s true) tty)
  end.

(** [uart_wifi_open]; [irq_ret] is the answer of [request_irq]. *)
Definition uart_wifi_open (env : tty_env) (irq_ret : Z) (s : host_net) : outcome (Z * host_net) :=
  let? ssid_len := load_u16 (ssid (net_uw s)) 0 in
  let? password_len := load_u16 (password (net_uw s)) 0 in
  if ssid_len =? 0 then Ret (- EINVAL, s)
  else if password_len =? 0 then Ret (- EINVAL, s)
  else
    let s := set_carrier s false in
    let '(ret, s) := ttyio_init env s in
    if negb (ret =? 0) then Ret (- EINVAL, s)
    else
      let u := set_force_reset (set_work_hold (net_uw s) 1) 1 in
      let u := set_netif_info_vaild (set_netif_info_recv_len (set_recv_state u STATUS_LEN (uartDataLen u)) 0) 0 in
      let s := set_net_uw s u in
      if negb (irq_ret =? 0) then Ret (irq_ret, s)
      else Ret (0, set_work (set_irq s true) true).

(** [uart_wifi_stop] *)
Definition uart_wifi_stop (s : host_net) : Z * host_net :=
  let s := act s [AGpioReset 0] in
  let s := set_queue_stopped (set_carrier (set_irq s false) false) true in
  let s := set_net_uw s (set_work_hold (set_netif_info_vaild (net_uw s) 0) 0) in
  (0, act (set_work s false) [AKclose (net_tty s)]).

(** [netdev_init]: the counters are cleared; -1 when the device cannot be allocated
    or registered. *)
Definition netdev_init (alloc_ok : bool) (register_ret : Z) (u : uart_wifi_struct) :
    Z * uart_wifi_struct :=
  let u := add_rx_stats (add_tx_stats u (- tx_packets u) (- tx_bytes u)) (- rx_packets u) (- rx_bytes u) in
  if negb alloc_ok then (-1, u)
  else if negb (register_ret =? 0) then (-1, u) else (0, u).

(** ** What transmission puts on the line *)

(** The IP packet of an skb. *)
Definition tx_payload (skb : tx_skb) : list Z := zdrop ETH_HLEN (tx_linear skb) ++ concat (tx_frags skb).

(** An skb as the IP stack builds it: a whole Ethernet header in the linear part. *)
Definition tx_skb_ok (skb : tx_skb) : Prop :=
  ETH_HLEN <= zlen (tx_linear skb) /\ zlen (tx_payload skb) <= MTU_LEN.

Definition written (ws : list (list Z)) : list action := AWrite <$> ws.

Lemma tx_payload_length skb :
  ETH_HLEN <= zlen (tx_linear skb) -> zlen (tx_payload skb) = tx_len skb - ETH_HLEN.
Proof. intros H. unfold tx_payload, tx_len, ETH_HLEN in *. len. lia. Qed.

Lemma uart_wifi_xmit_ok room skb s :
  tx_skb_ok skb ->
  total (uart_wifi_xmit room skb s) (fun '(r, s') =>
    if room <? zlen (tx_payload skb) + 3 then
      r = NETDEV_TX_BUSY /\ s' = set_do_wakeup (set_queue_stopped s true) true
    else
      r = NETDEV_TX_OK /\ exists ws, concat ws = put_frame SPLIT_DATA (tx_payload skb)
        /\ s' = set_net_uw (act s (written ws))
                  (add_tx_stats (net_uw s) 1 (zlen (tx_payload skb)))).
Proof.
  intros [Hh Hl]. pose proof (tx_payload_length skb Hh) as HL. unfold ETH_HLEN, MTU_LEN in *.
  unfold uart_wifi_xmit, xmit_len, ETH_HLEN. rewrite u32_small, u16_small by lia. rewrite <- HL.
  case_if as Hroom; [done|]. rewrite load_Some by lia. cbn [access mbind outcome_bind]. split; [done|].
  set (head := ztake _ _).
  exists (put_u16 (zlen (tx_payload skb)) :: head :: tx_frags skb ++ [[SPLIT_DATA]]). split.
  - cbn [concat]. rewrite concat_app. cbn [concat]. rewrite app_nil_r. unfold put_frame.
    f_equal. rewrite app_assoc. f_equal. unfold tx_payload, head, ETH_HLEN. rewrite take_ge; [done|].
    len. lia.
  - unfold written. cbn [fmap list_fmap]. by rewrite fmap_app.
Qed.

(** ** The tty as an interface *)

(** What the driver is promised by the tty it writes to: [tty_line] is everything
    accepted for transmission, in order. *)
Class Tty (T : Type) := {
  tty_room : T -> Z;
  tty_write : list Z -> T -> T;
  tty_drain : nat -> T -> T;
  tty_line : T -> list Z;
}.

Class TtyLaws (T : Type) `{Tty T} := {
  tty_room_nonneg (t : T) : 0 <= tty_room t;
  tty_write_line bs (t : T) : tty_line (tty_write bs t) = tty_line t ++ ztake (tty_room t) bs;
  tty_write_room bs (t : T) : tty_room t - zlen bs <= tty_room (tty_write bs t);
  tty_drain_line k (t : T) : tty_line (tty_drain k t) = tty_line t;
  tty_drain_room k (t : T) : tty_room t <= tty_room (tty_drain k t);
}.

Section Line.
Context {T : Type} {HT : Tty T} {HL : TtyLaws T}.

Definition tty_writes (ws : list (list Z)) (t : T) : T := foldl (fun t w => tty_write w t) t ws.

(** Writes that fit are accepted whole. *)
Lemma tty_writes_line ws t :
  zlen (concat ws) <= tty_room t -> tty_line (tty_writes ws t) = tty_line t ++ concat ws.
Proof.
  revert t. induction ws as [|w ws IH]; intros t Hfit; [by rewrite app_nil_r|].
  cbn [concat] in *. rewrite length_app in Hfit. cbn [tty_writes foldl].
  pose proof (tty_write_room w t). fold (tty_writes ws (tty_write w t)).
  rewrite IH by lia. rewrite tty_write_line, take_ge by lia. by rewrite <- app_assoc.
Qed.

(** The writes among some actions, carried out. *)
Definition act_writes (l : list action) : list (list Z) :=
  omap (fun a => match a with AWrite bs => Some bs | _ => None end) l.

Lemma act_writes_written ws : act_writes (written ws) = ws.
Proof. unfold act_writes, written. induction ws as [|w ws IH]; [done|]. csimpl. by rewrite IH. Qed.

(** The stack offers the head of its queue, or the uart sends bytes and may wake
    the queue up ([tty_wakeup] calls the line discipline only when asked to). *)
Inductive tx_step := TxOffer | TxDrain (k : nat) (wakeup : bool).

Definition tx_apply (e : tx_step) (st : list tx_skb * host_net * T) :
    outcome (list tx_skb * host_net * T) :=
  let '(queue, s, t) := st in
  match e with
  | TxOffer =>
      match queue with
      | [] => Ret st
      | skb :: rest =>
          if queue_stopped s then Ret st
          else
            let! ' (r, s') := uart_wifi_xmit (tty_room t) skb s in
            match r with
            | NETDEV_TX_BUSY => Ret (queue, s', t)
            | NETDEV_TX_OK => Ret (rest, s', tty_writes (act_writes (drop (length (actions s)) (actions s'))) t)
            end
      end
  | TxDrain k wakeup =>
      Ret (queue, (if wakeup && tty_do_write_wakeup s then ttyio_write_wakeup s else s), tty_drain k t)
  end.

Fixpoint tx_steps (es : list tx_step) (st : list tx_skb * host_net * T) :
    outcome (list tx_skb * host_net * T) :=
  match es with
  | [] => Ret st
  | e :: es => let! st := tx_apply e st in tx_steps es st
  end.

Lemma tx_apply_ok e queue s t :
  Forall tx_skb_ok queue ->
  total (tx_apply e (queue, s, t)) (fun '(queue', s', t') =>
    exists sent, queue = sent ++ queue'
      /\ tty_line t' = tty_line t ++ put_frames SPLIT_DATA (tx_payload <$> sent)
      /\ tx_packets (net_uw s') = tx_packets (net_uw s) + zlen sent).
Proof.
  intros Hq. destruct e as [|k wakeup].
  - simpl. destruct queue as [|skb rest].
    { exists []. split_and!; [done|symmetry; apply app_nil_r|unfold net_uw; simpl; lia]. }
    destruct (queue_stopped s).
    { exists []. split_and!; [done|symmetry; apply app_nil_r|unfold net_uw; simpl; lia]. }
    apply Forall_cons in Hq as [Hskb _]. apply post_bind.
    eapply post_mono; [by apply uart_wifi_xmit_ok|]. intros [r s'].
    case_if as Hroom.
    + intros [-> ->]. exists []. split_and!; [done|symmetry; apply app_nil_r|unfold net_uw; simpl; lia].
    + intros (-> & ws & Hws & ->). exists [skb]. split; [done|]. split; [|unfold net_uw; simpl; lia].
      simpl. rewrite drop_app_length, act_writes_written, tty_writes_line.
      * rewrite Hws. unfold put_frames. simpl. by rewrite app_nil_r.
      * rewrite Hws. pose proof (put_frame_length SPLIT_DATA (tx_payload skb)). lia.
  - exists []. rewrite tty_drain_line. split_and!; [done|symmetry; apply app_nil_r|].
    unfold ttyio_write_wakeup, net_uw. repeat case_match; simpl; lia.
Qed.
End Line.

Section Transmission.
Context {T : Type} {HT : Tty T} {HL : TtyLaws T}.

Lemma tx_steps_ok es queue s t :
  Forall tx_skb_ok queue ->
  total (tx_steps es (queue, s, t)) (fun '(queue', s', t') =>
    exists sent, queue = sent ++ queue'
      /\ tty_line t' = tty_line t ++ put_frames SPLIT_DATA (tx_payload <$> sent)
      /\ tx_packets (net_uw s') = tx_packets (net_uw s) + zlen sent).
Proof.
  revert queue s t. induction es as [|e es IH]; intros queue s t Hq.
  { exists []. split_and!; [done|symmetry; apply app_nil_r|simpl; lia]. }
  cbn [tx_steps]. apply post_bind. eapply post_mono; [by apply tx_apply_ok|].
  intros [[queue1 s1] t1] (sent1 & -> & Hl1 & Hp1). apply Forall_app in Hq as [_ Hq].
  eapply post_mono; [by apply IH|]. intros [[queue2 s2] t2] (sent2 & -> & Hl2 & Hp2).
  exists (sent1 ++ sent2). rewrite app_assoc. split_and!; [done| |len; lia].
  rewrite Hl2, Hl1, fmap_app. unfold put_frames. by rewrite fmap_app, concat_app, app_assoc.
Qed.

(** C17. Whatever the tty and however offers, drains and wakeups interleave, the line
    carries exactly the frames of the packets taken from the queue, whole and in
    order; packets leave the queue in order and none is lost or sent twice, and
    tx_packets counts them. *)
Theorem uart_wifi_tx_line es queue s t :
  Forall tx_skb_ok queue ->
  total (tx_steps es (queue, s, t)) (fun '(queue', s', t') =>
    exists sent, queue = sent ++ queue'
      /\ tty_line t' = tty_line t ++ put_frames SPLIT_DATA (tx_payload <$> sent)
      /\ tx_packets (net_uw s') = tx_packets (net_uw s) + zlen sent).
Proof. apply tx_steps_ok. Qed.

(** C29. A stopped queue resumes: when the uart has room for a frame again and wakes
    the line discipline up, the next packet is sent. *)
Theorem uart_wifi_tx_resumes k skb rest s t :
  tx_skb_ok skb -> carrier_ok s = true ->
  (queue_stopped s = true -> tty_do_write_wakeup s = true) ->
  MAX_FRAME_LEN <= tty_room (tty_drain k t) ->
  total (tx_steps [TxDrain k true; TxOffer] (skb :: rest, s, t)) (fun '(queue', s', t') =>
    queue' = rest /\ queue_stopped s' = false
    /\ tty_line t' = tty_line t ++ put_frame SPLIT_DATA (tx_payload skb)).
Proof.
  intros Hskb Hc Hstop Hroom. cbn [tx_steps tx_apply mbind outcome_bind].
  set (s1 := if _ && _ then _ else _).
  assert (queue_stopped s1 = false) as Hs1.
  { unfold s1, ttyio_write_wakeup. destruct (tty_do_write_wakeup s) eqn:Hw; simpl.
    - by rewrite Hc.
    - destruct (queue_stopped s); [by specialize (Hstop eq_refl)|done]. }
  rewrite Hs1. apply post_bind, post_bind. eapply post_mono; [by apply uart_wifi_xmit_ok|].
  intros [r s']. pose proof Hskb as [_ Hlen]. unfold MAX_FRAME_LEN in *. case_if as Hfull; [lia|].
  intros (-> & ws & Hws & ->). simpl. split; [done|]. split; [done|].
  pose proof (put_frame_length SPLIT_DATA (tx_payload skb)).
  rewrite drop_app_length, act_writes_written, tty_writes_line by (rewrite Hws; lia).
  by rewrite Hws, tty_drain_line.
Qed.
End Transmission.

(** One call of [uart_wifi_xmit]: without room for the whole frame it takes nothing,
    stops the queue and asks to be woken up; otherwise it writes the frame of the IP
    packet, which fits the room it was promised, and counts it. *)
Theorem uart_wifi_xmit_frames room skb s :
  tx_skb_ok skb ->
  total (uart_wifi_xmit room skb s) (fun '(r, s') =>
    if room <? zlen (tx_payload skb) + 3 then
      r = NETDEV_TX_BUSY /\ queue_stopped s' = true /\ tty_do_write_wakeup s' = true
      /\ actions s' = actions s /\ net_rx s' = net_rx s
    else
      r = NETDEV_TX_OK
      /\ (exists ws, actions s' = actions s ++ written ws
            /\ concat ws = put_frame SPLIT_DATA (tx_payload skb) /\ zlen (concat ws) <= room)
      /\ uart_wifi_stats64 s' = (let '(p, b, rp, rb) := uart_wifi_stats64 s in
                                 (p + 1, b + zlen (tx_payload skb), rp, rb))).
Proof.
  intros Hskb. eapply post_mono; [by apply uart_wifi_xmit_ok|]. intros [r s'].
  case_if as Hroom; [by intros [-> ->]|]. intros (-> & ws & Hws & ->).
  split; [done|]. split; [|done]. exists ws. rewrite Hws.
  pose proof (put_frame_length SPLIT_DATA (tx_payload skb)). split_and!; [done|done|lia].
Qed.

(** ** The work item *)

(** What one reset of the module does: a pulse on the reset pin with the uart's
    buffer empty, then the two credential frames, then [secs] seconds of waiting. *)
Definition reset_actions (f1 f2 : list Z) (secs : nat) : list action :=
  [AFlush; AGpioReset 0; AMsleep 10; AGpioReset 1; AMsleep 1000; AWrite f1; AWrite f2]
  ++ replicate secs (AMsleep 1000).

Lemma act_act s l l' : act (act s l) l' = act s (l ++ l').
Proof. unfold act. simpl. by rewrite app_assoc. Qed.

Lemma act_nil s : act s [] = s.
Proof. unfold act. rewrite app_nil_r. by destruct s. Qed.

Lemma work_wait_nil n s : work_wait [] n s = (false, act s (replicate n (AMsleep 1000))).
Proof.
  revert s. induction n as [|n IH]; intros s; simpl; [by rewrite act_nil|]. by rewrite IH, act_act.
Qed.

Lemma work_wait_open holds n s :
  Forall (fun h => h <> 0) holds ->
  work_wait holds n s = (false, act s (replicate n (AMsleep 1000))).
Proof.
  intros Hh. revert n s. induction Hh as [|h holds Hh _ IH]; intros n s; [apply work_wait_nil|].
  destruct n as [|n]; simpl; [by rewrite act_nil|].
  destruct (Z.eqb_spec h 0); [done|]. by rewrite IH, act_act.
Qed.

Lemma work_wait_closed before after n s :
  Forall (fun h => h <> 0) before -> (length before < n)%nat ->
  work_wait (before ++ 0 :: after) n s
    = (true, act s (replicate (S (length before)) (AMsleep 1000))).
Proof.
  intros Hb. revert n s. induction Hb as [|x before Hx _ IH]; intros [|n] s Hn; simpl in *;
    try lia; [done|].
  destruct (Z.eqb_spec x 0); [done|]. rewrite IH by lia. by rewrite act_act.
Qed.

#[local] Arguments work_wait : simpl never.

(** The credentials are as [str_store] and the device tree leave them. *)
Definition credentials (u : uart_wifi_struct) (f1 f2 : list Z) : Prop :=
  exists n1 n2, load_u16 (ssid u) 0 = Some n1 /\ load (ssid u) 0 (n1 + 3) = Some f1
    /\ load_u16 (password u) 0 = Some n2 /\ load (password u) 0 (n2 + 3) = Some f2.

(** A turn in which the module is reset. *)
Definition after_reset (s : host_net) (f1 f2 : list Z) : host_net :=
  let u := net_uw s in
  act (set_net_uw s
         (if force_reset u =? 0
          then set_netif_info_vaild (set_netif_info_recv_len
                 (set_recv_state u STATUS_LEN (uartDataLen u)) 0) 0
          else set_force_reset u 0))
    (reset_actions f1 f2 10).

Lemma work_send_ok n1 n2 f1 f2 s :
  load (ssid (net_uw s)) 0 (n1 + 3) = Some f1 -> load (password (net_uw s)) 0 (n2 + 3) = Some f2 ->
  work_send n1 n2 s = Ret (act s [AWrite f1; AWrite f2]).
Proof.
  intros H1 H2. unfold work_send. rewrite H1. cbn [access mbind outcome_bind].
  change (net_uw (act s ?l)) with (net_uw s). rewrite H2. cbn [access mbind outcome_bind]. by rewrite act_act.
Qed.

Lemma work_round_reset n1 n2 f1 f2 gpio holds s :
  load (ssid (net_uw s)) 0 (n1 + 3) = Some f1 -> load (password (net_uw s)) 0 (n2 + 3) = Some f2 ->
  force_reset (net_uw s) <> 0 \/ gpio <> 0 -> Forall (fun h => h <> 0) holds ->
  work_round n1 n2 gpio holds s = goto (after_reset s f1 f2).
Proof.
  intros H1 H2 Hr Hh. unfold work_round, work_top, after_reset, work_release.
  destruct (Z.eqb_spec (force_reset (net_uw s)) 0) as [H0|H0]; cbn [negb];
    [destruct (Z.eqb_spec gpio 0); [by destruct Hr|]|];
    rewrite (work_send_ok _ _ f1 f2) by done; cbn [mbind outcome_bind];
    rewrite work_wait_open by done; by rewrite !act_act.
Qed.

Lemma after_reset_fields s f1 f2 :
  ssid (net_uw (after_reset s f1 f2)) = ssid (net_uw s)
  /\ password (net_uw (after_reset s f1 f2)) = password (net_uw s)
  /\ force_reset (net_uw (after_reset s f1 f2)) = 0
  /\ actions (after_reset s f1 f2) = actions s ++ reset_actions f1 f2 10.
Proof.
  unfold after_reset, net_uw. destruct (Z.eqb_spec (force_reset (uw (net_rx s))) 0); by split_and!.
Qed.

(** The pin stays high during the turns [env] and is low at the next one. *)
Lemma work_turns_up n1 n2 f1 f2 env h s :
  load (ssid (net_uw s)) 0 (n1 + 3) = Some f1 -> load (password (net_uw s)) 0 (n2 + 3) = Some f2 ->
  force_reset (net_uw s) = 0 ->
  Forall (fun '(gpio, holds) => gpio <> 0 /\ Forall (fun x => x <> 0) holds) env ->
  exists s', work_turns n1 n2 (env ++ [(0, h)]) s = Ret (LinkUp, s')
    /\ carrier_ok s' = true /\ queue_stopped s' = false
    /\ actions s' = actions s ++ concat (replicate (length env) (reset_actions f1 f2 10)).
Proof.
  intros H1 H2 Hf Henv. revert s H1 H2 Hf. induction Henv as [|[gpio holds] env (Hg & Hh) _ IH];
    intros s H1 H2 Hf.
  - cbn [app work_turns]. unfold work_round, work_top. rewrite Hf. simpl. eexists. split; [done|].
    split_and!; try done. simpl. by rewrite app_nil_r.
  - cbn [app work_turns]. rewrite (work_round_reset _ _ f1 f2) by (try done; by right).
    cbn [mbind outcome_bind goto]. destruct (after_reset_fields s f1 f2) as (E1 & E2 & E3 & E4).
    destruct (IH (after_reset s f1 f2)) as (s' & -> & Hc & Hq & Ha); rewrite ?E1, ?E2; try done.
    exists s'. split_and!; try done. rewrite Ha, E4. cbn [length replicate concat].
    by rewrite <- app_assoc.
Qed.

(** The carrier and the queue as they were. *)
Definition same_link (s s' : host_net) : Prop :=
  carrier_ok s' = carrier_ok s /\ queue_stopped s' = queue_stopped s.

(** The turns while the pin is high report nothing. *)
Lemma work_turns_trying n1 n2 f1 f2 env s :
  load (ssid (net_uw s)) 0 (n1 + 3) = Some f1 -> load (password (net_uw s)) 0 (n2 + 3) = Some f2 ->
  Forall (fun '(gpio, holds) => gpio <> 0 /\ Forall (fun x => x <> 0) holds) env ->
  exists s', work_turns n1 n2 env s = Ret (Trying, s') /\ same_link s s'
    /\ actions s' = actions s ++ concat (replicate (length env) (reset_actions f1 f2 10)).
Proof.
  intros H1 H2 Henv. revert s H1 H2. induction Henv as [|[gpio holds] env (Hg & Hh) _ IH]; intros s H1 H2.
  - exists s. split_and!; try done. symmetry. apply app_nil_r.
  - cbn [work_turns]. rewrite (work_round_reset _ _ f1 f2) by (try done; by right).
    cbn [mbind outcome_bind goto]. destruct (after_reset_fields s f1 f2) as (E1 & E2 & _ & E4).
    destruct (IH (after_reset s f1 f2)) as (s' & -> & Hl & Ha); rewrite ?E1, ?E2; try done. exists s'.
    split_and!; try done. rewrite Ha, E4. cbn [length replicate concat]. by rewrite <- app_assoc.
Qed.

(** C26. Bringing the link up: after an open, the work item resets the module and sends
    the two credential frames, again every ten seconds for as long as the module
    keeps its pin high; until then carrier and queue stay as they were after every
    turn, and only the turn that finds the pin low reports the carrier and wakes the
    queue, without another reset. *)
Theorem esp8266ex_init_work_handler_up s f1 f2 gpio holds env h :
  credentials (net_uw s) f1 f2 -> force_reset (net_uw s) <> 0 ->
  Forall (fun x => x <> 0) holds ->
  Forall (fun '(gpio, holds) => gpio <> 0 /\ Forall (fun x => x <> 0) holds) env ->
  exists s', esp8266ex_init_work_handler ((gpio, holds) :: env ++ [(0, h)]) s = Ret (LinkUp, s')
    /\ carrier_ok s' = true /\ queue_stopped s' = false
    /\ actions s' = actions s ++ concat (replicate (S (length env)) (reset_actions f1 f2 10))
    /\ forall k, exists sk, esp8266ex_init_work_handler ((gpio, holds) :: take k env) s = Ret (Trying, sk)
         /\ same_link s sk
         /\ actions sk = actions s ++ concat (replicate (S (length (take k env))) (reset_actions f1 f2 10)).
Proof.
  intros (n1 & n2 & L1 & H1 & L2 & H2) Hf Hh Henv. unfold esp8266ex_init_work_handler.
  rewrite L1, L2. cbn [access mbind outcome_bind work_turns].
  rewrite (work_round_reset _ _ f1 f2) by (try done; by left).
  cbn [mbind outcome_bind goto].
  destruct (after_reset_fields (set_work s false) f1 f2) as (E1 & E2 & E3 & E4).
  destruct (work_turns_up n1 n2 f1 f2 env h (after_reset (set_work s false) f1 f2))
    as (s' & -> & Hc & Hq & Ha); rewrite ?E1, ?E2; try done.
  exists s'. split_and!; try done.
  { rewrite Ha, E4. cbn [length replicate concat]. by rewrite <- app_assoc. }
  intros k. destruct (work_turns_trying n1 n2 f1 f2 (take k env) (after_reset (set_work s false) f1 f2))
    as (sk & -> & Hl & Hak); rewrite ?E1, ?E2; try done; [by apply Forall_take|].
  exists sk. split_and!; try done. rewrite Hak, E4. cbn [length replicate concat]. by rewrite <- app_assoc.
Qed.

(** Closing during a wait: as soon as [uart_wifi_stop] has cleared [work_hold], the
    work item returns at the end of the current second, without reporting the
    carrier and without another reset. *)
Theorem esp8266ex_init_work_handler_closing s f1 f2 gpio before after env :
  credentials (net_uw s) f1 f2 -> force_reset (net_uw s) <> 0 ->
  Forall (fun x => x <> 0) before -> (length before < 10)%nat ->
  exists s', esp8266ex_init_work_handler ((gpio, before ++ 0 :: after) :: env) s = Ret (Closing, s')
    /\ carrier_ok s' = carrier_ok s
    /\ actions s' = actions s ++ reset_actions f1 f2 (S (length before)).
Proof.
  intros (n1 & n2 & L1 & H1 & L2 & H2) Hf Hb Hn. unfold esp8266ex_init_work_handler.
  rewrite L1, L2. cbn [access mbind outcome_bind work_turns]. unfold work_round, work_top, work_release.
  change (net_uw (set_work s false)) with (net_uw s).
  destruct (Z.eqb_spec (force_reset (net_uw s)) 0); [done|]. cbn [negb].
  rewrite (work_send_ok _ _ f1 f2) by done. cbn [mbind outcome_bind].
  rewrite work_wait_closed by done.
  eexists. split; [done|]. split; [done|]. simpl. by rewrite <- !app_assoc.
Qed.

(** The serial line of a successful [ttyio_init]: 921600 baud, 8N1, RTS/CTS, raw. *)
Definition raw_8n1 : action :=
  ATermios (Z.lor (Z.lor (Z.lor CREAD CLOCAL) CRTSCTS) CS8) 0 0 0 921600.

(** A tty opened, set up, and given the driver's line discipline. *)
Definition ttyio_actions (tty : list Z) : list action := [AKopen tty; raw_8n1; ALdisc tty].

Definition tty_env_ok (env : tty_env) : Prop :=
  kopen_err env = None /\ has_ops env = true /\ open_ret env = 0 /\ set_ldisc_ret env = 0.

Lemma ttyio_init_ok env s :
  (forall e, kopen_err env = Some e -> e <> 0) ->
  let '(ret, s') := ttyio_init env s in
  (ret = 0 <-> tty_env_ok env) /\ net_rx s' = net_rx s /\ work_scheduled s' = work_scheduled s
  /\ irq_requested s' = irq_requested s /\ carrier_ok s' = carrier_ok s
  /\ (ret = 0 -> disc_data_set s' = true /\ net_tty s' = tty_of (net_uw s)
       /\ actions s' = actions s ++ ttyio_actions (tty_of (net_uw s))).
Proof.
  intros Herr. unfold ttyio_init, tty_env_ok. destruct (kopen_err env) as [e|] eqn:He.
  { specialize (Herr e eq_refl). split_and!; try done. split; [done|]. by intros []. }
  destruct (has_ops env).
  2: { simpl. split_and!; try done. split; [done|]. by intros (_ & ? & _). }
  destruct (Z.eqb_spec (open_ret env) 0) as [H1|H1]; cbn [negb].
  2: { split_and!; try done. split; [done|]. by intros (_ & _ & ? & _). }
  destruct (Z.eqb_spec (set_ldisc_ret env) 0) as [H2|H2]; cbn [negb]; split_and!; try done.
  - intros _. split_and!; try done. simpl. by rewrite <- !app_assoc.
  - split; [done|]. by intros (_ & _ & _ & ?).
Qed.

(** C27. [uart_wifi_open] succeeds exactly when both credentials are configured and the
    tty and the interrupt are obtained; then the line is set up, the receive state
    and the network parameters are reset, and the work item is scheduled with a
    forced reset.  In every other case it returns an error, schedules nothing and
    leaves the carrier off or untouched. *)
Theorem uart_wifi_open_spec env irq_ret s n1 n2 :
  (forall e, kopen_err env = Some e -> e <> 0) ->
  load_u16 (ssid (net_uw s)) 0 = Some n1 -> load_u16 (password (net_uw s)) 0 = Some n2 ->
  work_scheduled s = false ->
  total (uart_wifi_open env irq_ret s) (fun '(ret, s') =>
    (ret = 0 <-> n1 <> 0 /\ n2 <> 0 /\ tty_env_ok env /\ irq_ret = 0)
    /\ (ret = 0 -> work_scheduled s' = true /\ irq_requested s' = true /\ disc_data_set s' = true
        /\ carrier_ok s' = false /\ net_tty s' = tty_of (net_uw s)
        /\ actions s' = actions s ++ ttyio_actions (tty_of (net_uw s))
        /\ force_reset (net_uw s') = 1 /\ work_hold (net_uw s') = 1
        /\ uart_recv_status (net_uw s') = STATUS_LEN /\ netif_info_recv_len (net_uw s') = 0
        /\ netif_info_vaild (net_uw s') = 0
        /\ ssid (net_uw s') = ssid (net_uw s) /\ password (net_uw s') = password (net_uw s))
    /\ (ret <> 0 -> work_scheduled s' = false /\ (carrier_ok s' = false \/ s' = s))).
Proof.
  intros Herr L1 L2 Hw. unfold uart_wifi_open. rewrite L1, L2. cbn [access mbind outcome_bind].
  destruct (Z.eqb_spec n1 0) as [->|Hn1].
  { simpl. split; [split; [done|by intros [? _]]|]. split; [done|]. intros _. split; [done|by right]. }
  destruct (Z.eqb_spec n2 0) as [->|Hn2].
  { simpl. split; [split; [done|by intros (_ & ? & _)]|]. split; [done|]. intros _. split; [done|by right]. }
  pose proof (ttyio_init_ok env (set_carrier s false) Herr) as H.
  destruct (ttyio_init env (set_carrier s false)) as [ret s1].
  destruct H as (Hiff & Hrx & Hwk & Hirq & Hcar & Hret).
  destruct (Z.eqb_spec ret 0) as [->|Hr]; cbn [negb].
  2: { simpl. split; [split; [done|intros (_ & _ & H & _); by apply Hiff in H]|].
       split; [done|]. intros _. rewrite Hwk, Hcar. split; [done|by left]. }
  destruct (Hret eq_refl) as (Hdd & Htty & Hact).
  destruct (Z.eqb_spec irq_ret 0) as [->|Hi]; cbn [negb].
  - simpl. split; [split; [intros _; by rewrite <- Hiff|done]|]. split; [|done]. intros _.
    unfold net_uw. simpl. rewrite Hrx. by split_and!.
  - simpl. split; [split; [done|by intros (_ & _ & _ & ?)]|]. split; [done|]. intros _. rewrite Hwk, Hcar. split; [done|by left].
Qed.

(** ** Witnesses *)

(** A uart with a circular transmit buffer of 4096 bytes, as serial_core keeps it. *)
Record circ := mk_circ { circ_pending : list Z; circ_sent : list Z }.
Definition UART_XMIT_SIZE : Z := 4096.
Definition circ_room (t : circ) : Z := Z.max 0 (UART_XMIT_SIZE - 1 - zlen (circ_pending t)).
#[export] Instance circ_tty : Tty circ := {|
  tty_room := circ_room;
  tty_write bs t := mk_circ (circ_pending t ++ ztake (circ_room t) bs) (circ_sent t);
  tty_drain k t := mk_circ (drop k (circ_pending t)) (circ_sent t ++ take k (circ_pending t));
  tty_line t := circ_sent t ++ circ_pending t;
|}.
#[export] Instance circ_tty_laws : TtyLaws circ.
Proof.
  split; simpl; unfold circ_room, UART_XMIT_SIZE.
  - intros t. lia.
  - intros bs t. by rewrite app_assoc.
  - intros bs t. simpl. len. lia.
  - intros k t. by rewrite <- app_assoc, take_drop.
  - intros k t. simpl. len. lia.
Qed.

Definition empty_circ : circ := mk_circ [] [].
Definition fresh_net (u : uart_wifi_struct) : host_net :=
  mk_net (mk_host_rx u 0 []) false true false false false false [] [].
Definition witness_skb (x : Z) : tx_skb := mk_tx_skb (replicate 14 0 ++ small_packet x) [[x]; [x; 2]].
Lemma witness_skb_ok x : tx_skb_ok (witness_skb x).
Proof. split; vm_compute; discriminate. Qed.

Lemma uart_wifi_tx_line_witness :
  total (tx_steps [TxOffer; TxDrain 5 true; TxOffer; TxOffer]
           ([witness_skb 1; witness_skb 2], fresh_net kzalloc_uart_wifi, empty_circ))
    (fun '(queue', s', t') =>
      exists sent, [witness_skb 1; witness_skb 2] = sent ++ queue'
        /\ tty_line t' = tty_line empty_circ ++ put_frames SPLIT_DATA (tx_payload <$> sent)
        /\ tx_packets (net_uw s') = tx_packets (net_uw (fresh_net kzalloc_uart_wifi)) + zlen sent).
Proof. apply uart_wifi_tx_line. repeat constructor; vm_compute; discriminate. Defined.

Definition full_circ : circ := mk_circ (replicate 4000 0) [].
Definition stopped_net : host_net :=
  set_do_wakeup (set_queue_stopped (fresh_net kzalloc_uart_wifi) true) true.
Lemma uart_wifi_tx_resumes_witness :
  total (tx_steps [TxDrain 3900 true; TxOffer] ([witness_skb 1], stopped_net, full_circ))
    (fun '(queue', s', t') =>
      queue' = [] /\ queue_stopped s' = false
      /\ tty_line t' = tty_line full_circ ++ put_frame SPLIT_DATA (tx_payload (witness_skb 1))).
Proof.
  apply uart_wifi_tx_resumes; [apply witness_skb_ok|reflexivity|done|vm_compute; discriminate].
Defined.

Lemma uart_wifi_xmit_frames_witness :
  total (uart_wifi_xmit 4095 (witness_skb 1) (fresh_net kzalloc_uart_wifi)) (fun '(r, s') =>
    if 4095 <? zlen (tx_payload (witness_skb 1)) + 3 then
      r = NETDEV_TX_BUSY /\ queue_stopped s' = true /\ tty_do_write_wakeup s' = true
      /\ actions s' = actions (fresh_net kzalloc_uart_wifi) /\ net_rx s' = net_rx (fresh_net kzalloc_uart_wifi)
    else
      r = NETDEV_TX_OK
      /\ (exists ws, actions s' = actions (fresh_net kzalloc_uart_wifi) ++ written ws
            /\ concat ws = put_frame SPLIT_DATA (tx_payload (witness_skb 1)) /\ zlen (concat ws) <= 4095)
      /\ uart_wifi_stats64 s' = (let '(p, b, rp, rb) := uart_wifi_stats64 (fresh_net kzalloc_uart_wifi) in
                                 (p + 1, b + zlen (tx_payload (witness_skb 1)), rp, rb))).
Proof. apply uart_wifi_xmit_frames, witness_skb_ok. Defined.

(** A driver whose credentials are configured, just opened. *)
Definition frame_field (p : list Z) (size : Z) : list Z :=
  let f := put_frame SPLIT_CMD p in f ++ replicate (Z.to_nat size - length f) 0.
Definition witness_uw : uart_wifi_struct :=
  set_force_reset (set_ssid (set_password kzalloc_uart_wifi (frame_field [49; 50; 51; 52; 53; 54; 55; 56; 0] PASSWORD_SIZE))
    (frame_field [97; 98; 0] SSID_SIZE)) 1.
Lemma witness_credentials :
  credentials (net_uw (fresh_net witness_uw)) (put_frame SPLIT_CMD [97; 98; 0])
    (put_frame SPLIT_CMD [49; 50; 51; 52; 53; 54; 55; 56; 0]).
Proof. exists 3, 9. by split_and!. Qed.

Lemma esp8266ex_init_work_handler_up_witness :
  exists s', esp8266ex_init_work_handler
               ((1, replicate 10 1) :: [(1, replicate 10 1)] ++ [(0, [])]) (fresh_net witness_uw)
             = Ret (LinkUp, s')
    /\ carrier_ok s' = true /\ queue_stopped s' = false
    /\ actions s' = actions (fresh_net witness_uw)
         ++ concat (replicate (S (length [(1, replicate 10 1)]))
              (reset_actions (put_frame SPLIT_CMD [97; 98; 0])
                 (put_frame SPLIT_CMD [49; 50; 51; 52; 53; 54; 55; 56; 0]) 10))
    /\ forall k, exists sk, esp8266ex_init_work_handler ((1, replicate 10 1) :: take k [(1, replicate 10 1)])
                              (fresh_net witness_uw) = Ret (Trying, sk)
         /\ same_link (fresh_net witness_uw) sk
         /\ actions sk = actions (fresh_net witness_uw)
              ++ concat (replicate (S (length (take k [(1, replicate 10 1)])))
                   (reset_actions (put_frame SPLIT_CMD [97; 98; 0])
                      (put_frame SPLIT_CMD [49; 50; 51; 52; 53; 54; 55; 56; 0]) 10)).
Proof.
  apply esp8266ex_init_work_handler_up; [apply witness_credentials|done| |].
  - by apply Forall_replicate.
  - apply Forall_singleton. split; [done|]. by apply Forall_replicate.
Defined.

Lemma esp8266ex_init_work_handler_closing_witness :
  exists s', esp8266ex_init_work_handler [(1, [1; 1] ++ 0 :: [1])] (fresh_net witness_uw) = Ret (Closing, s')
    /\ carrier_ok s' = carrier_ok (fresh_net witness_uw)
    /\ actions s' = actions (fresh_net witness_uw)
         ++ reset_actions (put_frame SPLIT_CMD [97; 98; 0])
              (put_frame SPLIT_CMD [49; 50; 51; 52; 53; 54; 55; 56; 0]) (S (length [1; 1])).
Proof.
  apply (esp8266ex_init_work_handler_closing _ _ _ 1 [1; 1] [1] []);
    [apply witness_credentials|done|by repeat constructor|simpl; lia].
Defined.

Lemma uart_wifi_open_spec_witness :
  let s := fresh_net witness_uw in let env := mk_tty_env None true 0 0 in
  total (uart_wifi_open env 0 s) (fun '(ret, s') =>
    (ret = 0 <-> 3 <> 0 /\ 9 <> 0 /\ tty_env_ok env /\ 0 = 0)
    /\ (ret = 0 -> work_scheduled s' = true /\ irq_requested s' = true /\ disc_data_set s' = true
        /\ carrier_ok s' = false /\ net_tty s' = tty_of (net_uw s)
        /\ actions s' = actions s ++ ttyio_actions (tty_of (net_uw s))
        /\ force_reset (net_uw s') = 1 /\ work_hold (net_uw s') = 1
        /\ uart_recv_status (net_uw s') = STATUS_LEN /\ netif_info_recv_len (net_uw s') = 0
        /\ netif_info_vaild (net_uw s') = 0
        /\ ssid (net_uw s') = ssid (net_uw s) /\ password (net_uw s') = password (net_uw s))
    /\ (ret <> 0 -> work_scheduled s' = false /\ (carrier_ok s' = false \/ s' = s))).
Proof. apply uart_wifi_open_spec; [done|reflexivity|reflexivity|reflexivity]. Defined.

(** ** A race *)

(** [uart_wifi_xmit] when the uart's transmit interrupt comes between the check of
    [write_room] and [netif_stop_queue]: [k] bytes go out and [tty_wakeup] finds
    TTY_DO_WRITE_WAKEUP not set yet. *)
Definition uart_wifi_xmit_interrupted {T} `{Tty T} (k : nat) (skb : tx_skb) (s : host_net) (t : T) :
    outcome (netdev_tx * host_net * T) :=
  if tty_room t <? xmit_len skb + 3 then
    let! ' (_, s, t) := tx_apply (TxDrain k true) ([skb], s, t) in Ret (NETDEV_TX_BUSY, xmit_busy s, t)
  else
    let! ' (r, s) := uart_wifi_xmit (tty_room t) skb s in Ret (r, s, t).

(** C39. A lost wakeup: the check and the request to be woken up are not atomic, so an
    interrupt between them that empties the uart's buffer wakes nobody.  The
    buffer is then empty, so no further transmit interrupt comes, the queue is
    stopped although there is room, and no offer sends the packet. *)
Theorem uart_wifi_xmit_lost_wakeup :
  exists (skb : tx_skb) (s : host_net) (t : circ) s' t',
    tx_skb_ok skb /\ queue_stopped s = false /\ carrier_ok s = true
    /\ uart_wifi_xmit_interrupted (length (circ_pending t)) skb s t = Ret (NETDEV_TX_BUSY, s', t')
    /\ circ_pending t' = [] /\ MAX_FRAME_LEN <= tty_room t' /\ queue_stopped s' = true
    /\ forall n, tx_steps (replicate n TxOffer) ([skb], s', t') = Ret ([skb], s', t').
Proof.
  exists (witness_skb 1), (fresh_net kzalloc_uart_wifi), (mk_circ (replicate 4090 0) []).
  do 2 eexists. split; [apply witness_skb_ok|]. split; [done|]. split; [done|].
  split; [vm_compute; reflexivity|]. split; [done|]. split; [vm_compute; discriminate|]. split; [done|].
  intros n. induction n as [|n IH]; [done|]. exact IH.
Qed.
