(* ===== verification/HostWork.v ===== *)
(** * Linux driver: the work item between its sleeps (netdev.c)

    [esp8266ex_init_work_handler] sleeps thirteen times per turn, and while it sleeps
    everything else in the driver may run.  This file cuts it at its sleeps:
    [work_micro] runs from one sleep (or the top of the loop) to the next, made of the
    pieces of which HostNetdev.v makes a turn.
    Run without interference, thirteen such steps are one [work_round] of
    HostNetdev.v.  [uart_wifi_stop] is cut in the same way where it waits, in
    [cancel_work_sync]. *)
From stdpp Require Import prelude list.
From Stdlib Require Import ZArith Lia.
From S2P Require Import Prelude Memory Wire HostState HostReceive HostNetdev.

(** Where the work item stands: not running; at the top of [while(1)]; in
    [msleep(10)] with the reset line low; in [msleep(1000)] while the module boots; in
    the [i]-th [msleep(1000)] of the waiting loop.  The two lengths are its locals
    [ssid_len] and [password_len], read once at its start. *)
Inductive work_pc :=
  | WIdle
  | WTop (ssid_len password_len : Z)
  | WReset (ssid_len password_len : Z)
  | WBoot (ssid_len password_len : Z)
  | WWait (ssid_len password_len i : Z).

Definition work_start (s : host_net) : outcome (work_pc * host_net) :=
  let? ssid_len := load_u16 (ssid (net_uw s)) 0 in
  let? password_len := load_u16 (password (net_uw s)) 0 in
  Ret (WTop ssid_len password_len, set_work s false).

(** From one sleep to the next; [gpio] is the pin's level if it is read. *)
Definition work_micro (gpio : Z) (pc : work_pc) (s : host_net) : outcome (work_pc * host_net) :=
  match pc with
  | WIdle => Ret (WIdle, s)
  | WTop n1 n2 =>
      Ret match work_top gpio s with inl s => (WReset n1 n2, s) | inr s => (WIdle, s) end
  | WReset n1 n2 => Ret (WBoot n1 n2, work_release s)
  | WBoot n1 n2 =>
      let! s := work_send n1 n2 s in Ret (WWait n1 n2 0, act s [AMsleep 1000])
  | WWait n1 n2 i =>
      if work_hold (net_uw s) =? 0 then Ret (WIdle, s)
      else if i + 1 <? 10 then Ret (WWait n1 n2 (i + 1), act s [AMsleep 1000])
      else Ret (WTop n1 n2, s)
  end.

Fixpoint work_micros (gpio : Z) (n : nat) (pc : work_pc) (s : host_net) :
    outcome (work_pc * host_net) :=
  match n with
  | O => Ret (pc, s)
  | S n => let! ' (pc, s) := work_micro gpio pc s in work_micros gpio n pc s
  end.

(** [uart_wifi_stop] up to [cancel_work_sync], and from its return on. *)
Definition uart_wifi_stop_begin (s : host_net) : host_net :=
  let s := act s [AGpioReset 0] in
  let s := set_queue_stopped (set_carrier (set_irq s false) false) true in
  set_net_uw s (set_work_hold (set_netif_info_vaild (net_uw s) 0) 0).
Definition uart_wifi_stop_end (s : host_net) : Z * host_net := (0, act (set_work s false) [AKclose (net_tty s)]).

Lemma uart_wifi_stop_split s : uart_wifi_stop s = uart_wifi_stop_end (uart_wifi_stop_begin s).
Proof. done. Qed.

(** ** The steps add up to a turn *)

Lemma work_micros_idle gpio n s : work_micros gpio n WIdle s = Ret (WIdle, s).
Proof. by induction n. Qed.

Lemma work_micros_add gpio m n pc s :
  work_micros gpio (m + n) pc s
    = (let! ' (pc, s) := work_micros gpio m pc s in work_micros gpio n pc s).
Proof.
  revert pc s. induction m as [|m IH]; intros pc s; [done|]. simpl.
  destruct (work_micro gpio pc s) as [[pc' s']| |]; [apply IH|done|done].
Qed.

(** The waiting loop from its [i]-th sleep on. *)
Lemma work_micros_wait gpio n1 n2 s (k : nat) i :
  0 <= i -> i + Z.of_nat k = 10 -> (0 < k)%nat ->
  work_micros gpio k (WWait n1 n2 i) s
    = if work_hold (net_uw s) =? 0 then Ret (WIdle, s)
      else Ret (WTop n1 n2, act s (replicate (k - 1) (AMsleep 1000))).
Proof.
  revert i s. induction k as [|k IH]; intros i s Hi Hk H0; [lia|]. cbn [work_micros work_micro].
  destruct (Z.eqb_spec (work_hold (net_uw s)) 0) as [Hh|Hh].
  { cbn [mbind outcome_bind]. apply work_micros_idle. }
  destruct k as [|k].
  - replace (i + 1 <? 10) with false by (symmetry; apply Z.ltb_ge; lia).
    simpl. by rewrite act_nil.
  - replace (i + 1 <? 10) with true by (symmetry; apply Z.ltb_lt; lia).
    cbn [mbind outcome_bind]. rewrite IH by lia.
    change (net_uw (act s ?l)) with (net_uw s). destruct (Z.eqb_spec (work_hold (net_uw s)) 0); [done|].
    rewrite act_act. simpl. by rewrite Nat.sub_0_r.
Qed.

(** What [work_round] does after the reset, for a [work_hold] that does not change. *)
Lemma work_wait_const h n s :
  (0 < n)%nat ->
  work_wait (replicate n h) n s
    = if h =? 0 then (true, act s [AMsleep 1000]) else (false, act s (replicate n (AMsleep 1000))).
Proof.
  intros Hn. destruct (Z.eqb_spec h 0) as [->|Hh].
  - by destruct n as [|n]; [lia|].
  - apply work_wait_open. by apply Forall_replicate.
Qed.

(** The work item after a turn. *)
Definition after_turn (n1 n2 : Z) (r : host_net + work_exit * host_net) : work_pc * host_net :=
  match r with
  | inl s => (WTop n1 n2, s)
  | inr (_, s) => (WIdle, s)
  end.

#[local] Arguments work_wait : simpl never.

Lemma work_micros_S gpio n pc s pc' s' :
  work_micro gpio pc s = Ret (pc', s') -> work_micros gpio (S n) pc s = work_micros gpio n pc' s'.
Proof. intros H. cbn [work_micros]. by rewrite H. Qed.

(** The reset and the wait behind it, sleep by sleep. *)
Lemma work_micros_reset gpio n1 n2 s f1 f2 :
  load (ssid (net_uw s)) 0 (n1 + 3) = Some f1 -> load (password (net_uw s)) 0 (n2 + 3) = Some f2 ->
  work_micros gpio 12 (WReset n1 n2) s
    = let! s' := work_send n1 n2 (work_release s) in
      let '(closing, s'') := work_wait (replicate 10 (work_hold (net_uw s))) 10 s' in
      Ret (after_turn n1 n2 (if closing then inr (Closing, s'') else inl s'')).
Proof.
  intros H1 H2. pose proof (work_send_ok n1 n2 f1 f2 (work_release s) H1 H2) as Hsend.
  erewrite work_micros_S by done. erewrite work_micros_S by (cbn [work_micro]; by rewrite Hsend).
  rewrite work_micros_wait, Hsend by lia. cbn [mbind outcome_bind]. rewrite (work_wait_const _ 10) by lia.
  unfold work_release. rewrite !act_act. change (net_uw (act s ?l)) with (net_uw s).
  case_match; rewrite ?act_act; done.
Qed.

(** Stepping from sleep to sleep and turning the loop agree: thirteen steps from the top
    of the loop are one turn of [while(1)], for every level of the pin, every state and
    both values of [work_hold]. *)
Theorem work_turn_is_round gpio n1 n2 s f1 f2 :
  load (ssid (net_uw s)) 0 (n1 + 3) = Some f1 -> load (password (net_uw s)) 0 (n2 + 3) = Some f2 ->
  work_micros gpio 13 (WTop n1 n2) s
    = (let! r := work_round n1 n2 gpio (replicate 10 (work_hold (net_uw s))) s in
       Ret (after_turn n1 n2 r)).
Proof.
  intros H1 H2. unfold work_round.
  assert (forall s', work_top gpio s = inl s' -> ssid (net_uw s') = ssid (net_uw s)
    /\ password (net_uw s') = password (net_uw s) /\ work_hold (net_uw s') = work_hold (net_uw s)) as Htop.
  { intros s'. unfold work_top. repeat case_match; by intros [= <-]. }
  destruct (work_top gpio s) as [s'|s'] eqn:Ht.
  - destruct (Htop s' eq_refl) as (E1 & E2 & E3). erewrite work_micros_S by (cbn [work_micro]; by rewrite Ht).
    rewrite (work_micros_reset _ _ _ _ f1 f2), E3 by congruence.
    destruct (work_send n1 n2 (work_release s')) as [s2| |]; [|done..]. cbn [mbind outcome_bind].
    by destruct (work_wait _ 10 s2) as [[|] s''].
  - erewrite work_micros_S by (cbn [work_micro]; by rewrite Ht). by rewrite work_micros_idle.
Qed.

(** ** Witnesses *)

Lemma work_turn_is_round_witness :
  work_micros 1 13 (WTop 3 9) (fresh_net witness_uw)
    = (let! r := work_round 3 9 1 (replicate 10 (work_hold (net_uw (fresh_net witness_uw)))) (fresh_net witness_uw) in
       Ret (after_turn 3 9 r)).
Proof.
  apply (work_turn_is_round 1 3 9 (fresh_net witness_uw) (put_frame SPLIT_CMD [97; 98; 0])
           (put_frame SPLIT_CMD [49; 50; 51; 52; 53; 54; 55; 56; 0])); reflexivity.
Defined.
