(* ===== verification/HostAttr.v ===== *)
(** * Linux driver: configuration (main.c)

    The sysfs attributes and the device-tree properties fill [tty_name], [ssid] and
    [password]; the latter two are kept as complete command frames, ready to be
    sent to the module.  [uart_wifi_probe] and [uart_wifi_remove] are modelled
    with the answers of the kernel's device, gpio and sysfs functions as an
    environment. *)
From Stdlib Require Import String.
From stdpp Require Import prelude list strings.
From Stdlib Require Import ZArith Lia.
From S2P Require Import Prelude Memory CString Wire HostState HostReceive HostNetdev.

Definition ENOMEM : Z := 12.
Definition PAGE_SIZE : Z := 4096.

(** ** Showing *)

(** [snprintf(buf, size, "%s\n", s)] with [s] the string at [a + off]. *)
Definition show_line (buf a : list Z) (off size : Z) : outcome (Z * list Z) :=
  let? s := cstr (zdrop off a) in snprintf 0 buf 0 size (s ++ [10]).

(** [str_show]: the return value and the page. *)
Definition str_show (name : string) (u : uart_wifi_struct) (buf : list Z) : outcome (Z * list Z) :=
  if (name =? "tty_name")%string then show_line buf (tty_name u) 0 TTY_NAME_SIZE
  else if (name =? "ssid")%string then show_line buf (ssid u) 2 WPA_MAX_SSID_LEN
  else if (name =? "password")%string then show_line buf (password u) 2 WPA_MAX_PASSWD_LEN
  else Ret (- EINVAL, buf).

(** [str_show_connect_info]: [None] while it waits for the parameters; a signal
    ends the wait with 0. *)
Definition str_show_connect_info (u : uart_wifi_struct) (signal : bool) (buf : list Z) :
    outcome (option (Z * list Z)) :=
  if netif_info_vaild u =? 0 then Ret (if signal then Some (0, buf) else None)
  else let? buf := memcpy buf 0 (netif_info u) 15 (12 * 4) in Ret (Some (12 * 4, buf)).

(** ** Storing *)

(** A credential as a command frame: the count, the string with its newline
    replaced by NUL, the terminator. *)
Definition store_frame (field buf : list Z) (count : Z) : option (list Z) :=
  field ← store_u16 field 0 count;
  field ← strncpy field 2 buf count;
  field ← store1 field (2 + count - 1) 0;
  store1 field (2 + count) SPLIT_CMD.

(** [str_store]: the return value and the new state; [buf] has [count] bytes and
    whatever the kernel keeps behind them. *)
Definition str_store (name : string) (u : uart_wifi_struct) (buf : list Z) (count : Z) :
    outcome (Z * uart_wifi_struct) :=
  let? last := load1 buf (count - 1) in
  if negb (last =? 10) then Ret (- EINVAL, u)
  else if (name =? "tty_name")%string then
    if TTY_NAME_SIZE <? count then Ret (- EINVAL, u)
    else
      let? f := strncpy (tty_name u) 0 buf count in
      let? f := store1 f (count - 1) 0 in
      Ret (count, set_tty_name u f)
  else if (name =? "ssid")%string then
    if WPA_MAX_SSID_LEN <? count then Ret (- EINVAL, u)
    else let? f := store_frame (ssid u) buf count in Ret (count, set_ssid u f)
  else if (name =? "password")%string then
    if WPA_MAX_PASSWD_LEN <? count then Ret (- EINVAL, u)
    else let? f := store_frame (password u) buf count in Ret (count, set_password u f)
  else Ret (- EINVAL, u).

(** ** Device tree *)

(** An empty credential: length 0, NUL, terminator. *)
Definition clear_frame (field : list Z) : option (list Z) :=
  field ← store_u16 field 0 0;
  field ← store1 field 2 0;
  store1 field (2 + 1) SPLIT_CMD.

(** [*((uint16_t * )f) = count; memcpy(f+2, ptr, count); *(f + 2 + count) = SPLIT_CMD;] *)
Definition copy_frame (field ptr : list Z) (count : Z) : option (list Z) :=
  field ← store_u16 field 0 count;
  field ← memcpy field 2 ptr 0 count;
  store1 field (2 + count) SPLIT_CMD.

(** What [of_property_read_string] found, without its NUL. *)
Definition dt_string : Type := option (list Z).

Definition probe_tty_name (dt : dt_string) (u : uart_wifi_struct) : outcome uart_wifi_struct :=
  let clear := (let? f := store1 (tty_name u) 0 0 in Ret (set_tty_name u f)) in
  match dt with
  | None => clear
  | Some s =>
      let count := zlen s + 1 in
      if TTY_NAME_SIZE <? count then clear
      else let? f := memcpy (tty_name u) 0 (s ++ [0]) 0 count in Ret (set_tty_name u f)
  end.

Definition probe_ssid (dt : dt_string) (u : uart_wifi_struct) : outcome uart_wifi_struct :=
  let clear := (let? f := clear_frame (ssid u) in Ret (set_ssid u f)) in
  match dt with
  | None => clear
  | Some s =>
      let count := zlen s + 1 in
      if WPA_MAX_SSID_LEN <? count then clear
      else let? f := copy_frame (ssid u) (s ++ [0]) count in Ret (set_ssid u f)
  end.

Definition probe_password (dt : dt_string) (u : uart_wifi_struct) : outcome uart_wifi_struct :=
  let clear := (let? f := clear_frame (password u) in Ret (set_password u f)) in
  match dt with
  | None => clear
  | Some s =>
      let count := zlen s + 1 in
      if PASSWORD_SIZE <? count then clear
      else let? f := copy_frame (password u) (s ++ [0]) count in Ret (set_password u f)
  end.

(** ** Probe and remove *)

(** The answers of the kernel while the device is probed. *)
Record probe_env := mk_probe_env {
  pe_kzalloc : bool;
  pe_request_reset : Z;
  pe_direction_output : Z;
  pe_request_intr : Z;
  pe_direction_input : Z;
  pe_irq : Z;
  pe_tty_name : dt_string;
  pe_ssid : dt_string;
  pe_password : dt_string;
  pe_create_file : string -> Z;
  pe_netdev_alloc : bool;
  pe_register_netdev : Z;
}.

(** The device: the driver's data, its sysfs files, its registered net_device. *)
Record device := mk_device {
  dev_u : uart_wifi_struct;
  sysfs_files : list string;
  net_registered : bool;
}.

(** [device_create_file] for each of [names]; stops at the first error. *)
Fixpoint create_files (create : string -> Z) (names : list string) (d : device) : Z * device :=
  match names with
  | [] => (0, d)
  | name :: names =>
      if negb (create name =? 0) then (create name, d)
      else create_files create names (mk_device (dev_u d) (sysfs_files d ++ [name]) (net_registered d))
  end.

(** [uart_wifi_probe]: the return value, and the device when it has been set up. *)
Definition uart_wifi_probe (env : probe_env) : outcome (Z * option device) :=
  if negb (pe_kzalloc env) then Ret (- ENOMEM, None)
  else if negb (pe_request_reset env =? 0) then Ret (pe_request_reset env, None)
  else if negb (pe_direction_output env =? 0) then Ret (pe_direction_output env, None)
  else if negb (pe_request_intr env =? 0) then Ret (pe_request_intr env, None)
  else if negb (pe_direction_input env =? 0) then Ret (pe_direction_input env, None)
  else if pe_irq env <? 0 then Ret (pe_irq env, None)
  else
    let! u := probe_tty_name (pe_tty_name env) kzalloc_uart_wifi in
    let! u := probe_ssid (pe_ssid env) u in
    let! u := probe_password (pe_password env) u in
    let '(ret, d) := create_files (pe_create_file env) ["tty_name"; "ssid"; "password"]
                       (mk_device u [] false) in
    if negb (ret =? 0) then Ret (ret, Some d)
    else
      let d := mk_device (set_netif_info_vaild (dev_u d) 0) (sysfs_files d) (net_registered d) in
      let '(ret, d) := create_files (pe_create_file env) ["netif_info"] d in
      if negb (ret =? 0) then Ret (ret, Some d)
      else
        let '(init, u) := netdev_init (pe_netdev_alloc env) (pe_register_netdev env) (dev_u d) in
        if negb (init =? 0) then Ret (ret, Some (mk_device u (sysfs_files d) false))
        else Ret (0, Some (mk_device u (sysfs_files d) true)).

(** [uart_wifi_remove].  [unregister_netdev] may only be called for a registered device;
    [uart_wifi->netdev] is null, or was refused, when [netdev_init] has failed. *)
Definition uart_wifi_remove (d : device) : outcome (Z * device) :=
  if net_registered d then
    Ret (0, mk_device (dev_u d)
              (filter (fun f => f <> "tty_name" /\ f <> "ssid" /\ f <> "password")%string (sysfs_files d))
              false)
  else Undef.

(** ** Frames in the credential fields *)

(** A store behind a known prefix extends it. *)
Lemma store_extends a off bs pre :
  ztake off a = pre -> off = zlen pre -> off + zlen bs <= zlen a ->
  exists a', store a off bs = Some a' /\ length a' = length a
    /\ ztake (off + zlen bs) a' = pre ++ bs.
Proof.
  intros Hpre Ho Hfit. destruct (store a off bs) as [a'|] eqn:Hst; [|rewrite store_Some in Hst; [done|lia..]].
  exists a'. split; [done|]. split; [by eapply store_length|]. rewrite <- Hpre. by apply store_prefix.
Qed.

(** Overwriting the last byte of a known prefix. *)
Lemma store1_last a i b pre x :
  ztake (i + 1) a = pre ++ [x] -> i = zlen pre -> i < zlen a ->
  exists a', store1 a i b = Some a' /\ length a' = length a /\ ztake (i + 1) a' = pre ++ [b].
Proof.
  intros Hpre Hi Hlt. unfold store1.
  destruct (store_extends a i [b] pre) as (a' & -> & Hl & Ht); [|done|simpl; lia|by exists a'].
  apply (f_equal (take (length pre))) in Hpre. rewrite take_take, take_app_length in Hpre.
  rewrite <- Hpre. f_equal. lia.
Qed.

(** The copy of a line without NUL into [field + 2]. *)
Lemma strncpy_line field pre line tail :
  0 ∉ line -> ztake (zlen pre) field = pre -> zlen pre + zlen line + 1 <= zlen field ->
  exists f, strncpy field (zlen pre) (line ++ 10 :: tail) (zlen line + 1) = Some f
    /\ length f = length field /\ ztake (zlen pre + (zlen line + 1)) f = pre ++ line ++ [10].
Proof.
  intros H0 Hpre Hfit. unfold strncpy.
  replace (Z.to_nat (zlen line + 1)) with (length (line ++ [10])) by (len; lia).
  rewrite cons_middle, app_assoc, strncpy_bytes_plain.
  2: { rewrite not_elem_of_app. split; [done|]. apply not_elem_of_cons. split; [done|apply not_elem_of_nil]. }
  cbn [option_bind mbind].
  destruct (store_extends field (zlen pre) (line ++ [10]) pre) as (f & -> & Hl & Ht); [done|done|len; lia|].
  exists f. split; [done|]. split; [done|]. rewrite <- Ht. f_equal. len. lia.
Qed.

Lemma store_frame_ok field line tail :
  0 ∉ line -> zlen line + 1 <= 64 -> zlen line + 4 <= zlen field ->
  exists f, store_frame field (line ++ 10 :: tail) (zlen line + 1) = Some f
    /\ length f = length field /\ ztake (zlen line + 4) f = put_frame SPLIT_CMD (line ++ [0]).
Proof.
  intros H0 Hmax Hfit. unfold store_frame, store_u16.
  destruct (store_extends field 0 (put_u16 (zlen line + 1)) []) as (f1 & -> & L1 & T1);
    [done|done|unfold put_u16; len; lia|]. cbn [option_bind mbind].
  set (pre := put_u16 (zlen line + 1)) in *. assert (zlen pre = 2) as Hpre by done.
  change ([] ++ pre) with pre in T1. rewrite Z.add_0_l in T1.
  destruct (strncpy_line f1 pre line tail) as (f2 & H2 & L2 & T2); [done|done|lia|].
  rewrite Hpre in *. rewrite H2. cbn [option_bind mbind].
  destruct (store1_last f2 (2 + (zlen line + 1) - 1) 0 (pre ++ line) 10) as (f3 & -> & L3 & T3);
    [by rewrite <- app_assoc, <- T2; f_equal; lia|len; lia|lia|].
  cbn [option_bind mbind]. unfold store1.
  destruct (store_extends f3 (2 + (zlen line + 1)) [SPLIT_CMD] ((pre ++ line) ++ [0]))
    as (f4 & -> & L4 & T4); [by rewrite <- T3; f_equal; lia|len; lia|simpl; lia|].
  exists f4. split; [done|]. split; [lia|].
  replace (zlen line + 4) with (2 + (zlen line + 1) + zlen [SPLIT_CMD]) by (simpl; lia).
  rewrite T4. unfold put_frame. replace (zlen (line ++ [0])) with (zlen line + 1) by (len; lia).
  by rewrite <- !app_assoc.
Qed.

(** The device tree's string with its NUL, as a frame; or no room. *)
Lemma copy_frame_ok field s :
  zlen s + 4 <= zlen field -> zlen s + 1 < 65536 ->
  exists f, copy_frame field (s ++ [0]) (zlen s + 1) = Some f
    /\ length f = length field /\ ztake (zlen s + 4) f = put_frame SPLIT_CMD (s ++ [0]).
Proof.
  intros Hfit Hmax. unfold copy_frame, store_u16, memcpy.
  destruct (store_extends field 0 (put_u16 (zlen s + 1)) []) as (f1 & -> & L1 & T1);
    [done|done|unfold put_u16; len; lia|]. cbn [option_bind mbind].
  set (pre := put_u16 (zlen s + 1)) in *. assert (zlen pre = 2) as Hpre by done.
  change ([] ++ pre) with pre in T1. rewrite Z.add_0_l in T1.
  rewrite load_Some, drop_0, take_ge by (len; lia). cbn [option_bind mbind].
  destruct (store_extends f1 2 (s ++ [0]) pre) as (f2 & -> & L2 & T2); [done|done|len; lia|].
  cbn [option_bind mbind]. unfold store1.
  destruct (store_extends f2 (2 + (zlen s + 1)) [SPLIT_CMD] (pre ++ s ++ [0]))
    as (f3 & -> & L3 & T3); [by rewrite <- T2; f_equal; len; lia|len; lia|simpl; lia|].
  exists f3. split; [done|]. split; [lia|].
  replace (zlen s + 4) with (2 + (zlen s + 1) + zlen [SPLIT_CMD]) by (simpl; lia).
  rewrite T3. unfold put_frame. replace (zlen (s ++ [0])) with (zlen s + 1) by (len; lia).
  by rewrite <- !app_assoc.
Qed.

Lemma copy_frame_overflows field s :
  zlen field < zlen s + 4 -> copy_frame field (s ++ [0]) (zlen s + 1) = None.
Proof.
  intros Hbig. unfold copy_frame, store_u16, memcpy.
  destruct (store field 0 _) as [f1|] eqn:H1; [|done]. cbn [option_bind mbind].
  apply store_length in H1. destruct (load _ 0 _); [|done]. cbn [option_bind mbind].
  destruct (store f1 2 _) as [f2|] eqn:H2; [|done]. cbn [option_bind mbind]. apply store_length in H2.
  unfold store1, store. replace (_ && _) with false; [done|]. symmetry. apply andb_false_iff. right.
  apply Z.leb_gt. simpl. lia.
Qed.

(** ** Showing a line *)

Lemma show_line_ok page a off line rest size :
  zdrop off a = line ++ 0 :: rest -> (0 ∉ line) -> zlen line + 1 <= size <= zlen page ->
  size <= INT_MAX ->
  exists page', show_line page a off size = Ret (zlen line + 1, page')
    /\ ztake (zlen line + 1) page' = line ++ [if zlen line + 1 <? size then 10 else 0].
Proof.
  intros Ha H0 Hsize Hmax. unfold show_line. rewrite Ha, cstr_app by done. cbn [access mbind outcome_bind].
  assert (zlen (line ++ [10]) = zlen line + 1) as HL by (len; lia). case_if as Hfit.
  - destruct (snprintf_fits 0 page 0 size (line ++ [10])) as (p & -> & _ & Ht); [lia..|].
    exists p. rewrite HL in *. by rewrite Z.add_0_l in Ht.
  - assert (size = zlen line + 1) as -> by lia.
    destruct (snprintf_truncates 0 page 0 (zlen line + 1) (line ++ [10])) as (p & -> & _ & Ht); [lia..|].
    exists p. rewrite HL, Z.add_0_l in *. split; [done|]. rewrite Ht. simpl.
    replace (Z.to_nat (zlen line + 1 - 1)) with (length line) by lia. by rewrite take_app_length.
Qed.

(** ** Properties *)

(** The sizes of the arrays in [struct uart_wifi_struct]. *)
Definition fields_ok (u : uart_wifi_struct) : Prop :=
  zlen (tty_name u) = TTY_NAME_SIZE /\ zlen (ssid u) = SSID_SIZE
  /\ zlen (password u) = PASSWORD_SIZE /\ zlen (netif_info u) = NETIF_INFO_SIZE.

Lemma fields_ok_init : fields_ok kzalloc_uart_wifi.
Proof. by split_and!. Qed.

Ltac sizes := unfold fields_ok, TTY_NAME_SIZE, SSID_SIZE, PASSWORD_SIZE, NETIF_INFO_SIZE,
  WPA_MAX_SSID_LEN, WPA_MAX_PASSWD_LEN, PAGE_SIZE, INT_MAX in *.

(** A stored frame is what the work item will read back and send. *)
Lemma frame_read_back f line :
  zlen line + 4 <= zlen f -> zlen line + 1 < 65536 ->
  ztake (zlen line + 4) f = put_frame SPLIT_CMD (line ++ [0]) ->
  load_u16 f 0 = Some (zlen line + 1)
  /\ load f 0 (zlen line + 1 + 3) = Some (put_frame SPLIT_CMD (line ++ [0])).
Proof.
  intros Hf Hmax Ht. replace (zlen line + 1 + 3) with (zlen line + 4) by lia.
  rewrite load_Some, drop_0, Ht by lia. split; [|done].
  assert (zlen (line ++ [0]) = zlen line + 1) as HL by (len; lia).
  destruct f as [|lo [|hi f]]; [simpl in Hf; lia..|].
  unfold put_frame, put_u16 in Ht. rewrite HL in Ht.
  replace (Z.to_nat (zlen line + 4)) with (S (S (length line + 2))) in Ht by lia.
  simpl in Ht. injection Ht as -> -> _. unfold load_u16. simpl. rewrite get_put_u16 by lia. done.
Qed.

Lemma str_store_line attr u line tail size :
  (attr = "ssid" /\ size = WPA_MAX_SSID_LEN \/ attr = "password" /\ size = WPA_MAX_PASSWD_LEN)%string ->
  fields_ok u -> (0 ∉ line) -> zlen line + 1 <= size ->
  exists f, zlen line + 4 <= zlen f /\ ztake (zlen line + 4) f = put_frame SPLIT_CMD (line ++ [0])
    /\ let u' := if (attr =? "ssid")%string then set_ssid u f else set_password u f in
       str_store attr u (line ++ 10 :: tail) (zlen line + 1) = Ret (zlen line + 1, u') /\ fields_ok u'.
Proof.
  intros Hattr Hf H0 Hsize. pose proof Hf as (Ht & Hs & Hp & Hn). unfold str_store.
  rewrite (load1_app_r line 10 tail) by lia. cbn [access mbind outcome_bind Z.eqb Pos.eqb negb].
  destruct Hattr as [[-> ->]|[-> ->]]; simpl.
  - replace (WPA_MAX_SSID_LEN <? zlen line + 1) with false by (symmetry; apply Z.ltb_ge; lia).
    destruct (store_frame_ok (ssid u) line tail) as (f & -> & Hl & Hpre); [done|sizes; lia..|].
    exists f. split; [sizes; lia|]. split; [done|]. split; [done|]. sizes. simpl. lia.
  - replace (WPA_MAX_PASSWD_LEN <? zlen line + 1) with false by (symmetry; apply Z.ltb_ge; lia).
    destruct (store_frame_ok (password u) line tail) as (f & -> & Hl & Hpre); [done|sizes; lia..|].
    exists f. split; [sizes; lia|]. split; [done|]. split; [done|]. sizes. simpl. lia.
Qed.

Lemma store_credentials_ok u name pass t1 t2 :
  fields_ok u -> (0 ∉ name) -> (0 ∉ pass) ->
  zlen name + 1 <= WPA_MAX_SSID_LEN -> zlen pass + 1 <= WPA_MAX_PASSWD_LEN ->
  total (let! ' (r1, u) := str_store "ssid" u (name ++ 10 :: t1) (zlen name + 1) in
         let! ' (r2, u) := str_store "password" u (pass ++ 10 :: t2) (zlen pass + 1) in
         Ret (r1, r2, u))
    (fun '(r1, r2, u') => r1 = zlen name + 1 /\ r2 = zlen pass + 1 /\ fields_ok u'
       /\ credentials u' (put_frame SPLIT_CMD (name ++ [0])) (put_frame SPLIT_CMD (pass ++ [0]))).
Proof.
  intros Hf Hn Hp Hnl Hpl.
  destruct (str_store_line "ssid" u name t1 WPA_MAX_SSID_LEN) as (f1 & HL1 & P1 & -> & Hf1); auto.
  cbn [mbind outcome_bind]. change (("ssid" =? "ssid")%string) with true. cbn iota.
  destruct (str_store_line "password" (set_ssid u f1) pass t2 WPA_MAX_PASSWD_LEN)
    as (f2 & HL2 & P2 & -> & Hf2); auto.
  simpl. split_and!; try done. exists (zlen name + 1), (zlen pass + 1). sizes.
  destruct (frame_read_back f1 name) as [? ?]; [lia|lia|done|].
  destruct (frame_read_back f2 pass) as [? ?]; [lia|lia|done|]. by split_and!.
Qed.

(** Configuring through sysfs: writing a name and a password that fit, each ended
    by a newline, leaves two well-formed command frames with NUL-terminated
    payloads, within their arrays, and returns the whole counts. *)
Theorem str_store_credentials u name pass t1 t2 :
  fields_ok u -> (0 ∉ name) -> (0 ∉ pass) ->
  zlen name + 1 <= WPA_MAX_SSID_LEN -> zlen pass + 1 <= WPA_MAX_PASSWD_LEN ->
  total (let! ' (r1, u) := str_store "ssid" u (name ++ 10 :: t1) (zlen name + 1) in
         let! ' (r2, u) := str_store "password" u (pass ++ 10 :: t2) (zlen pass + 1) in
         Ret (r1, r2, u))
    (fun '(r1, r2, u') => r1 = zlen name + 1 /\ r2 = zlen pass + 1 /\ fields_ok u'
       /\ credentials u' (put_frame SPLIT_CMD (name ++ [0])) (put_frame SPLIT_CMD (pass ++ [0]))).
Proof. apply store_credentials_ok. Qed.

(** What was stored is what is shown: reading the attribute gives back the line,
    newline included, and its length, except that a line of the maximal length
    comes back with a NUL in place of its newline. *)
Theorem str_store_show attr u line tail page size :
  (attr = "ssid" /\ size = WPA_MAX_SSID_LEN \/ attr = "password" /\ size = WPA_MAX_PASSWD_LEN)%string ->
  fields_ok u -> (0 ∉ line) -> zlen line + 1 <= size -> zlen page = PAGE_SIZE ->
  total (let! ' (n, u) := str_store attr u (line ++ 10 :: tail) (zlen line + 1) in
         let! ' (m, page) := str_show attr u page in Ret (n, m, page))
    (fun '(n, m, page') => n = zlen line + 1 /\ m = zlen line + 1
       /\ ztake m page' = line ++ [if zlen line + 1 <? size then 10 else 0]).
Proof.
  intros Hattr Hf H0 Hsize Hpage.
  destruct (str_store_line attr u line tail size Hattr Hf H0 Hsize) as (f & HL & Hpre & -> & _).
  cbn [mbind outcome_bind].
  assert (zdrop 2 f = line ++ 0 :: SPLIT_CMD :: zdrop (zlen line + 4) f) as Hstr.
  { rewrite <- (take_drop (Z.to_nat (zlen line + 4)) f) at 1. rewrite Hpre.
    unfold put_frame, put_u16. simpl. by rewrite <- !app_assoc. }
  assert (size <= PAGE_SIZE /\ size <= INT_MAX) as [Hs1 Hs2]
    by (destruct Hattr as [[_ ->]|[_ ->]]; sizes; lia).
  destruct (show_line_ok page f 2 line _ size Hstr H0) as (page' & Hshow & Hp); [lia|done|].
  destruct Hattr as [[-> ->]|[-> ->]]; unfold str_show; simpl; rewrite Hshow; simpl; by split_and!.
Qed.

(** Bad input is refused with -EINVAL and changes nothing: a line without newline,
    one longer than its attribute allows, an unknown attribute. *)
Theorem str_store_refuses attr u buf count last :
  load1 buf (count - 1) = Some last ->
  last <> 10 \/ (attr = "tty_name" /\ TTY_NAME_SIZE < count)%string
  \/ (attr = "ssid" /\ WPA_MAX_SSID_LEN < count)%string
  \/ (attr = "password" /\ WPA_MAX_PASSWD_LEN < count)%string
  \/ (attr ∉ ["tty_name"; "ssid"; "password"]%string) ->
  str_store attr u buf count = Ret (- EINVAL, u).
Proof.
  intros Hl Hbad. unfold str_store. rewrite Hl. cbn [access mbind outcome_bind].
  destruct (Z.eqb_spec last 10) as [->|Hne]; [|done]. cbn [negb].
  destruct Hbad as [?|[[-> H]|[[-> H]|[[-> H]|H]]]]; [done|apply Z.ltb_lt in H; simpl; by rewrite H..|].
  rewrite !not_elem_of_cons in H. destruct H as (H1 & H2 & H3 & _).
  by rewrite !(proj2 (String.eqb_neq _ _)) by done.
Qed.

(** C33. The password of the device tree: up to 63 characters it becomes a well-formed
    frame; from 64 to 66, which the bound on [count] lets through because it compares
    with the size of the whole array, the copy and the terminator run over the end
    of [password]; from 67 on it is replaced by an empty one. *)
Theorem probe_password_bounds s u :
  fields_ok u -> zlen s < 65535 ->
  if zlen s <=? 63 then
    exists f, probe_password (Some s) u = Ret (set_password u f) /\ zlen f = PASSWORD_SIZE
      /\ ztake (zlen s + 4) f = put_frame SPLIT_CMD (s ++ [0])
  else if zlen s <=? 66 then probe_password (Some s) u = Undef
  else exists f, probe_password (Some s) u = Ret (set_password u f)
         /\ ztake 4 f = [0; 0; 0; SPLIT_CMD].
Proof.
  intros Hf Hs. pose proof Hf as (_ & _ & Hp & _). unfold probe_password. sizes.
  case_if as H1; [|case_if as H2].
  - replace (2 + 64 + 1 <? zlen s + 1) with false by (symmetry; apply Z.ltb_ge; lia).
    destruct (copy_frame_ok (password u) s) as (f & -> & Hl & Ht); [lia..|].
    exists f. split; [done|]. split; [lia|done].
  - replace (2 + 64 + 1 <? zlen s + 1) with false by (symmetry; apply Z.ltb_ge; lia).
    by rewrite copy_frame_overflows by lia.
  - replace (2 + 64 + 1 <? zlen s + 1) with true by (symmetry; apply Z.ltb_lt; lia).
    unfold clear_frame, store_u16. destruct (password u) as [|a [|b [|c [|d f]]]]; [simpl in Hp; lia..|].
    unfold store1. rewrite store_Some by (simpl in *; lia). cbn [option_bind mbind].
    rewrite store_Some by (simpl in *; lia). cbn [option_bind mbind].
    rewrite store_Some by (simpl in *; lia). eexists. split; [done|]. done.
Qed.

Lemma probe_tty_name_ok dt u :
  fields_ok u ->
  exists f, probe_tty_name dt u = Ret (set_tty_name u f) /\ zlen f = TTY_NAME_SIZE /\ 0 ∈ f.
Proof.
  intros (Ht & _). unfold probe_tty_name. sizes.
  assert (exists f, store1 (tty_name u) 0 0 = Some f /\ zlen f = 10 /\ 0 ∈ f) as (f0 & Hf0 & L0 & I0).
  { unfold store1. destruct (store_total (tty_name u) 0 [0]) as (f & Hf & HL); [simpl; lia..|].
    exists f. split; [done|]. split; [lia|]. eapply store_elem; [done|]. by left. }
  destruct dt as [s|]; [case_if as H|]; [by rewrite Hf0; exists f0| |by rewrite Hf0; exists f0].
  unfold memcpy. rewrite load_Some, drop_0, take_ge by (len; lia). cbn [option_bind mbind].
  destruct (store_total (tty_name u) 0 (s ++ [0])) as (f & Hf & HL); [lia|len; lia|]. rewrite Hf.
  exists f. split; [done|]. split; [lia|]. eapply store_elem; [done|]. apply elem_of_app. right. by left.
Qed.

Lemma probe_ssid_ok s u :
  fields_ok u -> zlen s + 1 <= WPA_MAX_SSID_LEN ->
  exists f, probe_ssid (Some s) u = Ret (set_ssid u f) /\ zlen f = SSID_SIZE
    /\ ztake (zlen s + 4) f = put_frame SPLIT_CMD (s ++ [0]).
Proof.
  intros (_ & Hs & _) Hl. unfold probe_ssid. sizes.
  replace (32 <? zlen s + 1) with false by (symmetry; apply Z.ltb_ge; lia).
  destruct (copy_frame_ok (ssid u) s) as (f & -> & L & T); [lia..|]. exists f. split; [done|]. split; [lia|done].
Qed.

Lemma probe_password_ok s u :
  fields_ok u -> zlen s + 1 <= WPA_MAX_PASSWD_LEN ->
  exists f, probe_password (Some s) u = Ret (set_password u f) /\ zlen f = PASSWORD_SIZE
    /\ ztake (zlen s + 4) f = put_frame SPLIT_CMD (s ++ [0]).
Proof.
  intros (_ & _ & Hp & _) Hl. unfold probe_password. sizes.
  replace (2 + 64 + 1 <? zlen s + 1) with false by (symmetry; apply Z.ltb_ge; lia).
  destruct (copy_frame_ok (password u) s) as (f & -> & L & T); [lia..|]. exists f. split; [done|]. split; [lia|done].
Qed.

(** Nothing fails before the network device is set up. *)
Definition probe_env_ok (env : probe_env) : Prop :=
  pe_kzalloc env = true /\ pe_request_reset env = 0 /\ pe_direction_output env = 0
  /\ pe_request_intr env = 0 /\ pe_direction_input env = 0 /\ 0 <= pe_irq env
  /\ forall name, pe_create_file env name = 0.

Definition attr_files : list string := ["tty_name"; "ssid"; "password"; "netif_info"]%string.

(** What a probe does once nothing fails before the network device. *)
Lemma uart_wifi_probe_ok env name pass :
  probe_env_ok env -> pe_ssid env = Some name -> pe_password env = Some pass ->
  zlen name + 1 <= WPA_MAX_SSID_LEN -> zlen pass + 1 <= WPA_MAX_PASSWD_LEN ->
  exists u, uart_wifi_probe env
      = Ret (0, Some (mk_device u attr_files
                        (pe_netdev_alloc env && (pe_register_netdev env =? 0))))
    /\ fields_ok u /\ netif_info_vaild u = 0
    /\ credentials u (put_frame SPLIT_CMD (name ++ [0])) (put_frame SPLIT_CMD (pass ++ [0])).
Proof.
  intros (H1 & H2 & H3 & H4 & H5 & H6 & Hcr) Hn Hp Hnl Hpl. unfold uart_wifi_probe.
  rewrite H1, H2, H3, H4, H5. cbn [negb Z.eqb].
  replace (pe_irq env <? 0) with false by (symmetry; apply Z.ltb_ge; lia).
  destruct (probe_tty_name_ok (pe_tty_name env) kzalloc_uart_wifi fields_ok_init) as (f0 & -> & L0 & _).
  cbn [mbind outcome_bind]. rewrite Hn, Hp. set (u0 := set_tty_name _ f0).
  assert (fields_ok u0) as Hu0 by (sizes; simpl; split_and!; done).
  destruct (probe_ssid_ok name u0 Hu0 Hnl) as (f1 & -> & L1 & T1). cbn [mbind outcome_bind].
  assert (fields_ok (set_ssid u0 f1)) as Hu1 by (sizes; simpl; split_and!; done).
  destruct (probe_password_ok pass (set_ssid u0 f1) Hu1 Hpl) as (f2 & -> & L2 & T2).
  cbn [mbind outcome_bind create_files]. rewrite !Hcr. cbn [negb Z.eqb create_files].
  assert (forall u, ssid u = f1 -> password u = f2 ->
    credentials u (put_frame SPLIT_CMD (name ++ [0])) (put_frame SPLIT_CMD (pass ++ [0]))) as Hcred.
  { intros u E1 E2. exists (zlen name + 1), (zlen pass + 1). rewrite E1, E2. sizes.
    destruct (frame_read_back f1 name) as [? ?]; [lia|lia|done|].
    destruct (frame_read_back f2 pass) as [? ?]; [lia|lia|done|]. by split_and!. }
  unfold netdev_init. destruct (pe_netdev_alloc env); cbn [negb andb].
  - destruct (Z.eqb_spec (pe_register_netdev env) 0); cbn [negb Z.eqb];
      (eexists; split; [done|]; split; [sizes; by split_and!|]; split; [done|by apply Hcred]).
  - eexists. split; [done|]. split; [sizes; by split_and!|]. split; [done|by apply Hcred].
Qed.

(** C31. A successful probe with credentials in the device tree that fit creates the
    four attributes, registers the network device, and leaves both credentials as
    well-formed command frames within their arrays. *)
Theorem uart_wifi_probe_configures env name pass :
  probe_env_ok env -> pe_ssid env = Some name -> pe_password env = Some pass ->
  zlen name + 1 <= WPA_MAX_SSID_LEN -> zlen pass + 1 <= WPA_MAX_PASSWD_LEN ->
  pe_netdev_alloc env = true -> pe_register_netdev env = 0 ->
  exists u, uart_wifi_probe env = Ret (0, Some (mk_device u attr_files true))
    /\ fields_ok u /\ netif_info_vaild u = 0
    /\ credentials u (put_frame SPLIT_CMD (name ++ [0])) (put_frame SPLIT_CMD (pass ++ [0])).
Proof.
  intros Henv Hn Hp Hnl Hpl Ha Hr.
  destruct (uart_wifi_probe_ok env name pass Henv Hn Hp Hnl Hpl) as (u & Hu & ?).
  rewrite Ha, Hr in Hu. by exists u.
Qed.

(** A probe reports success although the network device could not be allocated or
    registered: [ret] is still the 0 of the last [device_create_file].  Removing such a
    device unregisters a network device that is not there. *)
Theorem uart_wifi_probe_hides_failure env name pass :
  probe_env_ok env -> pe_ssid env = Some name -> pe_password env = Some pass ->
  zlen name + 1 <= WPA_MAX_SSID_LEN -> zlen pass + 1 <= WPA_MAX_PASSWD_LEN ->
  pe_netdev_alloc env = false \/ pe_register_netdev env <> 0 ->
  exists d, uart_wifi_probe env = Ret (0, Some d) /\ net_registered d = false /\ uart_wifi_remove d = Undef.
Proof.
  intros Henv Hn Hp Hnl Hpl Hbad.
  destruct (uart_wifi_probe_ok env name pass Henv Hn Hp Hnl Hpl) as (u & Hu & _).
  eexists. split; [exact Hu|]. unfold uart_wifi_remove. simpl. destruct Hbad as [-> |Hr]; [done|].
  apply Z.eqb_neq in Hr. rewrite Hr. by rewrite andb_false_r.
Qed.

(** [uart_wifi_remove] does not undo the probe: the file [netif_info] stays behind
    and keeps pointing at the driver's code and freed data. *)
Theorem uart_wifi_remove_leaves_file u :
  uart_wifi_remove (mk_device u attr_files true) = Ret (0, mk_device u ["netif_info"%string] false).
Proof. reflexivity. Qed.

Lemma cstr_prefix s t n rest :
  cstr s = Some t -> zlen t < n -> n <= zlen s -> cstr (ztake n s ++ rest) = Some t.
Proof.
  revert t n. induction s as [|b s IH]; intros t n Ht Hn Hs; [done|]. simpl in *.
  replace (Z.to_nat n) with (S (Z.to_nat (n - 1))) by lia. simpl.
  destruct (b =? 0); [done|]. destruct (cstr s) as [t'|]; [|done]. simplify_eq/=.
  by rewrite (IH t') by (done || lia).
Qed.

(** [str_show_connect_info] blocks until the parameters have arrived; then it
    returns the 48 bytes that hold their text as a NUL-terminated string. *)
Theorem str_show_connect_info_text u signal page t :
  fields_ok u -> PAGE_SIZE <= zlen page ->
  cstr (zdrop 15 (netif_info u)) = Some t -> zlen t <= 47 ->
  total (str_show_connect_info u signal page) (fun r =>
    if netif_info_vaild u =? 0 then r = (if signal then Some (0, page) else None)
    else exists page', r = Some (48, page') /\ cstr page' = Some t).
Proof.
  intros (_ & _ & _ & Hn) Hp Ht Hlen. sizes. unfold str_show_connect_info.
  case_if as Hv; [done|]. unfold memcpy. rewrite load_Some by lia. cbn [option_bind mbind].
  rewrite store_Some by (len; lia). cbn [access mbind outcome_bind post]. eexists. split; [done|].
  simpl (ztake 0 page). rewrite app_nil_l. apply cstr_prefix; [done|lia|len; lia].
Qed.

(** ** Witnesses *)

Definition page0 : list Z := replicate (Z.to_nat PAGE_SIZE) 0.

Lemma no_nul_witness : (0 ∉ [97; 98]) /\ (0 ∉ [49; 50; 51; 52; 53; 54; 55; 56]).
Proof. split; rewrite !not_elem_of_cons; split_and!; try done; apply not_elem_of_nil. Qed.

Lemma str_store_credentials_witness :
  total (let! ' (r1, u) := str_store "ssid" kzalloc_uart_wifi ([97; 98] ++ 10 :: [0]) (zlen [97; 98] + 1) in
         let! ' (r2, u) := str_store "password" u ([49; 50; 51; 52; 53; 54; 55; 56] ++ 10 :: [0])
                             (zlen [49; 50; 51; 52; 53; 54; 55; 56] + 1) in
         Ret (r1, r2, u))
    (fun '(r1, r2, u') => r1 = zlen [97; 98] + 1 /\ r2 = zlen [49; 50; 51; 52; 53; 54; 55; 56] + 1
       /\ fields_ok u' /\ credentials u' (put_frame SPLIT_CMD ([97; 98] ++ [0]))
            (put_frame SPLIT_CMD ([49; 50; 51; 52; 53; 54; 55; 56] ++ [0]))).
Proof.
  apply str_store_credentials; [apply fields_ok_init|apply no_nul_witness|apply no_nul_witness| |];
    vm_compute; discriminate.
Defined.

Lemma str_store_show_witness :
  total (let! ' (n, u) := str_store "ssid" kzalloc_uart_wifi (replicate 31 97 ++ 10 :: []) (zlen (replicate 31 97) + 1) in
         let! ' (m, page) := str_show "ssid" u page0 in Ret (n, m, page))
    (fun '(n, m, page') => n = zlen (replicate 31 97) + 1 /\ m = zlen (replicate 31 97) + 1
       /\ ztake m page' = replicate 31 97
            ++ [if zlen (replicate 31 97) + 1 <? WPA_MAX_SSID_LEN then 10 else 0]).
Proof.
  apply str_store_show; [by left|apply fields_ok_init| |vm_compute; discriminate|reflexivity].
  intros Hin. apply elem_of_replicate in Hin as [? _]. done.
Defined.

Lemma str_store_refuses_witness :
  str_store "ssid" kzalloc_uart_wifi [97; 98] 2 = Ret (- EINVAL, kzalloc_uart_wifi).
Proof. apply (str_store_refuses _ _ _ _ 98); [reflexivity|by left]. Defined.

Lemma probe_password_bounds_witness :
  probe_password (Some (replicate 65 97)) kzalloc_uart_wifi = Undef.
Proof.
  apply (probe_password_bounds (replicate 65 97) kzalloc_uart_wifi);
    [apply fields_ok_init|vm_compute; reflexivity].
Defined.

Definition witness_probe (net_ok : bool) : probe_env :=
  mk_probe_env true 0 0 0 0 42 None (Some [97; 98]) (Some [49; 50]) (fun _ => 0) net_ok 0.
Lemma witness_probe_ok b : probe_env_ok (witness_probe b).
Proof. split_and!; try done. Qed.

Lemma uart_wifi_probe_configures_witness :
  exists u, uart_wifi_probe (witness_probe true) = Ret (0, Some (mk_device u attr_files true))
    /\ fields_ok u /\ netif_info_vaild u = 0
    /\ credentials u (put_frame SPLIT_CMD ([97; 98] ++ [0])) (put_frame SPLIT_CMD ([49; 50] ++ [0])).
Proof.
  apply uart_wifi_probe_configures; [apply witness_probe_ok|reflexivity|reflexivity| | |reflexivity|reflexivity];
    vm_compute; discriminate.
Defined.

Lemma uart_wifi_probe_hides_failure_witness :
  exists d, uart_wifi_probe (witness_probe false) = Ret (0, Some d) /\ net_registered d = false
    /\ uart_wifi_remove d = Undef.
Proof.
  apply (uart_wifi_probe_hides_failure _ [97; 98] [49; 50]);
    [apply witness_probe_ok|reflexivity|reflexivity|vm_compute; discriminate|vm_compute; discriminate|by left].
Defined.

Definition witness_shown : uart_wifi_struct :=
  set_netif_info_vaild (set_netif_info kzalloc_uart_wifi (replicate 15 0 ++ [49; 46; 50; 10] ++ replicate 45 0)) 1.
Lemma str_show_connect_info_text_witness :
  total (str_show_connect_info witness_shown false page0) (fun r =>
    if netif_info_vaild witness_shown =? 0 then r = None
    else exists page', r = Some (48, page') /\ cstr page' = Some [49; 46; 50; 10]).
Proof.
  apply (str_show_connect_info_text witness_shown false page0 [49; 46; 50; 10]);
    [by split_and!|vm_compute; discriminate|reflexivity|simpl; lia].
Defined.
