(* ===== verification/HostShape.v ===== *)
(** * Linux driver: the shape of its state, whatever arrives

    The C types of [struct uart_wifi_struct] and the bounds its functions rely on, as
    one record [uw_wf], and the proof that each operation keeps it: reception of
    arbitrary bytes, sysfs writes, the device tree.  Reception may be undefined on
    bad input (HostReceive.v, HostNetifInfo.v), so the statements here are partial:
    when the code returns, the state is in shape. *)
From Stdlib Require Import String.
From stdpp Require Import prelude list strings.
From Stdlib Require Import ZArith Lia.
From S2P Require Import Prelude Memory CString Wire HostState HostDump HostReceive HostNetifInfo.
From S2P Require Import HostNetdev HostAttr.

(** The skb in hand lies within its memory. *)
Record skb_wf (skb : sk_buff) : Prop := {
  swf_data : data skb = ETH_HLEN - 2;
  swf_tail : skb_tail skb = data skb + skb_len skb;
  swf_len : 0 <= skb_len skb;
  swf_room : data skb + skb_len skb <= zlen (lin skb);
  swf_mem : zlen (lin skb) < 65536;
}.

Definition skb_opt_wf (o : option sk_buff) : Prop :=
  match o with Some skb => skb_wf skb | None => True end.

(** The frame kept in a credential field lies within it, and so does the string at [f + 2]. *)
Definition frame_fits (f : list Z) : Prop :=
  (exists n, load_u16 f 0 = Some n /\ 0 <= n /\ n + 3 <= zlen f)
  /\ exists i, 2 <= i /\ load1 f i = Some 0.

Definition is_s16 (z : Z) : Prop := -32768 <= z < 32768.
Definition is_flag (z : Z) : Prop := z = 0 \/ z = 1.

(** Array sizes, credential frames, the ranges of the integer fields, the skb, and the
    NUL of the tty's name. *)
Record uw_wf (u : uart_wifi_struct) : Prop := {
  wf_fields : fields_ok u;
  wf_ssid : frame_fits (ssid u);
  wf_password : frame_fits (password u);
  wf_skb : skb_opt_wf (recv_skb u);
  wf_dl : is_s16 (uartDataLen u);
  wf_recv_len : 0 <= netif_info_recv_len u <= 15;
  wf_flags : is_flag (netif_info_vaild u) /\ is_flag (force_reset u) /\ is_flag (work_hold u);
  wf_name : 0 ∈ tty_name u;
}.

(** ** Receiving packets *)

(** What reception of packets leaves alone. *)
Record rx_frame (u u' : uart_wifi_struct) : Prop := {
  rf_tty : tty_name u' = tty_name u;
  rf_ssid : ssid u' = ssid u;
  rf_password : password u' = password u;
  rf_netif : netif_info u' = netif_info u /\ netif_info_recv_len u' = netif_info_recv_len u
             /\ netif_info_vaild u' = netif_info_vaild u;
  rf_work : work_hold u' = work_hold u /\ force_reset u' = force_reset u;
}.

Lemma rx_frame_refl u : rx_frame u u.
Proof. by constructor. Qed.

Lemma load_s16_range a off n : load_s16 a off = Some n -> is_s16 n.
Proof.
  unfold load_s16. destruct (load1 a off); [|done]. simpl. destruct (load1 a (off + 1)); [|done].
  simpl. intros [= <-]. apply s16_range.
Qed.

Section Receive.
Context {K : Kernel} {KL : KernelLaws K}.

Lemma alloc_new_skb_wf s r s' :
  alloc_new_skb_to_recv s = Ret (r, s') ->
  rx_frame (uw s) (uw s') /\ uartDataLen (uw s') = uartDataLen (uw s)
  /\ (r <> 0 /\ recv_skb (uw s') = None
      \/ r = 0 /\ exists skb, recv_skb (uw s') = Some skb /\ skb_wf skb).
Proof.
  unfold alloc_new_skb_to_recv. destruct (netdev_alloc_skb _ _) as [mem|] eqn:Ha.
  - apply netdev_alloc_skb_size in Ha. unfold MAX_RECV_LEN in Ha.
    pose proof (skb_data_align_le ETH_HLEN). pose proof (skb_data_align_lt ETH_HLEN).
    unfold ETH_HLEN, MTU_LEN in *. destruct (store mem 0 _) as [mem'|] eqn:Hs; [|done].
    apply store_length in Hs. intros [= <- <-]. split; [by constructor|]. split; [done|]. right.
    split; [done|]. eexists. split; [done|]. constructor; simpl; try done; lia.
  - intros [= <- <-]. split; [by constructor|]. split; [done|]. by left.
Qed.

Context (u0 : uart_wifi_struct) (cp : list Z) (count : Z).

Definition rx_wf (l : rx_locals) : Prop :=
  (exists skb, rx_skb l = Some skb /\ skb_wf skb) /\ rx_frame u0 (uw (rx_s l)) /\ is_s16 (rx_dl l).
Definition rx_left_wf (l : rx_locals) : Prop :=
  skb_opt_wf (rx_skb l) /\ rx_frame u0 (uw (rx_s l)) /\ is_s16 (rx_dl l).
Definition rx_step_wf (r : rx_locals + rx_locals) : Prop :=
  match r with inl l => rx_wf l | inr l => rx_left_wf l end.

Lemma rx_wf_leave l : rx_wf l -> rx_left_wf l.
Proof. intros [(skb & Hl & Hs) H]. split; [|done]. by rewrite Hl. Qed.

(** A new skb in place of the old one. *)
Lemma rx_set_skb_wf skb l : rx_wf l -> skb_wf skb -> rx_wf (rx_set_skb skb l).
Proof.
  intros (_ & [] & Hd) Hs. split; [by exists skb|]. split; [|done]. by constructor.
Qed.

Lemma skb_put_wf skb off n skb' :
  skb_wf skb -> skb_put_data skb cp off n = Some skb' -> skb_wf skb'.
Proof.
  intros [Hd Ht Hl Hr Hm]. unfold skb_put_data, memcpy.
  destruct (load cp off n) as [bs|] eqn:Hb; [|done]. cbn [option_bind mbind].
  destruct (store (lin skb) (skb_tail skb) bs) as [lin'|] eqn:Hs; [|done]. cbn [option_bind mbind].
  intros [= <-]. apply load_inv in Hb as (? & ? & ? & ->). pose proof (store_length _ _ _ _ Hs) as HL.
  apply store_inv in Hs as (? & Hfit & _). rewrite length_take, length_drop in Hfit.
  unfold ETH_HLEN in *. constructor; simpl; rewrite ?u32_small; unfold ETH_HLEN; lia.
Qed.

Lemma rx_copy_wf l skb want :
  rx_wf l -> skb_wf skb -> partial (rx_copy cp l skb want) rx_step_wf.
Proof.
  intros Hl Hs. unfold rx_copy. apply partial_bind, partial_access. intros skb' Hp.
  apply (rx_set_skb_wf skb' l) in Hl; [|by eapply skb_put_wf]. exact Hl.
Qed.

Lemma rx_split_wf l skb :
  rx_wf l -> skb_wf skb -> partial (rx_split cp count l skb) rx_step_wf.
Proof.
  intros Hl Hs. pose proof Hs as [Hd Ht H0 Hr Hm]. unfold rx_split. apply partial_bind, partial_access.
  intros seen Hseen. apply load_inv in Hseen as (_ & _ & _ & ->).
  destruct (split_index SPLIT_DATA _) as [skip|] eqn:Hsk.
  - apply split_index_bounds in Hsk. rewrite length_take, length_drop in Hsk.
    unfold ETH_HLEN in *. rewrite u32_small by lia.
    apply partial_bind. eapply partial_mono; [apply partial_any|]. intros _ _.
    apply partial_bind, partial_access. intros mem Hmem. apply memcpy_length in Hmem.
    apply partial_bind, partial_access. intros left _.
    apply partial_bind. eapply partial_mono; [apply partial_any|]. intros _ _.
    apply (rx_set_skb_wf (mk_skb mem (data skb) (skb_tail skb - skip) (skb_len skb - skip)
             (mac_header skb) (protocol skb)) l) in Hl; [exact Hl|].
    constructor; simpl; unfold ETH_HLEN; lia.
  - assert (rx_wf (rx_set_skb (mk_skb (lin skb) (data skb) (data skb) 0 (mac_header skb)
      (protocol skb)) l)) as Hl'.
    { apply rx_set_skb_wf; [done|]. constructor; simpl; lia. }
    case_match; [|by apply rx_wf_leave].
    apply partial_bind. eapply partial_mono; [apply partial_any|]. intros _ _. exact Hl'.
Qed.

Lemma rx_deliver_wf l skb : rx_wf l -> partial (rx_deliver l skb) rx_step_wf.
Proof.
  intros (_ & Hf & Hd). unfold rx_deliver. apply partial_bind, partial_access. intros mem _.
  cbn zeta. destruct (netif_rx_ni _ _) as [ret len_after].
  set (s := mk_host_rx _ _ _). apply partial_bind.
  destruct (alloc_new_skb_to_recv s) as [[r s']| |] eqn:Ha; [|done..]. cbn [partial].
  apply alloc_new_skb_wf in Ha as (Hf' & _ & Hr).
  assert (rx_frame u0 (uw s')) as Hu.
  { destruct Hf' as [? ? ? (?&?&?) (?&?)], Hf as [? ? ? (?&?&?) (?&?)]. subst s.
    simpl in *. constructor; repeat split; congruence. }
  destruct Hr as [[Hr Hn]|(-> & skb' & Hn & Hw)].
  - destruct (Z.eqb_spec r 0); [done|]. simpl. split; [by unfold rx_skb; simpl; rewrite Hn|]. done.
  - simpl. split; [by exists skb'|]. done.
Qed.

Lemma rx_data_wf l skb :
  rx_wf l -> skb_wf skb -> partial (rx_data cp count l skb) rx_step_wf.
Proof.
  intros Hl Hs. unfold rx_data. case_match; [case_match; [by apply rx_wf_leave|by apply rx_copy_wf]|].
  apply partial_bind, partial_access. intros b _. case_match; [by apply rx_deliver_wf|by apply rx_split_wf].
Qed.

Lemma rx_step_wf_all l : rx_wf l -> partial (rx_step cp count l) rx_step_wf.
Proof.
  intros Hl. pose proof Hl as [(skb & Hk & Hs) [Hf Hd]]. unfold rx_step. rewrite Hk.
  cbn [access mbind outcome_bind]. destruct (rx_status l).
  - case_match; [case_match; [by apply rx_wf_leave|by apply rx_copy_wf]|].
    apply partial_bind, partial_access. intros dl Hdl%load_s16_range.
    assert (forall st, rx_wf (rx_set_status st (rx_set_dl dl l))) as Hl' by (intros st; split; [by exists skb|done]).
    case_match; [apply Hl'|]. apply rx_data_wf; [apply Hl'|done].
  - by apply rx_data_wf.
  - by apply rx_split_wf.
Qed.
End Receive.

(** ** What any reception leaves alone *)

(** The configuration and the fields of the link management. *)
Record same_config (u u' : uart_wifi_struct) : Prop := {
  sc_tty : tty_name u' = tty_name u;
  sc_ssid : ssid u' = ssid u;
  sc_password : password u' = password u;
  sc_hold : work_hold u' = work_hold u;
  sc_reset : force_reset u' = force_reset u;
}.

Section ReceiveData.
Context {K : Kernel} {KL : KernelLaws K}.

Lemma rx_exit_wf u l :
  uw_wf u -> rx_left_wf u l -> uw_wf (uw (rx_exit l).2) /\ same_config u (uw (rx_exit l).2).
Proof.
  intros [(?&?&?&?) ? ? _ _ ? (?&?&?)] (Hs & [Ht Hs1 Hp (Hn&Hl&Hv) (Hh&Hf)] & Hd). split.
  - constructor; simpl; rewrite ?Ht, ?Hs1, ?Hp, ?Hl, ?Hv, ?Hf, ?Hh; try done.
    unfold fields_ok. simpl. by rewrite Ht, Hs1, Hp, Hn.
  - by constructor.
Qed.

Lemma rx_run_wf u cp count fuel l :
  uw_wf u -> rx_wf u l ->
  partial (let! l := run (rx_step cp count) fuel l in Ret (rx_exit l))
    (fun '(_, s) => uw_wf (uw s) /\ same_config u (uw s)).
Proof.
  intros Hu Hl. apply partial_bind.
  apply (partial_mono _ (rx_left_wf u)); [|intros l' Hl'; by apply rx_exit_wf].
  apply (run_partial _ (rx_wf u)); [|done]. intros l' Hl'.
  eapply partial_mono; [by apply (rx_step_wf_all u)|]. by intros [].
Qed.

Lemma ttyio_receive_data_wf cp s :
  uw_wf (uw s) ->
  partial (ttyio_receive_data cp s) (fun '(_, s') => uw_wf (uw s') /\ same_config (uw s) (uw s')).
Proof.
  intros Hu. pose proof Hu as [_ _ _ Hk Hd _ _]. unfold ttyio_receive_data.
  destruct (recv_skb (uw s)) as [skb|] eqn:Hskb.
  - apply rx_run_wf; [done|]. split; [by exists skb|]. split; [apply rx_frame_refl|done].
  - apply partial_bind. destruct (alloc_new_skb_to_recv s) as [[r s']| |] eqn:Ha; [|done..].
    apply alloc_new_skb_wf in Ha as (Hf & Hdl & Hr). cbn [partial rx_status rx_dl].
    destruct Hr as [[Hr Hn]|(-> & skb & Hn & Hs)].
    + destruct (Z.eqb_spec r 0); [done|]. cbn [negb]. apply (rx_exit_wf (uw s) _ Hu).
      split; [unfold rx_skb; simpl; by rewrite Hn|done].
    + apply rx_run_wf; [done|]. split; [by exists skb|done].
Qed.
End ReceiveData.

(** ** Receiving the parameters *)

Section NetifInfo.
Context (u0 : uart_wifi_struct) (cp : list Z).

Record ni_frame (u : uart_wifi_struct) : Prop := {
  nf_size : zlen (netif_info u) = NETIF_INFO_SIZE;
  nf_config : same_config u0 u;
  nf_skb : recv_skb u = recv_skb u0;
  nf_dl : uartDataLen u = uartDataLen u0;
  nf_len : netif_info_recv_len u = netif_info_recv_len u0;
}.

(** At [restart], for whatever bytes arrive. *)
Record ni_wf (l : ni_locals) : Prop := {
  nw_u : ni_frame (ni_u l);
  nw_vaild : netif_info_vaild (ni_u l) = netif_info_vaild u0;
  nw_len : 0 <= ni_len l <= 15;
  nw_dl : ni_status l = STATUS_DATA -> ni_dl l = 12;
}.

Definition ni_exit_wf (e : ni_exit) : Prop :=
  match e with
  | NiExit l => ni_wf l
  | NiDone l _ => ni_frame (ni_u l) /\ netif_info_vaild (ni_u l) = 1
  end.
Definition ni_step_wf (r : ni_locals + ni_exit) : Prop :=
  match r with inl l => ni_wf l | inr e => ni_exit_wf e end.

Lemma ni_set_buffer_frame u a :
  ni_frame u -> length a = length (netif_info u) -> ni_frame (set_netif_info u a).
Proof.
  intros [Hs [] Hk Hd Hn] Ha. constructor; simpl; try done; by rewrite Ha.
Qed.

Lemma ni_copy_wf l want :
  ni_wf l -> ni_len l + want <= 15 -> partial (ni_copy cp l want) ni_step_wf.
Proof.
  intros [Hu Hv Hl Hd] Hw. unfold ni_copy. case_match; [done|]. apply partial_bind, partial_access.
  intros a Ha. pose proof (memcpy_length _ _ _ _ _ _ Ha) as HL. unfold memcpy in Ha.
  destruct (load cp _ _) as [bs|] eqn:Hb; [|done]. apply load_inv in Hb as (_ & H0 & _ & _).
  constructor; simpl; try done; [by apply ni_set_buffer_frame|]. rewrite s16_small; lia.
Qed.

Lemma ni_find_range l from :
  0 <= from -> partial (ni_find l from) (fun r => forall skip, r = Some skip -> from <= skip < ni_len l).
Proof.
  intros H0. unfold ni_find. case_if as Hle; [done|]. apply partial_bind, partial_access. intros seen Hseen.
  apply load_inv in Hseen as (_ & _ & _ & ->). intros skip Hs.
  destruct (split_index 12 _) as [i|] eqn:Hi; [|done]. injection Hs as <-.
  apply split_index_bounds in Hi. rewrite length_take in Hi. lia.
Qed.

Lemma ni_relocate_wf l skip :
  ni_wf l -> 0 <= skip <= ni_len l -> partial (ni_relocate l skip) ni_step_wf.
Proof.
  intros [Hu Hv Hl Hd] Hs. unfold ni_relocate. apply partial_bind, partial_access. intros seen _.
  apply partial_bind. eapply partial_mono; [apply partial_any|]. intros _ _.
  apply partial_bind, partial_access. intros a Ha%memcpy_length.
  apply partial_bind, partial_access. intros left _.
  apply partial_bind. eapply partial_mono; [apply partial_any|]. intros _ _.
  constructor; simpl; try done; [by apply ni_set_buffer_frame|]. rewrite s16_small; lia.
Qed.

Lemma ni_split_wf l : ni_wf l -> partial (ni_split cp l) ni_step_wf.
Proof.
  intros Hw. pose proof Hw as [Hu Hv Hl Hd]. unfold ni_split. apply partial_bind.
  eapply partial_mono; [by apply ni_find_range|]. intros [skip|] Hr.
  { specialize (Hr skip eq_refl). apply ni_relocate_wf; [done|lia]. }
  assert (ni_wf (ni_set_buffer (netif_info (ni_u l)) 0 l)) as [Hu' Hv' Hl' Hd'].
  { constructor; simpl; try done. by apply ni_set_buffer_frame. }
  case_match; [|by constructor].
  apply partial_bind. eapply partial_mono; [apply partial_any|]. intros _ _. by constructor.
Qed.

Lemma transform_netif_info_length buf :
  partial (transform_netif_info buf) (fun buf' => length buf' = length buf).
Proof.
  unfold transform_netif_info. apply partial_bind, partial_access. intros info _. unfold snprintf.
  cbn [Z.ltb Z.eqb Z.compare Z.mul Pos.mul Pos.compare Pos.compare_cont].
  change (INT_MAX <? 48) with false. cbn [mbind outcome_bind].
  destruct (store buf 15 _) as [buf'|] eqn:Hs; [|done]. by apply store_length in Hs.
Qed.

Lemma ni_data_wf l : ni_wf l -> ni_dl l = 12 -> partial (ni_data cp l) ni_step_wf.
Proof.
  intros Hw Hdl. pose proof Hw as [Hu Hv Hl Hd]. unfold ni_data. rewrite Hdl.
  case_if as Hlt; [apply ni_copy_wf; [done|lia]|]. apply partial_bind, partial_access. intros b _.
  case_match; [|apply ni_split_wf; by constructor].
  apply partial_bind. eapply partial_mono; [apply partial_any|]. intros _ _.
  apply partial_bind. eapply partial_mono; [apply transform_netif_info_length|]. intros a Ha.
  split; [|done]. apply (ni_set_buffer_frame _ a) in Hu as [Hs [] Hk Hdl' Hn]; [|done].
  constructor; simpl; try done.
Qed.

Lemma ni_step_wf_all l : ni_wf l -> partial (ni_step cp l) ni_step_wf.
Proof.
  intros Hw. pose proof Hw as [Hu Hv Hl Hd]. unfold ni_step. destruct (ni_status l) eqn:Hst.
  - case_if as Hlt; [apply ni_copy_wf; [done|lia]|]. apply partial_bind, partial_access. intros dl _.
    destruct (Z.eqb_spec dl 12) as [->|Hne]; cbn [negb].
    { apply ni_data_wf; [by constructor|done]. }
    apply partial_bind, partial_access. intros b _. apply partial_bind.
    assert (partial (if b =? 12 then ni_find (ni_set_dl dl l) 1 else Ret None)
              (fun r => forall skip, r = Some skip -> 0 <= skip <= ni_len l)) as Hf.
    { case_match; [|done]. eapply partial_mono; [by apply ni_find_range|]. simpl.
      intros r Hr skip Hs%Hr. lia. }
    assert (forall st, st <> STATUS_DATA -> ni_wf (ni_set_status st (ni_set_dl dl l))) as Hw' by by constructor.
    eapply partial_mono; [exact Hf|]. intros [skip|] Hr; [|by apply Hw'].
    apply ni_relocate_wf; [|by apply Hr]. constructor; simpl; try done. congruence.
  - apply ni_data_wf; auto.
  - by apply ni_split_wf.
Qed.
End NetifInfo.

Lemma ttyio_netif_info_wf fuel cp u :
  uw_wf u ->
  partial (ttyio_netif_info fuel cp u) (fun '(_, u', _) =>
    (uw_wf u' /\ same_config u u') /\ recv_skb u' = recv_skb u /\ uartDataLen u' = uartDataLen u).
Proof.
  intros [(?&?&?&?) ? ? ? ? ? (?&?&?)]. unfold ttyio_netif_info.
  assert (forall u' st n, ni_frame u u' -> 0 <= n <= 15 -> is_flag (netif_info_vaild u') ->
            let v := set_netif_info_recv_len (set_recv_state u' st (uartDataLen u')) n in
            (uw_wf v /\ same_config u v) /\ recv_skb v = recv_skb u /\ uartDataLen v = uartDataLen u) as Hdone.
  { intros u' st n [Hs [Ht Hs1 Hp Hh Hr] Hk Hd _] Hl Hv. split; [|done]. split; [|by constructor].
    constructor; simpl; rewrite ?Ht, ?Hs1, ?Hp, ?Hk, ?Hd, ?Hh, ?Hr; try done.
    unfold fields_ok. simpl. by rewrite Ht, Hs1, Hp. }
  apply partial_bind. eapply partial_mono; [apply partial_any|]. intros _ _. apply partial_bind.
  apply (partial_mono _ (ni_exit_wf u)).
  - apply (run_partial _ (ni_wf u)).
    + intros l Hl. eapply partial_mono; [by apply (ni_step_wf_all u)|]. by intros [].
    + constructor; simpl; try done.
  - intros [l|l echo]; simpl.
    + intros [Hf Hv Hl _]. apply Hdone; [done|done|by rewrite Hv].
    + intros [Hf Hv].
      assert (0 <= netif_info_recv_len (ni_u l) <= 15) as Hl by by rewrite (nf_len _ _ Hf).
      destruct (Hdone _ (uart_recv_status (ni_u l)) _ Hf Hl); [by right|]. by destruct (ni_u l).
Qed.

(** The line discipline's entry, whatever arrives. *)
Lemma ttyio_receive_buf2_wf {K : Kernel} {KL : KernelLaws K} fuel cp s :
  uw_wf (uw s) ->
  partial (ttyio_receive_buf2 fuel cp (Some s)) (fun '(_, s', _) =>
    exists s1, s' = Some s1 /\ uw_wf (uw s1) /\ same_config (uw s) (uw s1)).
Proof.
  intros Hu. cbn [ttyio_receive_buf2]. case_match; apply partial_bind.
  - eapply partial_mono; [by apply ttyio_receive_data_wf|]. intros [n s1] H1. by exists s1.
  - eapply partial_mono; [by apply ttyio_netif_info_wf|]. intros [[n u'] w] [H1 _]. by eexists.
Qed.

(** ** Configuration *)

Lemma strncpy_bytes_total s n : (n <= length s)%nat -> exists bs, strncpy_bytes s n = Some bs.
Proof.
  revert s. induction n as [|n IH]; intros s H; [by exists []|]. destruct s as [|b s]; simpl in H; [lia|].
  simpl. case_match; [by eexists|]. destruct (IH s) as [bs ->]; [lia|]. by eexists.
Qed.

(** The length word at the front of a credential field. *)
Lemma store_u16_read field n f :
  store_u16 field 0 n = Some f -> 0 <= n < 65536 -> load_u16 f 0 = Some n.
Proof.
  intros (_ & _ & ->)%store_inv Hn. unfold load_u16, put_u16. simpl. by rewrite get_put_u16.
Qed.

Lemma load_u16_kept f off bs f' :
  store f off bs = Some f' -> 2 <= off -> load_u16 f' 0 = load_u16 f 0.
Proof.
  intros Hs Ho. pose proof (store_before _ _ _ _ 2 Hs Ho) as HP. unfold load_u16.
  by rewrite !(load1_take _ _ 2), HP by lia.
Qed.

(** A byte in front of a store stays, and a stored byte is there. *)
Lemma load1_kept f off bs f' i :
  store f off bs = Some f' -> 0 <= i < off -> load1 f' i = load1 f i.
Proof. intros Hs Hi. by rewrite !(load1_take _ i off), (store_before _ _ _ _ off Hs) by lia. Qed.

Lemma load1_stored f off bs b f' :
  store f off (bs ++ [b]) = Some f' -> load1 f' (off + zlen bs) = Some b.
Proof.
  intros Hs. pose proof Hs as (H0 & Hf & _)%store_inv. revert Hf. len. intros Hf. apply store_prefix in Hs.
  rewrite (load1_take _ _ (off + zlen (bs ++ [b]))), Hs by (len; lia).
  rewrite app_assoc. apply list_lookup_middle. len. lia.
Qed.

(** Length word, some stores behind it, terminator: how every credential is written. *)
Lemma frame_built field n f1 f2 f :
  0 <= n < 65536 -> store_u16 field 0 n = Some f1 -> load_u16 f2 0 = load_u16 f1 0 ->
  length f2 = length f1 -> load1 f2 (2 + n - 1) = Some 0 -> 1 <= n ->
  store1 f2 (2 + n) SPLIT_CMD = Some f ->
  frame_fits f /\ length f = length field.
Proof.
  intros Hn H1 H2 HL H0 Hn1 H3. pose proof (store_length _ _ _ _ H1) as L1. pose proof (store_length _ _ _ _ H3) as L3.
  split; [|congruence]. split.
  - exists n. rewrite (load_u16_kept _ _ _ _ H3), H2 by lia.
    split; [by eapply store_u16_read|]. split; [lia|].
    apply store_inv in H3 as (_ & Hfit & _). simpl in Hfit. lia.
  - exists (2 + n - 1). split; [lia|]. by rewrite (load1_kept _ _ _ _ _ H3) by lia.
Qed.

Lemma copy_frame_fits field str f :
  copy_frame field (str ++ [0]) (zlen str + 1) = Some f -> zlen str + 1 < 65536 ->
  frame_fits f /\ length f = length field.
Proof.
  unfold copy_frame. intros H Hn. destruct (store_u16 field 0 _) as [f1|] eqn:H1; [|done].
  cbn [option_bind mbind] in H. destruct (memcpy f1 2 _ 0 _) as [f2|] eqn:H2; [|done].
  cbn [option_bind mbind] in H. pose proof (memcpy_length _ _ _ _ _ _ H2) as L2.
  unfold memcpy in H2. rewrite load_Some, drop_0, take_ge in H2 by (len; lia). cbn [option_bind mbind] in H2.
  apply (frame_built field (zlen str + 1) f1 f2 f); try done; [lia|by apply (load_u16_kept _ _ _ _ H2)| |lia].
  rewrite <- (load1_stored _ _ _ _ _ H2). f_equal. lia.
Qed.

Lemma clear_frame_fits field f :
  clear_frame field = Some f -> frame_fits f /\ length f = length field.
Proof.
  unfold clear_frame. intros H. destruct (store_u16 field 0 0) as [f1|] eqn:H1; [|done].
  cbn [option_bind mbind] in H. destruct (store1 f1 2 0) as [f2|] eqn:H2; [|done].
  cbn [option_bind mbind] in H. pose proof (store_length _ _ _ _ H1) as L1.
  pose proof (store_length _ _ _ _ H2) as L2. pose proof (store_length _ _ _ _ H) as L3.
  split; [|congruence]. split.
  - exists 0. rewrite (load_u16_kept _ _ _ _ H), (load_u16_kept _ _ _ _ H2) by lia.
    split; [by eapply store_u16_read|]. apply store_inv in H as (_ & Hfit & _). simpl in Hfit. lia.
  - exists 2. split; [lia|]. rewrite (load1_kept _ _ _ _ _ H) by lia. apply (load1_stored _ _ [] _ _ H2).
Qed.

Lemma store_frame_fits field buf n f :
  store_frame field buf n = Some f -> 1 <= n < 65536 -> frame_fits f /\ length f = length field.
Proof.
  unfold store_frame. intros H Hn. destruct (store_u16 field 0 n) as [f1|] eqn:H1; [|done].
  cbn [option_bind mbind] in H. destruct (strncpy f1 2 buf n) as [f2|] eqn:H2; [|done].
  cbn [option_bind mbind] in H. destruct (store1 f2 (2 + n - 1) 0) as [f3|] eqn:H3; [|done].
  cbn [option_bind mbind] in H. unfold strncpy in H2. destruct (strncpy_bytes buf _) as [bs|]; [|done].
  simpl in H2. apply (frame_built field n f1 f3 f); try done; [lia| | | |lia].
  - rewrite (load_u16_kept _ _ _ _ H3) by lia. by apply (load_u16_kept _ _ _ _ H2).
  - rewrite (store_length _ _ _ _ H3). by apply (store_length _ _ _ _ H2).
  - rewrite <- (load1_stored _ _ [] _ _ H3). f_equal. simpl. lia.
Qed.

(** Room for the whole frame: the store is defined, whatever the bytes are. *)
Lemma store_frame_total field buf n :
  1 <= n <= zlen buf -> n + 3 <= zlen field -> exists f, store_frame field buf n = Some f.
Proof.
  intros Hn Hf. unfold store_frame, store_u16, store1, strncpy.
  destruct (store_total field 0 (put_u16 n)) as (f1 & -> & L1); [lia|simpl; lia|]. cbn [option_bind mbind].
  destruct (strncpy_bytes_total buf (Z.to_nat n)) as [bs Hbs]; [lia|]. rewrite Hbs.
  apply strncpy_bytes_length in Hbs. cbn [option_bind mbind].
  destruct (store_total f1 2 bs) as (f2 & -> & L2); [lia..|]. cbn [option_bind mbind].
  destruct (store_total f2 (2 + n - 1) [0]) as (f3 & -> & L3); [simpl; lia..|]. cbn [option_bind mbind].
  destruct (store_total f3 (2 + n) [SPLIT_CMD]) as (f4 & -> & L4); [simpl; lia..|]. by eexists.
Qed.

(** What a sysfs write leaves alone: everything but the three attributes. *)
Definition same_session (u u' : uart_wifi_struct) : Prop :=
  uart_recv_status u' = uart_recv_status u /\ uartDataLen u' = uartDataLen u
  /\ recv_skb u' = recv_skb u /\ netif_info u' = netif_info u
  /\ netif_info_recv_len u' = netif_info_recv_len u /\ netif_info_vaild u' = netif_info_vaild u
  /\ work_hold u' = work_hold u /\ force_reset u' = force_reset u
  /\ (rx_packets u', rx_bytes u', tx_packets u', tx_bytes u')
     = (rx_packets u, rx_bytes u, tx_packets u, tx_bytes u).

Lemma set_ssid_wf u f : uw_wf u -> frame_fits f -> length f = length (ssid u) -> uw_wf (set_ssid u f).
Proof.
  intros [(?&?&?&?) ? ? ? ? ? ?] Hf HL. constructor; simpl; try done. unfold fields_ok. simpl. by rewrite HL.
Qed.
Lemma set_password_wf u f :
  uw_wf u -> frame_fits f -> length f = length (password u) -> uw_wf (set_password u f).
Proof.
  intros [(?&?&?&?) ? ? ? ? ? ?] Hf HL. constructor; simpl; try done. unfold fields_ok. simpl. by rewrite HL.
Qed.
Lemma set_tty_name_wf u f :
  uw_wf u -> length f = length (tty_name u) -> 0 ∈ f -> uw_wf (set_tty_name u f).
Proof.
  intros [(?&?&?&?) ? ? ? ? ? ?] HL Hin. constructor; simpl; try done. unfold fields_ok. simpl. by rewrite HL.
Qed.

Lemma str_store_wf attr u buf count :
  uw_wf u -> 1 <= count <= zlen buf ->
  total (str_store attr u buf count) (fun '(_, u') => uw_wf u' /\ same_session u u').
Proof.
  intros Hu Hc. pose proof Hu as [(Ht&Hs&Hp&_) _ _ _ _ _ _]. sizes. unfold str_store. sizes.
  destruct (load1_is_Some buf (count - 1)) as [b ->]; [lia|]. cbn [access mbind outcome_bind].
  assert (post (Ret (- EINVAL, u)) False (fun '(_, u') => uw_wf u' /\ same_session u u')) as Hno by done.
  case_match; [done|]. case_match; [|case_match; [|case_match; [|done]]].
  - case_if as Hlt; [done|]. unfold strncpy.
    destruct (strncpy_bytes_total buf (Z.to_nat count)) as [bs Hbs]; [lia|]. rewrite Hbs.
    apply strncpy_bytes_length in Hbs. cbn [option_bind mbind].
    destruct (store_total (tty_name u) 0 bs) as (f1 & -> & L1); [lia..|]. cbn [access mbind outcome_bind].
    unfold store1. destruct (store_total f1 (count - 1) [0]) as (f2 & Hf2 & L2); [simpl; lia..|].
    rewrite Hf2. cbn [access mbind outcome_bind]. split; [|done].
    apply set_tty_name_wf; [done|congruence|]. eapply store_elem; [done|by left].
  - case_if as Hlt; [done|]. destruct (store_frame_total (ssid u) buf count) as [f Hf]; [lia..|].
    rewrite Hf. cbn [access mbind outcome_bind]. apply store_frame_fits in Hf as [? ?]; [|lia].
    split; [by apply set_ssid_wf|done].
  - case_if as Hlt; [done|]. destruct (store_frame_total (password u) buf count) as [f Hf]; [lia..|].
    rewrite Hf. cbn [access mbind outcome_bind]. apply store_frame_fits in Hf as [? ?]; [|lia].
    split; [by apply set_password_wf|done].
Qed.

(** A NUL somewhere makes a string. *)
Lemma cstr_is_Some l : 0 ∈ l -> exists t, cstr l = Some t.
Proof.
  induction l as [|b l IH]; [by intros ?%not_elem_of_nil|]. simpl. destruct (Z.eqb_spec b 0) as [->|Hb]; [by eexists|].
  intros [?|H]%elem_of_cons; [done|]. destruct (IH H) as [t ->]. by eexists.
Qed.

Lemma show_line_total page a off size :
  0 ∈ zdrop off a -> 1 <= size <= zlen page -> size <= INT_MAX ->
  exists n page', show_line page a off size = Ret (n, page').
Proof.
  intros [t Ht]%cstr_is_Some Hs Hm. unfold show_line. rewrite Ht. cbn [access mbind outcome_bind].
  unfold snprintf. case_if as H1; [lia|]. case_if as H2; [lia|].
  destruct (store_total page 0 (ztake (size - 1) (t ++ [10]) ++ [0])) as (p & -> & _); [lia|len; lia|].
  by do 2 eexists.
Qed.

Lemma frame_fits_string f : frame_fits f -> 0 ∈ zdrop 2 f.
Proof.
  intros [_ (i & Hi & H0)]. rewrite load1_lookup in H0 by lia.
  apply (list_elem_of_lookup_2 _ (Z.to_nat (i - 2))). rewrite lookup_drop, <- H0. f_equal. lia.
Qed.

(** Reading the attributes is defined in every state that is in shape. *)
Lemma str_show_total attr u page :
  uw_wf u -> PAGE_SIZE <= zlen page -> exists n page', str_show attr u page = Ret (n, page').
Proof.
  intros Hu Hp. pose proof (wf_fields _ Hu) as (Ht & _). unfold PAGE_SIZE in Hp. unfold str_show. sizes.
  case_match; [|case_match; [|case_match; [|by do 2 eexists]]]; apply show_line_total;
    try (unfold INT_MAX; lia).
  - rewrite drop_0. apply (wf_name _ Hu).
  - apply frame_fits_string, (wf_ssid _ Hu).
  - apply frame_fits_string, (wf_password _ Hu).
Qed.

Lemma str_show_connect_info_total u signal page :
  uw_wf u -> PAGE_SIZE <= zlen page -> exists r, str_show_connect_info u signal page = Ret r.
Proof.
  intros Hu Hp. pose proof (wf_fields _ Hu) as (_ & _ & _ & Hn). unfold PAGE_SIZE in Hp.
  unfold str_show_connect_info, memcpy. case_match; [by eexists|]. sizes.
  rewrite load_Some by lia. cbn [option_bind mbind].
  destruct (store_total page 0 (ztake (12 * 4) (zdrop 15 (netif_info u)))) as (p & -> & _); [lia|len; lia|].
  by eexists.
Qed.

Lemma kzalloc_wf : uw_wf kzalloc_uart_wifi.
Proof.
  constructor; try done; [split; [by exists 0|by exists 2]..|split_and!; by left|].
  apply list_elem_of_here.
Qed.

Lemma probe_tty_name_wf dt u : uw_wf u -> partial (probe_tty_name dt u) uw_wf.
Proof.
  intros Hu. destruct (probe_tty_name_ok dt u (wf_fields _ Hu)) as (f & -> & HL & H0).
  destruct (wf_fields _ Hu) as (Ht & _). apply set_tty_name_wf; [done|lia|done].
Qed.

Lemma probe_ssid_wf dt u : uw_wf u -> partial (probe_ssid dt u) uw_wf.
Proof.
  intros Hu. assert (partial (let? f := clear_frame (ssid u) in Ret (set_ssid u f)) uw_wf) as Hc.
  { apply partial_bind, partial_access. intros f [? ?]%clear_frame_fits. by apply set_ssid_wf. }
  unfold probe_ssid. destruct dt as [s|]; [|done]. case_if as Hs; [done|]. unfold WPA_MAX_SSID_LEN in Hs.
  apply partial_bind, partial_access. intros f [? ?]%copy_frame_fits; [by apply set_ssid_wf|lia].
Qed.

Lemma probe_password_wf dt u : uw_wf u -> partial (probe_password dt u) uw_wf.
Proof.
  intros Hu. assert (partial (let? f := clear_frame (password u) in Ret (set_password u f)) uw_wf) as Hc.
  { apply partial_bind, partial_access. intros f [? ?]%clear_frame_fits. by apply set_password_wf. }
  unfold probe_password. destruct dt as [s|]; [|done]. case_if as Hs; [done|]. sizes.
  apply partial_bind, partial_access. intros f [? ?]%copy_frame_fits; [by apply set_password_wf|lia].
Qed.

Lemma create_files_dev create names d r d' :
  create_files create names d = (r, d') -> dev_u d' = dev_u d.
Proof.
  revert d. induction names as [|n names IH]; simpl; intros d; [by intros [= _ <-]|].
  case_match; [by intros [= _ <-]|]. by intros ->%IH.
Qed.

Lemma uart_wifi_probe_wf env :
  partial (uart_wifi_probe env) (fun '(_, d) => match d with Some d => uw_wf (dev_u d) | None => True end).
Proof.
  unfold uart_wifi_probe. do 6 (case_match; [done|]). apply partial_bind.
  eapply partial_mono; [apply probe_tty_name_wf, kzalloc_wf|]. intros u1 W1. apply partial_bind.
  eapply partial_mono; [by apply probe_ssid_wf|]. intros u2 W2. apply partial_bind.
  eapply partial_mono; [by apply probe_password_wf|]. intros u3 W3.
  destruct (create_files _ _ _) as [ret d] eqn:Hc. apply create_files_dev in Hc. simpl in Hc. subst u3.
  case_match; [done|]. destruct (create_files _ _ (mk_device _ _ _)) as [ret2 d2] eqn:Hc2.
  apply create_files_dev in Hc2. simpl in Hc2.
  assert (uw_wf (dev_u d2)) as W4.
  { rewrite Hc2. destruct W3 as [? ? ? ? ? ? (?&?&?)]. constructor; try done. split; [by left|done]. }
  case_match; [done|]. unfold netdev_init. destruct W4 as [? ? ? ? ? ? (?&?&?)].
  repeat case_match; simplify_eq/=; constructor; try done.
Qed.
