(* ===== verification/HostSystem.v ===== *)
(** * Linux driver: the whole driver as a transition system

    Everything that can happen to a probed device, as events: sysfs reads and writes,
    opening, closing and removing the interface, the interrupt, the work item from
    sleep to sleep, packets to send, received bytes, wakeups, statistics.  [sys_exec] is
    what the code does at one event; [sys_run] follows a sequence of them.  Events are
    atomic, as on one processor without preemption: the driver gives way where it
    sleeps.

    The kernel's part is in the guards: [ndo_open] and [ndo_stop] alternate,
    [ndo_start_xmit] is called on an interface that is up, with carrier, and whose
    queue runs, [tty_kopen] refuses a tty that is open, a work item runs once at a time,
    [cancel_work_sync] waits until it does not run, an attribute is read and written
    through its file, and [unregister_netdev] closes the interface first.  Which ttys
    are open follows from the calls the code makes ([tty_acts]). *)
From Stdlib Require Import String.
From stdpp Require Import prelude list strings gmap.
From Stdlib Require Import ZArith Lia.
From S2P Require Import Prelude Memory CString Wire HostState HostDump HostReceive HostNetifInfo.
From S2P Require Import HostNetdev HostWork HostAttr HostShape.

(** The interface: not registered, which the probe did not report; down; up; inside
    [uart_wifi_stop], waiting for the work item; or removed with the device, whose data
    has been freed. *)
Inductive if_state := IfAbsent | IfDown | IfUp | IfStopping | IfGone.
#[export] Instance if_state_eq_dec : EqDecision if_state.
Proof. solve_decision. Defined.

(** The device: the driver, its work item, the interface, the open ttys by name
    ([Some held] where the line discipline leads to the driver, with the bytes it has
    not taken yet), and the sysfs files. *)
Record host_sys := mk_sys {
  sys_net : host_net;
  sys_pc : work_pc;
  sys_if : if_state;
  sys_ttys : gmap (list Z) (option (list Z));
  sys_files : list string;
}.

Definition sys_uw (s : host_sys) : uart_wifi_struct := net_uw (sys_net s).
Definition sys_tty (s : host_sys) : list Z := net_tty (sys_net s).

(** ** The ttys *)

(** What a call does to the open ttys. *)
Definition tty_act (ttys : gmap (list Z) (option (list Z))) (a : action) : gmap (list Z) (option (list Z)) :=
  match a with
  | AKopen name => <[name := None]> ttys
  | ALdisc name => <[name := Some []]> ttys
  | AKclose name => delete name ttys
  | _ => ttys
  end.
Definition tty_acts (ttys : gmap (list Z) (option (list Z))) (l : list action) : gmap (list Z) (option (list Z)) :=
  foldl tty_act ttys l.

(** The state after code that took the driver from [sys_net s] to [n]: the ttys follow
    from the calls it has added. *)
Definition sys_after (s : host_sys) (n : host_net) (pc : work_pc) (i : if_state) : host_sys :=
  mk_sys n pc i (tty_acts (sys_ttys s) (drop (length (actions (sys_net s))) (actions n))) (sys_files s).

(** The same, for code that neither belongs to the work item nor opens or closes. *)
Definition with_net (s : host_sys) (n : host_net) : host_sys := sys_after s n (sys_pc s) (sys_if s).

Definition with_held (name held : list Z) (s : host_sys) : host_sys :=
  mk_sys (sys_net s) (sys_pc s) (sys_if s) (<[name := Some held]> (sys_ttys s)) (sys_files s).

Definition set_net_rx (rx : host_rx) (n : host_net) : host_net :=
  mk_net rx (queue_stopped n) (carrier_ok n) (tty_do_write_wakeup n)
    (irq_requested n) (work_scheduled n) (disc_data_set n) (net_tty n) (actions n).

(** [uart_wifi->tty] is open with the driver's line discipline. *)
Definition tty_attached (s : host_sys) : bool :=
  match sys_ttys s !! sys_tty s with Some (Some _) => true | _ => false end.

(** ** Events *)

Inductive sys_event :=
  | EvShow (attr : string) (page : list Z) (signal : bool)
  | EvStore (attr : string) (buf : list Z) (count : Z)
  | EvOpen (env : tty_env) (irq_ret : Z)
  | EvStop
  | EvStopped                                   (* cancel_work_sync returns *)
  | EvIrq
  | EvWorkStart
  | EvWork (gpio : Z)
  | EvXmit (room : Z) (skb : tx_skb)
  | EvWakeup
  | EvStats
  | EvReceive (name : list Z) (fuel : nat) (chunk : list Z)
  | EvRemove.

(** An error of [tty_kopen] is an ERR_PTR, and it is sure to fail on an open tty. *)
Definition kopen_allowed (env : tty_env) (is_open : bool) : bool :=
  match kopen_err env with Some e => negb (e =? 0) | None => negb is_open end.

(** [uart_wifi_open] gets a tty from [tty_kopen]: not without credentials. *)
Definition tty_kopened (env : tty_env) (u : uart_wifi_struct) : bool :=
  match load_u16 (ssid u) 0, load_u16 (password u) 0, kopen_err env with
  | Some n1, Some n2, None => negb (n1 =? 0) && negb (n2 =? 0)
  | _, _, _ => false
  end.

Section System.
Context {K : Kernel}.

(** What an event does; [None] when it cannot happen in this state.  Behind the removal
    everything that still leads to the driver leads to freed memory. *)
Definition sys_exec (e : sys_event) (s : host_sys) : option (outcome host_sys) :=
  let n := sys_net s in
  match e with
  | EvShow attr page signal =>
      if bool_decide (attr ∈ sys_files s) && (PAGE_SIZE <=? zlen page) then
        Some (if bool_decide (sys_if s = IfGone) then Undef
              else if (attr =? "netif_info")%string then
                let! _ := str_show_connect_info (net_uw n) signal page in Ret s
              else let! _ := str_show attr (net_uw n) page in Ret s)
      else None
  | EvStore attr buf count =>
      if bool_decide (attr ∈ sys_files s) && negb (attr =? "netif_info")%string
         && (1 <=? count) && (count <=? zlen buf) then
        Some (let! ' (_, u) := str_store attr (net_uw n) buf count in Ret (with_net s (set_net_uw n u)))
      else None
  | EvOpen env irq_ret =>
      if bool_decide (sys_if s = IfDown)
         && kopen_allowed env (bool_decide (is_Some (sys_ttys s !! tty_of (net_uw n)))) then
        Some (let! ' (ret, n) := uart_wifi_open env irq_ret n in
              Ret (sys_after s n (sys_pc s) (if ret =? 0 then IfUp else IfDown)))
      else None
  | EvStop =>
      if bool_decide (sys_if s = IfUp) then
        Some (Ret (sys_after s (uart_wifi_stop_begin n) (sys_pc s) IfStopping))
      else None
  | EvStopped =>
      match sys_if s, sys_pc s with
      | IfStopping, WIdle =>
          let '(_, n) := uart_wifi_stop_end n in Some (Ret (sys_after s n WIdle IfDown))
      | _, _ => None
      end
  | EvIrq => if irq_requested n then Some (Ret (with_net s (gpio_irq_handler n))) else None
  | EvWorkStart =>
      match sys_if s, sys_pc s with
      | IfUp, WIdle =>
          if work_scheduled n then
            Some (let! ' (pc, n) := work_start n in Ret (sys_after s n pc (sys_if s)))
          else None
      | _, _ => None
      end
  | EvWork gpio =>
      match sys_pc s with
      | WIdle => None
      | pc => Some (let! ' (pc, n) := work_micro gpio pc n in Ret (sys_after s n pc (sys_if s)))
      end
  | EvXmit room skb =>
      if bool_decide (sys_if s = IfUp) && carrier_ok n && negb (queue_stopped n)
         && (ETH_HLEN <=? zlen (tx_linear skb)) then
        Some (let! ' (_, n) := uart_wifi_xmit room skb n in Ret (with_net s n))
      else None
  | EvWakeup =>
      if tty_attached s && tty_do_write_wakeup n then
        Some (if bool_decide (sys_if s = IfGone) then Undef else Ret (with_net s (ttyio_write_wakeup n)))
      else None
  | EvStats =>
      if bool_decide (sys_if s = IfAbsent) || bool_decide (sys_if s = IfGone) then None
      else Some (let '(_, _, _, _) := uart_wifi_stats64 n in Ret s)
  | EvReceive name fuel chunk =>
      match sys_ttys s !! name with
      | Some (Some held) =>
          if bool_decide (sys_if s = IfGone) then Some Undef
          else
            let cp := held ++ chunk in
            Some (let! ' (m, rx, w) := ttyio_receive_buf2 fuel cp (Some (net_rx n)) in
                  let n := act (set_net_rx (default (net_rx n) rx) n) (written w) in
                  Ret (with_held name (zdrop m cp) (with_net s n)))
      | _ => None
      end
  | EvRemove =>
      match sys_if s with
      | IfDown | IfAbsent =>
          Some (let! ' (_, d) := uart_wifi_remove
                  (mk_device (net_uw n) (sys_files s) (bool_decide (sys_if s = IfDown))) in
                Ret (mk_sys n (sys_pc s) IfGone (sys_ttys s) (sysfs_files d)))
      | _ => None
      end
  end.

(** An event happens and the code gets through it. *)
Definition sys_step (e : sys_event) (s s' : host_sys) : Prop := sys_exec e s = Some (Ret s').

Inductive sys_run : list sys_event -> host_sys -> host_sys -> Prop :=
  | run_nil s : sys_run [] s s
  | run_cons e es s s1 s' : sys_step e s s1 -> sys_run es s1 s' -> sys_run (e :: es) s s'.

(** The same, computed. *)
Fixpoint sys_exec_all (es : list sys_event) (s : host_sys) : option host_sys :=
  match es with
  | [] => Some s
  | e :: es => match sys_exec e s with Some (Ret s) => sys_exec_all es s | _ => None end
  end.

(** The device after a probe that reported success; a registered net_device starts with
    its carrier on and its queue running. *)
Definition sys_probed (d : device) : host_sys :=
  mk_sys (mk_net (mk_host_rx (dev_u d) 0 []) false true false false false false [] []) WIdle
    (if net_registered d then IfDown else IfAbsent) ∅ (sysfs_files d).

Definition reachable (s : host_sys) : Prop :=
  exists env d es, uart_wifi_probe env = Ret (0, Some d) /\ sys_run es (sys_probed d) s.

Lemma sys_exec_all_run es s s' : sys_exec_all es s = Some s' -> sys_run es s s'.
Proof.
  revert s. induction es as [|e es IH]; simpl; intros s; [intros [= ->]; constructor|].
  destruct (sys_exec e s) as [[s1| |]|] eqn:He; try done. intros H%IH. econstructor; [exact He|done].
Qed.

Lemma sys_run_app es1 es2 s s1 s2 : sys_run es1 s s1 -> sys_run es2 s1 s2 -> sys_run (es1 ++ es2) s s2.
Proof. induction 1; [done|]. intros. simpl. econstructor; eauto. Qed.

Lemma reachable_run es s s' : reachable s -> sys_run es s s' -> reachable s'.
Proof. intros (env & d & es0 & Hp & H0) H. exists env, d, (es0 ++ es). split; [done|]. by eapply sys_run_app. Qed.

(** Rule induction with an invariant. *)
Lemma sys_run_invariant (I : host_sys -> Prop) :
  (forall e s s', I s -> sys_step e s s' -> I s') ->
  forall es s s', I s -> sys_run es s s' -> I s'.
Proof. intros HI es s s' H0 H. revert H0. induction H; eauto. Qed.


(** ** The invariant *)

(** The work item's locals fit the arrays they index. *)
Definition pc_wf (pc : work_pc) : Prop :=
  match pc with
  | WIdle => True
  | WTop n1 n2 | WReset n1 n2 | WBoot n1 n2 => 0 <= n1 <= SSID_SIZE - 3 /\ 0 <= n2 <= PASSWORD_SIZE - 3
  | WWait n1 n2 i => 0 <= n1 <= SSID_SIZE - 3 /\ 0 <= n2 <= PASSWORD_SIZE - 3 /\ 0 <= i < 10
  end.

(** What the phase of the interface says about interrupt, work item and tty. *)
Definition phase_wf (s : host_sys) : Prop :=
  let n := sys_net s in
  match sys_if s with
  | IfAbsent | IfDown | IfGone => sys_pc s = WIdle /\ work_scheduled n = false /\ irq_requested n = false
  | IfUp => irq_requested n = true /\ work_hold (sys_uw s) = 1 /\ disc_data_set n = true
            /\ (sys_pc s = WIdle -> force_reset (sys_uw s) <> 0 -> work_scheduled n = true)
            /\ exists held, sys_ttys s !! sys_tty s = Some (Some held)
  | IfStopping => irq_requested n = false /\ work_hold (sys_uw s) = 0 /\ disc_data_set n = true
                  /\ exists held, sys_ttys s !! sys_tty s = Some (Some held)
  end.

Record sys_wf (s : host_sys) : Prop := {
  sw_uw : uw_wf (sys_uw s);
  sw_pc : pc_wf (sys_pc s);
  sw_phase : phase_wf s;
}.

Lemma frame_fits_load f : frame_fits f -> exists n, load_u16 f 0 = Some n /\ 0 <= n <= zlen f - 3.
Proof. intros [(n & H & H0 & H1) _]. exists n. split; [done|lia]. Qed.

(** Flags and counters do not affect the shape. *)
Ltac wf_fields H := destruct H as [? ? ? ? ? ? (? & ? & ?) ?]; constructor; simpl; try done;
  try (split_and!; try done; by (left + right)).

(** ** Calls and ttys *)

(** The tty a call opens, changes or closes. *)
Definition act_tty (a : action) : option (list Z) :=
  match a with AKopen name | ALdisc name | AKclose name => Some name | _ => None end.
Definition spares (name : list Z) (l : list action) : Prop := Forall (fun a => act_tty a <> Some name) l.
Definition quiet (l : list action) : Prop := Forall (fun a => act_tty a = None) l.

Lemma tty_acts_spares name l ttys : spares name l -> tty_acts ttys l !! name = ttys !! name.
Proof.
  intros Hl. revert ttys. induction Hl as [|a l Ha _ IH]; intros ttys; [done|].
  change (tty_acts ttys (a :: l)) with (tty_acts (tty_act ttys a) l). rewrite IH.
  destruct a; try done; simpl in *;
    [by rewrite lookup_insert_ne by congruence..|by rewrite lookup_delete_ne by congruence].
Qed.

Lemma tty_acts_quiet l ttys : quiet l -> tty_acts ttys l = ttys.
Proof.
  intros Hl. revert ttys. induction Hl as [|a l Ha _ IH]; intros ttys; [done|].
  change (tty_acts ttys (a :: l)) with (tty_acts (tty_act ttys a) l). rewrite IH. by destruct a.
Qed.

Lemma written_quiet w : quiet (written w).
Proof. apply Forall_fmap, Forall_forall. done. Qed.

(** The ttys behind some code, and behind code that leaves them alone. *)
Lemma sys_after_ttys s n pc i l :
  actions n = actions (sys_net s) ++ l -> sys_ttys (sys_after s n pc i) = tty_acts (sys_ttys s) l.
Proof. intros H. simpl. by rewrite H, drop_app_length. Qed.
Lemma sys_after_quiet s n pc i l :
  actions n = actions (sys_net s) ++ l -> quiet l -> sys_ttys (sys_after s n pc i) = sys_ttys s.
Proof. intros H Hl. by rewrite (sys_after_ttys _ _ _ _ l), tty_acts_quiet. Qed.
Lemma sys_after_same s n pc i :
  actions n = actions (sys_net s) -> sys_ttys (sys_after s n pc i) = sys_ttys s.
Proof. intros H. apply (sys_after_quiet s n pc i []); [by rewrite app_nil_r|constructor]. Qed.

(** A state whose interface, work item and ttys are as before. *)
Lemma phase_wf_frame s s' :
  phase_wf s -> sys_if s' = sys_if s -> sys_pc s' = sys_pc s -> sys_tty s' = sys_tty s ->
  (forall held, sys_ttys s !! sys_tty s = Some (Some held) -> exists held', sys_ttys s' !! sys_tty s = Some (Some held')) ->
  irq_requested (sys_net s') = irq_requested (sys_net s) ->
  work_scheduled (sys_net s') = work_scheduled (sys_net s) ->
  disc_data_set (sys_net s') = disc_data_set (sys_net s) ->
  work_hold (sys_uw s') = work_hold (sys_uw s) -> force_reset (sys_uw s') = force_reset (sys_uw s) ->
  phase_wf s'.
Proof.
  unfold phase_wf. intros Hph -> -> -> Ht -> -> -> -> ->. destruct (sys_if s); try done.
  - destruct Hph as (? & ? & ? & ? & held & Hh). by destruct (Ht held Hh); split_and!; eauto.
  - destruct Hph as (? & ? & ? & held & Hh). by destruct (Ht held Hh); split_and!; eauto.
Qed.

Lemma exec_show_ok attr page signal s o :
  sys_wf s -> sys_if s <> IfGone -> sys_exec (EvShow attr page signal) s = Some o -> total o sys_wf.
Proof.
  intros Hs Hi. cbn [sys_exec]. case_if as Hc; [|done]. rewrite bool_decide_eq_false_2 by done. intros [= <-].
  destruct Hs as [Hu Hpc Hph]. bool_cases. case_match; apply post_bind.
  - destruct (str_show_connect_info_total (net_uw (sys_net s)) signal page Hu) as [r ->]; done.
  - destruct (str_show_total attr (net_uw (sys_net s)) page Hu) as (m & p & ->); done.
Qed.

Lemma exec_store_ok attr buf count s o :
  sys_wf s -> sys_exec (EvStore attr buf count) s = Some o -> total o sys_wf.
Proof.
  intros [Hu Hpc Hph]. cbn [sys_exec]. case_if as Hc; [|done]. intros [= <-]. bool_cases. apply post_bind.
  eapply post_mono; [apply str_store_wf; [done|lia]|].
  intros [r u'] [Hu' (_ & _ & _ & _ & _ & _ & Hh & Hf & _)]. constructor; [done|done|].
  apply (phase_wf_frame s); try done. intros held Hheld. exists held. unfold with_net. by rewrite sys_after_same.
Qed.

Lemma exec_stop_ok s o : sys_wf s -> sys_exec EvStop s = Some o -> total o sys_wf.
Proof.
  intros [Hu Hpc Hph]. cbn [sys_exec]. case_bool_decide as Hi; [|done]. intros [= <-].
  unfold phase_wf in Hph. rewrite Hi in Hph. destruct Hph as (Hq & Hh & Hd & _ & Ht).
  constructor; [by wf_fields Hu|done|]. unfold phase_wf. split_and!; try done.
  rewrite (sys_after_quiet s _ _ _ [AGpioReset 0]); [exact Ht|done|by repeat constructor].
Qed.

Lemma exec_stopped_ok s o : sys_wf s -> sys_exec EvStopped s = Some o -> total o sys_wf.
Proof.
  intros [Hu Hpc Hph]. cbn [sys_exec]. unfold phase_wf in Hph. destruct (sys_if s), (sys_pc s); try done.
  intros [= <-]. destruct Hph as (Hq & _). by constructor.
Qed.

Lemma exec_irq_ok s o : sys_wf s -> sys_exec EvIrq s = Some o -> total o sys_wf.
Proof.
  intros [Hu Hpc Hph]. cbn [sys_exec]. case_if as Hi; [|done]. intros [= <-].
  constructor; [done|done|]. unfold phase_wf in *. unfold with_net. rewrite sys_after_same by done. simpl.
  destruct (sys_if s); try (destruct Hph as (_ & _ & ?); congruence).
  - destruct Hph as (? & ? & ? & _ & ?). by split_and!.
  - done.
Qed.

Lemma exec_wakeup_ok s o : sys_wf s -> sys_if s <> IfGone -> sys_exec EvWakeup s = Some o -> total o sys_wf.
Proof.
  intros [Hu Hpc Hph] Hg. cbn [sys_exec]. case_if as Hi; [|done]. rewrite bool_decide_eq_false_2 by done.
  intros [= <-].
  assert (uw_wf (net_uw (ttyio_write_wakeup (sys_net s)))
    /\ actions (ttyio_write_wakeup (sys_net s)) = actions (sys_net s)) as [Hu' Ha].
  { unfold ttyio_write_wakeup. by case_match. }
  constructor; [done|done|]. apply (phase_wf_frame s); try done;
    try (unfold sys_tty, sys_uw, ttyio_write_wakeup; simpl; by case_match).
  intros held Hheld. exists held. unfold with_net. by rewrite sys_after_same.
Qed.

Lemma exec_xmit_ok room skb s o :
  sys_wf s -> sys_exec (EvXmit room skb) s = Some o -> total o sys_wf.
Proof.
  intros [Hu Hpc Hph]. cbn [sys_exec]. case_if as Hc; [|done]. intros [= <-]. bool_cases.
  apply post_bind. unfold uart_wifi_xmit. case_match.
  - constructor; [done|done|]. apply (phase_wf_frame s); try done.
    intros held Hheld. exists held. unfold with_net. by rewrite sys_after_same.
  - rewrite load_Some by (unfold ETH_HLEN in *; lia). cbn [access mbind outcome_bind post].
    constructor; [by wf_fields Hu|done|]. apply (phase_wf_frame s); try done.
    intros held Hheld. exists held. unfold with_net. erewrite sys_after_quiet; [done|done|].
    apply Forall_app. split; [by repeat constructor|]. apply Forall_app. split; [apply written_quiet|by repeat constructor].
Qed.

Lemma exec_work_start_ok s o : sys_wf s -> sys_exec EvWorkStart s = Some o -> total o sys_wf.
Proof.
  intros [Hu Hpc Hph]. cbn [sys_exec]. unfold phase_wf in Hph.
  destruct (sys_if s) eqn:Hi, (sys_pc s) eqn:Hp; try done. case_if as Hw; [|done]. intros [= <-].
  destruct (frame_fits_load _ (wf_ssid _ Hu)) as (n1 & H1 & B1).
  destruct (frame_fits_load _ (wf_password _ Hu)) as (n2 & H2 & B2).
  unfold work_start. unfold sys_uw in *. rewrite H1, H2. cbn [access mbind outcome_bind].
  pose proof (wf_fields _ Hu) as (_ & Hs & Hpw & _). constructor; [done| |].
  - simpl. lia.
  - unfold phase_wf. rewrite sys_after_same by done. destruct Hph as (? & ? & ? & _ & ?). by split_and!.
Qed.

Lemma exec_stats_ok s o : sys_wf s -> sys_exec EvStats s = Some o -> total o sys_wf.
Proof. intros Hs. cbn [sys_exec]. case_if as Hc; [done|]. by intros [= <-]. Qed.

Lemma exec_remove_ok s o :
  sys_wf s -> sys_if s <> IfAbsent -> sys_exec EvRemove s = Some o -> total o sys_wf.
Proof.
  intros [Hu Hpc Hph] Hi. cbn [sys_exec]. unfold phase_wf in Hph. destruct (sys_if s) eqn:Hs; try done.
  intros [= <-]. by constructor.
Qed.

(** One step of the work item, wherever it stands: defined, and it leaves these alone. *)
Lemma work_micro_ok gpio pc n :
  uw_wf (net_uw n) -> pc_wf pc ->
  total (work_micro gpio pc n) (fun '(pc', n') =>
    uw_wf (net_uw n') /\ pc_wf pc' /\ work_hold (net_uw n') = work_hold (net_uw n)
    /\ work_scheduled n' = work_scheduled n /\ irq_requested n' = irq_requested n
    /\ disc_data_set n' = disc_data_set n /\ net_tty n' = net_tty n
    /\ (exists l, actions n' = actions n ++ l /\ quiet l)
    /\ (pc <> WIdle -> pc' = WIdle -> work_hold (net_uw n) <> 0 -> force_reset (net_uw n') = 0)).
Proof.
  assert (forall l, quiet l -> exists l', actions n ++ l = actions n ++ l' /\ quiet l') as Hq by eauto.
  assert (exists l, actions n = actions n ++ l /\ quiet l) as Hnil.
  { exists []. split; [by rewrite app_nil_r|constructor]. }
  intros Hu Hpc. pose proof (wf_fields _ Hu) as (_ & Hs & Hp & _).
  destruct pc as [|n1 n2|n1 n2|n1 n2|n1 n2 i]; simpl in Hpc; cbn [work_micro].
  - cbn [post]. by split_and!.
  - unfold work_top. destruct (Z.eqb_spec (force_reset (net_uw n)) 0) as [Hf|Hf]; cbn [negb].
    + destruct (Z.eqb_spec gpio 0); cbn [post]; split_and!; try done; try lia; [by wf_fields Hu|].
      apply Hq. by repeat constructor.
    + cbn [post]; split_and!; try done; try lia; [by wf_fields Hu|]. apply Hq. by repeat constructor.
  - cbn [post]; split_and!; try done; try lia. apply Hq. by repeat constructor.
  - unfold sys_uw in *. rewrite (work_send_ok _ _ (ztake (n1 + 3) (ssid (net_uw n))) (ztake (n2 + 3) (password (net_uw n))))
      by (rewrite load_Some, drop_0 by lia; done).
    cbn [mbind outcome_bind post]. rewrite act_act. split_and!; try done; try (simpl; lia).
    apply Hq. by repeat constructor.
  - case_match; [cbn [post]; split_and!; try done; bool_cases; lia|].
    case_if as Hi; cbn [post]; split_and!; try done; try (simpl; lia). apply Hq. by repeat constructor.
Qed.

Lemma exec_work_inv gpio s o :
  sys_exec (EvWork gpio) s = Some o ->
  sys_pc s <> WIdle /\ o = (let! ' (pc, n) := work_micro gpio (sys_pc s) (sys_net s) in
    Ret (sys_after s n pc (sys_if s))).
Proof. cbn [sys_exec]. destruct (sys_pc s); [done|..]; by intros [= <-]. Qed.

Lemma exec_work_ok gpio s o : sys_wf s -> sys_exec (EvWork gpio) s = Some o -> total o sys_wf.
Proof.
  intros [Hu Hpc Hph] [Hne ->]%exec_work_inv.
  apply post_bind. eapply post_mono; [by apply work_micro_ok|].
  intros [pc' n'] (Hu' & Hpc' & Hh & Hw & Hq & Hd & Hk & (l & Ha & Hl) & Hidle). constructor; [done|done|].
  unfold phase_wf, sys_uw, sys_tty in *. rewrite (sys_after_quiet _ _ _ _ l) by done. simpl.
  rewrite Hh, Hw, Hq, Hd, Hk. destruct (sys_if s); try done; try by destruct Hph.
  destruct Hph as (? & Hold & ? & _ & ?). split_and!; try done. intros Hp Hf.
  rewrite Hidle in Hf; [done|done|done|lia].
Qed.

(** [uart_wifi_open] is defined; it either brings the interface up, on a tty it has given
    the line discipline, or leaves no work item and no interrupt behind - but does not
    close the tty it may have opened. *)
Lemma uart_wifi_open_wf env irq_ret n :
  uw_wf (net_uw n) -> (forall e, kopen_err env = Some e -> e <> 0) ->
  work_scheduled n = false -> irq_requested n = false ->
  total (uart_wifi_open env irq_ret n) (fun '(ret, n') =>
    uw_wf (net_uw n')
    /\ (ssid (net_uw n') = ssid (net_uw n) /\ password (net_uw n') = password (net_uw n)
 /\ tty_name (net_uw n') = tty_name (net_uw n)
        /\ recv_skb (net_uw n') = recv_skb (net_uw n) /\ uartDataLen (net_uw n') = uartDataLen (net_uw n))
    /\ (exists l, actions n' = actions n ++ l /\ l `prefix_of` ttyio_actions (tty_of (net_uw n))
         /\ (tty_kopened env (net_uw n) = true -> l <> []) /\ (l <> [] -> tty_kopened env (net_uw n) = true)
         /\ (ret = 0 -> l = ttyio_actions (tty_of (net_uw n))))
    /\ if ret =? 0 then
         work_scheduled n' = true /\ irq_requested n' = true /\ work_hold (net_uw n') = 1
         /\ force_reset (net_uw n') = 1 /\ disc_data_set n' = true /\ carrier_ok n' = false
         /\ (uart_recv_status (net_uw n') = STATUS_LEN /\ netif_info_recv_len (net_uw n') = 0
             /\ netif_info_vaild (net_uw n') = 0
             /\ netif_info (net_uw n') = netif_info (net_uw n))
         /\ net_tty n' = tty_of (net_uw n)
       else work_scheduled n' = false /\ irq_requested n' = false
         /\ (carrier_ok n' = true -> carrier_ok n = true)
         /\ (force_reset (net_uw n) <> 0 -> force_reset (net_uw n') <> 0)).
Proof.
  intros Hu Hkopen Hws Hirq. unfold uart_wifi_open, tty_kopened.
  assert (forall b : bool, b = false -> exists l, actions n = actions n ++ l
    /\ l `prefix_of` ttyio_actions (tty_of (net_uw n)) /\ (b = true -> l <> []) /\ (l <> [] -> b = true)
    /\ (-22 = 0 -> l = ttyio_actions (tty_of (net_uw n)))) as Hnone.
  { intros b ->. exists []. rewrite app_nil_r. split_and!; try done. apply prefix_nil. }
  destruct (frame_fits_load _ (wf_ssid _ Hu)) as (n1 & H1 & B1).
  destruct (frame_fits_load _ (wf_password _ Hu)) as (n2 & H2 & B2).
  rewrite H1, H2. cbn [access mbind outcome_bind]. destruct (Z.eqb_spec n1 0).
  { split; [done|]. split; [done|]. split; [|done]. apply Hnone. by destruct (kopen_err env). }
  destruct (Z.eqb_spec n2 0).
  { split; [done|]. split; [done|]. split; [|done]. apply Hnone. by destruct (kopen_err env). }
  cbn [negb andb]. unfold ttyio_init.
  destruct (kopen_err env) as [e|].
  { specialize (Hkopen e eq_refl). destruct (Z.eqb_spec e 0); [done|]. split; [done|]. split; [done|].
    split; [by apply Hnone|done]. }
  cbn zeta. destruct (Z.eqb_spec (if has_ops env then open_ret env else - ENODEV) 0) as [Ho|Ho]; cbn [negb].
  2: { destruct (Z.eqb_spec (if has_ops env then open_ret env else - ENODEV) 0); [done|]. cbn [negb post].
       split; [done|]. split; [done|]. split; [|done]. exists [AKopen (tty_of (net_uw n))].
       split_and!; try done. by eexists. }
  destruct (Z.eqb_spec (set_ldisc_ret env) 0) as [Hl|Hl]; cbn [negb].
  2: { destruct (Z.eqb_spec (set_ldisc_ret env) 0); [done|]. cbn [negb post].
       split; [done|]. split; [done|]. split; [|done]. exists [AKopen (tty_of (net_uw n)); raw_8n1].
       split_and!; try done; [simpl; by rewrite <- app_assoc|by eexists]. }
  cbn [fst snd negb Z.eqb].
  assert (exists l, actions n ++ ttyio_actions (tty_of (net_uw n)) = actions n ++ l
    /\ l `prefix_of` ttyio_actions (tty_of (net_uw n)) /\ (true = true -> l <> []) /\ (l <> [] -> true = true)
    /\ (irq_ret = 0 -> l = ttyio_actions (tty_of (net_uw n)))) as Hall by (by eexists).
  destruct (Z.eqb_spec irq_ret 0) as [->|Hi]; cbn [negb post].
  - split; [by wf_fields Hu|]. split; [done|]. split; [|done]. simpl. by rewrite <- !app_assoc.
  - split; [by wf_fields Hu|]. split; [done|]. split; [simpl; by rewrite <- !app_assoc|].
    destruct (Z.eqb_spec irq_ret 0); done.
Qed.

(** What an open does to the transition system. *)
Lemma sys_open_inv env irq_ret s o :
  sys_wf s -> sys_exec (EvOpen env irq_ret) s = Some o ->
  total o (fun s1 =>
  uw_wf (sys_uw s1) /\ sys_if s = IfDown /\ sys_pc s1 = WIdle
  /\ ssid (sys_uw s1) = ssid (sys_uw s) /\ password (sys_uw s1) = password (sys_uw s)
  /\ tty_name (sys_uw s1) = tty_name (sys_uw s)
  /\ (exists l, actions (sys_net s1) = actions (sys_net s) ++ l /\ sys_ttys s1 = tty_acts (sys_ttys s) l
       /\ l `prefix_of` ttyio_actions (tty_of (sys_uw s))
       /\ (tty_kopened env (sys_uw s) = true -> l <> []) /\ (l <> [] -> tty_kopened env (sys_uw s) = true))
  /\ (tty_kopened env (sys_uw s) = true -> sys_ttys s !! tty_of (sys_uw s) = None)
  /\ (carrier_ok (sys_net s1) = true -> carrier_ok (sys_net s) = true)
  /\ ((force_reset (sys_uw s) <> 0 -> force_reset (sys_uw s1) <> 0)
      /\ recv_skb (sys_uw s1) = recv_skb (sys_uw s) /\ uartDataLen (sys_uw s1) = uartDataLen (sys_uw s))
  /\ (sys_if s1 = IfUp /\ force_reset (sys_uw s1) = 1 /\ carrier_ok (sys_net s1) = false
      /\ (work_scheduled (sys_net s1) = true /\ irq_requested (sys_net s1) = true
          /\ work_hold (sys_uw s1) = 1 /\ disc_data_set (sys_net s1) = true)
      /\ tty_kopened env (sys_uw s) = true /\ sys_tty s1 = tty_of (sys_uw s)
      /\ sys_ttys s1 !! sys_tty s1 = Some (Some [])
      /\ uart_recv_status (sys_uw s1) = STATUS_LEN /\ netif_info_recv_len (sys_uw s1) = 0
      /\ netif_info_vaild (sys_uw s1) = 0
      /\ netif_info (sys_uw s1) = netif_info (sys_uw s)
   \/ sys_if s1 = IfDown /\ work_scheduled (sys_net s1) = false /\ irq_requested (sys_net s1) = false)).
Proof.
  intros [Hu Hpc Hph]. cbn [sys_exec]. case_if as Hg; [|done]. rewrite bool_decide_eq_true in *.
  unfold phase_wf in Hph. match goal with H : sys_if s = _ |- _ => rewrite H in Hph; rename H into Hi end.
  match goal with H : kopen_allowed _ _ = _ |- _ => rename H into Hk end.
  destruct Hph as (Hp & Hw & Hq).
  assert (forall e, kopen_err env = Some e -> e <> 0) as Hkopen.
  { intros e He. unfold kopen_allowed in Hk. rewrite He in Hk. by bool_cases. }
  intros [= <-]. apply post_bind. eapply post_mono; [by apply uart_wifi_open_wf|].
  intros [ret n'] (Hu' & (E1 & E2 & E3 & E4 & E5) & (l & Ha & Hpre & Hk1 & Hk2 & Hret) & Hr). unfold sys_uw in *.
  cbn [post]. change (sys_net (sys_after s n' ?pc ?i)) with n'. split_and!; try done.
  - exists l. rewrite (sys_after_ttys _ _ _ _ l) by done. by split_and!.
  - intros Ht. unfold tty_kopened, kopen_allowed in *. repeat (destruct (load_u16 _ _); [|done]).
    destruct (kopen_err env); [done|]. bool_cases. rewrite bool_decide_eq_false in Hk.
    by apply eq_None_not_Some.
  - simpl. destruct (Z.eqb_spec ret 0); [destruct Hr as (_ & _ & _ & _ & _ & -> & _)|destruct Hr as (_ & _ & ? & _)]; done.
  - destruct (Z.eqb_spec ret 0); [destruct Hr as (_ & _ & _ & -> & _)|destruct Hr as (_ & _ & _ & ?)]; done.
  - destruct (Z.eqb_spec ret 0) as [->|Hne]; [left|right; by destruct Hr as (? & ? & _)].
    destruct Hr as (Hws & ? & ? & Hf & ? & Hc & Hrx & Ht). specialize (Hret eq_refl). subst l.
    unfold sys_tty. rewrite (sys_after_ttys _ _ _ _ _ Ha). simpl sys_net. rewrite Ht.
    split_and!; try done; try tauto; [by apply Hk2|]. unfold tty_acts, ttyio_actions. simpl.
    apply lookup_insert_eq.
Qed.

Lemma exec_open_ok env irq_ret s o :
  sys_wf s -> sys_exec (EvOpen env irq_ret) s = Some o -> total o sys_wf.
Proof.
  intros Hwf Ho. eapply post_mono; [by apply (sys_open_inv env irq_ret s)|].
  intros s1 (Hu & _ & Hpc & _ & _ & _ & _ & _ & _ & _ & Hr). constructor; [done|by rewrite Hpc|]. unfold phase_wf.
  destruct Hr as [(-> & _ & _ & (? & ? & ? & ?) & _ & _ & ? & _)|(-> & ? & ?)]; [|done]. split_and!; try done.
  by eexists.
Qed.

Context {KL : KernelLaws K}.

Lemma exec_receive_ok name fuel chunk s o :
  sys_wf s -> sys_exec (EvReceive name fuel chunk) s = Some o -> partial o sys_wf.
Proof.
  intros [Hu Hpc Hph]. cbn [sys_exec]. destruct (sys_ttys s !! name) as [[held|]|] eqn:Hn; try done.
  case_bool_decide as Hi; [by intros [= <-]|].
  intros [= <-]. apply partial_bind. eapply partial_mono; [by apply ttyio_receive_buf2_wf|].
  intros [[m rx] w] (s1 & -> & Hu1 & [_ _ _ Hh Hf]). constructor; [done|done|].
  apply (phase_wf_frame s); try done. intros h Hl. cbn [sys_ttys with_held].
  destruct (decide (sys_tty s = name)) as [->|Hne]; [eexists; apply lookup_insert_eq|].
  exists h. rewrite lookup_insert_ne by done. unfold with_net.
  erewrite sys_after_quiet; [exact Hl|done|apply written_quiet].
Qed.

(** The events at which the driver is called after all is over: a device whose interface
    is missing is removed, or its data is read or woken up when it has been freed. *)
Definition too_late (e : sys_event) (s : host_sys) : Prop :=
  match e with
  | EvRemove => sys_if s = IfAbsent
  | EvShow _ _ _ | EvWakeup => sys_if s = IfGone
  | _ => False
  end.

(** Every event other than reception is defined, and all of them keep the invariant. *)
Definition is_receive (e : sys_event) : bool := match e with EvReceive _ _ _ => true | _ => false end.

Lemma sys_exec_ok e s o :
  sys_wf s -> sys_exec e s = Some o ->
  if is_receive e then partial o sys_wf else total o sys_wf \/ o = Undef /\ too_late e s.
Proof.
  intros Hs He. destruct e; simpl is_receive; cbv iota.
  1: { destruct (decide (sys_if s = IfGone)) as [Hi|Hi]; [right|left; by eapply exec_show_ok].
       revert He. cbn [sys_exec]. case_match; [|done]. rewrite bool_decide_eq_true_2 by done. by intros [= <-]. }
  9: { destruct (decide (sys_if s = IfGone)) as [Hi|Hi]; [right|left; by eapply exec_wakeup_ok].
       revert He. cbn [sys_exec]. case_match; [|done]. rewrite bool_decide_eq_true_2 by done. by intros [= <-]. }
  11: { destruct (decide (sys_if s = IfAbsent)) as [Hi|Hi]; [right|left; by eapply exec_remove_ok].
       revert He. cbn [sys_exec]. rewrite Hi. by intros [= <-]. }
  10: { by eapply exec_receive_ok. }
  all: left.
  - by eapply exec_store_ok.
  - by eapply exec_open_ok.
  - by eapply exec_stop_ok.
  - by eapply exec_stopped_ok.
  - by eapply exec_irq_ok.
  - by eapply exec_work_start_ok.
  - by eapply exec_work_ok.
  - by eapply exec_xmit_ok.
  - by eapply exec_stats_ok.
Qed.

Lemma sys_step_wf e s s' : sys_wf s -> sys_step e s s' -> sys_wf s'.
Proof. intros Hs He%sys_exec_ok; [|done]. destruct (is_receive e); [done|]. by destruct He as [?|[? _]]. Qed.

Lemma sys_run_wf es s s' : sys_wf s -> sys_run es s s' -> sys_wf s'.
Proof. apply sys_run_invariant, sys_step_wf. Qed.

(** Where nothing is too late. *)
Lemma sys_exec_defined e s o :
  sys_wf s -> is_receive e = false -> ~ too_late e s -> sys_exec e s = Some o ->
  exists s', o = Ret s' /\ sys_wf s'.
Proof.
  intros Hs Hr Hl Ho. pose proof (sys_exec_ok _ _ _ Hs Ho) as H. rewrite Hr in H.
  destruct H as [H|[_ H]]; [by apply total_inv in H|done].
Qed.

Lemma reachable_sys_wf s : reachable s -> sys_wf s.
Proof.
  intros (env & d & es & Hp & Hr). eapply sys_run_wf; [|done].
  pose proof (uart_wifi_probe_wf env) as Hw. rewrite Hp in Hw. constructor; [done|done|].
  unfold phase_wf, sys_probed. simpl. destruct (net_registered d); by split_and!.
Qed.

(** ** Properties *)

(** C8. Every reachable state of the driver is in shape: the arrays have their sizes, each
    credential field holds a frame that fits it, the integer fields are in the range
    of their types, the skb being filled lies within its memory, the locals of a
    sleeping work item index within the arrays, and interrupt, work item and tty are
    held exactly as the phase of the interface says - whatever is received, written to
    sysfs, sent or interrupted, in whatever order. *)
Theorem reachable_in_shape s : reachable s -> sys_wf s.
Proof. apply reachable_sys_wf. Qed.

(** C9. In every reachable state everything but the parsing of received bytes is defined:
    opening, closing and removing the interface, sysfs reads and writes, the interrupt,
    every step of the work item, transmission, wakeups and statistics end without an
    access outside an object, at whatever point the work item sleeps - with these
    exceptions, which are undefined whenever they happen: removing a device whose
    interface the probe failed to register without saying so; and, behind the removal,
    reading the attribute it leaves or waking up the driver. *)
Theorem reachable_defined e s o :
  reachable s -> is_receive e = false -> sys_exec e s = Some o ->
  (exists s', o = Ret s' /\ ~ too_late e s) \/ (o = Undef /\ too_late e s).
Proof.
  intros Hs%reachable_sys_wf He Ho. pose proof (sys_exec_ok _ _ _ Hs Ho) as H. rewrite He in H.
  destruct H as [H|H]; [|by right]. left. apply total_inv in H as (s' & -> & _). exists s'. split; [done|].
  intros Hl. destruct e; try done; simpl in Hl; revert Ho; cbn [sys_exec]; try (by rewrite Hl);
    (case_match; [|done]); by rewrite bool_decide_eq_true_2.
Qed.

End System.

(** ** Witnesses *)

(** A device with credentials in its device tree, and a tty that opens. *)
Definition witness_device : device :=
  match uart_wifi_probe (witness_probe true) with Ret (_, Some d) => d | _ => mk_device kzalloc_uart_wifi [] false end.
Definition tty_works : tty_env := mk_tty_env None true 0 0.
Definition sys0 : host_sys := sys_probed witness_device.

Lemma reachable_witness es s : sys_exec_all es sys0 = Some s -> reachable s.
Proof.
  intros H%sys_exec_all_run. exists (witness_probe true), witness_device, es. split; [by vm_compute|done].
Qed.

(** Opened, the module being reset. *)
Definition opening : list sys_event := [EvOpen tty_works 0; EvWorkStart; EvWork 1].
Definition sys_resetting : host_sys := default sys0 (sys_exec_all opening sys0).

Lemma reachable_in_shape_witness : reachable sys_resetting /\ sys_wf sys_resetting.
Proof.
  assert (reachable sys_resetting) as H by (apply (reachable_witness opening); by vm_compute).
  split; [exact H|]. apply reachable_in_shape. exact H.
Defined.

Lemma reachable_defined_witness :
  exists s', sys_exec (EvStore "ssid"%string [97; 98; 99; 10] 4) sys_resetting = Some (Ret s').
Proof.
  destruct (sys_exec (EvStore "ssid"%string [97; 98; 99; 10] 4) sys_resetting) as [o|] eqn:Ho.
  - destruct (reachable_defined (EvStore "ssid"%string [97; 98; 99; 10] 4) sys_resetting o) as [(s' & -> & _)|[_ H]].
    + apply (reachable_witness opening). by vm_compute.
    + reflexivity.
    + exact Ho.
    + by exists s'.
    + exfalso. exact H.
  - exfalso. revert Ho. by vm_compute.
Defined.
