(* ===== verification/HostLifecycle.v ===== *)
(** * Linux driver: opening, link-up and closing, under every interleaving

    Properties of the transition system of HostSystem.v that span many events: what
    the carrier means, that closing ends, that the link can always come up, and that a
    failed open loses its tty. *)
From Stdlib Require Import String.
From stdpp Require Import prelude list strings gmap.
From Stdlib Require Import ZArith Lia.
From S2P Require Import Prelude Memory CString Wire HostState HostDump HostReceive HostNetifInfo.
From S2P Require Import HostNetdev HostWork HostAttr HostShape HostSystem.

(** The module has been reset and has been sent both credentials. *)
Definition configured (f1 f2 : list Z) (l : list action) : Prop :=
  [AGpioReset 0; AGpioReset 1; AWrite f1; AWrite f2] `sublist_of` l.

(** A sysfs write, which may store a credential. *)
Definition is_store (e : sys_event) : bool := match e with EvStore _ _ _ => true | _ => false end.

Section Lifecycle.
Context {K : Kernel} {KL : KernelLaws K}.

(** ** What the carrier means *)

Section SinceOpen.
Context (u : uart_wifi_struct) (base : list action) (n1 n2 : Z) (f1 f2 : list Z) (exact : bool).
Context (Hn1 : load_u16 (ssid u) 0 = Some n1) (Hn2 : load_u16 (password u) 0 = Some n2).
Context (Hf1 : load (ssid u) 0 (n1 + 3) = Some f1) (Hf2 : load (password u) 0 (n2 + 3) = Some f2).

(** Configured with something; with the credentials of [u] if they cannot change
    ([exact]). *)
Definition sent (l : list action) : Prop :=
  exists g1 g2, configured g1 g2 l /\ (exact = true -> g1 = f1 /\ g2 = f2).
Definition locals (m1 m2 : Z) : Prop := exact = true -> m1 = n1 /\ m2 = n2.

(** How far the work item is with the first reset since the interface was opened. *)
Definition progress (s : host_sys) (new : list action) : Prop :=
  match sys_pc s with
  | WIdle => force_reset (sys_uw s) <> 0 \/ sent new
  | WTop m1 m2 => locals m1 m2 /\ (force_reset (sys_uw s) <> 0 \/ sent new)
  | WReset m1 m2 => locals m1 m2 /\ [AGpioReset 0] `sublist_of` new
  | WBoot m1 m2 => locals m1 m2 /\ [AGpioReset 0; AGpioReset 1] `sublist_of` new
  | WWait m1 m2 _ => locals m1 m2 /\ sent new
  end.

Record since_open (s : host_sys) : Prop := {
  so_cred : exact = true -> ssid (sys_uw s) = ssid u /\ password (sys_uw s) = password u;
  so_new : exists new, actions (sys_net s) = base ++ new
             /\ (carrier_ok (sys_net s) = true -> sent new) /\ progress s new;
}.

Lemma sent_grows new l : sent new -> sent (new ++ l).
Proof. intros (g1 & g2 & Hg & He). exists g1, g2. split; [by apply sublist_inserts_r|done]. Qed.

Lemma progress_grows s new l : progress s new -> progress s (new ++ l).
Proof.
  assert (forall P : Prop, P \/ sent new -> P \/ sent (new ++ l)) as Hg.
  { intros P [?|?]; [by left|right; by apply sent_grows]. }
  unfold progress. destruct (sys_pc s); [apply Hg|..]; intros (? & H); split; try done;
    [by apply Hg|by apply sublist_inserts_r..|by apply sent_grows].
Qed.

(** Events that touch neither the work item nor the carrier, or turn it off. *)
Lemma since_open_frame s s' l :
  since_open s -> sys_pc s' = sys_pc s ->
  (exact = true -> ssid (sys_uw s') = ssid (sys_uw s) /\ password (sys_uw s') = password (sys_uw s)) ->
  (force_reset (sys_uw s) <> 0 -> force_reset (sys_uw s') <> 0) ->
  (carrier_ok (sys_net s') = true -> carrier_ok (sys_net s) = true) ->
  actions (sys_net s') = actions (sys_net s) ++ l -> since_open s'.
Proof.
  intros [Hcr (new & Ha & Hc & Hp)] Ep Ecr Ef Ec El. constructor.
  { intros He. destruct (Hcr He) as [<- <-]. by apply Ecr. }
  exists (new ++ l). split; [by rewrite El, Ha, app_assoc|]. split.
  - intros H%Ec%Hc. by apply sent_grows.
  - apply (progress_grows _ _ l) in Hp. unfold progress in *. rewrite Ep.
    destruct (sys_pc s); try done; tauto.
Qed.

Lemma since_open_same s s' :
  since_open s -> sys_net s' = sys_net s -> sys_pc s' = sys_pc s -> since_open s'.
Proof.
  intros Hs En Ep. apply (since_open_frame s s' []); try done; unfold sys_uw; rewrite ?En; try done.
  by rewrite app_nil_r.
Qed.

Lemma since_open_work gpio s s' : since_open s -> sys_step (EvWork gpio) s s' -> since_open s'.
Proof.
  intros [Hcr (new & Ha & Hc & Hp)] [Hne Ho]%exec_work_inv. unfold progress in Hp. revert Ho.
  destruct (sys_pc s) as [|m1 m2|m1 m2|m1 m2|m1 m2 i] eqn:Hpc; [done|destruct Hp as (Hloc & Hp)..];
    cbn [work_micro].
  - assert (forall n', actions n' = actions (sys_net s) ++ [AFlush; AGpioReset 0; AMsleep 10] ->
      carrier_ok n' = carrier_ok (sys_net s) -> ssid (net_uw n') = ssid (sys_uw s) ->
      password (net_uw n') = password (sys_uw s) -> since_open (sys_after s n' (WReset m1 m2) (sys_if s))) as Hreset.
    { intros n' Ea Ec E1 E2. constructor; unfold sys_uw in *; simpl; [by rewrite E1, E2|].
      exists (new ++ [AFlush; AGpioReset 0; AMsleep 10]). rewrite Ea, Ha, app_assoc, Ec. split; [done|].
      split; [intros H%Hc; by apply sent_grows|]. split; [done|]. apply sublist_inserts_l. by repeat constructor. }
    unfold work_top. destruct (Z.eqb_spec (force_reset (net_uw (sys_net s))) 0) as [Hf|Hf]; cbn [negb].
    + assert (sent new) as Hnew by by destruct Hp. destruct (Z.eqb_spec gpio 0); intros [= ->].
      * constructor; [done|]. exists new. split_and!; try done; by right.
      * by apply Hreset.
    + intros [= ->]. by apply Hreset.
  - intros [= ->]. constructor; [done|]. simpl. exists (new ++ [AGpioReset 1; AMsleep 1000]).
    rewrite Ha, app_assoc. split; [done|]. split; [intros H%Hc; by apply sent_grows|]. split; [done|].
    apply (sublist_app [_] new [_]); [done|by repeat constructor].
  - unfold work_send. destruct (load (ssid (net_uw (sys_net s))) 0 (m1 + 3)) as [g1|] eqn:G1; [|done].
    cbn [access mbind outcome_bind]. change (net_uw (act ?n ?l)) with (net_uw n).
    destruct (load (password (net_uw (sys_net s))) 0 (m2 + 3)) as [g2|] eqn:G2; [|done].
    cbn [access mbind outcome_bind]. intros [= ->]. constructor; [done|]. simpl.
    exists (new ++ [AWrite g1; AWrite g2; AMsleep 1000]). rewrite Ha, <- !app_assoc. split; [done|].
    assert (sent (new ++ [AWrite g1; AWrite g2; AMsleep 1000])) as Hnew.
    { exists g1, g2. split; [apply (sublist_app [_; _] new [_; _]); [done|by repeat constructor]|].
      intros He. destruct (Hloc He) as [-> ->], (Hcr He) as [E1 E2]. unfold sys_uw in *. rewrite E1 in G1. rewrite E2 in G2.
      split; congruence. }
    done.
  - destruct (_ =? 0); [|destruct (_ <? 10)]; cbn [mbind outcome_bind]; intros [= ->].
    + constructor; [done|]. exists new. split_and!; try done. by right.
    + constructor; [done|]. simpl. exists (new ++ [AMsleep 1000]). rewrite Ha, app_assoc. split; [done|].
      assert (sent (new ++ [AMsleep 1000])) by by apply sent_grows. done.
    + constructor; [done|]. exists new. split_and!; try done. split; [done|]. by right.
Qed.

Lemma since_open_start s s' : since_open s -> sys_step EvWorkStart s s' -> since_open s'.
Proof.
  intros [Hcr (new & Ha & Hc & Hp)]. unfold sys_step. cbn [sys_exec]. unfold progress in Hp.
  destruct (sys_if s), (sys_pc s) eqn:Hpc; try done. case_match; [|done]. unfold work_start, sys_uw in *.
  destruct (load_u16 (ssid (net_uw (sys_net s))) 0) as [m1|] eqn:M1; [|done]. cbn [access mbind outcome_bind].
  destruct (load_u16 (password (net_uw (sys_net s))) 0) as [m2|] eqn:M2; [|done]. cbn [access mbind outcome_bind].
  intros [= <-]. constructor; [done|]. exists new. split_and!; try done. split; [|done].
  intros He. destruct (Hcr He) as [E1 E2]. rewrite E1 in M1. rewrite E2 in M2. split; congruence.
Qed.

Lemma since_open_receive name fuel chunk s s' :
  sys_wf s -> since_open s -> sys_step (EvReceive name fuel chunk) s s' -> since_open s'.
Proof.
  intros [Hu _ _] Hs. unfold sys_step. cbn [sys_exec]. destruct (_ !! name) as [[held|]|]; try done.
  case_match; [done|].
  pose proof (ttyio_receive_buf2_wf fuel (held ++ chunk) (net_rx (sys_net s)) Hu) as Hw.
  destruct (ttyio_receive_buf2 _ _ _) as [[[m rx] w]| |]; [|done..].
  destruct Hw as (s1 & -> & _ & [_ E1 E2 _ Ef]). cbn [mbind outcome_bind]. intros [= <-].
  apply (since_open_frame s _ (written w)); try done. unfold sys_uw, net_uw. simpl. by rewrite Ef.
Qed.

Lemma since_open_xmit room skb s s' : since_open s -> sys_step (EvXmit room skb) s s' -> since_open s'.
Proof.
  intros Hs. unfold sys_step. cbn [sys_exec]. case_match; [|done]. unfold uart_wifi_xmit.
  case_match; cbn [mbind outcome_bind].
  - intros [= <-]. apply (since_open_frame s _ []); try done. by rewrite app_nil_r.
  - destruct (load (tx_linear skb) _ _) as [h|]; [|done]. cbn [access mbind outcome_bind]. intros [= <-].
    by eapply since_open_frame.
Qed.

Lemma since_open_step e s s' :
  sys_wf s -> since_open s -> (exact = true -> is_store e = false) -> sys_step e s s' -> since_open s'.
Proof.
  intros Hwf Hs He Hstep. destruct e.
  3: { apply sys_open_inv in Hstep; [|done].
       destruct Hstep as (_ & Hi & Ep & E1 & E2 & _ & (l & Ea & _) & _ & Ec & (Ef & _) & _).
       apply (since_open_frame s s' l); try done.
       pose proof (sw_phase _ Hwf) as Hph. unfold phase_wf in Hph. rewrite Hi in Hph.
       by destruct Hph as (-> & _). }
  6: by eapply since_open_start.
  6: by eapply since_open_work.
  6: by eapply since_open_xmit.
  8: by eapply since_open_receive.
  all: revert Hstep; unfold sys_step; cbn [sys_exec].
  - case_match; [|done]. case_match; [done|]. case_match.
    + destruct (str_show_connect_info _ _ _); [|done..]. by intros [= <-].
    + destruct (str_show _ _ _); [|done..]. by intros [= <-].
  - case_match; [|done]. pose proof (str_store_wf attr (sys_uw s) buf count (sw_uw _ Hwf)) as Hst.
    destruct exact eqn:Hex; [by specialize (He eq_refl)|]. unfold sys_uw in Hst.
    destruct (str_store _ _ _ _) as [[r u']| |]; cbn [mbind outcome_bind]; try done. intros [= <-].
    bool_cases. destruct Hst as (_ & _ & _ & _ & _ & _ & _ & _ & Ef & _); [lia|].
    apply (since_open_frame s _ []); try done; [congruence|unfold sys_uw, net_uw; simpl; by rewrite Ef|by rewrite app_nil_r].
  - case_match; [|done]. intros [= <-]. by apply (since_open_frame s _ [AGpioReset 0]).
  - destruct (sys_if s), (sys_pc s) eqn:Hp; try done. intros [= <-].
    by apply (since_open_frame s _ [AKclose (sys_tty s)]).
  - case_match; [|done]. intros [= <-]. apply (since_open_frame s _ []); try done. by rewrite app_nil_r.
  - case_match; [|done]. case_match; [done|]. intros [= <-].
    unfold ttyio_write_wakeup. simpl.
    case_match; (apply (since_open_frame s _ []); try done; by rewrite app_nil_r).
  - case_match; [done|]. by intros [= <-].
  - destruct (sys_if s); try done. destruct (uart_wifi_remove _) as [[r d]| |]; [|done..]. cbn [mbind outcome_bind].
    intros [= <-]. by apply (since_open_same s).
Qed.

Lemma since_open_run es s s' :
  sys_wf s -> since_open s -> (exact = true -> Forall (fun e => is_store e = false) es) -> sys_run es s s' ->
  since_open s'.
Proof.
  intros Hwf Hs Hes Hrun. induction Hrun as [|e es s s1 s' H1 Hrun IH]; [done|].
  apply IH; [by eapply sys_step_wf|eapply since_open_step; try done|];
    intros He; specialize (Hes He); by apply Forall_cons in Hes as [? ?].
Qed.
End SinceOpen.

Lemma carrier_configured_ok exact env irq_ret es s0 s1 s f1 f2 :
  sys_wf s0 -> sys_step (EvOpen env irq_ret) s0 s1 -> sys_if s1 = IfUp ->
  credentials (sys_uw s0) f1 f2 -> (exact = true -> Forall (fun e => is_store e = false) es) ->
  sys_run es s1 s -> carrier_ok (sys_net s) = true ->
  exists new, actions (sys_net s) = actions (sys_net s1) ++ new /\ sent f1 f2 exact new.
Proof.
  intros Hwf Hopen Hup (n1 & n2 & H1 & H2 & H3 & H4) Hes Hrun Hc.
  pose proof (sys_step_wf _ _ _ Hwf Hopen) as Hwf1. apply sys_open_inv in Hopen; [|done].
  destruct Hopen as (_ & _ & Hp & E1 & E2 & _ & _ & _ & _ & _ & [(_ & Hf & Hc1 & _)|[Hdown _]]); [|congruence].
  assert (since_open (sys_uw s1) (actions (sys_net s1)) n1 n2 f1 f2 exact s1) as Hs.
  { constructor; [done|]. exists []. split; [by rewrite app_nil_r|]. split; [by rewrite Hc1|].
    unfold progress. rewrite Hp, Hf. by left. }
  rewrite <- E1 in H1, H2. rewrite <- E2 in H3, H4.
  eapply since_open_run in Hs as [_ (new & Ha & Hcf & _)]; [..|exact Hrun]; try done.
  exists new. split; [done|by apply Hcf].
Qed.

(** ** Closing *)

(** Steps the work item still takes once [work_hold] is 0. *)
Definition work_left (pc : work_pc) : nat :=
  match pc with WIdle => 0 | WWait _ _ _ => 1 | WBoot _ _ => 2 | WReset _ _ => 3 | WTop _ _ => 4 end.
Fixpoint work_steps (es : list sys_event) : nat :=
  match es with
  | [] => 0
  | EvWork _ :: es => S (work_steps es)
  | _ :: es => work_steps es
  end.

(** Events that neither open nor close nor remove leave the phase and the open ttys. *)
Definition turns_phase (e : sys_event) : bool :=
  match e with EvOpen _ _ | EvStop | EvStopped | EvRemove => true | _ => false end.
Definition is_work (e : sys_event) : bool :=
  match e with EvWorkStart | EvWork _ => true | _ => false end.

Record same_phase (e : sys_event) (s s' : host_sys) : Prop := {
  sp_if : sys_if s' = sys_if s;
  sp_pc : is_work e = false -> sys_pc s' = sys_pc s;
  sp_tty : sys_tty s' = sys_tty s;
  sp_ttys name : is_Some (sys_ttys s !! name) -> is_Some (sys_ttys s' !! name);
}.

Lemma same_phase_after e s n pc l :
  (is_work e = false -> pc = sys_pc s) -> net_tty n = sys_tty s ->
  actions n = actions (sys_net s) ++ l -> quiet l -> same_phase e s (sys_after s n pc (sys_if s)).
Proof. intros Hp Ht Ha Hl. constructor; try done. intros name. by rewrite (sys_after_quiet _ _ _ _ l). Qed.

Lemma same_phase_same e s n pc :
  (is_work e = false -> pc = sys_pc s) -> net_tty n = sys_tty s ->
  actions n = actions (sys_net s) -> same_phase e s (sys_after s n pc (sys_if s)).
Proof. intros ? ? Ha. apply (same_phase_after e s n pc []); try done; [by rewrite app_nil_r|constructor]. Qed.

Lemma sys_step_phase e s s' :
  sys_wf s -> turns_phase e = false -> sys_step e s s' -> same_phase e s s'.
Proof.
  intros Hwf He Hstep. destruct e; try done; revert Hstep; unfold sys_step.
  5: { intros [_ Ho]%exec_work_inv.
    pose proof (work_micro_ok gpio (sys_pc s) (sys_net s) (sw_uw _ Hwf) (sw_pc _ Hwf)) as Hw.
    destruct (work_micro _ _ _) as [[pc' n']| |]; [|done..]. injection Ho as ->.
    destruct Hw as (_ & _ & _ & _ & _ & _ & Ht & (l & Ha & Hl) & _). by eapply same_phase_after. }
  all: cbn [sys_exec].
  - case_match; [|done]. case_match; [done|]. case_match.
    + by destruct (str_show_connect_info _ _ _); intros [= <-].
    + by destruct (str_show _ _ _); intros [= <-].
  - case_match; [|done]. destruct (str_store _ _ _ _) as [[r u]| |]; [|done..]. intros [= <-].
    by apply same_phase_same.
  - case_match; [|done]. intros [= <-]. by apply same_phase_same.
  - destruct (sys_if s) eqn:Hi, (sys_pc s); try done. case_match; [|done]. unfold work_start.
    destruct (load_u16 (ssid _) 0), (load_u16 (password _) 0); cbn [access mbind outcome_bind]; try done.
    intros [= <-]. rewrite <- Hi. by apply same_phase_same.
  - case_match; [|done]. unfold uart_wifi_xmit. case_match; cbn [mbind outcome_bind].
    + intros [= <-]. by apply same_phase_same.
    + destruct (load (tx_linear skb) _ _); [|done]. cbn [access mbind outcome_bind]. intros [= <-].
      eapply same_phase_after; try done. repeat (constructor; [done|]).
      apply Forall_app. split; [apply written_quiet|by repeat constructor].
  - case_match; [|done]. case_match; [done|]. intros [= <-]. unfold ttyio_write_wakeup. simpl.
    case_match; by apply same_phase_same.
  - case_match; [done|]. by intros [= <-].
  - destruct (_ !! name) as [[held|]|]; try done. case_match; [done|].
    destruct (ttyio_receive_buf2 _ _ _) as [[[m rx] w]| |]; [|done..]. cbn [mbind outcome_bind].
    intros [= <-]. constructor; try done. intros name' Hs. cbn [sys_ttys with_held].
    destruct (decide (name = name')) as [->|Hd]; [rewrite lookup_insert_eq; by eexists|].
    rewrite lookup_insert_ne by done. unfold with_net. erewrite sys_after_quiet; [exact Hs|done|apply written_quiet].
Qed.

Lemma closing_step e s s' :
  sys_wf s -> sys_if s = IfStopping -> e <> EvStopped -> sys_step e s s' ->
  sys_if s' = IfStopping
  /\ (match e with EvWork _ => S (work_left (sys_pc s')) | _ => work_left (sys_pc s') end <= work_left (sys_pc s))%nat.
Proof.
  intros Hwf Hi Hne Hstep. destruct (turns_phase e) eqn:Ht.
  { revert Hstep. unfold sys_step. destruct e; try done; cbn [sys_exec]; by rewrite Hi. }
  pose proof (sys_step_phase _ _ _ Hwf Ht Hstep) as Hsp. split; [by rewrite (sp_if _ _ _ Hsp)|].
  destruct (is_work e) eqn:Hw; [|rewrite (sp_pc _ _ _ Hsp Hw); by destruct e].
  revert Hstep. destruct e; try done; [unfold sys_step; cbn [sys_exec]; by rewrite Hi|].
  intros [Hidle Ho]%exec_work_inv. destruct Hwf as [Hu Hpc Hph]. unfold phase_wf in Hph. rewrite Hi in Hph.
  destruct Hph as (_ & Hh & _). revert Ho.
  destruct (sys_pc s) as [|m1 m2|m1 m2|m1 m2|m1 m2 i]; cbn [work_micro mbind outcome_bind].
  - done.
  - destruct (work_top _ _); intros [= ->]; simpl; lia.
  - intros [= ->]. simpl. lia.
  - destruct (work_send _ _ _); cbn [mbind outcome_bind]; [|done..]. intros [= ->]. simpl. lia.
  - unfold sys_uw in Hh. rewrite Hh. cbn [Z.eqb mbind outcome_bind]. intros [= ->]. simpl. lia.
Qed.

Lemma closing_run es s s' :
  sys_wf s -> sys_if s = IfStopping -> EvStopped ∉ es -> sys_run es s s' ->
  sys_if s' = IfStopping /\ (work_steps es + work_left (sys_pc s') <= work_left (sys_pc s))%nat.
Proof.
  intros Hwf Hi Hes Hrun. induction Hrun as [|e es s s1 s' H1 Hrun IH]; [done|].
  apply not_elem_of_cons in Hes as [He Hes].
  pose proof (closing_step _ _ _ Hwf Hi (not_eq_sym He) H1) as [Hi1 Hl].
  destruct IH as [Hi' Hl']; [by eapply sys_step_wf|done|done|]. split; [done|].
  destruct e; simpl in *; lia.
Qed.

(** ** The link can come up *)

(** Only the work item runs, and the interrupt that starts it. *)
Definition link_event (e : sys_event) : bool :=
  match e with EvIrq | EvWorkStart | EvWork _ => true | _ => false end.

Definition link_run (s s' : host_sys) : Prop :=
  exists es, Forall (fun e => link_event e = true) es /\ sys_run es s s'.

Lemma link_run_step e s s1 s' : link_event e = true -> sys_step e s s1 -> link_run s1 s' -> link_run s s'.
Proof. intros He H1 (es & Hes & Hr). exists (e :: es). split; [by constructor|by econstructor]. Qed.

Lemma link_run_refl s : link_run s s.
Proof. exists []. split; [done|constructor]. Qed.

(** Steps from a sleep to the next top of the loop. *)
Definition to_top (pc : work_pc) : Z :=
  match pc with WIdle | WTop _ _ => 0 | WReset _ _ => 12 | WBoot _ _ => 11 | WWait _ _ i => 10 - i end.
Definition at_top (pc : work_pc) : Prop := exists n1 n2, pc = WTop n1 n2.

Lemma toward_top s :
  sys_wf s -> sys_if s = IfUp -> sys_pc s <> WIdle -> ~ at_top (sys_pc s) ->
  exists s1, sys_step (EvWork 0) s s1 /\ sys_if s1 = IfUp /\ sys_pc s1 <> WIdle
    /\ force_reset (sys_uw s1) = force_reset (sys_uw s) /\ 0 <= to_top (sys_pc s1) < to_top (sys_pc s).
Proof.
  intros [Hu Hpc Hph] Hi Hne Htop. unfold phase_wf in Hph. rewrite Hi in Hph. destruct Hph as (_ & Hh & _).
  pose proof (wf_fields _ Hu) as (_ & Hs & Hp & _). unfold sys_step, sys_uw in *. cbn [sys_exec]. rewrite Hi.
  destruct (sys_pc s) as [|m1 m2|m1 m2|m1 m2|m1 m2 i]; [done|by destruct Htop; exists m1, m2|..];
    cbn [work_micro]; simpl in Hpc.
  - eexists. split; [done|]. simpl. split_and!; try done; lia.
  - erewrite work_send_ok by (apply load_Some; lia). eexists. split; [done|]. simpl. split_and!; try done; lia.
  - rewrite Hh. cbn [Z.eqb]. case_if as Hlt; (eexists; split; [done|]; simpl; split_and!; try done; lia).
Qed.

Lemma reaches_top s :
  sys_wf s -> sys_if s = IfUp -> sys_pc s <> WIdle ->
  exists s', link_run s s' /\ sys_wf s' /\ sys_if s' = IfUp /\ at_top (sys_pc s')
    /\ force_reset (sys_uw s') = force_reset (sys_uw s).
Proof.
  remember (Z.to_nat (to_top (sys_pc s))) as m eqn:Hm. revert s Hm.
  induction (lt_wf m) as [m _ IH]. intros s -> Hwf Hi Hne.
  assert (at_top (sys_pc s) \/ ~ at_top (sys_pc s)) as [Ht|Ht].
  { destruct (sys_pc s); try (right; by intros (? & ? & ?)). left. by do 2 eexists. }
  - exists s. split; [apply link_run_refl|done].
  - destruct (toward_top s Hwf Hi Hne Ht) as (s1 & H1 & Hi1 & Hne1 & Hf1 & Hlt).
    destruct (IH (Z.to_nat (to_top (sys_pc s1)))) with (s := s1) as (s' & Hr & Hwf' & Hi' & Ht' & Hf');
      [lia|done|by eapply sys_step_wf|done|done|].
    exists s'. split; [by apply (link_run_step (EvWork 0) s s1)|]. split_and!; try done. by rewrite Hf', Hf1.
Qed.

(** From the top of the loop with the pin low and no reset asked for. *)
Lemma top_links s :
  sys_if s = IfUp -> at_top (sys_pc s) -> force_reset (sys_uw s) = 0 ->
  exists s', link_run s s' /\ carrier_ok (sys_net s') = true /\ queue_stopped (sys_net s') = false.
Proof.
  intros Hi (n1 & n2 & Hp) Hf. unfold sys_uw in *.
  eexists. split; [eapply (link_run_step (EvWork 0)); [done| |apply link_run_refl]|].
  - unfold sys_step. cbn [sys_exec]. rewrite Hp. cbn [work_micro]. unfold work_top. by rewrite Hf.
  - done.
Qed.

Lemma awake_links s :
  sys_wf s -> sys_if s = IfUp -> sys_pc s <> WIdle ->
  exists s', link_run s s' /\ carrier_ok (sys_net s') = true /\ queue_stopped (sys_net s') = false.
Proof.
  assert (forall s1 s2, link_run s1 s2 -> forall s3, link_run s2 s3 -> link_run s1 s3) as Htrans.
  { intros s1 s2 (es1 & H1 & R1) s3 (es2 & H2 & R2). exists (es1 ++ es2).
    split; [by apply Forall_app|by eapply sys_run_app]. }
  intros Hwf Hi Hne. destruct (reaches_top s Hwf Hi Hne) as (s1 & R1 & Hwf1 & Hi1 & Ht1 & _).
  destruct (Z.eq_dec (force_reset (sys_uw s1)) 0) as [Hf|Hf].
  { destruct (top_links s1 Hi1 Ht1 Hf) as (s2 & R2 & Hc). exists s2. split; [by eapply Htrans|done]. }
  destruct Ht1 as (n1 & n2 & Hp).
  set (s2 := sys_after s1 (act (set_net_uw (sys_net s1) (set_force_reset (sys_uw s1) 0))
    [AFlush; AGpioReset 0; AMsleep 10]) (WReset n1 n2) (sys_if s1)).
  assert (sys_step (EvWork 0) s1 s2) as H2.
  { unfold sys_step, sys_uw in *. cbn [sys_exec]. rewrite Hp. cbn [work_micro]. unfold work_top.
    destruct (Z.eqb_spec (force_reset (net_uw (sys_net s1))) 0); done. }
  destruct (reaches_top s2) as (s3 & R3 & Hwf3 & Hi3 & Ht3 & Hf3);
    [by eapply sys_step_wf|done|done|].
  destruct (top_links s3 Hi3 Ht3) as (s4 & R4 & Hc); [by rewrite Hf3|]. exists s4. split; [|done].
  eapply Htrans; [exact R1|]. eapply link_run_step; [|exact H2|by eapply Htrans]. done.
Qed.

Lemma link_can_come_up_ok s :
  sys_wf s -> sys_if s = IfUp ->
  exists s', link_run s s' /\ carrier_ok (sys_net s') = true /\ queue_stopped (sys_net s') = false.
Proof.
  intros Hwf Hi. destruct (sys_pc s) eqn:Hp; [|by apply awake_links; rewrite ?Hp..].
  assert (exists s1, sys_step EvIrq s s1 /\ sys_if s1 = IfUp /\ sys_pc s1 = WIdle
            /\ work_scheduled (sys_net s1) = true) as (s1 & H1 & Hi1 & Hp1 & Hw1).
  { pose proof (sw_phase _ Hwf) as Hph. unfold phase_wf in Hph. rewrite Hi in Hph. destruct Hph as (Hq & _).
    eexists. unfold sys_step. cbn [sys_exec]. by rewrite Hq. }
  pose proof (sys_step_wf _ _ _ Hwf H1) as Hwf1.
  assert (exists o, sys_exec EvWorkStart s1 = Some o) as [o Ho].
  { cbn [sys_exec]. rewrite Hi1, Hp1, Hw1. by eexists. }
  destruct (sys_exec_defined EvWorkStart _ _ Hwf1 eq_refl (fun H => H) Ho) as (s2 & -> & Hwf2).
  assert (sys_if s2 = IfUp /\ sys_pc s2 <> WIdle) as [Hi2 Hp2].
  { revert Ho. cbn [sys_exec]. rewrite Hi1, Hp1, Hw1. unfold work_start.
    destruct (load_u16 (ssid _) 0), (load_u16 (password _) 0); cbn [access mbind outcome_bind]; try done.
    by intros [= <-]. }
  destruct (awake_links s2 Hwf2 Hi2 Hp2) as (s' & R & Hc). exists s'. split; [|done].
  eapply link_run_step; [|exact H1|]; [done|]. by eapply link_run_step; [|exact Ho|].
Qed.

(** ** A tty left open *)

(** Open, and not by the interface: nothing closes it. *)
Definition leaked (name : list Z) (s : host_sys) : Prop :=
  is_Some (sys_ttys s !! name) /\ (sys_if s = IfUp \/ sys_if s = IfStopping -> sys_tty s <> name).

(** What a prefix of the calls of [ttyio_init] leaves of a tty. *)
Lemma ttyio_opened tty l ttys :
  l `prefix_of` ttyio_actions tty -> l <> [] -> is_Some (tty_acts ttys l !! tty).
Proof.
  intros [l' Hl] Hne. unfold ttyio_actions in Hl.
  destruct l as [|a [|b [|c [|]]]]; simplify_eq/=; try done; rewrite lookup_insert_eq; by eexists.
Qed.
Lemma ttyio_spares name tty l :
  l `prefix_of` ttyio_actions tty -> name <> tty -> spares name l.
Proof.
  intros [l' Hl] Hne. assert (spares name (ttyio_actions tty)) as H by (repeat constructor; simpl; congruence).
  rewrite Hl in H. by apply Forall_app in H as [? _].
Qed.

Lemma leaked_stays name e s s' : sys_wf s -> leaked name s -> sys_step e s s' -> leaked name s'.
Proof.
  intros Hwf [Hl Hn] Hstep. destruct (turns_phase e) eqn:Ht.
  2: { destruct (sys_step_phase _ _ _ Hwf Ht Hstep) as [Ei _ Et Es]. split; [by apply Es|]. by rewrite Ei, Et. }
  destruct e; try done.
  - apply sys_open_inv in Hstep; [|done].
    destruct Hstep as (_ & _ & _ & _ & _ & _ & (l & _ & Ett & Hpre & _ & Hl2) & Hfree & _ & _ & Hend).
    split.
    + rewrite Ett. destruct (decide (l = [])) as [->|Hne]; [done|].
      destruct (decide (name = tty_of (sys_uw s))) as [->|Hd]; [by apply ttyio_opened|].
      rewrite tty_acts_spares; [done|by eapply ttyio_spares].
    + destruct Hend as [(_ & _ & _ & _ & Hk & -> & _)|(-> & _)]; [|by intros [?|?]].
      intros _ <-. rewrite Hfree in Hl by done. by destruct Hl.
  - revert Hstep. unfold sys_step. cbn [sys_exec]. case_bool_decide as Hi; [|done]. intros [= <-]. split.
    + erewrite sys_after_quiet; [done|done|by repeat constructor].
    + intros _. apply Hn. by left.
  - revert Hstep. unfold sys_step. cbn [sys_exec]. destruct (sys_if s) eqn:Hi, (sys_pc s); try done.
    intros [= <-]. split; [|by intros [?|?]]. erewrite sys_after_ttys by done.
    rewrite tty_acts_spares; [done|]. repeat constructor. simpl. intros [= Heq]. apply Hn; [by right|done].
  - revert Hstep. unfold sys_step. cbn [sys_exec].
    destruct (sys_if s) eqn:Hi; try done; destruct (uart_wifi_remove _) as [[r d]| |]; try done; intros [= <-];
      (split; [done|by intros [?|?]]).
Qed.

Lemma leaked_run name es s s' : sys_wf s -> leaked name s -> sys_run es s s' -> leaked name s'.
Proof.
  intros Hwf Hl Hrun. induction Hrun as [|e es s s1 s' H1 Hrun IH]; [done|].
  apply IH; [by eapply sys_step_wf|by eapply leaked_stays].
Qed.

(** ** Properties *)


(** C19. Closing ends: [cancel_work_sync] waits for at most four more steps of the work item,
    whatever else happens meanwhile and wherever the item slept; each of them can be
    taken, and once it rests the interface goes down and gives the tty back. *)
Theorem uart_wifi_stop_ends es s s' :
  reachable s -> sys_if s = IfStopping -> EvStopped ∉ es -> sys_run es s s' ->
  (work_steps es <= 4)%nat /\ sys_if s' = IfStopping
  /\ (sys_pc s' <> WIdle -> forall gpio, exists s'', sys_step (EvWork gpio) s' s'')
  /\ (sys_pc s' = WIdle -> exists s'', sys_step EvStopped s' s'' /\ sys_if s'' = IfDown
       /\ sys_ttys s'' !! sys_tty s'' = None /\ carrier_ok (sys_net s'') = carrier_ok (sys_net s')
       /\ actions (sys_net s'') = actions (sys_net s') ++ [AKclose (sys_tty s')]).
Proof.
  intros Hs%reachable_sys_wf Hi Hes Hrun. pose proof (sys_run_wf _ _ _ Hs Hrun) as Hwf'.
  destruct (closing_run _ _ _ Hs Hi Hes Hrun) as [Hi' Hl].
  split. { destruct (sys_pc s); simpl in Hl; lia. } split; [done|]. split.
  - intros Hne gpio. assert (exists o, sys_exec (EvWork gpio) s' = Some o) as [o Ho].
    { simpl. destruct (sys_pc s'); [done|by eexists..]. }
    destruct (sys_exec_defined (EvWork gpio) _ _ Hwf' eq_refl (fun H => H) Ho) as (s'' & -> & _). by exists s''.
  - intros Hp. eexists. unfold sys_step. cbn [sys_exec]. rewrite Hi', Hp. split; [done|].
    split; [done|].
    split; [|done]. erewrite sys_after_ttys by done. apply lookup_delete_eq.
Qed.

(** C20. No dead end: from every reachable state in which the interface is up, the interrupt
    and the work item alone can bring the link up - carrier on, queue running. *)
Theorem link_can_come_up s :
  reachable s -> sys_if s = IfUp ->
  exists s', link_run s s' /\ carrier_ok (sys_net s') = true /\ queue_stopped (sys_net s') = false.
Proof. intros H%reachable_sys_wf. by apply link_can_come_up_ok. Qed.

(** C32. An open that fails behind [tty_kopen] - the uart driver, the line discipline or the
    interrupt refuses - leaves the tty open, and nothing closes it: whatever happens
    afterwards, no open with that tty name ever succeeds again. *)
Theorem failed_open_loses_tty env irq_ret es env' irq_ret' s0 s1 s s' :
  reachable s0 -> sys_step (EvOpen env irq_ret) s0 s1 ->
  tty_kopened env (sys_uw s0) = true -> sys_if s1 = IfDown ->
  sys_run es s1 s -> tty_of (sys_uw s) = tty_of (sys_uw s0) ->
  sys_step (EvOpen env' irq_ret') s s' -> sys_if s' = IfDown.
Proof.
  intros Hwf0%reachable_sys_wf H1 Hko Hdown Hrun Htty H2. pose proof (sys_step_wf _ _ _ Hwf0 H1) as Hwf1.
  apply sys_open_inv in H1; [|done].
  destruct H1 as (_ & _ & _ & _ & _ & _ & (l & _ & Ett & Hpre & Hl & _) & _).
  assert (leaked (tty_of (sys_uw s0)) s1) as Hleak.
  { split; [rewrite Ett; by apply ttyio_opened; [|apply Hl]|]. rewrite Hdown. by intros [?|?]. }
  pose proof (sys_run_wf _ _ _ Hwf1 Hrun) as Hwf. apply (leaked_run _ _ _ _ Hwf1 Hleak) in Hrun as [Hin _].
  apply sys_open_inv in H2; [|done].
  destruct H2 as (_ & _ & _ & _ & _ & _ & _ & Hfree & _ & _ & [(_ & _ & _ & _ & Hk & _)|(? & _)]); [exfalso|done].
  rewrite <- Htty, (Hfree Hk) in Hin. by destruct Hin.
Qed.
End Lifecycle.

(** ** Witnesses *)

(** [S n] steps of the work item, from the start. *)
Definition work_for (n : nat) : list sys_event := EvWorkStart :: replicate n (EvWork 1).
Definition sys_open : host_sys := default sys0 (sys_exec_all [EvOpen tty_works 0] sys0).
Definition link_up_events : list sys_event := work_for 13 ++ [EvWork 0].
Definition sys_linked : host_sys := default sys0 (sys_exec_all link_up_events sys_open).
Definition ssid_frame : list Z := put_frame SPLIT_CMD [97; 98; 0].
Definition password_frame : list Z := put_frame SPLIT_CMD [49; 50; 0].

Lemma sys0_reachable : reachable sys0.
Proof. by apply (reachable_witness []). Qed.


(** Closed while the module is held in reset. *)
Definition sys_closing : host_sys := default sys0 (sys_exec_all (opening ++ [EvStop]) sys0).
Definition sys_closed_work : host_sys := default sys0 (sys_exec_all [EvWork 1; EvWork 0; EvWork 1] sys_closing).
Lemma uart_wifi_stop_ends_witness :
  (work_steps [EvWork 1; EvWork 0; EvWork 1] <= 4)%nat /\ sys_if sys_closed_work = IfStopping
  /\ (sys_pc sys_closed_work <> WIdle -> forall gpio, exists s'', sys_step (EvWork gpio) sys_closed_work s'')
  /\ (sys_pc sys_closed_work = WIdle -> exists s'', sys_step EvStopped sys_closed_work s'' /\ sys_if s'' = IfDown
       /\ sys_ttys s'' !! sys_tty s'' = None /\ carrier_ok (sys_net s'') = carrier_ok (sys_net sys_closed_work)
       /\ actions (sys_net s'') = actions (sys_net sys_closed_work) ++ [AKclose (sys_tty sys_closed_work)]).
Proof.
  apply (uart_wifi_stop_ends [EvWork 1; EvWork 0; EvWork 1] sys_closing sys_closed_work).
  - apply (reachable_witness (opening ++ [EvStop])). by vm_compute.
  - by vm_compute.
  - rewrite !not_elem_of_cons. split_and!; try discriminate. apply not_elem_of_nil.
  - apply sys_exec_all_run. by vm_compute.
Defined.

Lemma link_can_come_up_witness :
  exists s', link_run sys_resetting s' /\ carrier_ok (sys_net s') = true /\ queue_stopped (sys_net s') = false.
Proof.
  apply (link_can_come_up sys_resetting).
  - apply (reachable_witness opening). by vm_compute.
  - by vm_compute.
Defined.

(** The interrupt line is taken. *)
Definition sys_failed : host_sys := default sys0 (sys_exec_all [EvOpen tty_works (-16)] sys0).
Definition tty_busy : tty_env := mk_tty_env (Some (-16)) true 0 0.
Definition sys_refused : host_sys := default sys0 (sys_exec_all [EvOpen tty_busy 0] sys_failed).
Lemma failed_open_loses_tty_witness : sys_if sys_refused = IfDown.
Proof.
  apply (failed_open_loses_tty tty_works (-16) [] tty_busy 0 sys0 sys_failed sys_failed sys_refused).
  - exact sys0_reachable.
  - by vm_compute.
  - by vm_compute.
  - by vm_compute.
  - constructor.
  - reflexivity.
  - by vm_compute.
Defined.
