(* ===== verification/HostRaces.v ===== *)
(** * Linux driver: what goes wrong when events interleave

    Parts of the driver that are correct one by one disturb each other: what the reset of
    the module leaves behind in the receiver of packets, the carrier during a reset,
    closing while the work item sleeps, credentials stored while it runs. *)
From Stdlib Require Import String.
From stdpp Require Import prelude list strings gmap.
From Stdlib Require Import ZArith Lia.
From S2P Require Import Prelude Memory CString Wire HostState HostDump HostReceive HostNetifInfo.
From S2P Require Import HostRecover HostNetdev HostWork HostAttr HostShape HostSystem HostLifecycle.

(** The level of the reset line: what was last written to it. *)
Definition reset_level (l : list action) : option Z :=
  last (omap (fun a => match a with AGpioReset v => Some v | _ => None end) l).

Lemma reset_level_low l a b : reset_level (l ++ [a; AGpioReset 0; AMsleep b]) = Some 0.
Proof.
  unfold reset_level. rewrite omap_app. assert (forall l', last (l' ++ [0]) = Some 0) as H by (intros; apply last_snoc).
  destruct a; simpl; try apply H. change [v; 0] with ([v] ++ [0]). rewrite app_assoc. apply H.
Qed.

Lemma reset_level_written l ws : reset_level (l ++ written ws) = reset_level l.
Proof.
  unfold reset_level. rewrite omap_app. replace (omap _ (written ws)) with (@nil Z); [by rewrite app_nil_r|].
  unfold written. by induction ws.
Qed.

(** The module's announcement, and the tty of [sys0]. *)
Definition announcement : list Z := put_frame SPLIT_CMD witness_params.
Definition rx (chunk : list Z) : sys_event := EvReceive [] ni_fuel chunk.

(** ** A broken frame survives a reset *)

Section Stale.
Context {K : Kernel} {KL : KernelLaws K}.

(** An event that is not the reception of packet data. *)
Definition no_data (e : sys_event) (s : host_sys) : Prop :=
  is_receive e = true -> netif_info_vaild (sys_uw s) = 0.
Definition no_data_step (s s' : host_sys) : Prop := exists e, no_data e s /\ sys_step e s s'.

(** What has been received of a packet. *)
Definition holds (o : option sk_buff) (dl : Z) (s : host_sys) : Prop :=
  recv_skb (sys_uw s) = o /\ uartDataLen (sys_uw s) = dl.

Lemma holds_frame o dl s s' :
  recv_skb (sys_uw s') = recv_skb (sys_uw s) -> uartDataLen (sys_uw s') = uartDataLen (sys_uw s) ->
  holds o dl s -> holds o dl s'.
Proof. unfold holds. by intros -> ->. Qed.

Lemma holds_receive o dl name fuel chunk s s' :
  sys_wf s -> holds o dl s -> netif_info_vaild (sys_uw s) = 0 ->
  sys_step (EvReceive name fuel chunk) s s' -> holds o dl s'.
Proof.
  intros [Hu _ _] Hs Hv. unfold sys_step. cbn [sys_exec].
  destruct (_ !! name) as [[held|]|]; try done. case_match; [done|]. cbn [ttyio_receive_buf2].
  change (uw (net_rx (sys_net s))) with (sys_uw s). rewrite Hv. cbn [Z.eqb negb].
  pose proof (ttyio_netif_info_wf fuel (held ++ chunk) (sys_uw s) Hu) as Hw.
  destruct (ttyio_netif_info _ _ _) as [[[m u] w]| |]; [|done..]. cbn [mbind outcome_bind].
  intros [= <-]. destruct Hw as (_ & Hk & Hd). by apply (holds_frame o dl s).
Qed.

Lemma holds_work o dl gpio s s' : sys_wf s -> holds o dl s -> sys_step (EvWork gpio) s s' -> holds o dl s'.
Proof.
  intros [_ _ _] Hs [_ Ho]%exec_work_inv. revert Ho.
  destruct (sys_pc s) as [|m1 m2|m1 m2|m1 m2|m1 m2 i]; cbn [work_micro].
  - intros [= ->]. by apply (holds_frame o dl s).
  - unfold work_top. destruct (negb _); [|destruct (gpio =? 0)]; intros [= ->]; by apply (holds_frame o dl s).
  - intros [= ->]. by apply (holds_frame o dl s).
  - unfold work_send. destruct (load _ 0 (m1 + 3)); [|done]. cbn [access mbind outcome_bind].
    destruct (load _ 0 (m2 + 3)); [|done]. cbn [access mbind outcome_bind]. intros [= ->].
    by apply (holds_frame o dl s).
  - destruct (_ =? 0); [|destruct (_ <? 10)]; intros [= ->]; by apply (holds_frame o dl s).
Qed.

Lemma holds_step o dl s s' : sys_wf s -> holds o dl s -> no_data_step s s' -> holds o dl s'.
Proof.
  intros Hwf Hs (e & He & Hstep). destruct e.
  8: by eapply holds_work.
  11: { eapply holds_receive; try done. by apply He. }
  3: { apply sys_open_inv in Hstep; [|done].
       destruct Hstep as (_ & _ & _ & _ & _ & _ & _ & _ & _ & (_ & Ek & Ed) & _). by apply (holds_frame o dl s). }
  all: revert Hstep; unfold sys_step; cbn [sys_exec]; clear He.
  - case_match; [|done]. case_match; [done|]. case_match.
    + by destruct (str_show_connect_info _ _ _); intros [= <-].
    + by destruct (str_show _ _ _); intros [= <-].
  - case_match; [|done]. pose proof (str_store_wf attr (sys_uw s) buf count (sw_uw _ Hwf)) as Hst. unfold sys_uw in Hst.
    destruct (str_store _ _ _ _) as [[r u']| |]; cbn [mbind outcome_bind]; try done. intros [= <-].
    bool_cases. destruct Hst as (_ & _ & Ed & Ek & _); [lia|]. by apply (holds_frame o dl s).
  - case_match; [|done]. intros [= <-]. by apply (holds_frame o dl s).
  - destruct (sys_if s), (sys_pc s); try done. intros [= <-]. by apply (holds_frame o dl s).
  - case_match; [|done]. intros [= <-]. by apply (holds_frame o dl s).
  - destruct (sys_if s), (sys_pc s); try done. case_match; [|done]. unfold work_start.
    destruct (load_u16 (ssid _) 0), (load_u16 (password _) 0); cbn [access mbind outcome_bind]; try done.
    intros [= <-]. by apply (holds_frame o dl s).
  - case_match; [|done]. unfold uart_wifi_xmit. case_match; cbn [mbind outcome_bind].
    + intros [= <-]. by apply (holds_frame o dl s).
    + destruct (load (tx_linear skb) _ _); [|done]. cbn [access mbind outcome_bind]. intros [= <-].
      by apply (holds_frame o dl s).
  - case_match; [|done]. case_match; [done|]. intros [= <-]. unfold ttyio_write_wakeup. simpl.
    case_match; by apply (holds_frame o dl s).
  - case_match; [done|]. by intros [= <-].
  - destruct (sys_if s); try done; destruct (uart_wifi_remove _) as [[r d]| |]; try done; intros [= <-];
      by apply (holds_frame o dl s).
Qed.

Lemma holds_steps o dl s s' : sys_wf s -> holds o dl s -> rtc no_data_step s s' -> sys_wf s' /\ holds o dl s'.
Proof.
  intros Hwf Hs Hrun. induction Hrun as [s|s s1 s' H1 _ IH]; [done|].
  apply IH; [|by eapply holds_step]. destruct H1 as (e & _ & H1). by eapply sys_step_wf.
Qed.

End Stale.

(** ** An announcement in two pieces *)

Section Cut.
Context {K : Kernel} {KL : KernelLaws K}.

Lemma tty_calls_app fuel held cs1 cs2 s :
  tty_calls fuel held (cs1 ++ cs2) s
    = (let! ' (h, s, w) := tty_calls fuel held cs1 s in
       let! ' (h, s, w') := tty_calls fuel h cs2 s in Ret (h, s, w ++ w')).
Proof.
  revert held s. induction cs1 as [|c cs1 IH]; intros held s; cbn [app tty_calls mbind outcome_bind].
  { by destruct (tty_calls fuel held cs2 s) as [[[h s'] w]| |]. }
  destruct (ttyio_receive_buf2 fuel (held ++ c) s) as [[[n s1] w1]| |]; [|done..]. cbn [mbind outcome_bind].
  rewrite IH. destruct (tty_calls fuel _ cs1 s1) as [[[h s2] w2]| |]; [|done..]. cbn [mbind outcome_bind].
  destruct (tty_calls fuel h cs2 s2) as [[[h' s3] w3]| |]; [|done..]. cbn [mbind outcome_bind]. by rewrite app_assoc.
Qed.

(** The driver behind an announcement, the receive state being [st]. *)
Definition behind_announcement (st : recv_status) (s s' : host_rx) : Prop :=
  uart_recv_status (uw s') = st /\ recv_skb (uw s') = recv_skb (uw s)
  /\ uartDataLen (uw s') = uartDataLen (uw s) /\ netif_info_vaild (uw s') = 1 /\ delivered s' = delivered s.

(** The last piece of an announcement; the call does not save the receive state. *)
Lemma announcement_ends c s info :
  zlen info = 12 -> zlen c <= DUMP_MAX -> netif_info_vaild (uw s) = 0 -> ni_waiting (uw s) c info [] ->
  exists s' w, tty_calls ni_fuel [] [c] (Some s) = Ret ([], Some s', w)
    /\ behind_announcement (uart_recv_status (uw s)) s s'.
Proof.
  intros Hi Hc Hv Hw. rewrite <- (app_nil_r c) in Hw. cbn [tty_calls ttyio_receive_buf2]. rewrite Hv.
  cbn [Z.eqb negb]. change ([] ++ c) with c.
  destruct (total_inv _ _ (ttyio_netif_info_ok ni_fuel c [] (uw s) info [] Hi Hc ltac:(unfold ni_fuel; lia) Hw))
    as ([[n u] w] & -> & [(_ & _ & [[_ Hs _ Hl _ _ Hstr] Hl15] & _)|(echo & -> & Hann)]).
  - exfalso. simpl in *. rewrite !app_nil_r in Hstr. apply (f_equal length) in Hstr. cbn [length] in Hstr.
    unfold NETIF_INFO_SIZE in *. rewrite length_take, length_app in Hstr. simpl in *. lia.
  - destruct Hann as (_ & Hrest & _ & _ & _ & a & -> & _). rewrite app_nil_r in Hrest.
    cbn [mbind outcome_bind]. rewrite Hrest. by do 2 eexists.
Qed.

Lemma announcement_cut c1 c2 s info :
  zlen info = 12 -> c1 ++ c2 = put_frame SPLIT_CMD info -> 2 < zlen c1 < 15 -> handshake_start (uw s) ->
  exists s' w, tty_calls ni_fuel [] [c1; c2] (Some s) = Ret ([], Some s', w)
    /\ behind_announcement STATUS_DATA s s'.
Proof.
  intros Hi Hcut H1 Hs. pose proof (put_frame_length SPLIT_CMD info) as HL. rewrite <- Hcut, length_app in HL.
  pose proof (handshake_waiting (uw s) info [] Hs) as Hw. rewrite app_nil_r, <- Hcut in Hw.
  destruct Hs as (_ & _ & _ & Hv). assert (zlen c1 <= DUMP_MAX) as Hc1 by (change DUMP_MAX with 819; lia).
  destruct (total_inv _ _ (ttyio_netif_info_ok ni_fuel c1 c2 (uw s) info [] Hi Hc1 ltac:(unfold ni_fuel; lia) Hw))
    as ([[n u] w] & Hcall & [(-> & -> & Hw1 & (Ek & (_ & Ed) & Ev & _))|(echo & -> & (_ & Hrest & _))]).
  2: { exfalso. apply (f_equal length) in Hrest. rewrite length_app in Hrest. simpl in Hrest. lia. }
  pose proof Hw1 as [[_ [Hsz _] _ Hl Hns _ Hstr] Hl15]. simpl in Hsz, Hl, Hns, Hstr.
  assert (uart_recv_status u = STATUS_DATA) as Hst.
  { rewrite !app_nil_r in Hstr. apply (f_equal length) in Hstr. unfold NETIF_INFO_SIZE in *.
    cbn [length] in Hstr. rewrite !length_app, length_take in Hstr. cbn [length] in Hstr. destruct (uart_recv_status u); [|done|done].
    destruct Hl as (? & Hlen & _). specialize (Hlen eq_refl). lia. }
  assert (tty_calls ni_fuel [] [c1] (Some s) = Ret ([], Some (set_uw u s), [])) as Hfirst.
  { cbn [tty_calls ttyio_receive_buf2]. rewrite Hv. cbn [Z.eqb negb]. change ([] ++ c1) with c1.
    rewrite Hcall. cbn [mbind outcome_bind]. by rewrite drop_ge by lia. }
  destruct (announcement_ends c2 (set_uw u s) info) as (s' & w & Hsecond & E1 & E2 & E3 & E4 & E5);
    [done|change DUMP_MAX with 819; lia|simpl; by rewrite Ev|exact Hw1|].
  exists s', w. change [c1; c2] with ([c1] ++ [c2]). rewrite tty_calls_app, Hfirst.
  cbn [mbind outcome_bind]. rewrite Hsecond. split; [done|]. simpl in *. split_and!; congruence.
Qed.

(** C22. How the announcement is cut decides whether the next packet crashes the driver: the
    call that completes it leaves [ttyio_netif_info] without saving the receive state.
    When a new session begins between two packets - the skb is empty, and the last packet
    had [uartDataLen] bytes - and the 15 bytes arrive in two chunks, the first of them
    from 3 to 14 bytes, the state stays STATUS_DATA, and the next packet, if it is longer
    than the last one and without a SPLIT_DATA byte, is read with the old length and ends
    in a copy of a negative length.  In one chunk the same bytes are delivered. *)
Theorem cut_announcement_crashes_session c1 c2 s skb info p :
  let frame := put_frame SPLIT_DATA p in
  (forall k, netdev_alloc_skb k MAX_RECV_LEN <> None) -> handshake_start (uw s) ->
  recv_skb (uw s) = Some skb -> skb_ok skb -> skb_len skb = 0 ->
  zlen info = 12 -> c1 ++ c2 = put_frame SPLIT_CMD info -> 2 < zlen c1 < 15 ->
  ip_packet p -> 20 <= uartDataLen (uw s) < zlen p -> (SPLIT_DATA ∉ put_u16 (zlen p) ++ p) ->
  zlen frame <= DUMP_MAX ->
  tty_calls ni_fuel [] [c1; c2; frame] (Some s) = Undef
  /\ total (tty_calls ni_fuel [] [c1 ++ c2; frame] (Some s)) (fun '(h, s', _) =>
       h = [] /\ exists s1 d, s' = Some s1 /\ delivered s1 = delivered s ++ [d] /\ packet_skb p d).
Proof.
  intros frame Hmem Hs Hk Hok H0 Hi Hcut H1 Hp Hdl Hnew Hshort.
  pose proof (skb_bytes_length _ Hok) as HB. rewrite H0 in HB.
  assert (skb_bytes skb = []) as Hb by (destruct (skb_bytes skb); [done|simpl in HB; lia]). split.
  - destruct (announcement_cut c1 c2 s info) as (s' & w & Hc & E1 & E2 & E3 & E4 & _); try done.
    change [c1; c2; frame] with ([c1; c2] ++ [frame]). rewrite tty_calls_app, Hc.
    cbn [mbind outcome_bind tty_calls ttyio_receive_buf2]. rewrite E4. cbn [Z.eqb negb].
    set (h := put_u16 (zlen p) ++ p) in *.
    assert (frame = h ++ [SPLIT_DATA]) as Hframe by (unfold frame, h, put_frame; by rewrite <- app_assoc).
    assert (zlen h = zlen p + 2) as Hh by (unfold h, put_u16; len; lia).
    pose proof (take_drop (Z.to_nat (uartDataLen (uw s) + 3)) h) as Hsplit.
    set (g := ztake _ h) in *. set (x := zdrop _ h) in *.
    assert (zlen g = uartDataLen (uw s) + 3) as Hg by (unfold g; len; lia).
    rewrite <- Hsplit, not_elem_of_app in Hnew. destruct Hnew as [Hng Hnx].
    assert (frame = g ++ x ++ [SPLIT_DATA]) as Hf by by rewrite Hframe, <- Hsplit, <- app_assoc.
    destruct (resync_crash g x [] s' skb (uartDataLen (uw s))) as [_ Hundef].
    + congruence.
    + exact Hok.
    + right. split; [exact E1|exact E3].
    + unfold ip_packet in Hp. lia.
    + by rewrite Hb.
    + by rewrite Hb.
    + exact Hnx.
    + simpl. unfold ip_packet in Hp. lia.
    + by rewrite <- Hf.
    + change ([] ++ frame) with frame. rewrite Hf, Hundef. done.
  - pose proof (handshake_waiting (uw s) info [] Hs) as Hw. rewrite app_nil_r, <- Hcut in Hw.
    destruct (announcement_ends (c1 ++ c2) s info) as (s' & w & Hc & E1 & E2 & E3 & E4 & E5).
    { done. }
    { rewrite Hcut. pose proof (put_frame_length SPLIT_CMD info). change DUMP_MAX with 819. lia. }
    { by destruct Hs as (_ & _ & _ & ?). }
    { exact Hw. }
    change [c1 ++ c2; frame] with ([c1 ++ c2] ++ [frame]). rewrite tty_calls_app, Hc.
    cbn [mbind outcome_bind]. apply post_bind.
    eapply post_mono; [apply (tty_calls_data Hmem ni_fuel [frame] [] s' [p]); [by constructor|by rewrite E4| |by left]|].
    + unfold rx_sync. rewrite E2, Hk. destruct Hs as (_ & Hst & _). rewrite E1, Hst, Hb. split; [done|].
      split; [split; [done|]; split; [left; simpl; lia|done]|]. split; [left; simpl; lia|].
      simpl. unfold put_frames. simpl. by rewrite !app_nil_r.
    + intros [[h s2] w'] (-> & -> & s1 & -> & _ & new & Hnew2 & Hpk). split; [done|].
      inversion Hpk as [|? d ? ? Hd Hnil]; subst. inversion Hnil; subst. exists s1, d.
      split; [done|]. split; [|done]. by rewrite Hnew2, E5.
Qed.
End Cut.

(** Closing can leave the module running: [uart_wifi_stop] pulls the reset line low and
    then waits for the work item, which goes on where it slept, lets the module out
    of reset and sends it the credentials.  The interface is down, the module is
    not. *)
Theorem stop_leaves_module_running :
  exists es s, sys_exec_all (es ++ [EvStop; EvWork 1; EvWork 1; EvWork 1; EvStopped]) sys0 = Some s
    /\ sys_if s = IfDown /\ reset_level (actions (sys_net s)) = Some 1
    /\ [AGpioReset 0; AGpioReset 1; AMsleep 1000; AWrite ssid_frame; AWrite password_frame; AMsleep 1000; AKclose (sys_tty s)]
       `suffix_of` actions (sys_net s).
Proof.
  exists opening. eexists. split; [by vm_compute|]. split; [done|]. split; [by vm_compute|].
  by eexists [_; _; _; _; _; _].
Qed.

(** The carrier can come on behind the closing: [uart_wifi_stop], on another processor,
    turns it off while the work item is about to read the pin, which is low. *)
Theorem stop_leaves_carrier_on :
  exists es s, sys_exec_all (es ++ [EvStop; EvWork 0; EvStopped]) sys0 = Some s
    /\ sys_if s = IfDown /\ carrier_ok (sys_net s) = true /\ queue_stopped (sys_net s) = false.
Proof.
  exists (EvOpen tty_works 0 :: work_for 13). eexists. split; [by vm_compute|]. by split.
Qed.

(** C40. The carrier survives the loss of the module: whenever the work item finds the pin
    high with the link up, it pulls the reset line low and invalidates the parameters,
    but leaves the carrier on and the queue running; any packet for which there is room
    is then written to the uart while the module is held in reset, and counted as sent. *)
Theorem packets_sent_into_reset {K : Kernel} {KL : KernelLaws K} gpio s n1 n2 :
  reachable s -> sys_if s = IfUp -> sys_pc s = WTop n1 n2 -> force_reset (sys_uw s) = 0 -> gpio <> 0 ->
  carrier_ok (sys_net s) = true -> queue_stopped (sys_net s) = false ->
  exists s1, sys_step (EvWork gpio) s s1 /\ sys_pc s1 = WReset n1 n2
    /\ reset_level (actions (sys_net s1)) = Some 0 /\ netif_info_vaild (sys_uw s1) = 0
    /\ carrier_ok (sys_net s1) = true /\ queue_stopped (sys_net s1) = false
    /\ forall room skb, tx_skb_ok skb -> zlen (tx_payload skb) + 3 <= room ->
         exists s2 ws, sys_step (EvXmit room skb) s1 s2
           /\ actions (sys_net s2) = actions (sys_net s1) ++ written ws
           /\ concat ws = put_frame SPLIT_DATA (tx_payload skb)
           /\ tx_packets (sys_uw s2) = tx_packets (sys_uw s1) + 1
           /\ sys_pc s2 = WReset n1 n2 /\ reset_level (actions (sys_net s2)) = Some 0.
Proof.
  intros _ Hi Hp Hf Hg Hc Hq. unfold sys_uw in *. eexists. split.
  { unfold sys_step. cbn [sys_exec]. rewrite Hp. cbn [work_micro]. unfold work_top. rewrite Hf.
    replace (gpio =? 0) with false by (symmetry; by apply Z.eqb_neq). reflexivity. }
  cbn [sys_pc sys_net sys_after actions act]. set (n := act _ _).
  assert (reset_level (actions n) = Some 0) as Hlevel by apply reset_level_low.
  split; [done|]. split; [done|]. split; [reflexivity|]. split; [exact Hc|]. split; [exact Hq|].
  intros room skb Hskb Hroom.
  pose proof (uart_wifi_xmit_ok room skb n Hskb) as Hx.
  replace (room <? zlen (tx_payload skb) + 3) with false in Hx by (symmetry; apply Z.ltb_ge; lia).
  apply total_inv in Hx as ([r n'] & Hx & _ & ws & Hws & ->). exists (with_net (sys_after s n (WReset n1 n2) (sys_if s))
    (set_net_uw (act n (written ws)) (add_tx_stats (net_uw n) 1 (zlen (tx_payload skb))))), ws.
  split. { unfold sys_step. cbn [sys_exec sys_if sys_net sys_after]. rewrite Hi. change (carrier_ok n) with (carrier_ok (sys_net s)).
    change (queue_stopped n) with (queue_stopped (sys_net s)). rewrite Hc, Hq. destruct Hskb as [Hlin _].
    replace (ETH_HLEN <=? zlen (tx_linear skb)) with true by (symmetry; by apply Z.leb_le).
    cbn [bool_decide negb andb]. rewrite Hx. done. }
  split; [done|]. split; [done|]. split; [done|]. split; [done|]. cbn [with_net sys_after sys_net set_net_uw actions act].
  by rewrite reset_level_written.
Qed.

(** Credentials stored while the work item runs are sent torn: it keeps the length it
    read when it started, so after the next turn of its loop the module is sent the
    old length's worth of the new frame, without its terminator. *)
Theorem stored_credentials_sent_torn :
  exists es s, sys_exec_all (es ++ EvStore "ssid"%string [97; 98; 99; 100; 10] 5 :: replicate 3 (EvWork 1)) sys0 = Some s
    /\ ssid (sys_uw s) = frame_field [97; 98; 99; 100; 0] SSID_SIZE
    /\ [AWrite (take 6 (put_frame SPLIT_CMD [97; 98; 99; 100; 0])); AWrite password_frame; AMsleep 1000]
       `suffix_of` actions (sys_net s).
Proof.
  set (es := EvOpen tty_works 0 :: work_for 13).
  set (s := default sys0 (sys_exec_all (es ++ EvStore "ssid"%string [97; 98; 99; 100; 10] 5
              :: replicate 3 (EvWork 1)) sys0)).
  exists es, s. do 2 (split; [by vm_compute|]). exists (take 25 (actions (sys_net s))). by vm_compute.
Qed.

(** ** Witnesses *)

(** Linked, with five bytes of a packet received, when the pin goes high. *)
Definition broken_link : list sys_event :=
  EvOpen tty_works 0 :: link_up_events
    ++ [rx announcement; rx (take 5 (put_frame SPLIT_DATA (small_packet 1))); EvIrq; EvWorkStart].
Definition sys_broken : host_sys := default sys0 (sys_exec_all broken_link sys0).
Definition sys_broken_reset : host_sys := default sys0 (sys_exec_all [EvWork 1] sys_broken).
Definition sys_relinked : host_sys :=
  default sys0 (sys_exec_all (replicate 12 (EvWork 1) ++ [EvWork 0; rx announcement]) sys_broken_reset).
Definition held_skb : sk_buff := default (mk_skb [] 0 0 0 0 0) (recv_skb (sys_uw sys_broken)).

Lemma held_skb_ok : skb_ok held_skb.
Proof. constructor; try (by vm_compute); split; by vm_compute. Qed.

Lemma no_data_run es s s' :
  sys_exec_all es s = Some s' -> forallb (fun e => negb (is_receive e)) es = true -> rtc no_data_step s s'.
Proof.
  revert s. induction es as [|e es IH]; simpl; intros s; [intros [= ->] _; done|].
  destruct (sys_exec e s) as [[s1| |]|] eqn:He; try done. intros Hrun [Hr Hes]%andb_true_iff.
  eapply rtc_l; [|by apply IH]. exists e. split; [|exact He]. unfold no_data. by destruct (is_receive e).
Qed.

Lemma relinks : rtc no_data_step sys_broken_reset sys_relinked.
Proof.
  apply (transitivity (y := default sys0 (sys_exec_all (replicate 12 (EvWork 1) ++ [EvWork 0]) sys_broken_reset))).
  - apply (no_data_run (replicate 12 (EvWork 1) ++ [EvWork 0])); by vm_compute.
  - apply rtc_once. exists (rx announcement). split; [intros _|]; by vm_compute.
Qed.


(** Reset between two packets. *)
Definition sys_renewed : host_sys := default sys0 (sys_exec_all
  (EvOpen tty_works 0 :: link_up_events
     ++ [rx announcement; rx (put_frame SPLIT_DATA (small_packet 1)); EvIrq; EvWorkStart; EvWork 1]) sys0).
Definition renewed_rx : host_rx := net_rx (sys_net sys_renewed).
Definition renewed_skb : sk_buff := default (mk_skb [] 0 0 0 0 0) (recv_skb (uw renewed_rx)).
Lemma renewed_skb_ok : skb_ok renewed_skb.
Proof. constructor; try (by vm_compute); split; by vm_compute. Qed.

Lemma cut_announcement_crashes_session_witness :
  let frame := put_frame SPLIT_DATA (replicate 24 1) in
  tty_calls ni_fuel [] [take 4 announcement; drop 4 announcement; frame] (Some renewed_rx) = Undef
  /\ total (tty_calls ni_fuel [] [take 4 announcement ++ drop 4 announcement; frame] (Some renewed_rx)) (fun '(h, s', _) =>
       h = [] /\ exists s1 d, s' = Some s1 /\ delivered s1 = delivered renewed_rx ++ [d] /\ packet_skb (replicate 24 1) d).
Proof.
  apply (cut_announcement_crashes_session (take 4 announcement) (drop 4 announcement) renewed_rx renewed_skb witness_params).
  - intros k. by vm_compute.
  - split_and!; by vm_compute.
  - by vm_compute.
  - exact renewed_skb_ok.
  - by vm_compute.
  - reflexivity.
  - reflexivity.
  - split; by vm_compute.
  - split; by vm_compute.
  - split; by vm_compute.
  - apply (bool_decide_unpack _). by vm_compute.
  - by vm_compute.
Defined.

(** The link is up, and the pin has gone high. *)
Definition lost_link : list sys_event := EvOpen tty_works 0 :: link_up_events ++ [EvIrq; EvWorkStart].
Definition sys_lost : host_sys := default sys0 (sys_exec_all lost_link sys0).
Lemma packets_sent_into_reset_witness :
  exists s1, sys_step (EvWork 1) sys_lost s1 /\ sys_pc s1 = WReset 3 3
    /\ reset_level (actions (sys_net s1)) = Some 0 /\ netif_info_vaild (sys_uw s1) = 0
    /\ carrier_ok (sys_net s1) = true /\ queue_stopped (sys_net s1) = false
    /\ forall room skb, tx_skb_ok skb -> zlen (tx_payload skb) + 3 <= room ->
         exists s2 ws, sys_step (EvXmit room skb) s1 s2
           /\ actions (sys_net s2) = actions (sys_net s1) ++ written ws
           /\ concat ws = put_frame SPLIT_DATA (tx_payload skb)
           /\ tx_packets (sys_uw s2) = tx_packets (sys_uw s1) + 1
           /\ sys_pc s2 = WReset 3 3 /\ reset_level (actions (sys_net s2)) = Some 0.
Proof.
  apply (packets_sent_into_reset 1 sys_lost 3 3).
  - apply (reachable_witness lost_link). by vm_compute.
  - by vm_compute.
  - by vm_compute.
  - by vm_compute.
  - discriminate.
  - by vm_compute.
  - by vm_compute.
Defined.
