(* ===== verification/HostModule.v ===== *)
(** * Linux driver: loading and unloading (main.c), and an unused receiver (netdev.c)

    [uart_wifi_drv_init] and [uart_wifi_drv_exit] register two things with the kernel,
    the line discipline and the platform driver; what the kernel answers is an
    argument.  [uart_wifi_receive] is declared in common.h but not called. *)
From stdpp Require Import prelude list.
From Stdlib Require Import ZArith Lia.
From S2P Require Import Prelude Memory Wire HostState HostReceive HostNetdev.

(** ** Module initialisation *)

(** What is registered: the line discipline's number refers to [ttyio_ldisc_ops], the
    bus to [uart_wifi_drv]; both lie in the module's memory. *)
Record module_state := mk_module { ldisc_registered : bool; driver_registered : bool }.

Definition uart_wifi_drv_init (ldisc_ret driver_ret : Z) (m : module_state) : Z * module_state :=
  if negb (ldisc_ret =? 0) then (ldisc_ret, m)
  else
    let m := mk_module true (driver_registered m) in
    (driver_ret, mk_module (ldisc_registered m) (driver_ret =? 0)).

(** The error of [tty_unregister_ldisc] is only logged. *)
Definition uart_wifi_drv_exit (unregister_ret : Z) (m : module_state) : module_state :=
  let m := mk_module (ldisc_registered m) false in
  mk_module (if unregister_ret =? 0 then false else ldisc_registered m) (driver_registered m).

Definition unloaded : module_state := mk_module false false.

(** Loading registers both or reports an error; unloading undoes it when the line
    discipline is not in use. *)
Theorem uart_wifi_drv_init_exit ldisc_ret driver_ret :
  let '(ret, m) := uart_wifi_drv_init ldisc_ret driver_ret unloaded in
  (ret = 0 <-> ldisc_ret = 0 /\ driver_ret = 0)
  /\ (ret = 0 -> m = mk_module true true /\ uart_wifi_drv_exit 0 m = unloaded).
Proof.
  unfold uart_wifi_drv_init. destruct (Z.eqb_spec ldisc_ret 0) as [->|Hl]; cbn [negb].
  - split; [tauto|]. by intros ->.
  - split; [split; [done|by intros [? _]]|done].
Qed.

(** A failed load leaves the line discipline registered: when the platform driver is
    refused, [uart_wifi_drv_init] returns the error and the module is discarded, but
    [ttyio_ldisc_ops] stays in the kernel's table; and since a module whose init failed
    is never unloaded, nothing removes it. *)
Theorem failed_load_leaves_ldisc driver_ret :
  driver_ret <> 0 ->
  exists m, uart_wifi_drv_init 0 driver_ret unloaded = (driver_ret, m)
    /\ ldisc_registered m = true /\ driver_registered m = false.
Proof.
  intros H. eexists. split; [done|]. simpl. split; [done|]. by apply Z.eqb_neq.
Qed.

Lemma failed_load_leaves_ldisc_witness :
  exists m, uart_wifi_drv_init 0 (-12) unloaded = (-12, m)
    /\ ldisc_registered m = true /\ driver_registered m = false.
Proof. apply (failed_load_leaves_ldisc (-12)). lia. Defined.

(** ** The unused receiver *)

Section Receive.
Context {K : Kernel} {KL : KernelLaws K}.

(** [uart_wifi_receive(netdev, buf, len)]: neither [skb_put] nor [skb_reset_mac_header]
    is called, so length, tail and MAC header are those of a new skb, and the
    allocation is not checked. *)
Definition uart_wifi_receive (buf : list Z) (len : Z) (s : host_rx) : outcome host_rx :=
  let? mem := netdev_alloc_skb (n_alloc s) (ETH_HLEN + len) in
  let? mem := memcpy mem ETH_HLEN buf 0 len in
  let? mem := store_u16 mem 12 (htons ETH_P_IP) in
  let skb := mk_skb mem 0 0 0 (u16 (-1)) (htons ETH_P_IP) in
  Ret (mk_host_rx (add_rx_stats (uw s) 1 len) (S (n_alloc s)) (delivered s ++ [skb])).

(** Why it is of no use: it crashes without memory, and with memory it hands over an
    empty packet - the bytes lie behind the skb's end - but counts them. *)
Theorem uart_wifi_receive_empty buf s :
  match netdev_alloc_skb (n_alloc s) (ETH_HLEN + zlen buf) with
  | None => uart_wifi_receive buf (zlen buf) s = Undef
  | Some _ => exists s' skb, uart_wifi_receive buf (zlen buf) s = Ret s'
      /\ delivered s' = delivered s ++ [skb] /\ skb_len skb = 0 /\ skb_bytes skb = []
      /\ zdrop ETH_HLEN (lin skb) = buf /\ rx_bytes (uw s') = rx_bytes (uw s) + zlen buf
  end.
Proof.
  unfold uart_wifi_receive. destruct (netdev_alloc_skb _ _) as [mem|] eqn:Ha; [|done].
  apply netdev_alloc_skb_size in Ha. unfold ETH_HLEN in *. cbn [access mbind outcome_bind].
  unfold memcpy. rewrite load_Some, drop_0, take_ge by lia. cbn [option_bind mbind].
  rewrite store_Some by lia. cbn [access mbind outcome_bind]. set (mem1 := _ ++ _).
  assert (zdrop 14 mem1 = buf /\ length mem1 = length mem) as [Hd HL].
  { subst mem1. rewrite drop_app_length' by (len; lia).
    rewrite (drop_ge mem) by lia. rewrite app_nil_r. split; [done|]. len. lia. }
  destruct (store_total mem1 12 (put_u16 (htons ETH_P_IP))) as (mem2 & Hs & L2); [lia|simpl; lia|].
  unfold store_u16. rewrite Hs. cbn [access mbind outcome_bind]. do 2 eexists. split; [done|].
  split_and!; try done. by rewrite <- Hd, <- (store_after _ _ _ _ 14 Hs).
Qed.
End Receive.
