(* ===== verification/Link.v ===== *)
(** * The link, end to end

    The driver's and the firmware's halves put together: whatever one side is proved
    to put on the serial line is fed, in pieces cut anywhere, to what the other side
    is proved to do with it. *)
From stdpp Require Import prelude list gmap strings.
From Stdlib Require Import ZArith Lia.
From S2P Require Import Prelude Memory CString Wire.
From S2P Require EspUart EspFraming EspReceive EspUart2wifi EspQueue EspWifi2uart EspMain.
From S2P Require Import HostState HostDump HostReceive HostNetifInfo HostNetdev HostAttr.

Import EspUart (rx_ok).

(** Both sides were compiled with the same constants. *)
Lemma constants_agree :
  HostState.SPLIT_DATA = EspUart.SPLIT_DATA /\ HostState.SPLIT_CMD = EspUart.SPLIT_CMD
  /\ HostState.MTU_LEN = EspUart.MTU_LEN /\ HostState.MAX_FRAME_LEN = EspUart.MAX_FRAME_LEN
  /\ HostState.WPA_MAX_SSID_LEN = EspReceive.WPA_MAX_SSID_LEN
  /\ HostState.WPA_MAX_PASSWD_LEN = EspReceive.WPA_MAX_PASSWD_LEN.
Proof. by split_and!. Qed.

(** ** Lemmas *)

Section Uplink.
Context {T : Type} {HT : Tty T} {HL : TtyLaws T}.

(** What the firmware hands over when it reads back what the driver wrote. *)
Lemma line_delivers envs rx ps :
  Forall ip_packet ps -> rx_ok rx -> concat rx = put_frames SPLIT_DATA ps ->
  Forall EspUart2wifi.env_ok envs ->
  (EspUart2wifi.wifi_measure EspUart2wifi.esp_wifi_init rx < length envs)%nat ->
  total (EspUart2wifi.uart2wifi_calls envs EspUart2wifi.esp_wifi_init rx) (fun '(_, _, out) =>
    out = (fun p => (p, EspUart2wifi.ip_dest p)) <$> ps).
Proof. intros. by apply EspUart2wifi.uart2wifi_calls_deliver. Qed.
End Uplink.

(** The packets a schedule of the firmware's transmitter accepts are among those it
    was offered. *)
Definition offered (P : list Z -> Prop) (e : EspWifi2uart.tx_event) : Prop :=
  match e with EspWifi2uart.EvRecv _ p => P p | EspWifi2uart.EvCall _ _ => True end.

Lemma tx_run_accepted P evs s s' out acc :
  Forall (offered P) evs -> EspWifi2uart.tx_run evs s = Ret (s', out, acc) -> Forall P acc.
Proof.
  intros Hevs. revert s s' out acc. induction Hevs as [|e evs He _ IH]; intros s s' out acc Hrun.
  { by injection Hrun as _ _ <-. }
  destruct e as [env p|env cnt]; simpl in Hrun.
  - destruct (EspWifi2uart.uart_wifi_recv env p s) as [[s1 r]| |]; simpl in Hrun; [|done..].
    destruct (EspWifi2uart.tx_run evs s1) as [[[s2 o2] a2]| |] eqn:H2; simpl in Hrun; [|done..].
    injection Hrun as _ _ <-. apply IH in H2. destruct (r =? EspQueue.QUEUE_OK); [|done].
    by constructor.
  - destruct (EspWifi2uart.wifi2uart env cnt s) as [[s1 o1]| |]; simpl in Hrun; [|done..].
    destruct (EspWifi2uart.tx_run evs s1) as [[[s2 o2] a2]| |] eqn:H2; simpl in Hrun; [|done..].
    injection Hrun as _ _ <-. by eapply IH.
Qed.

Lemma ip_packet_ok p : ip_packet p -> EspWifi2uart.packet_ok p.
Proof. unfold ip_packet, EspWifi2uart.packet_ok, MTU_LEN, EspUart.MTU_LEN. lia. Qed.

(** ** Uplink *)

(** C2. Uplink, end to end: once the stack's packets have left the driver's queue, the
    bytes on the line, received by the firmware in polls cut anywhere, are handed to
    the Wi-Fi interface as exactly these IP packets, in order, each once, and to the
    destination of its IP header. *)
Theorem uplink_end_to_end {T} {HT : Tty T} {HL : TtyLaws T} es skbs s (t : T) :
  Forall tx_skb_ok skbs -> Forall ip_packet (tx_payload <$> skbs) -> tty_line t = [] ->
  total (tx_steps es (skbs, s, t)) (fun '(queue', _, t') =>
    queue' = [] ->
    forall rx envs, rx_ok rx -> concat rx = tty_line t' ->
      Forall EspUart2wifi.env_ok envs ->
      (EspUart2wifi.wifi_measure EspUart2wifi.esp_wifi_init rx < length envs)%nat ->
      total (EspUart2wifi.uart2wifi_calls envs EspUart2wifi.esp_wifi_init rx) (fun '(_, _, out) =>
        out = (fun p => (p, EspUart2wifi.ip_dest p)) <$> (tx_payload <$> skbs))).
Proof.
  intros Hskbs Hips Ht. eapply post_mono; [by apply tx_steps_ok|].
  intros [[queue' s'] t'] (sent & Hq & Hline & _) -> rx envs Hrx Hrd Henvs Hm.
  rewrite app_nil_r in Hq. subst sent. rewrite Ht, app_nil_l in Hline.
  apply line_delivers; try done. by rewrite Hrd.
Qed.

(** ** Downlink *)

(** C3. Downlink, end to end: the packets the firmware's queue accepts, whatever the
    interleaving with the main loop, once its transmitter has drained, arrive in the
    host's network stack as exactly these packets, in order and each once, however
    the tty layer cuts the line into chunks (the host has no skb in hand at the start,
    and its allocations succeed). *)
Theorem downlink_end_to_end {K : Kernel} {KL : KernelLaws K} evs h :
  (forall k, netdev_alloc_skb k MAX_RECV_LEN <> None) -> rx_fresh h ->
  Forall EspWifi2uart.event_ok evs -> Forall (offered ip_packet) evs ->
  total (EspWifi2uart.tx_run evs (EspWifi2uart.wifi_tx_init EspQueue.empty_queue)) (fun '(s', out, acc) =>
    exists ps', EspWifi2uart.tx_inv s' ps' /\
      (EspWifi2uart.tx_backlog s' ps' = [] ->
       forall chunks, concat chunks = out ->
         total (receive_chunks [] chunks h) (fun '(held, h') => held = [] /\ handed_over h h' acc))).
Proof.
  intros Hmem Hh Hevs Hoff.
  pose proof (EspWifi2uart.tx_run_ok evs _ [] EspWifi2uart.tx_inv_init Hevs) as H.
  destruct (EspWifi2uart.tx_run evs _) as [[[s' out] acc]| |] eqn:Hrun; [|done..].
  destruct H as (ps' & Hinv & Hline). exists ps'. split; [done|]. intros Hdone chunks Hc.
  apply receive_chunks_deliver; [done|done|by eapply tx_run_accepted|].
  rewrite Hdone, app_nil_r in Hline. rewrite Hc, <- Hline. done.
Qed.

(** ** Credentials *)

(** C4. Credentials, end to end: a name and a password written to sysfs are what the
    firmware configures.  The work item's reset of the module sends two frames;
    received in polls cut anywhere, they give [wifi_init_sta] exactly that name and
    password. *)
Theorem credentials_end_to_end u name pass t1 t2 :
  fields_ok u -> (0 ∉ name) -> (0 ∉ pass) ->
  zlen name + 1 <= WPA_MAX_SSID_LEN -> 8 <= zlen pass + 1 <= WPA_MAX_PASSWD_LEN ->
  total (let! ' (r1, u) := str_store "ssid" u (name ++ 10 :: t1) (zlen name + 1) in
         let! ' (r2, u) := str_store "password" u (pass ++ 10 :: t2) (zlen pass + 1) in
         Ret (r1, r2, u)) (fun '(_, _, u') =>
    forall s gpio holds, net_uw s = set_force_reset u' 1 ->
      Forall (fun x => x <> 0) holds ->
      total (esp8266ex_init_work_handler [(gpio, holds)] s) (fun '(_, s') =>
        forall rx, rx_ok rx -> concat rx = concat (act_writes (drop (length (actions s)) (actions s'))) ->
          total (EspMain.wifi_init_sta EspUart.esp_uart_init rx) (fun e =>
            exists g rx', e = EspReceive.Received g rx'
              (EspReceive.overwrite (replicate 32 0) (name ++ [0]),
               EspReceive.overwrite (replicate 64 0) (pass ++ [0]))))).
Proof.
  intros Hf Hn Hp Hnl Hpl. eapply post_mono; [by apply store_credentials_ok; [..|lia]|].
  intros [[r1 r2] u'] (_ & _ & _ & n1 & n2 & L1 & H1 & L2 & H2) s gpio holds Hs Hopen.
  unfold esp8266ex_init_work_handler. rewrite Hs. simpl (ssid _). simpl (password _).
  rewrite L1, L2. cbn [access mbind outcome_bind work_turns].
  rewrite (work_round_reset _ _ (put_frame SPLIT_CMD (name ++ [0])) (put_frame SPLIT_CMD (pass ++ [0])));
    [|by unfold net_uw in *; simpl; rewrite Hs|by unfold net_uw in *; simpl; rewrite Hs| |done].
  2: { left. unfold net_uw in *. simpl. by rewrite Hs. }
  cbn [mbind outcome_bind goto post].
  destruct (after_reset_fields (set_work s false) (put_frame SPLIT_CMD (name ++ [0]))
              (put_frame SPLIT_CMD (pass ++ [0]))) as (_ & _ & _ & ->).
  intros rx Hrx Hline. simpl (actions (set_work s false)) in Hline. rewrite drop_app_length in Hline.
  eapply post_mono; [apply (EspMain.wifi_init_sta_ok rx name pass []); [done|done| |]|].
  - unfold EspReceive.WPA_MIN_PASSWD_LEN, EspReceive.WPA_MAX_PASSWD_LEN, WPA_MAX_PASSWD_LEN in *. lia.
  - rewrite Hline. cbv [reset_actions act_writes]. simpl. by rewrite !app_nil_r.
  - intros e (g & rx' & -> & _). by exists g, rx'.
Qed.

(** ** The network parameters *)

(** The echo is the frame with the rest of [netif_info] behind it. *)
Lemma echo_expected g rx echo p more :
  zlen p = 12 -> EspReceive.uart_empty g -> ztake 15 echo = put_frame SPLIT_CMD p ->
  concat rx = echo ++ more ->
  EspFraming.expected (F := EspReceive.netif_format (put_frame SPLIT_CMD p) 12) g rx
  = Some (p, zdrop 15 echo ++ more).
Proof.
  intros Hp Hg Hecho Hline. pose proof (EspReceive.netif_format_laws (put_frame SPLIT_CMD p) 12 ltac:(lia)).
  rewrite EspReceive.expected_empty by done. rewrite Hline.
  rewrite <- (take_drop (Z.to_nat 15) echo) at 1. rewrite Hecho, <- app_assoc.
  apply next_frame_put. by apply EspMain.netif_sendable.
Qed.

(** The firmware reads [rest] next, from the start of a frame. *)
Definition reads_next (g : EspUart.esp_uart) (rx : EspUart.rx_line) (rest : list Z) : Prop :=
  EspUart.status g = STATUS_LEN /\ EspReceive.uart_ready g
  /\ EspFraming.buffered g ++ concat rx = rest.

(** The firmware, fed with an echo and [more], enters its loop. *)
Lemma start_hock_hooks ip l tx st n echo rx more :
  EspMain.find_netif ip l = Some n -> EspMain.netif_ok n -> zlen (EspMain.esp_netif_info st) = 15 ->
  EspReceive.uart_empty (EspMain.es_uart st) -> Forall EspUart.cnt_ok tx -> 15 <= EspUart.tx_room tx ->
  ztake 15 echo = put_frame SPLIT_CMD (EspMain.netif_params n) -> rx_ok rx -> concat rx = echo ++ more ->
  total (EspMain.start_hock ip l tx rx st) (fun e => exists st' rx',
    e = EspMain.Hooked st' rx' (put_frame SPLIT_CMD (EspMain.netif_params n)) /\ rx_ok rx'
    /\ EspMain.runFlag st' = 1 /\ EspMain.gpio5 st' = 0
    /\ reads_next (EspMain.es_uart st') rx' (zdrop 15 echo ++ more)).
Proof.
  intros Hf Hn Hs Hg Htx Hroom Hecho Hrx Hback. pose proof (EspMain.netif_params_length n Hn) as HL.
  eapply post_mono; [apply (EspMain.start_hock_ok ip l tx rx st n); try done; by destruct Hg|].
  intros e He. unfold EspMain.hock_ok in He. change EspUart.SPLIT_CMD with SPLIT_CMD in He.
  rewrite (echo_expected _ _ echo (EspMain.netif_params n) more) in He by done.
  replace (EspUart.tx_room tx <? 15) with false in He by (symmetry; apply Z.ltb_ge; lia).
  destruct He as (st' & rx' & -> & Hr & Hst & Hrx' & Hrest & _ & Hrun & Hpin & _).
  exists st', rx'. by split_and!.
Qed.

(** C5. The handshake, end to end: the driver, fed with the firmware's announcement and
    the packets behind it in chunks of at most 819 bytes, with no skb in hand and
    allocations succeeding, publishes the parameters, delivers the packets and writes an
    echo; the firmware, fed with that echo, completes
    [start_hock] and starts its main loop, with everything the driver wrote behind
    the first 15 bytes of the echo still in front of it. *)
Theorem handshake_end_to_end {K : Kernel} {KL : KernelLaws K} ip l tx st n chunks h ps :
  (forall k, netdev_alloc_skb k MAX_RECV_LEN <> None) ->
  EspMain.find_netif ip l = Some n -> EspMain.netif_ok n -> zlen (EspMain.esp_netif_info st) = 15 ->
  EspReceive.uart_empty (EspMain.es_uart st) -> Forall EspUart.cnt_ok tx -> 15 <= EspUart.tx_room tx ->
  Forall ip_packet ps -> Forall (fun c => zlen c <= DUMP_MAX) chunks ->
  handshake_start (uw h) -> rx_fresh h ->
  concat chunks = put_frame SPLIT_CMD (EspMain.netif_params n) ++ put_frames SPLIT_DATA ps ->
  total (tty_calls ni_fuel [] (chunks ++ [[]]) (Some h)) (fun r =>
    session_ok h (EspMain.netif_params n) ps r /\
    forall rx more, rx_ok rx -> concat rx = concat r.2 ++ more ->
      total (EspMain.start_hock ip l tx rx st) (fun e => exists st' rx',
        e = EspMain.Hooked st' rx' (put_frame SPLIT_CMD (EspMain.netif_params n))
        /\ EspMain.runFlag st' = 1 /\ EspMain.gpio5 st' = 0
        /\ reads_next (EspMain.es_uart st') rx' (zdrop 15 (netif_info (uw h)) ++ more))).
Proof.
  intros Hmem Hf Hn Hs Hg Htx Hroom Hps Hc Hh Hfr Hline.
  pose proof (EspMain.netif_params_length n Hn) as HL.
  eapply post_mono; [apply (tty_calls_announce Hmem chunks h (EspMain.netif_params n) ps); try done|].
  { by destruct Hh as (_ & _ & _ & ?). }
  { rewrite Hline. by apply handshake_waiting. }
  intros [[held s'] w] Hsess. split; [done|]. intros rx more Hrx Hback.
  destruct Hsess as (_ & echo & s1 & new & -> & Hecho & Hel & Htail & _).
  simpl in Hback. rewrite app_nil_r in Hback. rewrite <- Htail.
  eapply post_mono; [by apply (start_hock_hooks ip l tx st n echo rx more)|].
  intros e (st' & rx' & ? & _ & H). by exists st', rx'.
Qed.

(** 49 zeros in front of the frames: the first one is lost on the way to a terminator. *)
Lemma zeros_swallow p ps :
  (SPLIT_DATA ∉ put_u16 (zlen p) ++ p) -> Forall ip_packet ps ->
  deframe (F := EspUart2wifi.data_format) (replicate 49 0 ++ put_frames SPLIT_DATA (p :: ps)) = ps.
Proof.
  pose proof EspUart2wifi.data_format_laws as Hlaws. intros Hp Hps.
  set (g := replicate 49 0 ++ put_u16 (zlen p) ++ p).
  assert (replicate 49 0 ++ put_frames SPLIT_DATA (p :: ps)
          = g ++ SPLIT_DATA :: put_frames SPLIT_DATA ps ++ []) as ->.
  { rewrite put_frames_cons, app_nil_r. unfold g. by rewrite <- !app_assoc. }
  rewrite <- (deframe_from_sync (F := EspUart2wifi.data_format) STATUS_LEN) by done.
  transitivity (ps ++ deframe (F := EspUart2wifi.data_format) []); [|apply app_nil_r].
  rewrite <- (deframe_resync (F := EspUart2wifi.data_format) SPLIT_DATA g ps []).
  - unfold deframe_from. cbn [next_frame_from].
    pose proof (next_frame_bad_len (F := EspUart2wifi.data_format) 0 0
      (replicate 47 0 ++ (put_u16 (zlen p) ++ p) ++ SPLIT_DATA :: put_frames SPLIT_DATA ps ++ []) eq_refl) as H.
    change (0 :: 0 :: replicate 47 0 ++ ?x) with (replicate 49 0 ++ x) in H.
    rewrite app_assoc in H. fold g in H. rewrite H. done.
  - intros Hin. unfold g in Hin. apply elem_of_app in Hin as [Hin|Hin]; [|done].
    by apply elem_of_replicate in Hin as [? _].
  - eapply Forall_impl; [done|]. apply EspUart2wifi.ip_packet_sendable.
Qed.

(** C38. The echo is too long: for the announcement [ttyio_netif_info] writes the whole array,
    64 bytes, where [start_hock] reads 15.  After the first handshake the other 49 are
    zeros; the main loop reads them as a length word and looks for a terminator, so
    that of the packets the host sends behind the echo the first one is dropped - if it
    has no SPLIT_DATA byte of its own, in its length or its contents - and exactly the
    packets behind it are handed over. *)
Theorem echo_swallows_first_packet {K : Kernel} ip l tx st n chunks h p ps :
  EspMain.find_netif ip l = Some n -> EspMain.netif_ok n -> zlen (EspMain.esp_netif_info st) = 15 ->
  EspReceive.uart_empty (EspMain.es_uart st) -> Forall EspUart.cnt_ok tx -> 15 <= EspUart.tx_room tx ->
  handshake_start (uw h) -> zdrop 15 (netif_info (uw h)) = replicate 49 0 ->
  Forall (fun c => 0 < zlen c <= DUMP_MAX) chunks ->
  concat chunks = put_frame SPLIT_CMD (EspMain.netif_params n) ->
  (SPLIT_DATA ∉ put_u16 (zlen p) ++ p) -> Forall ip_packet ps ->
  total (tty_calls ni_fuel [] chunks (Some h)) (fun '(_, _, w) =>
    forall rx, rx_ok rx -> concat rx = concat w ++ put_frames SPLIT_DATA (p :: ps) ->
      total (EspMain.start_hock ip l tx rx st) (fun e => exists st' rx' out,
        e = EspMain.Hooked st' rx' out /\
        let loop := EspUart2wifi.mk_esp_wifi (EspMain.es_uart st') None None in
        forall envs, Forall EspUart2wifi.env_ok envs ->
          (EspUart2wifi.wifi_measure loop rx' < length envs)%nat ->
          total (EspUart2wifi.uart2wifi_calls envs loop rx') (fun '(_, _, sent) =>
            sent = (fun p => (p, EspUart2wifi.ip_dest p)) <$> ps))).
Proof.
  pose proof EspUart2wifi.data_format_laws as Hlaws. intros Hf Hn Hs Hg Htx Hroom Hh Hz Hch Hline Hp Hps.
  pose proof (EspMain.netif_params_length n Hn) as HL.
  eapply post_mono; [apply (tty_calls_announced chunks h (EspMain.netif_params n) HL Hch)|].
  { by destruct Hh as (_ & _ & _ & ?). }
  { rewrite Hline, <- (app_nil_r (put_frame _ _)). by apply handshake_waiting. }
  intros [[held s'] w] (_ & echo & s1 & -> & _ & Hecho & Htail & _) rx Hrx Hback.
  simpl in Hback. rewrite app_nil_r in Hback.
  eapply post_mono; [by apply (start_hock_hooks ip l tx st n echo rx (put_frames SPLIT_DATA (p :: ps)))|].
  intros e (st' & rx' & -> & Hrx' & _ & _ & Hst & Hready & Hrest). exists st', rx', (put_frame SPLIT_CMD (EspMain.netif_params n)).
  split; [done|].
  intros loop envs Henvs Hm. rewrite Htail, Hz in Hrest.
  eapply post_mono; [apply (EspUart2wifi.uart2wifi_calls_ok envs loop rx'); [|done]|].
  { split; [by apply EspReceive.uart_ready_inv|done]. }
  intros [[w' rx2] sent] (_ & Hl & Hd & Hdone). rewrite Hdone, app_nil_r in Hl by done.
  unfold EspUart2wifi.pending_packets in Hl. simpl in Hl.
  rewrite Hst, deframe_from_sync, Hrest, zeros_swallow in Hl by done. rewrite Hl. clear -Hd.
  induction Hd as [|[q d] sent [-> _] _ IH]; [done|]. csimpl. by f_equal.
Qed.

(** ** Witnesses *)

Definition packets : list (list Z) := [small_packet 1; small_packet 2].
Definition skbs : list tx_skb := (fun p => mk_tx_skb (replicate 14 0 ++ p) []) <$> packets.

Lemma uplink_end_to_end_witness :
  total (tx_steps [TxOffer; TxDrain 3 true; TxOffer] (skbs, fresh_net kzalloc_uart_wifi, empty_circ))
    (fun '(queue', _, t') =>
      queue' = [] ->
      forall rx envs, rx_ok rx -> concat rx = tty_line t' ->
        Forall EspUart2wifi.env_ok envs ->
        (EspUart2wifi.wifi_measure EspUart2wifi.esp_wifi_init rx < length envs)%nat ->
        total (EspUart2wifi.uart2wifi_calls envs EspUart2wifi.esp_wifi_init rx) (fun '(_, _, out) =>
          out = (fun p => (p, EspUart2wifi.ip_dest p)) <$> (tx_payload <$> skbs))).
Proof.
  apply uplink_end_to_end; [|apply small_packets_ok|reflexivity].
  unfold skbs, packets. simpl. rewrite !Forall_cons, Forall_nil.
  split_and!; try done; vm_compute; discriminate.
Defined.

Definition downlink_events : list EspWifi2uart.tx_event :=
  [EspWifi2uart.EvRecv EspQueue.good_env (small_packet 1); EspWifi2uart.EvCall EspQueue.good_env 120;
   EspWifi2uart.EvRecv EspQueue.good_env (small_packet 2); EspWifi2uart.EvCall EspQueue.good_env 0;
   EspWifi2uart.EvCall EspQueue.good_env 0].

Lemma downlink_end_to_end_witness :
  total (EspWifi2uart.tx_run downlink_events (EspWifi2uart.wifi_tx_init EspQueue.empty_queue))
    (fun '(s', out, acc) =>
      exists ps', EspWifi2uart.tx_inv s' ps' /\
        (EspWifi2uart.tx_backlog s' ps' = [] ->
         forall chunks, concat chunks = out ->
           total (receive_chunks [] chunks fresh_rx)
             (fun '(held, h') => held = [] /\ handed_over fresh_rx h' acc))).
Proof.
  apply downlink_end_to_end; [done|reflexivity| |]; unfold downlink_events;
    rewrite !Forall_cons, Forall_nil; simpl;
    unfold EspUart.cnt_ok, EspUart.UART_FIFO_LEN, EspWifi2uart.packet_ok, EspUart.MTU_LEN, ip_packet, MTU_LEN;
    simpl; lia.
Defined.

Lemma credentials_end_to_end_witness :
  total (let! ' (r1, u) := str_store "ssid" kzalloc_uart_wifi ([97; 98] ++ 10 :: []) (zlen [97; 98] + 1) in
         let! ' (r2, u) := str_store "password" u (EspMain.witness_pass ++ 10 :: [])
                             (zlen EspMain.witness_pass + 1) in
         Ret (r1, r2, u)) (fun '(_, _, u') =>
    forall s gpio holds, net_uw s = set_force_reset u' 1 ->
      Forall (fun x => x <> 0) holds ->
      total (esp8266ex_init_work_handler [(gpio, holds)] s) (fun '(_, s') =>
        forall rx, rx_ok rx -> concat rx = concat (act_writes (drop (length (actions s)) (actions s'))) ->
          total (EspMain.wifi_init_sta EspUart.esp_uart_init rx) (fun e =>
            exists g rx', e = EspReceive.Received g rx'
              (EspReceive.overwrite (replicate 32 0) ([97; 98] ++ [0]),
               EspReceive.overwrite (replicate 64 0) (EspMain.witness_pass ++ [0]))))).
Proof.
  apply credentials_end_to_end; [apply fields_ok_init|apply no_nul_witness|apply no_nul_witness| |];
    unfold WPA_MAX_SSID_LEN, WPA_MAX_PASSWD_LEN; simpl; lia.
Defined.

Definition witness_line : list (list Z) :=
  [[12; 0; 192]; drop 3 (EspMain.witness_echo) ++ [20]; 0 :: small_packet 1 ++ [SPLIT_DATA]].

Lemma handshake_end_to_end_witness :
  total (tty_calls ni_fuel [] (witness_line ++ [[]]) (Some fresh_rx)) (fun r =>
    session_ok fresh_rx (EspMain.netif_params EspMain.witness_netif) [small_packet 1] r /\
    forall rx more, rx_ok rx -> concat rx = concat r.2 ++ more ->
      total (EspMain.start_hock [192; 168; 0; 2] [EspMain.witness_netif] [0] rx EspMain.witness_esp)
        (fun e => exists st' rx',
          e = EspMain.Hooked st' rx' (put_frame SPLIT_CMD (EspMain.netif_params EspMain.witness_netif))
          /\ EspMain.runFlag st' = 1 /\ EspMain.gpio5 st' = 0
          /\ reads_next (EspMain.es_uart st') rx' (zdrop 15 (netif_info (uw fresh_rx)) ++ more))).
Proof.
  apply handshake_end_to_end; try reflexivity; try done.
  - apply Forall_singleton. unfold EspUart.cnt_ok, EspUart.UART_FIFO_LEN. lia.
  - pose proof small_packets_ok as H. by apply Forall_cons in H as [H _]; constructor.
  - unfold witness_line. rewrite !Forall_cons, Forall_nil. split_and!; try done; vm_compute; discriminate.
Defined.

Lemma echo_swallows_first_packet_witness :
  total (tty_calls ni_fuel [] [take 3 EspMain.witness_echo; drop 3 EspMain.witness_echo] (Some fresh_rx))
    (fun '(_, _, w) =>
    forall rx, rx_ok rx -> concat rx = concat w ++ put_frames SPLIT_DATA (small_packet 1 :: [small_packet 2]) ->
      total (EspMain.start_hock [192; 168; 0; 2] [EspMain.witness_netif] [0] rx EspMain.witness_esp)
        (fun e => exists st' rx' out,
        e = EspMain.Hooked st' rx' out /\
        let loop := EspUart2wifi.mk_esp_wifi (EspMain.es_uart st') None None in
        forall envs, Forall EspUart2wifi.env_ok envs ->
          (EspUart2wifi.wifi_measure loop rx' < length envs)%nat ->
          total (EspUart2wifi.uart2wifi_calls envs loop rx') (fun '(_, _, sent) =>
            sent = (fun p => (p, EspUart2wifi.ip_dest p)) <$> [small_packet 2]))).
Proof.
  apply (echo_swallows_first_packet _ _ _ _ EspMain.witness_netif); try reflexivity; try done.
  - apply Forall_singleton. unfold EspUart.cnt_ok, EspUart.UART_FIFO_LEN. lia.
  - rewrite !Forall_cons, Forall_nil. split_and!; try done; by vm_compute.
  - apply (bool_decide_unpack _). by vm_compute.
  - pose proof small_packets_ok as H. by apply Forall_cons in H as [_ H].
Defined.
