(* ===== verification/LinkStart.v ===== *)
(** * The link, from a cold start

    The two whole programs side by side: the driver as the transition system of
    HostSystem.v, the firmware as the application of EspApp.v.  What the one writes to
    the line, in the order in which it writes it, is what the other reads. *)
From Stdlib Require Import String.
From stdpp Require Import prelude list strings gmap.
From Stdlib Require Import ZArith Lia.
From S2P Require Import Prelude Memory CString Wire.
From S2P Require EspUart EspFraming EspReceive EspUart2wifi EspQueue EspWifi2uart EspMain EspApp.
From S2P Require Import HostState HostDump HostReceive HostNetifInfo HostNetdev HostWork HostAttr HostShape.
From S2P Require Import HostSystem HostLifecycle Link.

Import EspUart (rx_ok).

Section Host.
Context {K : Kernel} {KL : KernelLaws K}.

(** Chunks that arrive one after the other are the calls of [tty_calls]. *)
Lemma sys_receive_calls name fuel held chunks s h rx w :
  sys_ttys s !! name = Some (Some held) -> sys_if s <> IfGone ->
  tty_calls fuel held chunks (Some (net_rx (sys_net s))) = Ret (h, Some rx, w) ->
  exists s', sys_run (EvReceive name fuel <$> chunks) s s' /\ net_rx (sys_net s') = rx
    /\ actions (sys_net s') = actions (sys_net s) ++ written w.
Proof.
  revert held s h rx w. induction chunks as [|c cs IH]; intros held s h rx w Hn Hi Hc.
  { injection Hc as <- <- <-. exists s. split; [constructor|]. split; [done|by rewrite app_nil_r]. }
  cbn [tty_calls] in Hc.
  destruct (ttyio_receive_buf2 fuel (held ++ c) _) as [[[n rx1] w1]| |] eqn:Hb; [|done..].
  cbn [mbind outcome_bind] in Hc. destruct (tty_calls _ _ cs rx1) as [[[h2 rx2] w2]| |] eqn:Hcs; [|done..].
  cbn [mbind outcome_bind] in Hc. injection Hc as -> -> <-.
  assert (exists rx1', rx1 = Some rx1') as [rx1' ->].
  { revert Hb. cbn [ttyio_receive_buf2]. case_match.
    - destruct (ttyio_receive_data _ _) as [[m r]| |]; [|done..]. intros [= _ <- _]. by eexists.
    - destruct (ttyio_netif_info _ _ _) as [[[m r] ws]| |]; [|done..]. intros [= _ <- _]. by eexists. }
  set (s1 := with_held name (zdrop n (held ++ c))
               (with_net s (act (set_net_rx rx1' (sys_net s)) (written w1)))).
  assert (sys_step (EvReceive name fuel c) s s1) as H1.
  { unfold sys_step. cbn [sys_exec]. rewrite Hn, bool_decide_eq_false_2 by done. by rewrite Hb. }
  destruct (IH (zdrop n (held ++ c)) s1 h rx w2) as (s' & Hrun & Hrx & Ha).
  - apply lookup_insert_eq.
  - exact Hi.
  - exact Hcs.
  - exists s'. split; [by econstructor|]. split; [done|].
    rewrite Ha. simpl. unfold written. by rewrite fmap_app, <- app_assoc.
Qed.

(** The first turn of the work item, up to the wait for the module. *)
Definition first_reset : list sys_event := EvWorkStart :: replicate 3 (EvWork 1).
Definition reset_turn (f1 f2 : list Z) : list action :=
  [AFlush; AGpioReset 0; AMsleep 10; AGpioReset 1; AMsleep 1000; AWrite f1; AWrite f2; AMsleep 1000].

(** The work item opens and closes no tty. *)
Lemma work_run_ttys es s s' :
  sys_wf s -> Forall (fun e => is_work e = true) es -> sys_run es s s' -> sys_ttys s' = sys_ttys s.
Proof.
  intros Hwf Hes Hrun. revert Hwf Hes. induction Hrun as [|e es s s1 s' H1 _ IH]; [done|].
  intros Hwf [He Hes]%Forall_cons. rewrite (IH (sys_step_wf _ _ _ Hwf H1) Hes). destruct e; try done.
  - revert H1. unfold sys_step. cbn [sys_exec]. destruct (sys_if s), (sys_pc s); try done. case_match; [|done].
    unfold work_start. destruct (load_u16 (ssid _) 0), (load_u16 (password _) 0);
      cbn [access mbind outcome_bind]; try done. intros [= <-]. by apply sys_after_same.
  - apply exec_work_inv in H1 as [_ Ho].
    pose proof (work_micro_ok gpio (sys_pc s) (sys_net s) (sw_uw _ Hwf) (sw_pc _ Hwf)) as Hw.
    destruct (work_micro _ _ _) as [[pc' n']| |]; [|done..]. injection Ho as ->.
    destruct Hw as (_ & _ & _ & _ & _ & _ & _ & (l & Ha & Hl) & _). by eapply sys_after_quiet.
Qed.

Lemma first_reset_ok s n1 n2 f1 f2 :
  sys_wf s ->
  sys_if s = IfUp -> sys_pc s = WIdle -> work_scheduled (sys_net s) = true -> force_reset (sys_uw s) = 1 ->
  load_u16 (ssid (sys_uw s)) 0 = Some n1 -> load (ssid (sys_uw s)) 0 (n1 + 3) = Some f1 ->
  load_u16 (password (sys_uw s)) 0 = Some n2 -> load (password (sys_uw s)) 0 (n2 + 3) = Some f2 ->
  exists s', sys_run first_reset s s' /\ sys_if s' = IfUp /\ sys_ttys s' = sys_ttys s
    /\ net_rx (sys_net s') = set_uw (set_force_reset (sys_uw s) 0) (net_rx (sys_net s))
    /\ actions (sys_net s') = actions (sys_net s) ++ reset_turn f1 f2.
Proof.
  unfold sys_uw. intros Hwf Hi Hp Hw Hf L1 F1 L2 F2.
  assert (exists s', sys_run first_reset s s' /\ sys_if s' = IfUp
    /\ net_rx (sys_net s') = set_uw (set_force_reset (sys_uw s) 0) (net_rx (sys_net s))
    /\ actions (sys_net s') = actions (sys_net s) ++ reset_turn f1 f2) as (s' & Hrun & ? & ? & ?).
  { eexists. split.
    - unfold first_reset. cbn [replicate].
      econstructor. { unfold sys_step. cbn [sys_exec]. rewrite Hi, Hp, Hw. unfold work_start. by rewrite L1, L2. }
      econstructor. { unfold sys_step. cbn [sys_exec sys_after sys_pc sys_net work_micro]. unfold work_top.
        change (net_uw (set_work ?n ?b)) with (net_uw n). rewrite Hf. reflexivity. }
      econstructor. { reflexivity. }
      econstructor. { unfold sys_step. cbn [sys_exec sys_after sys_pc sys_net work_micro].
        rewrite (work_send_ok n1 n2 f1 f2); [reflexivity|exact F1|exact F2]. }
      constructor.
    - split; [done|]. split; [done|]. simpl. by rewrite <- !app_assoc. }
  exists s'. split_and!; try done. apply (work_run_ttys first_reset); [done|by repeat constructor|done].
Qed.
End Host.

(** What the firmware makes of the line, booting with it: it runs with exactly this name
    and password, has announced [n], and reads [rest] next. *)
Definition firmware_runs (name pass : list Z) (n : EspMain.netif) (rest : list Z) (rx : EspUart.rx_line) : Prop :=
  forall pin5 ip l txl pre evs,
    EspMain.find_netif ip l = Some n -> Forall EspUart.cnt_ok txl -> 15 <= EspUart.tx_room txl ->
    Forall EspApp.quiet pre -> Forall EspApp.app_event_ok evs ->
    total (let! ' (a, cfg) := EspApp.app_main true true true pin5 rx in
           let! ' (a, o) := EspApp.app_run
             (pre ++ EspApp.AEvent (EspMain.IP_EVENT_STA_GOT_IP ip l txl []) :: EspApp.ATake :: evs) a in
           Ret (a, cfg, o))
      (fun '(a, cfg, o) => exists info m sent ps,
         a = EspApp.AppRunning info m
         /\ cfg = Some (EspReceive.overwrite (replicate 32 0) (name ++ [0]),
                        EspReceive.overwrite (replicate 64 0) (pass ++ [0]))
         /\ EspMain.to_line o = put_frame SPLIT_CMD (EspMain.netif_params n) ++ sent
         /\ put_frames SPLIT_DATA (EspMain.accepted o) = sent ++ EspWifi2uart.tx_backlog (EspMain.m_tx m) ps
         /\ (EspMain.to_wifi o).*1 `prefix_of` deframe (F := EspUart2wifi.data_format) rest).

Lemma firmware_boots name pass n rest rx :
  rx_ok rx -> zlen name + 1 <= WPA_MAX_SSID_LEN -> 8 <= zlen pass + 1 <= WPA_MAX_PASSWD_LEN ->
  EspMain.netif_ok n ->
  concat rx = put_frame SPLIT_CMD (name ++ [0]) ++ put_frame SPLIT_CMD (pass ++ [0])
              ++ put_frame SPLIT_CMD (EspMain.netif_params n) ++ rest ->
  firmware_runs name pass n rest rx.
Proof.
  intros Hrx Hn Hp Hok Hline pin5 ip l txl pre evs Hf Htx Hroom Hpre Hevs.
  eapply post_mono; [by apply (EspApp.app_main_session_ok pin5 rx name pass n rest)|].
  intros [[a cfg] o] (info & m & sent & ps & ? & ? & ? & ? & ? & _ & ? & _). exists info, m, sent, ps. by split_and!.
Qed.


(** ** Witnesses *)

(** The device of [sys0] with a longer password. *)
Definition configure : list sys_event := [EvStore "password"%string (EspMain.witness_pass ++ [10]) 9].
Definition sys_configured : host_sys := default sys0 (sys_exec_all configure sys0).
Definition sys_started : host_sys := default sys0 (sys_exec_all [EvOpen tty_works 0] sys_configured).

